(** * The input reader (libs/ui/InputReader.cpp): a shallow embedding

    Raw events are read one at a time, accumulated per device, committed at
    synchronization boundaries and turned into key and motion events for the
    dispatcher.  Integers of the program ([int32_t], [uint32_t], [nsecs_t])
    are modelled as [Z]; bit masks use [Z.land], [Z.lor] and [Z.lnot], which
    on two's complement numbers agree with the machine operations and never
    leave the range of their operands. *)

From Stdlib Require Import ZArith List Bool Lia.
Import ListNotations.
Local Open Scope Z_scope.

Set Implicit Arguments.

(** ** Constants of the platform headers *)

(** Modelled from the spec: the headers that declare these names
    (android/keycodes.h, android/input.h, linux/input.h, ui/EventHub.h,
    ui/InputReader.h, ui/InputDevice.h) are not part of the sources; the spec
    names the constants and the values below are those of the platform. *)

Definition AKEYCODE_DPAD_UP : Z := 19.
Definition AKEYCODE_DPAD_DOWN : Z := 20.
Definition AKEYCODE_DPAD_LEFT : Z := 21.
Definition AKEYCODE_DPAD_RIGHT : Z := 22.
Definition AKEYCODE_ALT_LEFT : Z := 57.
Definition AKEYCODE_ALT_RIGHT : Z := 58.
Definition AKEYCODE_SHIFT_LEFT : Z := 59.
Definition AKEYCODE_SHIFT_RIGHT : Z := 60.
Definition AKEYCODE_SYM : Z := 63.

Definition META_SHIFT_ON : Z := 1.
Definition META_ALT_ON : Z := 2.
Definition META_SYM_ON : Z := 4.
Definition META_ALT_LEFT_ON : Z := 16.
Definition META_ALT_RIGHT_ON : Z := 32.
Definition META_SHIFT_LEFT_ON : Z := 64.
Definition META_SHIFT_RIGHT_ON : Z := 128.

(** Display orientations of the policy interface: 0, 90, 180 and 270 degrees
    are the indices 0, 1, 2 and 3. *)
Definition ROTATION_0 : Z := 0.
Definition ROTATION_90 : Z := 1.
Definition ROTATION_180 : Z := 2.
Definition ROTATION_270 : Z := 3.

(** ** Static functions *)

(** The [switch] of [updateMetaState]: the mask of a modifier key, [None] for
    the [default] case. *)
Definition metaMaskOfKeyCode (keyCode : Z) : option Z :=
  if keyCode =? AKEYCODE_ALT_LEFT then Some META_ALT_LEFT_ON
  else if keyCode =? AKEYCODE_ALT_RIGHT then Some META_ALT_RIGHT_ON
  else if keyCode =? AKEYCODE_SHIFT_LEFT then Some META_SHIFT_LEFT_ON
  else if keyCode =? AKEYCODE_SHIFT_RIGHT then Some META_SHIFT_RIGHT_ON
  else if keyCode =? AKEYCODE_SYM then Some META_SYM_ON
  else None.

(** A C condition [if (m & flags)]. *)
Definition anySet (m flags : Z) : bool := negb (Z.land m flags =? 0).

Definition updateMetaState (keyCode : Z) (down : bool) (oldMetaState : Z) : Z :=
  match metaMaskOfKeyCode keyCode with
  | None => oldMetaState
  | Some mask =>
      let newMetaState :=
        if down then Z.lor oldMetaState mask
        else Z.land (Z.land oldMetaState (Z.lnot mask))
                    (Z.lnot (Z.lor META_ALT_ON META_SHIFT_ON)) in
      let newMetaState :=
        if anySet newMetaState (Z.lor META_ALT_LEFT_ON META_ALT_RIGHT_ON)
        then Z.lor newMetaState META_ALT_ON else newMetaState in
      let newMetaState :=
        if anySet newMetaState (Z.lor META_SHIFT_LEFT_ON META_SHIFT_RIGHT_ON)
        then Z.lor newMetaState META_SHIFT_ON else newMetaState in
      newMetaState
  end.

(** Key codes enumerated counter-clockwise with the original (unrotated) key
    first: no rotation, 90, 180 and 270 degree rotation. *)
Definition keyCodeRotationMap : list (list Z) :=
  [ [AKEYCODE_DPAD_DOWN;  AKEYCODE_DPAD_RIGHT; AKEYCODE_DPAD_UP;    AKEYCODE_DPAD_LEFT];
    [AKEYCODE_DPAD_RIGHT; AKEYCODE_DPAD_UP;    AKEYCODE_DPAD_LEFT;  AKEYCODE_DPAD_DOWN];
    [AKEYCODE_DPAD_UP;    AKEYCODE_DPAD_LEFT;  AKEYCODE_DPAD_DOWN;  AKEYCODE_DPAD_RIGHT];
    [AKEYCODE_DPAD_LEFT;  AKEYCODE_DPAD_DOWN;  AKEYCODE_DPAD_RIGHT; AKEYCODE_DPAD_UP] ].

(** [row[i]] of a C array: [None] when the index is outside the array, where
    the program has no defined behaviour. *)
Definition arrayIndex {A : Type} (row : list A) (i : Z) : option A :=
  if i <? 0 then None else nth_error row (Z.to_nat i).

(** The [for] loop of [rotateKeyCode] over the rows still to be visited. *)
Fixpoint rotateKeyCodeLoop (rows : list (list Z)) (keyCode orientation : Z)
  : option Z :=
  match rows with
  | [] => Some keyCode
  | row :: rest =>
      match arrayIndex row 0 with
      | Some first =>
          if keyCode =? first then arrayIndex row orientation
          else rotateKeyCodeLoop rest keyCode orientation
      | None => None
      end
  end.

Definition rotateKeyCode (keyCode orientation : Z) : option Z :=
  if negb (orientation =? ROTATION_0)
  then rotateKeyCodeLoop keyCodeRotationMap keyCode orientation
  else Some keyCode.

(** The counter-clockwise cycle of the DPAD keys. *)
Definition dpadCycle : list Z :=
  [AKEYCODE_DPAD_DOWN; AKEYCODE_DPAD_RIGHT; AKEYCODE_DPAD_UP; AKEYCODE_DPAD_LEFT].

Definition dpadCycleAt (i : nat) : Z := nth (i mod 4) dpadCycle 0.

Definition isDpadKeyCode (keyCode : Z) : bool :=
  existsb (Z.eqb keyCode) dpadCycle.

(** The two equivalences of the meta state, as equations between bits. *)
Definition altConsistent (m : Z) : Prop :=
  anySet m META_ALT_LEFT_ON || anySet m META_ALT_RIGHT_ON = anySet m META_ALT_ON.

Definition shiftConsistent (m : Z) : Prop :=
  anySet m META_SHIFT_LEFT_ON || anySet m META_SHIFT_RIGHT_ON
  = anySet m META_SHIFT_ON.

Definition metaStateConsistent (m : Z) : Prop :=
  altConsistent m /\ shiftConsistent m.

(** ** Raw event vocabulary and limits *)

(** Modelled from the spec: the event types and scan codes are those of
    linux/input.h and of the event hub interface, the device classes those of
    ui/EventHub.h, the actions and flags those of android/input.h and of the
    policy interface; none of these headers is part of the sources. *)

Definition DEVICE_ADDED : Z := 0x10000000.
Definition DEVICE_REMOVED : Z := 0x20000000.
Definition EV_SYN : Z := 0.
Definition EV_KEY : Z := 1.
Definition EV_REL : Z := 2.
Definition EV_ABS : Z := 3.
Definition EV_SW : Z := 5.

Definition SYN_REPORT : Z := 0.
Definition SYN_MT_REPORT : Z := 2.
Definition BTN_MOUSE : Z := 0x110.
Definition BTN_TOUCH : Z := 0x14a.
Definition REL_X : Z := 0.
Definition REL_Y : Z := 1.
Definition ABS_X : Z := 0.
Definition ABS_Y : Z := 1.
Definition ABS_PRESSURE : Z := 0x18.
Definition ABS_TOOL_WIDTH : Z := 0x1c.
Definition ABS_MT_TOUCH_MAJOR : Z := 0x30.
Definition ABS_MT_WIDTH_MAJOR : Z := 0x32.
Definition ABS_MT_POSITION_X : Z := 0x35.
Definition ABS_MT_POSITION_Y : Z := 0x36.
Definition ABS_MT_TRACKING_ID : Z := 0x39.

Definition INPUT_DEVICE_CLASS_KEYBOARD : Z := 0x01.
Definition INPUT_DEVICE_CLASS_ALPHAKEY : Z := 0x02.
Definition INPUT_DEVICE_CLASS_TOUCHSCREEN : Z := 0x04.
Definition INPUT_DEVICE_CLASS_TRACKBALL : Z := 0x08.
Definition INPUT_DEVICE_CLASS_TOUCHSCREEN_MT : Z := 0x10.
Definition INPUT_DEVICE_CLASS_DPAD : Z := 0x20.

Definition MAX_POINTERS : Z := 10.
Definition MAX_POINTER_ID : Z := 31.

Definition ACTION_DISPATCH : Z := 0x01.
Definition ACTION_APP_SWITCH_COMING : Z := 0x02.
Definition ACTION_WOKE_HERE : Z := 0x04.
Definition ACTION_BRIGHT_HERE : Z := 0x08.

Definition POLICY_FLAG_WOKE_HERE : Z := 0x10000000.
Definition POLICY_FLAG_BRIGHT_HERE : Z := 0x20000000.

Definition INPUT_EVENT_NATURE_KEY : Z := 1.
Definition INPUT_EVENT_NATURE_TOUCH : Z := 2.
Definition INPUT_EVENT_NATURE_TRACKBALL : Z := 3.

Definition KEY_EVENT_ACTION_DOWN : Z := 0.
Definition KEY_EVENT_ACTION_UP : Z := 1.
Definition KEY_EVENT_FLAG_WOKE_HERE : Z := 0x01.
Definition KEY_EVENT_FLAG_FROM_SYSTEM : Z := 0x08.
Definition KEY_EVENT_FLAG_CANCELED : Z := 0x20.
Definition KEY_EVENT_FLAG_VIRTUAL_HARD_KEY : Z := 0x40.

Definition MOTION_EVENT_ACTION_DOWN : Z := 0.
Definition MOTION_EVENT_ACTION_UP : Z := 1.
Definition MOTION_EVENT_ACTION_MOVE : Z := 2.
Definition MOTION_EVENT_ACTION_POINTER_DOWN : Z := 5.
Definition MOTION_EVENT_ACTION_POINTER_UP : Z := 6.
Definition MOTION_EVENT_ACTION_POINTER_INDEX_SHIFT : Z := 8.

Definition MOTION_EVENT_EDGE_FLAG_NONE : Z := 0.
Definition MOTION_EVENT_EDGE_FLAG_TOP : Z := 0x01.
Definition MOTION_EVENT_EDGE_FLAG_BOTTOM : Z := 0x02.
Definition MOTION_EVENT_EDGE_FLAG_LEFT : Z := 0x04.
Definition MOTION_EVENT_EDGE_FLAG_RIGHT : Z := 0x08.

Definition KEY_STATE_VIRTUAL : Z := 2.

Definition TOUCHSCREEN_NOTOUCH : Z := 1.
Definition TOUCHSCREEN_FINGER : Z := 3.
Definition KEYBOARD_NOKEYS : Z := 1.
Definition KEYBOARD_QWERTY : Z := 2.
Definition NAVIGATION_NONAV : Z := 1.
Definition NAVIGATION_DPAD : Z := 2.
Definition NAVIGATION_TRACKBALL : Z := 3.

(** Amount that trackball needs to move in order to generate a key event. *)
Definition TRACKBALL_MOVEMENT_THRESHOLD : Z := 6.

(** ** Machine integers and arrays *)

(** The value of a [uint32_t] conversion, and of [int32_t] arithmetic that
    wraps in two's complement. *)
Definition toUint32 (z : Z) : Z := z mod 2 ^ 32.
Definition toInt32 (z : Z) : Z := (z + 2 ^ 31) mod 2 ^ 32 - 2 ^ 31.

Definition isUint32 (z : Z) : Prop := 0 <= z < 2 ^ 32.

(** [a[i]] read from a fixed array: outside the array the program has no
    defined behaviour and the model reads the default. *)
Definition arrayGet {A : Type} (default : A) (a : list A) (i : Z) : A :=
  if i <? 0 then default else nth (Z.to_nat i) a default.

(** [a[i] = v]: outside the array the model leaves the array as it is. *)
Fixpoint listSet {A : Type} (a : list A) (i : nat) (v : A) : list A :=
  match a, i with
  | [], _ => []
  | _ :: rest, O => v :: rest
  | x :: rest, S j => x :: listSet rest j v
  end.

Definition arraySet {A : Type} (a : list A) (i : Z) (v : A) : list A :=
  if i <? 0 then a else listSet a (Z.to_nat i) v.

(** ** Floating point

    The program computes display coordinates in [float].  The model keeps
    every such value as the expression the program evaluates, uninterpreted;
    comparisons of floats are left to the parameter [floatLe] of the reader
    section. *)
Inductive float : Type :=
| FInt (z : Z)
| FOne
| FZero
| FNeg (a : float)
| FSub (a b : float)
| FMul (a b : float)
| FDiv (a b : float).

(** ** BitSet32 *)

(** Modelled from the spec: utils/BitSet.h is not part of the sources.  A set
    of the ids 0..31 in one [uint32_t]; id [n] is the bit [0x80000000 >> n],
    so that the first marked bit, found by counting leading zeros, is the
    lowest id. *)
Definition BitSet32 : Type := Z.

Definition bitOfId (n : Z) : Z := Z.shiftr 0x80000000 n.
Definition isEmpty (b : BitSet32) : bool := b =? 0.
Definition hasBit (b : BitSet32) (n : Z) : bool := anySet b (bitOfId n).
Definition markBit (b : BitSet32) (n : Z) : BitSet32 := Z.lor b (bitOfId n).
Definition clearBit (b : BitSet32) (n : Z) : BitSet32 :=
  Z.land b (Z.lnot (bitOfId n)).
(** [__builtin_clz(value)], for a value that is not zero. *)
Definition firstMarkedBit (b : BitSet32) : Z := 31 - Z.log2 b.

(** The ids of a set, in ascending order. *)
Definition idsOf (b : BitSet32) : list Z :=
  filter (hasBit b) (map Z.of_nat (seq 0 32)).

(** ** Device records *)

(** Modelled from the spec: ui/InputDevice.h and InputDevice.cpp are not part
    of the sources.  The records follow section 3 of the spec and the field
    names the reader uses; [clear], [isDirty], [copyFrom] and [reset] are the
    helpers the reader calls on them. *)

Module PointerData.
Record t : Type := { id : Z; x : Z; y : Z; pressure : Z; size : Z }.
Definition zero : t := {| id := 0; x := 0; y := 0; pressure := 0; size := 0 |}.
Definition set_id (v : Z) (p : t) : t :=
  {| id := v; x := x p; y := y p; pressure := pressure p; size := size p |}.
End PointerData.

Module TouchData.
Record t : Type := {
  pointerCount : Z;
  pointers : list PointerData.t;   (* MAX_POINTERS slots *)
  idBits : BitSet32;
  idToIndex : list Z               (* MAX_POINTER_ID + 1 slots *)
}.
Definition zero : t :=
  {| pointerCount := 0; pointers := repeat PointerData.zero 10;
     idBits := 0; idToIndex := repeat 0 32 |}.
(** The pointer count and the id set are emptied; the arrays keep what they
    hold. *)
Definition clear (d : t) : t :=
  {| pointerCount := 0; pointers := pointers d;
     idBits := 0; idToIndex := idToIndex d |}.
(** The receiver becomes a copy of the given frame. *)
Definition copyFrom (other : t) : t := other.
Definition set_pointerCount (v : Z) (d : t) : t :=
  {| pointerCount := v; pointers := pointers d;
     idBits := idBits d; idToIndex := idToIndex d |}.
Definition set_pointers (v : list PointerData.t) (d : t) : t :=
  {| pointerCount := pointerCount d; pointers := v;
     idBits := idBits d; idToIndex := idToIndex d |}.
Definition set_idBits (v : BitSet32) (d : t) : t :=
  {| pointerCount := pointerCount d; pointers := pointers d;
     idBits := v; idToIndex := idToIndex d |}.
Definition set_idToIndex (v : list Z) (d : t) : t :=
  {| pointerCount := pointerCount d; pointers := pointers d;
     idBits := idBits d; idToIndex := v |}.
End TouchData.

Module VirtualKey.
Record t : Type := {
  keyCode : Z; scanCode : Z; flags : Z;
  hitLeft : Z; hitTop : Z; hitRight : Z; hitBottom : Z
}.
(** A point is inside the hit rectangle of the key. *)
Definition isHit (k : t) (x y : Z) : bool :=
  (hitLeft k <=? x) && (x <=? hitRight k) && (hitTop k <=? y) && (y <=? hitBottom k).
End VirtualKey.

Module AbsoluteAxisInfo.
Record t : Type := {
  minValue : Z; maxValue : Z; range : Z; flat : Z; fuzz : Z; valid : bool
}.
Definition invalid : t :=
  {| minValue := 0; maxValue := 0; range := 0; flat := 0; fuzz := 0;
     valid := false |}.
End AbsoluteAxisInfo.

Module KeyboardState.
Record t : Type := { metaState : Z; downTime : Z }.
Definition reset (k : t) : t := {| metaState := 0; downTime := 0 |}.
End KeyboardState.

Module TrackballState.
Definition FIELD_BTN_MOUSE : Z := 1.
Definition FIELD_REL_X : Z := 2.
Definition FIELD_REL_Y : Z := 4.
Record Accumulator : Type := { fields : Z; btnMouse : bool; relX : Z; relY : Z }.
Record Current : Type := { down : bool; downTime : Z }.
Record Precalculated : Type := {
  xScale : float; yScale : float; xPrecision : float; yPrecision : float
}.
Record t : Type := {
  accumulator : Accumulator; current : Current; precalculated : Precalculated
}.
Definition isDirty (a : Accumulator) : bool := negb (fields a =? 0).
Definition clear (a : Accumulator) : Accumulator :=
  {| fields := 0; btnMouse := btnMouse a; relX := relX a; relY := relY a |}.
Definition set_accumulator (v : Accumulator) (s : t) : t :=
  {| accumulator := v; current := current s; precalculated := precalculated s |}.
Definition set_current (v : Current) (s : t) : t :=
  {| accumulator := accumulator s; current := v; precalculated := precalculated s |}.
Definition set_precalculated (v : Precalculated) (s : t) : t :=
  {| accumulator := accumulator s; current := current s; precalculated := v |}.
Definition reset (s : t) : t :=
  {| accumulator := clear (accumulator s);
     current := {| down := false; downTime := 0 |};
     precalculated := precalculated s |}.
End TrackballState.

Module SingleTouchScreenState.
Definition FIELD_BTN_TOUCH : Z := 1.
Definition FIELD_ABS_X : Z := 2.
Definition FIELD_ABS_Y : Z := 4.
Definition FIELD_ABS_PRESSURE : Z := 8.
Definition FIELD_ABS_TOOL_WIDTH : Z := 16.
Record Accumulator : Type := {
  fields : Z; btnTouch : bool; absX : Z; absY : Z; absPressure : Z;
  absToolWidth : Z
}.
Record Current : Type := { down : bool; x : Z; y : Z; pressure : Z; size : Z }.
Record t : Type := { accumulator : Accumulator; current : Current }.
Definition isDirty (a : Accumulator) : bool := negb (fields a =? 0).
Definition clear (a : Accumulator) : Accumulator :=
  {| fields := 0; btnTouch := btnTouch a; absX := absX a; absY := absY a;
     absPressure := absPressure a; absToolWidth := absToolWidth a |}.
Definition set_accumulator (v : Accumulator) (s : t) : t :=
  {| accumulator := v; current := current s |}.
Definition set_current (v : Current) (s : t) : t :=
  {| accumulator := accumulator s; current := v |}.
Definition reset (s : t) : t :=
  {| accumulator := clear (accumulator s);
     current := {| down := false; x := 0; y := 0; pressure := 0; size := 0 |} |}.
End SingleTouchScreenState.

Module MultiTouchScreenState.
Definition FIELD_ABS_MT_POSITION_X : Z := 1.
Definition FIELD_ABS_MT_POSITION_Y : Z := 2.
Definition FIELD_ABS_MT_TOUCH_MAJOR : Z := 4.
Definition FIELD_ABS_MT_WIDTH_MAJOR : Z := 8.
Definition FIELD_ABS_MT_TRACKING_ID : Z := 16.
Record Pointer : Type := {
  fields : Z; absMTPositionX : Z; absMTPositionY : Z; absMTTouchMajor : Z;
  absMTWidthMajor : Z; absMTTrackingId : Z
}.
Definition zeroPointer : Pointer :=
  {| fields := 0; absMTPositionX := 0; absMTPositionY := 0;
     absMTTouchMajor := 0; absMTWidthMajor := 0; absMTTrackingId := 0 |}.
Definition clearPointer (p : Pointer) : Pointer :=
  {| fields := 0; absMTPositionX := absMTPositionX p;
     absMTPositionY := absMTPositionY p; absMTTouchMajor := absMTTouchMajor p;
     absMTWidthMajor := absMTWidthMajor p; absMTTrackingId := absMTTrackingId p |}.
(** The accumulator holds MAX_POINTERS + 1 slots: the slot after the last
    counted pointer is the one being filled. *)
Record Accumulator : Type := { pointerCount : Z; pointers : list Pointer }.
Record t : Type := { accumulator : Accumulator }.
Definition isDirty (a : Accumulator) : bool := negb (pointerCount a =? 0).
Definition clear (a : Accumulator) : Accumulator :=
  {| pointerCount := 0;
     pointers := arraySet (pointers a) 0
                   (clearPointer (arrayGet zeroPointer (pointers a) 0)) |}.
Definition reset (s : t) : t := {| accumulator := clear (accumulator s) |}.
End MultiTouchScreenState.

Module CurrentVirtualKeyState.
Inductive Status : Type := STATUS_NONE | STATUS_DOWN | STATUS_CANCELED | STATUS_UP.
Record t : Type := { status : Status; downTime : Z; keyCode : Z; scanCode : Z }.
Definition set_status (v : Status) (k : t) : t :=
  {| status := v; downTime := downTime k; keyCode := keyCode k;
     scanCode := scanCode k |}.
Definition isDown (k : t) : bool :=
  match status k with STATUS_DOWN => true | _ => false end.
End CurrentVirtualKeyState.

Module TouchScreenState.
Record Parameters : Type := {
  useBadTouchFilter : bool; useAveragingTouchFilter : bool;
  useJumpyTouchFilter : bool;
  xAxis : AbsoluteAxisInfo.t; yAxis : AbsoluteAxisInfo.t;
  pressureAxis : AbsoluteAxisInfo.t; sizeAxis : AbsoluteAxisInfo.t
}.
Record Precalculated : Type := {
  xOrigin : Z; xScale : float; yOrigin : Z; yScale : float;
  pressureOrigin : Z; pressureScale : float; sizeOrigin : Z; sizeScale : float
}.
(** [FilterState] is the private history of the touch filters. *)
Record t (FilterState : Type) : Type := {
  parameters : Parameters;
  precalculated : Precalculated;
  virtualKeys : list VirtualKey.t;
  currentTouch : TouchData.t;
  lastTouch : TouchData.t;
  downTime : Z;
  currentVirtualKey : CurrentVirtualKeyState.t;
  filters : FilterState
}.
Definition set_parameters {F : Type} (v : Parameters) (s : t F) : t F :=
  {| parameters := v; precalculated := precalculated s;
     virtualKeys := virtualKeys s; currentTouch := currentTouch s;
     lastTouch := lastTouch s; downTime := downTime s;
     currentVirtualKey := currentVirtualKey s; filters := filters s |}.
Definition set_precalculated {F : Type} (v : Precalculated) (s : t F) : t F :=
  {| parameters := parameters s; precalculated := v;
     virtualKeys := virtualKeys s; currentTouch := currentTouch s;
     lastTouch := lastTouch s; downTime := downTime s;
     currentVirtualKey := currentVirtualKey s; filters := filters s |}.
Definition set_virtualKeys {F : Type} (v : list VirtualKey.t) (s : t F) : t F :=
  {| parameters := parameters s; precalculated := precalculated s;
     virtualKeys := v; currentTouch := currentTouch s;
     lastTouch := lastTouch s; downTime := downTime s;
     currentVirtualKey := currentVirtualKey s; filters := filters s |}.
Definition set_currentTouch {F : Type} (v : TouchData.t) (s : t F) : t F :=
  {| parameters := parameters s; precalculated := precalculated s;
     virtualKeys := virtualKeys s; currentTouch := v;
     lastTouch := lastTouch s; downTime := downTime s;
     currentVirtualKey := currentVirtualKey s; filters := filters s |}.
Definition set_lastTouch {F : Type} (v : TouchData.t) (s : t F) : t F :=
  {| parameters := parameters s; precalculated := precalculated s;
     virtualKeys := virtualKeys s; currentTouch := currentTouch s;
     lastTouch := v; downTime := downTime s;
     currentVirtualKey := currentVirtualKey s; filters := filters s |}.
Definition set_downTime {F : Type} (v : Z) (s : t F) : t F :=
  {| parameters := parameters s; precalculated := precalculated s;
     virtualKeys := virtualKeys s; currentTouch := currentTouch s;
     lastTouch := lastTouch s; downTime := v;
     currentVirtualKey := currentVirtualKey s; filters := filters s |}.
Definition set_currentVirtualKey {F : Type} (v : CurrentVirtualKeyState.t)
  (s : t F) : t F :=
  {| parameters := parameters s; precalculated := precalculated s;
     virtualKeys := virtualKeys s; currentTouch := currentTouch s;
     lastTouch := lastTouch s; downTime := downTime s;
     currentVirtualKey := v; filters := filters s |}.
Definition set_filters {F : Type} (v : F) (s : t F) : t F :=
  {| parameters := parameters s; precalculated := precalculated s;
     virtualKeys := virtualKeys s; currentTouch := currentTouch s;
     lastTouch := lastTouch s; downTime := downTime s;
     currentVirtualKey := currentVirtualKey s; filters := v |}.
(** Modelled from the spec: the hit test of InputDevice.cpp for the
    virtual-key state machine: the first virtual key
    whose hit rectangle holds the first pointer of the current frame. *)
Definition findVirtualKeyHit {F : Type} (s : t F) : option VirtualKey.t :=
  let p := arrayGet PointerData.zero (TouchData.pointers (currentTouch s)) 0 in
  find (fun k => VirtualKey.isHit k (PointerData.x p) (PointerData.y p))
       (virtualKeys s).
End TouchScreenState.

Module InputDevice.
Record t (FilterState : Type) : Type := {
  id : Z;
  classes : Z;
  name : list Z;                      (* the characters of the name *)
  ignored : bool;
  keyboard : KeyboardState.t;
  trackball : TrackballState.t;
  touchScreen : TouchScreenState.t FilterState;
  singleTouchScreen : SingleTouchScreenState.t;
  multiTouchScreen : MultiTouchScreenState.t
}.
Definition set_ignored {F : Type} (v : bool) (d : t F) : t F :=
  {| id := id d; classes := classes d; name := name d; ignored := v;
     keyboard := keyboard d; trackball := trackball d;
     touchScreen := touchScreen d; singleTouchScreen := singleTouchScreen d;
     multiTouchScreen := multiTouchScreen d |}.
Definition set_keyboard {F : Type} (v : KeyboardState.t) (d : t F) : t F :=
  {| id := id d; classes := classes d; name := name d; ignored := ignored d;
     keyboard := v; trackball := trackball d;
     touchScreen := touchScreen d; singleTouchScreen := singleTouchScreen d;
     multiTouchScreen := multiTouchScreen d |}.
Definition set_trackball {F : Type} (v : TrackballState.t) (d : t F) : t F :=
  {| id := id d; classes := classes d; name := name d; ignored := ignored d;
     keyboard := keyboard d; trackball := v;
     touchScreen := touchScreen d; singleTouchScreen := singleTouchScreen d;
     multiTouchScreen := multiTouchScreen d |}.
Definition set_touchScreen {F : Type} (v : TouchScreenState.t F) (d : t F) : t F :=
  {| id := id d; classes := classes d; name := name d; ignored := ignored d;
     keyboard := keyboard d; trackball := trackball d;
     touchScreen := v; singleTouchScreen := singleTouchScreen d;
     multiTouchScreen := multiTouchScreen d |}.
Definition set_singleTouchScreen {F : Type} (v : SingleTouchScreenState.t)
  (d : t F) : t F :=
  {| id := id d; classes := classes d; name := name d; ignored := ignored d;
     keyboard := keyboard d; trackball := trackball d;
     touchScreen := touchScreen d; singleTouchScreen := v;
     multiTouchScreen := multiTouchScreen d |}.
Definition set_multiTouchScreen {F : Type} (v : MultiTouchScreenState.t)
  (d : t F) : t F :=
  {| id := id d; classes := classes d; name := name d; ignored := ignored d;
     keyboard := keyboard d; trackball := trackball d;
     touchScreen := touchScreen d; singleTouchScreen := singleTouchScreen d;
     multiTouchScreen := v |}.
Definition isKeyboard {F : Type} (d : t F) : bool :=
  anySet (classes d) INPUT_DEVICE_CLASS_KEYBOARD.
Definition isAlphaKey {F : Type} (d : t F) : bool :=
  anySet (classes d) INPUT_DEVICE_CLASS_ALPHAKEY.
Definition isTrackball {F : Type} (d : t F) : bool :=
  anySet (classes d) INPUT_DEVICE_CLASS_TRACKBALL.
Definition isDPad {F : Type} (d : t F) : bool :=
  anySet (classes d) INPUT_DEVICE_CLASS_DPAD.
Definition isSingleTouchScreen {F : Type} (d : t F) : bool :=
  Z.land (classes d)
    (Z.lor INPUT_DEVICE_CLASS_TOUCHSCREEN INPUT_DEVICE_CLASS_TOUCHSCREEN_MT)
  =? INPUT_DEVICE_CLASS_TOUCHSCREEN.
Definition isMultiTouchScreen {F : Type} (d : t F) : bool :=
  anySet (classes d) INPUT_DEVICE_CLASS_TOUCHSCREEN_MT.
Definition isTouchScreen {F : Type} (d : t F) : bool :=
  anySet (classes d)
    (Z.lor INPUT_DEVICE_CLASS_TOUCHSCREEN INPUT_DEVICE_CLASS_TOUCHSCREEN_MT).
End InputDevice.

Module RawEvent.
Record t : Type := {
  deviceId : Z; type : Z; scanCode : Z; keyCode : Z; flags : Z; value : Z;
  when : Z
}.
Definition set_when (v : Z) (e : t) : t :=
  {| deviceId := deviceId e; type := type e; scanCode := scanCode e;
     keyCode := keyCode e; flags := flags e; value := value e; when := v |}.
End RawEvent.

Module VirtualKeyDefinition.
Record t : Type := {
  scanCode : Z; centerX : Z; centerY : Z; width : Z; height : Z
}.
End VirtualKeyDefinition.

Module InputConfiguration.
Record t : Type := { touchScreen : Z; keyboard : Z; navigation : Z }.
End InputConfiguration.

Module PointerCoords.
Record t : Type := { x : float; y : float; pressure : float; size : float }.
Definition zero : t := {| x := FZero; y := FZero; pressure := FZero; size := FZero |}.
End PointerCoords.

(** ** The reader object *)

Module InputReader.
(** [mDevices] is a vector of devices sorted by device id; the exported
    fields are the ones the exported-state lock guards. *)
Record t (FilterState : Type) : Type := {
  mDevices : list (Z * InputDevice.t FilterState);
  mDisplayWidth : Z;
  mDisplayHeight : Z;
  mDisplayOrientation : Z;
  mGlobalMetaState : Z;
  mExportedVirtualKeyCode : Z;
  mExportedVirtualScanCode : Z;
  mExportedInputConfiguration : InputConfiguration.t
}.
Definition set_mDevices {F : Type} (v : list (Z * InputDevice.t F)) (r : t F) : t F :=
  {| mDevices := v; mDisplayWidth := mDisplayWidth r;
     mDisplayHeight := mDisplayHeight r;
     mDisplayOrientation := mDisplayOrientation r;
     mGlobalMetaState := mGlobalMetaState r;
     mExportedVirtualKeyCode := mExportedVirtualKeyCode r;
     mExportedVirtualScanCode := mExportedVirtualScanCode r;
     mExportedInputConfiguration := mExportedInputConfiguration r |}.
Definition set_displaySize {F : Type} (w h : Z) (r : t F) : t F :=
  {| mDevices := mDevices r; mDisplayWidth := w; mDisplayHeight := h;
     mDisplayOrientation := mDisplayOrientation r;
     mGlobalMetaState := mGlobalMetaState r;
     mExportedVirtualKeyCode := mExportedVirtualKeyCode r;
     mExportedVirtualScanCode := mExportedVirtualScanCode r;
     mExportedInputConfiguration := mExportedInputConfiguration r |}.
Definition set_mDisplayOrientation {F : Type} (v : Z) (r : t F) : t F :=
  {| mDevices := mDevices r; mDisplayWidth := mDisplayWidth r;
     mDisplayHeight := mDisplayHeight r; mDisplayOrientation := v;
     mGlobalMetaState := mGlobalMetaState r;
     mExportedVirtualKeyCode := mExportedVirtualKeyCode r;
     mExportedVirtualScanCode := mExportedVirtualScanCode r;
     mExportedInputConfiguration := mExportedInputConfiguration r |}.
Definition set_mGlobalMetaState {F : Type} (v : Z) (r : t F) : t F :=
  {| mDevices := mDevices r; mDisplayWidth := mDisplayWidth r;
     mDisplayHeight := mDisplayHeight r;
     mDisplayOrientation := mDisplayOrientation r; mGlobalMetaState := v;
     mExportedVirtualKeyCode := mExportedVirtualKeyCode r;
     mExportedVirtualScanCode := mExportedVirtualScanCode r;
     mExportedInputConfiguration := mExportedInputConfiguration r |}.
Definition set_exportedVirtualKey {F : Type} (k sc : Z) (r : t F) : t F :=
  {| mDevices := mDevices r; mDisplayWidth := mDisplayWidth r;
     mDisplayHeight := mDisplayHeight r;
     mDisplayOrientation := mDisplayOrientation r;
     mGlobalMetaState := mGlobalMetaState r;
     mExportedVirtualKeyCode := k; mExportedVirtualScanCode := sc;
     mExportedInputConfiguration := mExportedInputConfiguration r |}.
Definition set_mExportedInputConfiguration {F : Type} (v : InputConfiguration.t)
  (r : t F) : t F :=
  {| mDevices := mDevices r; mDisplayWidth := mDisplayWidth r;
     mDisplayHeight := mDisplayHeight r;
     mDisplayOrientation := mDisplayOrientation r;
     mGlobalMetaState := mGlobalMetaState r;
     mExportedVirtualKeyCode := mExportedVirtualKeyCode r;
     mExportedVirtualScanCode := mExportedVirtualScanCode r;
     mExportedInputConfiguration := v |}.
End InputReader.

(** ** Collaborators

    The policy, the event hub and the clock answer from a state of their own,
    the [World]; each call returns its answer and the next world.  The
    dispatcher and the log only receive: their calls are the effects a run of
    the reader leaves behind, in order. *)

Class InputReaderPolicyInterface (World : Type) : Type := {
  getDisplayInfo : Z -> World -> option (Z * Z * Z) * World;
  virtualKeyDownFeedback : World -> World;
  interceptKey : Z -> Z -> bool -> Z -> Z -> Z -> World -> Z * World;
  interceptTouch : Z -> World -> Z * World;
  interceptTrackball : Z -> bool -> bool -> bool -> World -> Z * World;
  interceptSwitch : Z -> Z -> Z -> World -> Z * World;
  filterTouchEvents : World -> bool * World;
  filterJumpyTouchEvents : World -> bool * World;
  getVirtualKeyDefinitions :
    list Z -> World -> list VirtualKeyDefinition.t * World;
  getExcludedDeviceNames : World -> list (list Z) * World
}.

Class EventHubInterface (World : Type) : Type := {
  getEvent : World -> RawEvent.t * World;
  getDeviceClasses : Z -> World -> Z * World;
  getDeviceName : Z -> World -> list Z * World;
  (* min, max, flat, fuzz; [None] when the hub reports a failure *)
  getAbsoluteInfo : Z -> Z -> World -> option (Z * Z * Z * Z) * World;
  (* key code and flags; [None] when the hub reports a failure *)
  scancodeToKeycode : Z -> Z -> World -> option (Z * Z) * World;
  addExcludedDevice : list Z -> World -> World;
  getScanCodeState : Z -> Z -> Z -> World -> Z * World;
  getKeyCodeState : Z -> Z -> Z -> World -> Z * World;
  getSwitchState : Z -> Z -> Z -> World -> Z * World
}.

Class SystemClock (World : Type) : Type := {
  systemTime : World -> Z * World
}.

(** Modelled from the spec: the touch filters and the pointer-id calculation
    are methods of the touch screen state defined in InputDevice.cpp, which is
    not part of the sources.  Each reads the touch screen state and gives the
    new current frame and filter history; the two filters that can spoil the
    pointer ids also answer whether they did. *)
Class TouchFilters (FilterState : Type) : Type := {
  initialFilterState : FilterState;
  resetFilterState : FilterState -> FilterState;
  applyBadTouchFilter :
    TouchScreenState.t FilterState -> bool * TouchData.t * FilterState;
  applyJumpyTouchFilter :
    TouchScreenState.t FilterState -> bool * TouchData.t * FilterState;
  calculatePointerIds :
    TouchScreenState.t FilterState -> TouchData.t * FilterState;
  applyAveragingTouchFilter :
    TouchScreenState.t FilterState -> TouchData.t * FilterState
}.

(** The comparison [a <= b] of two floats. *)
Class FloatOrder : Type := { floatLe : float -> float -> bool }.

Inductive LogMessage : Type :=
| SpuriousDeviceAdded (deviceId : Z)
| SpuriousDeviceRemoved (deviceId : Z)
| TooManyPointers (maximum : Z)
| VirtualKeyWithoutKeyCode (scanCode : Z).

(** What a run leaves behind, in order.  [ArithmeticTrap] is the end of the
    program at an integer division that has no defined behaviour (a divisor
    0, or the least [int32_t] divided by -1): the processor traps there.
    The computations of the model are total functions and go on after this
    effect, but a run that holds it stands for a run of the program that
    ended at it: the effects before it are what the program did, and what
    the model tells after it, and the state it ends in, did not happen. *)
Inductive Effect : Type :=
| NotifyKey (when deviceId nature policyFlags action flags keyCode scanCode
             metaState downTime : Z)
| NotifyMotion (when deviceId nature policyFlags action metaState edgeFlags
                pointerCount : Z) (pointerIds : list Z)
               (pointerCoords : list PointerCoords.t)
               (xPrecision yPrecision : float) (downTime : Z)
| NotifyConfigurationChanged (when : Z)
| NotifyAppSwitchComing (when : Z)
| LogW (message : LogMessage)
| ExportedVirtualKeyStored (keyCode scanCode : Z)
| EventHubScanCodeStateQueried (deviceId deviceClasses scanCode : Z)
| EventHubKeyCodeStateQueried (deviceId deviceClasses keyCode : Z)
| ArithmeticTrap.

(** The values the plain fields of the reader object hold before the body
    of the constructor runs: the constructor has no initialiser for them, so
    they are what the memory of the object held. *)
Class UninitialisedFields : Type := {
  uninitialisedDisplayWidth : Z;
  uninitialisedDisplayHeight : Z;
  uninitialisedDisplayOrientation : Z;
  uninitialisedGlobalMetaState : Z;
  uninitialisedVirtualKeyCode : Z;
  uninitialisedVirtualScanCode : Z;
  uninitialisedInputConfiguration : InputConfiguration.t
}.

(** * A concrete reader

    A small world for running the reader: the event hub hands out the raw
    events of a queue, one multi-touch screen with one virtual key is
    attached, and the policy lets everything through except the touches
    stamped with a negative time. *)

Module Example.

Definition World : Type := list RawEvent.t.
Definition FilterState : Type := unit.

Definition idleEvent : RawEvent.t :=
  {| RawEvent.deviceId := 0; RawEvent.type := EV_SW; RawEvent.scanCode := 0;
     RawEvent.keyCode := 0; RawEvent.flags := 0; RawEvent.value := 0;
     RawEvent.when := 0 |}.

Definition homeKeyCode : Z := 3.
Definition homeScanCode : Z := 102.

Definition policy : InputReaderPolicyInterface World :=
  {| getDisplayInfo := fun _ w => (Some (480, 800, ROTATION_0), w);
     virtualKeyDownFeedback := fun w => w;
     interceptKey := fun _ _ _ _ _ _ w => (ACTION_DISPATCH, w);
     interceptTouch := fun when w => (if when <? 0 then 0 else ACTION_DISPATCH, w);
     interceptTrackball := fun _ _ _ _ w => (ACTION_DISPATCH, w);
     interceptSwitch := fun _ _ _ w => (ACTION_DISPATCH, w);
     filterTouchEvents := fun w => (false, w);
     filterJumpyTouchEvents := fun w => (false, w);
     getVirtualKeyDefinitions := fun _ w =>
       ([{| VirtualKeyDefinition.scanCode := homeScanCode;
            VirtualKeyDefinition.centerX := 100;
            VirtualKeyDefinition.centerY := 700;
            VirtualKeyDefinition.width := 100;
            VirtualKeyDefinition.height := 100 |}], w);
     getExcludedDeviceNames := fun w => ([], w) |}.

Definition eventHub : EventHubInterface World :=
  {| getEvent := fun w => match w with
                          | rawEvent :: rest => (rawEvent, rest)
                          | [] => (idleEvent, [])
                          end;
     getDeviceClasses := fun _ w =>
       (Z.lor INPUT_DEVICE_CLASS_TOUCHSCREEN INPUT_DEVICE_CLASS_TOUCHSCREEN_MT, w);
     getDeviceName := fun _ w => ([], w);
     getAbsoluteInfo := fun _ _ w => (Some (0, 1000, 0, 0), w);
     scancodeToKeycode := fun _ _ w => (Some (homeKeyCode, 0), w);
     addExcludedDevice := fun _ w => w;
     getScanCodeState := fun _ _ _ w => (0, w);
     getKeyCodeState := fun _ _ _ w => (0, w);
     getSwitchState := fun _ _ _ w => (0, w) |}.

Definition clock : SystemClock World := {| systemTime := fun w => (0, w) |}.

(** The pointers of a frame numbered in their order: pointer [i] gets id
    [i]. *)
Definition numbered (touch : TouchData.t) : TouchData.t :=
  let count := Z.to_nat (TouchData.pointerCount touch) in
  {| TouchData.pointerCount := TouchData.pointerCount touch;
     TouchData.pointers :=
       map (fun ip =>
              if (fst ip <? count)%nat
              then {| PointerData.id := Z.of_nat (fst ip);
                      PointerData.x := PointerData.x (snd ip);
                      PointerData.y := PointerData.y (snd ip);
                      PointerData.pressure := PointerData.pressure (snd ip);
                      PointerData.size := PointerData.size (snd ip) |}
              else snd ip)
           (combine (seq 0 (length (TouchData.pointers touch)))
                    (TouchData.pointers touch));
     TouchData.idBits :=
       fold_left (fun bits i => markBit bits (Z.of_nat i)) (seq 0 count) 0;
     TouchData.idToIndex :=
       map (fun i => if (i <? count)%nat then Z.of_nat i else 0) (seq 0 32) |}.

Definition touchFilters : TouchFilters FilterState :=
  {| initialFilterState := tt;
     resetFilterState := fun h => h;
     applyBadTouchFilter := fun ts => (false, TouchScreenState.currentTouch ts, tt);
     applyJumpyTouchFilter := fun ts => (false, TouchScreenState.currentTouch ts, tt);
     calculatePointerIds := fun ts => (numbered (TouchScreenState.currentTouch ts), tt);
     applyAveragingTouchFilter := fun ts => (TouchScreenState.currentTouch ts, tt) |}.

Definition floatOrder : FloatOrder := {| floatLe := fun _ _ => true |}.

(** One finger on the virtual key, as the only pointer of the frame. *)
Definition fingerOnKey : TouchData.t :=
  {| TouchData.pointerCount := 1;
     TouchData.pointers :=
       {| PointerData.id := 0; PointerData.x := 100; PointerData.y := 700;
          PointerData.pressure := 5; PointerData.size := 1 |}
       :: repeat PointerData.zero 9;
     TouchData.idBits := 0x80000000;
     TouchData.idToIndex := repeat 0 32 |}.

Definition homeKey : VirtualKey.t :=
  {| VirtualKey.keyCode := homeKeyCode; VirtualKey.scanCode := homeScanCode;
     VirtualKey.flags := 0;
     VirtualKey.hitLeft := 50; VirtualKey.hitTop := 650;
     VirtualKey.hitRight := 150; VirtualKey.hitBottom := 750 |}.

(** The touch screen, device 1: the finger is in its current frame, its last
    frame is empty, no virtual key is down, and the multi-touch accumulator
    holds one reported pointer that no frame sync has committed yet. *)
Definition device : InputDevice.t FilterState :=
  {| InputDevice.id := 1;
     InputDevice.classes :=
       Z.lor INPUT_DEVICE_CLASS_TOUCHSCREEN INPUT_DEVICE_CLASS_TOUCHSCREEN_MT;
     InputDevice.name := [];
     InputDevice.ignored := false;
     InputDevice.keyboard :=
       {| KeyboardState.metaState := 0; KeyboardState.downTime := 0 |};
     InputDevice.trackball :=
       {| TrackballState.accumulator :=
            {| TrackballState.fields := 0; TrackballState.btnMouse := false;
               TrackballState.relX := 0; TrackballState.relY := 0 |};
          TrackballState.current :=
            {| TrackballState.down := false; TrackballState.downTime := 0 |};
          TrackballState.precalculated :=
            {| TrackballState.xScale := FZero; TrackballState.yScale := FZero;
               TrackballState.xPrecision := FZero;
               TrackballState.yPrecision := FZero |} |};
     InputDevice.touchScreen :=
       {| TouchScreenState.parameters :=
            {| TouchScreenState.useBadTouchFilter := false;
               TouchScreenState.useAveragingTouchFilter := false;
               TouchScreenState.useJumpyTouchFilter := false;
               TouchScreenState.xAxis := AbsoluteAxisInfo.invalid;
               TouchScreenState.yAxis := AbsoluteAxisInfo.invalid;
               TouchScreenState.pressureAxis := AbsoluteAxisInfo.invalid;
               TouchScreenState.sizeAxis := AbsoluteAxisInfo.invalid |};
          TouchScreenState.precalculated :=
            {| TouchScreenState.xOrigin := 0; TouchScreenState.xScale := FOne;
               TouchScreenState.yOrigin := 0; TouchScreenState.yScale := FOne;
               TouchScreenState.pressureOrigin := 0;
               TouchScreenState.pressureScale := FOne;
               TouchScreenState.sizeOrigin := 0;
               TouchScreenState.sizeScale := FOne |};
          TouchScreenState.virtualKeys := [homeKey];
          TouchScreenState.currentTouch := fingerOnKey;
          TouchScreenState.lastTouch := TouchData.zero;
          TouchScreenState.downTime := 0;
          TouchScreenState.currentVirtualKey :=
            {| CurrentVirtualKeyState.status := CurrentVirtualKeyState.STATUS_NONE;
               CurrentVirtualKeyState.downTime := 0;
               CurrentVirtualKeyState.keyCode := 0;
               CurrentVirtualKeyState.scanCode := 0 |};
          TouchScreenState.filters := tt |};
     InputDevice.singleTouchScreen :=
       {| SingleTouchScreenState.accumulator :=
            {| SingleTouchScreenState.fields := 0;
               SingleTouchScreenState.btnTouch := false;
               SingleTouchScreenState.absX := 0; SingleTouchScreenState.absY := 0;
               SingleTouchScreenState.absPressure := 0;
               SingleTouchScreenState.absToolWidth := 0 |};
          SingleTouchScreenState.current :=
            {| SingleTouchScreenState.down := false;
               SingleTouchScreenState.x := 0; SingleTouchScreenState.y := 0;
               SingleTouchScreenState.pressure := 0;
               SingleTouchScreenState.size := 0 |} |};
     InputDevice.multiTouchScreen :=
       {| MultiTouchScreenState.accumulator :=
            {| MultiTouchScreenState.pointerCount := 1;
               MultiTouchScreenState.pointers :=
                 {| MultiTouchScreenState.fields := 15;
                    MultiTouchScreenState.absMTPositionX := 100;
                    MultiTouchScreenState.absMTPositionY := 700;
                    MultiTouchScreenState.absMTTouchMajor := 5;
                    MultiTouchScreenState.absMTWidthMajor := 1;
                    MultiTouchScreenState.absMTTrackingId := 0 |}
                 :: repeat MultiTouchScreenState.zeroPointer 10 |} |} |}.


(** The device with its virtual key canceled and the finger lifted. *)
Definition canceledDevice : InputDevice.t FilterState :=
  InputDevice.set_touchScreen
    (TouchScreenState.set_currentTouch TouchData.zero
       (TouchScreenState.set_currentVirtualKey
          {| CurrentVirtualKeyState.status := CurrentVirtualKeyState.STATUS_CANCELED;
             CurrentVirtualKeyState.downTime := 10;
             CurrentVirtualKeyState.keyCode := homeKeyCode;
             CurrentVirtualKeyState.scanCode := homeScanCode |}
          (InputDevice.touchScreen device)))
    device.

Definition readerOf (d : InputDevice.t FilterState) : InputReader.t FilterState :=
  {| InputReader.mDevices := [(1, d)];
     InputReader.mDisplayWidth := 480; InputReader.mDisplayHeight := 800;
     InputReader.mDisplayOrientation := ROTATION_0;
     InputReader.mGlobalMetaState := 0;
     InputReader.mExportedVirtualKeyCode := -1;
     InputReader.mExportedVirtualScanCode := -1;
     InputReader.mExportedInputConfiguration :=
       {| InputConfiguration.touchScreen := 0; InputConfiguration.keyboard := 0;
          InputConfiguration.navigation := 0 |} |}.

(** The readers with these devices, in a world without pending events. *)
Definition state : InputReader.t FilterState * World := (readerOf device, []).
Definition canceledState : InputReader.t FilterState * World :=
  (readerOf canceledDevice, []).

Definition rawEvent (deviceId type scanCode value : Z) : RawEvent.t :=
  {| RawEvent.deviceId := deviceId; RawEvent.type := type;
     RawEvent.scanCode := scanCode; RawEvent.keyCode := 0; RawEvent.flags := 0;
     RawEvent.value := value; RawEvent.when := 20 |}.

(** The events of a session: the touch screen is attached, one finger
    lands on the virtual key, and the frame is committed. *)
Definition session : World :=
  [ rawEvent 1 DEVICE_ADDED 0 0;
    rawEvent 1 EV_ABS ABS_MT_POSITION_X 200;
    rawEvent 1 EV_ABS ABS_MT_POSITION_Y 900;
    rawEvent 1 EV_ABS ABS_MT_TOUCH_MAJOR 5;
    rawEvent 1 EV_ABS ABS_MT_WIDTH_MAJOR 1;
    rawEvent 1 EV_ABS ABS_MT_TRACKING_ID 0;
    rawEvent 1 EV_SYN SYN_MT_REPORT 0;
    rawEvent 1 EV_SYN SYN_REPORT 0 ].




(** An accumulator with two pointers that are down and carry tracking ids,
    and one slot that is not down between them. *)
Definition trackedAccumulator : MultiTouchScreenState.Accumulator :=
  {| MultiTouchScreenState.pointerCount := 3;
     MultiTouchScreenState.pointers :=
       [ {| MultiTouchScreenState.fields := 31;
            MultiTouchScreenState.absMTPositionX := 100;
            MultiTouchScreenState.absMTPositionY := 700;
            MultiTouchScreenState.absMTTouchMajor := 5;
            MultiTouchScreenState.absMTWidthMajor := 1;
            MultiTouchScreenState.absMTTrackingId := 4 |};
         {| MultiTouchScreenState.fields := 31;
            MultiTouchScreenState.absMTPositionX := 1;
            MultiTouchScreenState.absMTPositionY := 2;
            MultiTouchScreenState.absMTTouchMajor := 0;
            MultiTouchScreenState.absMTWidthMajor := 1;
            MultiTouchScreenState.absMTTrackingId := 5 |};
         {| MultiTouchScreenState.fields := 31;
            MultiTouchScreenState.absMTPositionX := 300;
            MultiTouchScreenState.absMTPositionY := 400;
            MultiTouchScreenState.absMTTouchMajor := 7;
            MultiTouchScreenState.absMTWidthMajor := 2;
            MultiTouchScreenState.absMTTrackingId := 2 |} ]
       ++ repeat MultiTouchScreenState.zeroPointer 8 |}.

(** A policy that has no display to tell of. *)
Definition headlessPolicy : InputReaderPolicyInterface World :=
  {| getDisplayInfo := fun _ w => (None, w);
     virtualKeyDownFeedback := fun w => w;
     interceptKey := fun _ _ _ _ _ _ w => (ACTION_DISPATCH, w);
     interceptTouch := fun _ w => (ACTION_DISPATCH, w);
     interceptTrackball := fun _ _ _ _ w => (ACTION_DISPATCH, w);
     interceptSwitch := fun _ _ _ w => (ACTION_DISPATCH, w);
     filterTouchEvents := fun w => (false, w);
     filterJumpyTouchEvents := fun w => (false, w);
     getVirtualKeyDefinitions := fun _ w => ([], w);
     getExcludedDeviceNames := fun w => ([], w) |}.



(** A single-touch screen, registered as device 1, and the reader that
    holds it. *)
Definition singleTouchDevice : InputDevice.t FilterState :=
  {| InputDevice.id := 1;
     InputDevice.classes := INPUT_DEVICE_CLASS_TOUCHSCREEN;
     InputDevice.name := [];
     InputDevice.ignored := false;
     InputDevice.keyboard := InputDevice.keyboard device;
     InputDevice.trackball := InputDevice.trackball device;
     InputDevice.touchScreen := InputDevice.touchScreen device;
     InputDevice.singleTouchScreen :=
       {| SingleTouchScreenState.accumulator :=
            {| SingleTouchScreenState.fields := 0;
               SingleTouchScreenState.btnTouch := true;
               SingleTouchScreenState.absX := 100;
               SingleTouchScreenState.absY := 700;
               SingleTouchScreenState.absPressure := 5;
               SingleTouchScreenState.absToolWidth := 1 |};
          SingleTouchScreenState.current :=
            {| SingleTouchScreenState.down := true;
               SingleTouchScreenState.x := 100; SingleTouchScreenState.y := 700;
               SingleTouchScreenState.pressure := 5;
               SingleTouchScreenState.size := 1 |} |};
     InputDevice.multiTouchScreen := InputDevice.multiTouchScreen device |}.

Definition singleTouchState : InputReader.t FilterState * World :=
  (readerOf singleTouchDevice, []).

(** The memory the reader object is constructed in, and an event hub that
    gives -1 as the key code of every scan code. *)
Definition uninitialised : UninitialisedFields :=
  {| uninitialisedDisplayWidth := 7; uninitialisedDisplayHeight := 7;
     uninitialisedDisplayOrientation := 7; uninitialisedGlobalMetaState := 7;
     uninitialisedVirtualKeyCode := 7; uninitialisedVirtualScanCode := 7;
     uninitialisedInputConfiguration :=
       {| InputConfiguration.touchScreen := 7; InputConfiguration.keyboard := 7;
          InputConfiguration.navigation := 7 |} |}.

Definition hubWithoutKeyCodes : EventHubInterface World :=
  {| getEvent := getEvent (EventHubInterface := eventHub);
     getDeviceClasses := getDeviceClasses (EventHubInterface := eventHub);
     getDeviceName := getDeviceName (EventHubInterface := eventHub);
     getAbsoluteInfo := getAbsoluteInfo (EventHubInterface := eventHub);
     scancodeToKeycode := fun _ _ w => (Some (-1, 0), w);
     addExcludedDevice := addExcludedDevice (EventHubInterface := eventHub);
     getScanCodeState := getScanCodeState (EventHubInterface := eventHub);
     getKeyCodeState := getKeyCodeState (EventHubInterface := eventHub);
     getSwitchState := getSwitchState (EventHubInterface := eventHub) |}.

End Example.

(** ** The device registry: a vector sorted by key *)

Fixpoint keyedLookup {A : Type} (l : list (Z * A)) (k : Z) : option A :=
  match l with
  | [] => None
  | (k', v) :: rest => if k' =? k then Some v else keyedLookup rest k
  end.

(** [add]: the item is placed in key order and replaces an item of the same
    key. *)
Fixpoint keyedAdd {A : Type} (l : list (Z * A)) (k : Z) (v : A) : list (Z * A) :=
  match l with
  | [] => [(k, v)]
  | (k', v') :: rest =>
      if k <? k' then (k, v) :: l
      else if k =? k' then (k, v) :: rest
      else (k', v') :: keyedAdd rest k v
  end.

Fixpoint keyedRemove {A : Type} (l : list (Z * A)) (k : Z) : list (Z * A) :=
  match l with
  | [] => []
  | (k', v) :: rest => if k' =? k then rest else (k', v) :: keyedRemove rest k
  end.

(** A write through the pointer the lookup of [k] gives. *)
Fixpoint keyedUpdate {A : Type} (l : list (Z * A)) (k : Z) (f : A -> A)
  : list (Z * A) :=
  match l with
  | [] => []
  | (k', v) :: rest =>
      if k' =? k then (k', f v) :: rest else (k', v) :: keyedUpdate rest k f
  end.

(** The multi-touch preprocessor switch of the source file. *)
Definition DEBUG_POINTERS : bool := false.

(** [a op b] on [int32_t], wrapping. *)
Definition i32add (a b : Z) : Z := toInt32 (a + b).
Definition i32sub (a b : Z) : Z := toInt32 (a - b).
Definition i32mul (a b : Z) : Z := toInt32 (a * b).

(** [a / b] on [int32_t], truncating toward zero; [None] where the division
    has no defined behaviour and the processor traps: the divisor is 0, or
    the quotient of the least [int32_t] by -1 does not fit. *)
Definition INT32_MIN : Z := - 2 ^ 31.
Definition i32div (a b : Z) : option Z :=
  if (b =? 0) || ((a =? INT32_MIN) && (b =? -1)) then None
  else Some (toInt32 (Z.quot a b)).

(** The next step of a calculation that may have failed. *)
Definition andThen {A B : Type} (o : option A) (f : A -> option B) : option B :=
  match o with
  | Some a => f a
  | None => None
  end.

Section Reader.

Context {World FilterState : Type}.
Context {policy : InputReaderPolicyInterface World}.
Context {eventHub : EventHubInterface World}.
Context {clock : SystemClock World}.
Context {touchFilters : TouchFilters FilterState}.
Context {floatOrder : FloatOrder}.

Abbreviation Device := (InputDevice.t FilterState).
Abbreviation Reader := (InputReader.t FilterState).

(** ** The monad of the reader thread

    A computation reads and writes the reader object and the world of the
    collaborators, and leaves the effects it had on the dispatcher, the log
    and the exported state. *)

Definition State : Type := (Reader * World)%type.
Definition M (A : Type) : Type := State -> A * State * list Effect.

Definition ret {A : Type} (a : A) : M A := fun s => (a, s, []).

Definition bind {A B : Type} (m : M A) (k : A -> M B) : M B :=
  fun s =>
    let '(a, s1, t1) := m s in
    let '(b, s2, t2) := k a s1 in
    (b, s2, t1 ++ t2).

Notation "x <- m ;; k" := (bind m (fun x => k))
  (at level 61, m at next level, right associativity).
Notation "' pat <- m ;; k" := (bind m (fun x => match x with pat => k end))
  (at level 61, pat pattern, m at next level, right associativity).
Notation "m ;; k" := (bind m (fun _ => k))
  (at level 61, right associativity).

Definition valueOf {A : Type} (r : A * State * list Effect) : A := fst (fst r).
Definition stateOf {A : Type} (r : A * State * list Effect) : State := snd (fst r).
Definition effectsOf {A : Type} (r : A * State * list Effect) : list Effect := snd r.

Definition getReader : M Reader := fun s => (fst s, s, []).
Definition modifyReader (f : Reader -> Reader) : M unit :=
  fun s => (tt, (f (fst s), snd s), []).
Definition call {A : Type} (f : World -> A * World) : M A :=
  fun s => let '(a, w) := f (snd s) in (a, (fst s, w), []).
Definition tell (f : World -> World) : M unit :=
  fun s => (tt, (fst s, f (snd s)), []).
Definition emit (e : Effect) : M unit := fun s => (tt, s, [e]).

(** [for] over the elements of a list. *)
Fixpoint forEach {A : Type} (l : list A) (body : A -> M unit) : M unit :=
  match l with
  | [] => ret tt
  | a :: rest => body a ;; forEach rest body
  end.

(** ** Devices *)

(** Modelled from the spec: [new InputDevice(id, classes, name)], whose
    constructor is in InputDevice.cpp; the device starts idle. *)
Definition newInputDevice (deviceId classes : Z) (name : list Z) : Device :=
  {| InputDevice.id := deviceId;
     InputDevice.classes := classes;
     InputDevice.name := name;
     InputDevice.ignored := false;
     InputDevice.keyboard :=
       {| KeyboardState.metaState := 0; KeyboardState.downTime := 0 |};
     InputDevice.trackball :=
       {| TrackballState.accumulator :=
            {| TrackballState.fields := 0; TrackballState.btnMouse := false;
               TrackballState.relX := 0; TrackballState.relY := 0 |};
          TrackballState.current :=
            {| TrackballState.down := false; TrackballState.downTime := 0 |};
          TrackballState.precalculated :=
            {| TrackballState.xScale := FZero; TrackballState.yScale := FZero;
               TrackballState.xPrecision := FZero;
               TrackballState.yPrecision := FZero |} |};
     InputDevice.touchScreen :=
       {| TouchScreenState.parameters :=
            {| TouchScreenState.useBadTouchFilter := false;
               TouchScreenState.useAveragingTouchFilter := false;
               TouchScreenState.useJumpyTouchFilter := false;
               TouchScreenState.xAxis := AbsoluteAxisInfo.invalid;
               TouchScreenState.yAxis := AbsoluteAxisInfo.invalid;
               TouchScreenState.pressureAxis := AbsoluteAxisInfo.invalid;
               TouchScreenState.sizeAxis := AbsoluteAxisInfo.invalid |};
          TouchScreenState.precalculated :=
            {| TouchScreenState.xOrigin := 0; TouchScreenState.xScale := FOne;
               TouchScreenState.yOrigin := 0; TouchScreenState.yScale := FOne;
               TouchScreenState.pressureOrigin := 0;
               TouchScreenState.pressureScale := FOne;
               TouchScreenState.sizeOrigin := 0;
               TouchScreenState.sizeScale := FOne |};
          TouchScreenState.virtualKeys := [];
          TouchScreenState.currentTouch := TouchData.zero;
          TouchScreenState.lastTouch := TouchData.zero;
          TouchScreenState.downTime := 0;
          TouchScreenState.currentVirtualKey :=
            {| CurrentVirtualKeyState.status := CurrentVirtualKeyState.STATUS_NONE;
               CurrentVirtualKeyState.downTime := 0;
               CurrentVirtualKeyState.keyCode := 0;
               CurrentVirtualKeyState.scanCode := 0 |};
          TouchScreenState.filters := initialFilterState |};
     InputDevice.singleTouchScreen :=
       {| SingleTouchScreenState.accumulator :=
            {| SingleTouchScreenState.fields := 0;
               SingleTouchScreenState.btnTouch := false;
               SingleTouchScreenState.absX := 0; SingleTouchScreenState.absY := 0;
               SingleTouchScreenState.absPressure := 0;
               SingleTouchScreenState.absToolWidth := 0 |};
          SingleTouchScreenState.current :=
            {| SingleTouchScreenState.down := false;
               SingleTouchScreenState.x := 0; SingleTouchScreenState.y := 0;
               SingleTouchScreenState.pressure := 0;
               SingleTouchScreenState.size := 0 |} |};
     InputDevice.multiTouchScreen :=
       {| MultiTouchScreenState.accumulator :=
            {| MultiTouchScreenState.pointerCount := 0;
               MultiTouchScreenState.pointers :=
                 repeat MultiTouchScreenState.zeroPointer 11 |} |} |}.

(** Modelled from the spec: [device->reset()] of InputDevice.cpp; every
    substate returns to its idle condition. *)
Definition resetDevice (d : Device) : Device :=
  let ts := InputDevice.touchScreen d in
  let ts :=
    {| TouchScreenState.parameters := TouchScreenState.parameters ts;
       TouchScreenState.precalculated := TouchScreenState.precalculated ts;
       TouchScreenState.virtualKeys := TouchScreenState.virtualKeys ts;
       TouchScreenState.currentTouch := TouchScreenState.currentTouch ts;
       TouchScreenState.lastTouch := TouchData.clear (TouchScreenState.lastTouch ts);
       TouchScreenState.downTime := 0;
       TouchScreenState.currentVirtualKey :=
         CurrentVirtualKeyState.set_status CurrentVirtualKeyState.STATUS_NONE
           (TouchScreenState.currentVirtualKey ts);
       TouchScreenState.filters := resetFilterState (TouchScreenState.filters ts) |} in
  InputDevice.set_keyboard (KeyboardState.reset (InputDevice.keyboard d))
    (InputDevice.set_trackball (TrackballState.reset (InputDevice.trackball d))
       (InputDevice.set_touchScreen ts
          (InputDevice.set_singleTouchScreen
             (SingleTouchScreenState.reset (InputDevice.singleTouchScreen d))
             (InputDevice.set_multiTouchScreen
                (MultiTouchScreenState.reset (InputDevice.multiTouchScreen d)) d)))).

Definition getDevice (deviceId : Z) : M (option Device) :=
  fun s => (keyedLookup (InputReader.mDevices (fst s)) deviceId, s, []).

Definition getNonIgnoredDevice (deviceId : Z) : M (option Device) :=
  device <- getDevice deviceId ;;
  ret (match device with
       | Some d => if negb (InputDevice.ignored d) then Some d else None
       | None => None
       end).

(** [*device] for the device pointer that [getDevice deviceId] gave: the
    device as it is now in the registry. *)
Definition deref (deviceId : Z) : M Device :=
  fun s => (match keyedLookup (InputReader.mDevices (fst s)) deviceId with
            | Some d => d
            | None => newInputDevice deviceId 0 []
            end, s, []).

(** A write through that pointer. *)
Definition modifyDevice (deviceId : Z) (f : Device -> Device) : M unit :=
  modifyReader (fun r =>
    InputReader.set_mDevices (keyedUpdate (InputReader.mDevices r) deviceId f) r).

Definition modifyTouchScreen (deviceId : Z)
  (f : TouchScreenState.t FilterState -> TouchScreenState.t FilterState) : M unit :=
  modifyDevice deviceId
    (fun d => InputDevice.set_touchScreen (f (InputDevice.touchScreen d)) d).

(** ** Reader state shared by the handlers *)

Definition resetGlobalMetaState : M unit :=
  modifyReader (InputReader.set_mGlobalMetaState (-1)).

(** The loop of [globalMetaState] over the devices. *)
Definition combinedMetaState (devices : list (Z * Device)) : Z :=
  fold_left
    (fun acc kv =>
       if InputDevice.isKeyboard (snd kv)
       then Z.lor acc (KeyboardState.metaState (InputDevice.keyboard (snd kv)))
       else acc)
    devices 0.

Definition globalMetaState : M Z :=
  r <- getReader ;;
  (if InputReader.mGlobalMetaState r =? -1
   then modifyReader (fun r =>
          InputReader.set_mGlobalMetaState
            (combinedMetaState (InputReader.mDevices r)) r)
   else ret tt) ;;
  r <- getReader ;;
  ret (InputReader.mGlobalMetaState r).

(** The loop of [updateExportedVirtualKeyState]: the key of the last touch
    screen whose virtual key is down, when there is one. *)
Definition exportedVirtualKeyOf (devices : list (Z * Device)) : Z * Z :=
  fold_left
    (fun acc kv =>
       let device := snd kv in
       if InputDevice.isTouchScreen device
       then
         match CurrentVirtualKeyState.status
                 (TouchScreenState.currentVirtualKey (InputDevice.touchScreen device)) with
         | CurrentVirtualKeyState.STATUS_DOWN =>
             (CurrentVirtualKeyState.keyCode
                (TouchScreenState.currentVirtualKey (InputDevice.touchScreen device)),
              CurrentVirtualKeyState.scanCode
                (TouchScreenState.currentVirtualKey (InputDevice.touchScreen device)))
         | _ => acc
         end
       else acc)
    devices (-1, -1).

Definition updateExportedVirtualKeyState : M unit :=
  r <- getReader ;;
  let '(keyCode, scanCode) := exportedVirtualKeyOf (InputReader.mDevices r) in
  modifyReader (InputReader.set_exportedVirtualKey keyCode scanCode) ;;
  emit (ExportedVirtualKeyStored keyCode scanCode).

Definition getCurrentVirtualKey : M (bool * Z * Z) :=
  r <- getReader ;;
  ret (negb (InputReader.mExportedVirtualKeyCode r =? -1),
       InputReader.mExportedVirtualKeyCode r,
       InputReader.mExportedVirtualScanCode r).

Definition inputConfigurationOf (devices : list (Z * Device)) : InputConfiguration.t :=
  fold_left
    (fun acc kv =>
       let deviceClasses := InputDevice.classes (snd kv) in
       {| InputConfiguration.touchScreen :=
            if anySet deviceClasses INPUT_DEVICE_CLASS_TOUCHSCREEN
            then TOUCHSCREEN_FINGER else InputConfiguration.touchScreen acc;
          InputConfiguration.keyboard :=
            if anySet deviceClasses INPUT_DEVICE_CLASS_ALPHAKEY
            then KEYBOARD_QWERTY else InputConfiguration.keyboard acc;
          InputConfiguration.navigation :=
            if anySet deviceClasses INPUT_DEVICE_CLASS_TRACKBALL
            then NAVIGATION_TRACKBALL
            else if anySet deviceClasses INPUT_DEVICE_CLASS_DPAD
            then NAVIGATION_DPAD else InputConfiguration.navigation acc |})
    devices
    {| InputConfiguration.touchScreen := TOUCHSCREEN_NOTOUCH;
       InputConfiguration.keyboard := KEYBOARD_NOKEYS;
       InputConfiguration.navigation := NAVIGATION_NONAV |}.

Definition updateExportedInputConfiguration : M unit :=
  modifyReader (fun r =>
    InputReader.set_mExportedInputConfiguration
      (inputConfigurationOf (InputReader.mDevices r)) r).

Definition getCurrentInputConfiguration : M InputConfiguration.t :=
  r <- getReader ;; ret (InputReader.mExportedInputConfiguration r).

Definition getCurrentScanCodeState (deviceId deviceClasses scanCode : Z) : M Z :=
  r <- getReader ;;
  if InputReader.mExportedVirtualScanCode r =? scanCode
  then ret KEY_STATE_VIRTUAL
  else
    emit (EventHubScanCodeStateQueried deviceId deviceClasses scanCode) ;;
    call (getScanCodeState deviceId deviceClasses scanCode).

Definition getCurrentKeyCodeState (deviceId deviceClasses keyCode : Z) : M Z :=
  r <- getReader ;;
  if InputReader.mExportedVirtualKeyCode r =? keyCode
  then ret KEY_STATE_VIRTUAL
  else
    emit (EventHubKeyCodeStateQueried deviceId deviceClasses keyCode) ;;
    call (getKeyCodeState deviceId deviceClasses keyCode).

Definition getCurrentSwitchState (deviceId deviceClasses sw : Z) : M Z :=
  call (getSwitchState deviceId deviceClasses sw).

Definition onConfigurationChanged (when : Z) : M unit :=
  resetGlobalMetaState ;;
  updateExportedVirtualKeyState ;;
  updateExportedInputConfiguration ;;
  emit (NotifyConfigurationChanged when).

(** The answer is whether the event is to be dispatched, with the policy
    flags as they are after the call. *)
Definition applyStandardInputDispatchPolicyActions (when policyActions policyFlags : Z)
  : M (bool * Z) :=
  (if anySet policyActions ACTION_APP_SWITCH_COMING
   then emit (NotifyAppSwitchComing when) else ret tt) ;;
  let policyFlags :=
    if anySet policyActions ACTION_WOKE_HERE
    then Z.lor policyFlags POLICY_FLAG_WOKE_HERE else policyFlags in
  let policyFlags :=
    if anySet policyActions ACTION_BRIGHT_HERE
    then Z.lor policyFlags POLICY_FLAG_BRIGHT_HERE else policyFlags in
  ret (anySet policyActions ACTION_DISPATCH, policyFlags).

(** ** Device configuration *)

Definition configureAbsoluteAxisInfo (device : Device) (axis : Z)
  : M AbsoluteAxisInfo.t :=
  info <- call (getAbsoluteInfo (InputDevice.id device) axis) ;;
  ret (match info with
       | Some (minValue, maxValue, flat, fuzz) =>
           let range := i32sub maxValue minValue in
           if negb (range =? 0)
           then {| AbsoluteAxisInfo.minValue := minValue;
                   AbsoluteAxisInfo.maxValue := maxValue;
                   AbsoluteAxisInfo.range := range;
                   AbsoluteAxisInfo.flat := flat;
                   AbsoluteAxisInfo.fuzz := fuzz;
                   AbsoluteAxisInfo.valid := true |}
           else AbsoluteAxisInfo.invalid
       | None => AbsoluteAxisInfo.invalid
       end).

(** [edge * extent / display + origin] in [int32_t]: a coordinate of the
    display as a coordinate of the touch screen. *)
Definition hitEdge (edge extent display origin : Z) : option Z :=
  andThen (i32div (i32mul edge extent) display)
    (fun quotient => Some (i32add quotient origin)).

(** The hit box of a virtual key, left, top, right and bottom, in the order
    the program calculates it; [None] when one of its divisions has no
    defined behaviour. *)
Definition virtualKeyHitBox (parameters : TouchScreenState.Parameters)
  (displayWidth displayHeight : Z) (definition : VirtualKeyDefinition.t)
  : option (Z * Z * Z * Z) :=
  let touchScreenLeft := AbsoluteAxisInfo.minValue (TouchScreenState.xAxis parameters) in
  let touchScreenTop := AbsoluteAxisInfo.minValue (TouchScreenState.yAxis parameters) in
  let touchScreenWidth := AbsoluteAxisInfo.range (TouchScreenState.xAxis parameters) in
  let touchScreenHeight := AbsoluteAxisInfo.range (TouchScreenState.yAxis parameters) in
  let centerX := VirtualKeyDefinition.centerX definition in
  let centerY := VirtualKeyDefinition.centerY definition in
  andThen (i32div (VirtualKeyDefinition.width definition) 2) (fun halfWidth =>
  andThen (i32div (VirtualKeyDefinition.height definition) 2) (fun halfHeight =>
  andThen (hitEdge (i32sub centerX halfWidth) touchScreenWidth displayWidth
             touchScreenLeft) (fun hitLeft =>
  andThen (hitEdge (i32add centerX halfWidth) touchScreenWidth displayWidth
             touchScreenLeft) (fun hitRight =>
  andThen (hitEdge (i32sub centerY halfHeight) touchScreenHeight displayHeight
             touchScreenTop) (fun hitTop =>
  andThen (hitEdge (i32add centerY halfHeight) touchScreenHeight displayHeight
             touchScreenTop) (fun hitBottom =>
  Some (hitLeft, hitTop, hitRight, hitBottom))))))).

(** The body of the loop of [configureVirtualKeys] for one definition: the
    list of keys with the key of the definition added, unless its scan code
    has no key code.  The program only tests the width of the display for
    being negative before it divides by the width and the height: on a
    display 0 wide or 0 high it traps at the first key that has a key
    code. *)
Definition configureVirtualKey (device : Device) (displayWidth displayHeight : Z)
  (virtualKeys : list VirtualKey.t) (definition : VirtualKeyDefinition.t)
  : M (list VirtualKey.t) :=
  let parameters := TouchScreenState.parameters (InputDevice.touchScreen device) in
  let scanCode := VirtualKeyDefinition.scanCode definition in
  translated <- call (scancodeToKeycode (InputDevice.id device) scanCode) ;;
  match translated with
  | None =>
      emit (LogW (VirtualKeyWithoutKeyCode scanCode)) ;;
      ret virtualKeys
  | Some (keyCode, flags) =>
      match virtualKeyHitBox parameters displayWidth displayHeight definition with
      | Some (hitLeft, hitTop, hitRight, hitBottom) =>
          ret (virtualKeys ++
               [ {| VirtualKey.keyCode := keyCode;
                    VirtualKey.scanCode := scanCode;
                    VirtualKey.flags := flags;
                    VirtualKey.hitLeft := hitLeft;
                    VirtualKey.hitTop := hitTop;
                    VirtualKey.hitRight := hitRight;
                    VirtualKey.hitBottom := hitBottom |} ])
      | None =>
          emit ArithmeticTrap ;;
          ret virtualKeys
      end
  end.

Fixpoint configureVirtualKeysLoop (device : Device) (displayWidth displayHeight : Z)
  (definitions : list VirtualKeyDefinition.t) (virtualKeys : list VirtualKey.t)
  : M (list VirtualKey.t) :=
  match definitions with
  | [] => ret virtualKeys
  | definition :: rest =>
      virtualKeys <- configureVirtualKey device displayWidth displayHeight
                       virtualKeys definition ;;
      configureVirtualKeysLoop device displayWidth displayHeight rest virtualKeys
  end.

Definition configureVirtualKeys (device : Device) : M Device :=
  definitions <- call (getVirtualKeyDefinitions (InputDevice.name device)) ;;
  r <- getReader ;;
  virtualKeys <- configureVirtualKeysLoop device (InputReader.mDisplayWidth r)
                   (InputReader.mDisplayHeight r) definitions [] ;;
  ret (InputDevice.set_touchScreen
         (TouchScreenState.set_virtualKeys virtualKeys (InputDevice.touchScreen device))
         device).

Definition configureDeviceForCurrentDisplaySize (device : Device) : M Device :=
  if InputDevice.isTouchScreen device then
    let ts := InputDevice.touchScreen device in
    let parameters := TouchScreenState.parameters ts in
    let pre := TouchScreenState.precalculated ts in
    let withXY xOrigin xScale yOrigin yScale :=
      InputDevice.set_touchScreen
        (TouchScreenState.set_precalculated
           {| TouchScreenState.xOrigin := xOrigin;
              TouchScreenState.xScale := xScale;
              TouchScreenState.yOrigin := yOrigin;
              TouchScreenState.yScale := yScale;
              TouchScreenState.pressureOrigin := TouchScreenState.pressureOrigin pre;
              TouchScreenState.pressureScale := TouchScreenState.pressureScale pre;
              TouchScreenState.sizeOrigin := TouchScreenState.sizeOrigin pre;
              TouchScreenState.sizeScale := TouchScreenState.sizeScale pre |} ts)
        device in
    if AbsoluteAxisInfo.valid (TouchScreenState.xAxis parameters)
       && AbsoluteAxisInfo.valid (TouchScreenState.yAxis parameters)
    then
      let xOrigin := AbsoluteAxisInfo.minValue (TouchScreenState.xAxis parameters) in
      let yOrigin := AbsoluteAxisInfo.minValue (TouchScreenState.yAxis parameters) in
      r <- getReader ;;
      if InputReader.mDisplayWidth r <? 0
      then ret (withXY xOrigin FOne yOrigin FOne)
      else
        configureVirtualKeys
          (withXY xOrigin
             (FDiv (FInt (InputReader.mDisplayWidth r))
                   (FInt (AbsoluteAxisInfo.range (TouchScreenState.xAxis parameters))))
             yOrigin
             (FDiv (FInt (InputReader.mDisplayHeight r))
                   (FInt (AbsoluteAxisInfo.range (TouchScreenState.yAxis parameters)))))
    else ret (withXY 0 FOne 0 FOne)
  else ret device.

Definition configureDevice (device : Device) : M Device :=
  let ts := InputDevice.touchScreen device in
  let p := TouchScreenState.parameters ts in
  let withAxes x y pressure size :=
    {| TouchScreenState.useBadTouchFilter := TouchScreenState.useBadTouchFilter p;
       TouchScreenState.useAveragingTouchFilter :=
         TouchScreenState.useAveragingTouchFilter p;
       TouchScreenState.useJumpyTouchFilter := TouchScreenState.useJumpyTouchFilter p;
       TouchScreenState.xAxis := x; TouchScreenState.yAxis := y;
       TouchScreenState.pressureAxis := pressure;
       TouchScreenState.sizeAxis := size |} in
  p <- (if InputDevice.isMultiTouchScreen device then
          x <- configureAbsoluteAxisInfo device ABS_MT_POSITION_X ;;
          y <- configureAbsoluteAxisInfo device ABS_MT_POSITION_Y ;;
          pressure <- configureAbsoluteAxisInfo device ABS_MT_TOUCH_MAJOR ;;
          size <- configureAbsoluteAxisInfo device ABS_MT_WIDTH_MAJOR ;;
          ret (withAxes x y pressure size)
        else if InputDevice.isSingleTouchScreen device then
          x <- configureAbsoluteAxisInfo device ABS_X ;;
          y <- configureAbsoluteAxisInfo device ABS_Y ;;
          pressure <- configureAbsoluteAxisInfo device ABS_PRESSURE ;;
          size <- configureAbsoluteAxisInfo device ABS_TOOL_WIDTH ;;
          ret (withAxes x y pressure size)
        else ret p) ;;
  ts <- (if InputDevice.isTouchScreen device then
           useBad <- call filterTouchEvents ;;
           useAveraging <- call filterTouchEvents ;;
           useJumpy <- call filterJumpyTouchEvents ;;
           let p :=
             {| TouchScreenState.useBadTouchFilter := useBad;
                TouchScreenState.useAveragingTouchFilter := useAveraging;
                TouchScreenState.useJumpyTouchFilter := useJumpy;
                TouchScreenState.xAxis := TouchScreenState.xAxis p;
                TouchScreenState.yAxis := TouchScreenState.yAxis p;
                TouchScreenState.pressureAxis := TouchScreenState.pressureAxis p;
                TouchScreenState.sizeAxis := TouchScreenState.sizeAxis p |} in
           let pre := TouchScreenState.precalculated ts in
           let pressureAxis := TouchScreenState.pressureAxis p in
           let sizeAxis := TouchScreenState.sizeAxis p in
           let originOf axis :=
             if AbsoluteAxisInfo.valid axis then AbsoluteAxisInfo.minValue axis else 0 in
           let scaleOf axis :=
             if AbsoluteAxisInfo.valid axis
             then FDiv FOne (FInt (AbsoluteAxisInfo.range axis)) else FOne in
           ret (TouchScreenState.set_precalculated
                  {| TouchScreenState.xOrigin := TouchScreenState.xOrigin pre;
                     TouchScreenState.xScale := TouchScreenState.xScale pre;
                     TouchScreenState.yOrigin := TouchScreenState.yOrigin pre;
                     TouchScreenState.yScale := TouchScreenState.yScale pre;
                     TouchScreenState.pressureOrigin := originOf pressureAxis;
                     TouchScreenState.pressureScale := scaleOf pressureAxis;
                     TouchScreenState.sizeOrigin := originOf sizeAxis;
                     TouchScreenState.sizeScale := scaleOf sizeAxis |}
                  (TouchScreenState.set_parameters p ts))
         else ret (TouchScreenState.set_parameters p ts)) ;;
  let device := InputDevice.set_touchScreen ts device in
  let device :=
    if InputDevice.isTrackball device
    then InputDevice.set_trackball
           (TrackballState.set_precalculated
              {| TrackballState.xScale := FDiv FOne (FInt TRACKBALL_MOVEMENT_THRESHOLD);
                 TrackballState.yScale := FDiv FOne (FInt TRACKBALL_MOVEMENT_THRESHOLD);
                 TrackballState.xPrecision := FInt TRACKBALL_MOVEMENT_THRESHOLD;
                 TrackballState.yPrecision := FInt TRACKBALL_MOVEMENT_THRESHOLD |}
              (InputDevice.trackball device))
           device
    else device in
  configureDeviceForCurrentDisplaySize device.

(** ** Display properties *)

Definition resetDisplayProperties : M unit :=
  modifyReader (fun r =>
    InputReader.set_mDisplayOrientation (-1) (InputReader.set_displaySize (-1) (-1) r)).

(** The device of key [deviceId] is configured again, in place. *)
Definition reconfigureDevice (deviceId : Z) : M unit :=
  device <- deref deviceId ;;
  device <- configureDeviceForCurrentDisplaySize device ;;
  modifyDevice deviceId (fun _ => device).

Definition refreshDisplayProperties : M bool :=
  info <- call (getDisplayInfo 0) ;;
  match info with
  | Some (newWidth, newHeight, newOrientation) =>
      r <- getReader ;;
      (if negb (newWidth =? InputReader.mDisplayWidth r)
          || negb (newHeight =? InputReader.mDisplayHeight r)
       then
         modifyReader (InputReader.set_displaySize newWidth newHeight) ;;
         forEach (map fst (InputReader.mDevices r)) reconfigureDevice
       else ret tt) ;;
      r <- getReader ;;
      (if negb (newOrientation =? InputReader.mDisplayOrientation r)
       then modifyReader (InputReader.set_mDisplayOrientation newOrientation)
       else ret tt) ;;
      ret true
  | None =>
      resetDisplayProperties ;;
      ret false
  end.

(** ** Devices coming and going *)

Definition addDevice (when deviceId : Z) : M unit :=
  classes <- call (getDeviceClasses deviceId) ;;
  name <- call (getDeviceName deviceId) ;;
  let device := newInputDevice deviceId classes name in
  device <- (if negb (classes =? 0) then configureDevice device
             else ret (InputDevice.set_ignored true device)) ;;
  let device := resetDevice device in
  modifyReader (fun r =>
    InputReader.set_mDevices (keyedAdd (InputReader.mDevices r) deviceId device) r) ;;
  if negb (InputDevice.ignored device) then onConfigurationChanged when else ret tt.

Definition removeDevice (when : Z) (device : Device) : M unit :=
  modifyReader (fun r =>
    InputReader.set_mDevices
      (keyedRemove (InputReader.mDevices r) (InputDevice.id device)) r) ;;
  if negb (InputDevice.ignored device) then onConfigurationChanged when else ret tt.

Definition handleDeviceAdded (rawEvent : RawEvent.t) : M unit :=
  device <- getDevice (RawEvent.deviceId rawEvent) ;;
  match device with
  | Some _ => emit (LogW (SpuriousDeviceAdded (RawEvent.deviceId rawEvent)))
  | None => addDevice (RawEvent.when rawEvent) (RawEvent.deviceId rawEvent)
  end.

Definition handleDeviceRemoved (rawEvent : RawEvent.t) : M unit :=
  device <- getDevice (RawEvent.deviceId rawEvent) ;;
  match device with
  | None => emit (LogW (SpuriousDeviceRemoved (RawEvent.deviceId rawEvent)))
  | Some device => removeDevice (RawEvent.when rawEvent) device
  end.

Definition configureExcludedDevices : M unit :=
  excludedDeviceNames <- call getExcludedDeviceNames ;;
  forEach excludedDeviceNames (fun name => tell (addExcludedDevice name)).

(** ** Touch dispatch *)

(** One pointer of a frame in oriented display coordinates. *)
Definition pointerCoordsOf (pre : TouchScreenState.Precalculated)
  (displayWidth displayHeight orientation : Z) (p : PointerData.t) : PointerCoords.t :=
  let x := FMul (FInt (i32sub (PointerData.x p) (TouchScreenState.xOrigin pre)))
                (TouchScreenState.xScale pre) in
  let y := FMul (FInt (i32sub (PointerData.y p) (TouchScreenState.yOrigin pre)))
                (TouchScreenState.yScale pre) in
  let pressure :=
    FMul (FInt (i32sub (PointerData.pressure p) (TouchScreenState.pressureOrigin pre)))
         (TouchScreenState.pressureScale pre) in
  let size :=
    FMul (FInt (i32sub (PointerData.size p) (TouchScreenState.sizeOrigin pre)))
         (TouchScreenState.sizeScale pre) in
  let '(x, y) :=
    if orientation =? ROTATION_90 then (y, FSub (FInt displayWidth) x)
    else if orientation =? ROTATION_180
    then (FSub (FInt displayWidth) x, FSub (FInt displayHeight) y)
    else if orientation =? ROTATION_270 then (FSub (FInt displayHeight) y, x)
    else (x, y) in
  {| PointerCoords.x := x; PointerCoords.y := y;
     PointerCoords.pressure := pressure; PointerCoords.size := size |}.

(** The [while] loop of [dispatchTouch] over the marked ids.  Every turn
    clears one bit of a 32-bit set, so 32 turns always reach the empty set
    (lemma [walkPointers_idsOf]). *)
Fixpoint walkPointers (turns : nat) (coordsOf : PointerData.t -> PointerCoords.t)
  (touch : TouchData.t) (idBits : BitSet32)
  (pointerIds : list Z) (pointerCoords : list PointerCoords.t)
  : list Z * list PointerCoords.t :=
  match turns with
  | O => (pointerIds, pointerCoords)
  | S turns =>
      if negb (isEmpty idBits) then
        let id := firstMarkedBit idBits in
        let idBits := clearBit idBits id in
        let index := arrayGet 0 (TouchData.idToIndex touch) id in
        let p := arrayGet PointerData.zero (TouchData.pointers touch) index in
        walkPointers turns coordsOf touch idBits
          (pointerIds ++ [id]) (pointerCoords ++ [coordsOf p])
      else (pointerIds, pointerCoords)
  end.

Definition edgeFlagsOf (motionEventAction orientedWidth orientedHeight : Z)
  (first : PointerCoords.t) : Z :=
  if motionEventAction =? MOTION_EVENT_ACTION_DOWN then
    let flags := 0 in
    let flags :=
      if floatLe (PointerCoords.x first) (FInt 0)
      then Z.lor flags MOTION_EVENT_EDGE_FLAG_LEFT
      else if floatLe (FInt orientedWidth) (PointerCoords.x first)
      then Z.lor flags MOTION_EVENT_EDGE_FLAG_RIGHT else flags in
    let flags :=
      if floatLe (PointerCoords.y first) (FInt 0)
      then Z.lor flags MOTION_EVENT_EDGE_FLAG_TOP
      else if floatLe (FInt orientedHeight) (PointerCoords.y first)
      then Z.lor flags MOTION_EVENT_EDGE_FLAG_BOTTOM else flags in
    flags
  else 0.

Definition dispatchTouch (when deviceId policyFlags : Z) (touch : TouchData.t)
  (idBits : BitSet32) (motionEventAction : Z) : M unit :=
  r <- getReader ;;
  let orientation := InputReader.mDisplayOrientation r in
  let sideways := (orientation =? ROTATION_90) || (orientation =? ROTATION_270) in
  let orientedWidth :=
    if sideways then InputReader.mDisplayHeight r else InputReader.mDisplayWidth r in
  let orientedHeight :=
    if sideways then InputReader.mDisplayWidth r else InputReader.mDisplayHeight r in
  device <- deref deviceId ;;
  let precalculated := TouchScreenState.precalculated (InputDevice.touchScreen device) in
  let walked :=
    walkPointers 32
      (pointerCoordsOf precalculated (InputReader.mDisplayWidth r)
         (InputReader.mDisplayHeight r) orientation)
      touch idBits [] [] in
  let pointerIds := fst walked in
  let pointerCoords := snd walked in
  let motionEventEdgeFlags :=
    edgeFlagsOf motionEventAction orientedWidth orientedHeight
      (nth 0 pointerCoords PointerCoords.zero) in
  let downTime := TouchScreenState.downTime (InputDevice.touchScreen device) in
  metaState <- globalMetaState ;;
  emit (NotifyMotion when (InputDevice.id device) INPUT_EVENT_NATURE_TOUCH policyFlags
          motionEventAction metaState motionEventEdgeFlags
          (Z.of_nat (length pointerIds)) pointerIds pointerCoords FZero FZero downTime).

(** The first [while] loop of [dispatchTouches]: pointers going up.  The
    answer is the set of active ids after the loop. *)
Fixpoint dispatchPointersUp (turns : nat) (when deviceId policyFlags : Z)
  (upIdBits activeIdBits : BitSet32) : M BitSet32 :=
  match turns with
  | O => ret activeIdBits
  | S turns =>
      if negb (isEmpty upIdBits) then
        let upId := firstMarkedBit upIdBits in
        let upIdBits := clearBit upIdBits upId in
        let oldActiveIdBits := activeIdBits in
        let activeIdBits := clearBit activeIdBits upId in
        let motionEventAction :=
          if isEmpty activeIdBits then MOTION_EVENT_ACTION_UP
          else Z.lor MOTION_EVENT_ACTION_POINTER_UP
                 (Z.shiftl upId MOTION_EVENT_ACTION_POINTER_INDEX_SHIFT) in
        device <- deref deviceId ;;
        dispatchTouch when deviceId policyFlags
          (TouchScreenState.lastTouch (InputDevice.touchScreen device))
          oldActiveIdBits motionEventAction ;;
        dispatchPointersUp turns when deviceId policyFlags upIdBits activeIdBits
      else ret activeIdBits
  end.

(** The second [while] loop: pointers going down. *)
Fixpoint dispatchPointersDown (turns : nat) (when deviceId policyFlags : Z)
  (downIdBits activeIdBits : BitSet32) : M BitSet32 :=
  match turns with
  | O => ret activeIdBits
  | S turns =>
      if negb (isEmpty downIdBits) then
        let downId := firstMarkedBit downIdBits in
        let downIdBits := clearBit downIdBits downId in
        let oldActiveIdBits := activeIdBits in
        let activeIdBits := markBit activeIdBits downId in
        motionEventAction <-
          (if isEmpty oldActiveIdBits then
             modifyTouchScreen deviceId (TouchScreenState.set_downTime when) ;;
             ret MOTION_EVENT_ACTION_DOWN
           else
             ret (Z.lor MOTION_EVENT_ACTION_POINTER_DOWN
                    (Z.shiftl downId MOTION_EVENT_ACTION_POINTER_INDEX_SHIFT))) ;;
        device <- deref deviceId ;;
        dispatchTouch when deviceId policyFlags
          (TouchScreenState.currentTouch (InputDevice.touchScreen device))
          activeIdBits motionEventAction ;;
        dispatchPointersDown turns when deviceId policyFlags downIdBits activeIdBits
      else ret activeIdBits
  end.

Definition dispatchTouches (when deviceId policyFlags : Z) : M unit :=
  device <- deref deviceId ;;
  let currentTouch := TouchScreenState.currentTouch (InputDevice.touchScreen device) in
  let lastTouch := TouchScreenState.lastTouch (InputDevice.touchScreen device) in
  let currentPointerCount := TouchData.pointerCount currentTouch in
  let lastPointerCount := TouchData.pointerCount lastTouch in
  if (currentPointerCount =? 0) && (lastPointerCount =? 0) then ret tt
  else
    let currentIdBits := TouchData.idBits currentTouch in
    let lastIdBits := TouchData.idBits lastTouch in
    if currentIdBits =? lastIdBits then
      dispatchTouch when deviceId policyFlags currentTouch currentIdBits
        MOTION_EVENT_ACTION_MOVE
    else
      let upIdBits := Z.land lastIdBits (Z.lnot currentIdBits) in
      let downIdBits := Z.land currentIdBits (Z.lnot lastIdBits) in
      activeIdBits <- dispatchPointersUp 32 when deviceId policyFlags
                        upIdBits lastIdBits ;;
      _ <- dispatchPointersDown 32 when deviceId policyFlags
             downIdBits activeIdBits ;;
      ret tt.

(** ** Virtual keys *)

Definition dispatchVirtualKey (when deviceId policyFlags keyEventAction keyEventFlags : Z)
  : M unit :=
  updateExportedVirtualKeyState ;;
  device <- deref deviceId ;;
  let currentVirtualKey :=
    TouchScreenState.currentVirtualKey (InputDevice.touchScreen device) in
  let keyCode := CurrentVirtualKeyState.keyCode currentVirtualKey in
  let scanCode := CurrentVirtualKeyState.scanCode currentVirtualKey in
  let downTime := CurrentVirtualKeyState.downTime currentVirtualKey in
  metaState <- globalMetaState ;;
  (if keyEventAction =? KEY_EVENT_ACTION_DOWN
   then tell virtualKeyDownFeedback else ret tt) ;;
  policyActions <- call (interceptKey when (InputDevice.id device)
                           (keyEventAction =? KEY_EVENT_ACTION_DOWN)
                           keyCode scanCode policyFlags) ;;
  '(dispatch, policyFlags) <-
     applyStandardInputDispatchPolicyActions when policyActions policyFlags ;;
  if dispatch
  then emit (NotifyKey when (InputDevice.id device) INPUT_EVENT_NATURE_KEY policyFlags
               keyEventAction keyEventFlags keyCode scanCode metaState downTime)
  else ret tt.

Definition setVirtualKeyStatus (deviceId : Z) (status : CurrentVirtualKeyState.Status)
  : M unit :=
  modifyTouchScreen deviceId (fun ts =>
    TouchScreenState.set_currentVirtualKey
      (CurrentVirtualKeyState.set_status status (TouchScreenState.currentVirtualKey ts))
      ts).

(** The answer is whether the frame was consumed. *)
Definition consumeVirtualKeyTouches (when deviceId policyFlags : Z) : M bool :=
  device <- deref deviceId ;;
  let touchScreen := InputDevice.touchScreen device in
  let currentPointerCount :=
    TouchData.pointerCount (TouchScreenState.currentTouch touchScreen) in
  match CurrentVirtualKeyState.status (TouchScreenState.currentVirtualKey touchScreen) with
  | CurrentVirtualKeyState.STATUS_CANCELED =>
      (if currentPointerCount =? 0
       then setVirtualKeyStatus deviceId CurrentVirtualKeyState.STATUS_UP
       else ret tt) ;;
      ret true
  | CurrentVirtualKeyState.STATUS_DOWN =>
      if currentPointerCount =? 0 then
        setVirtualKeyStatus deviceId CurrentVirtualKeyState.STATUS_UP ;;
        dispatchVirtualKey when deviceId policyFlags KEY_EVENT_ACTION_UP
          (Z.lor KEY_EVENT_FLAG_FROM_SYSTEM KEY_EVENT_FLAG_VIRTUAL_HARD_KEY) ;;
        ret true
      else
        let stillInside :=
          if currentPointerCount =? 1 then
            match TouchScreenState.findVirtualKeyHit touchScreen with
            | Some virtualKey =>
                VirtualKey.keyCode virtualKey
                =? CurrentVirtualKeyState.keyCode
                     (TouchScreenState.currentVirtualKey touchScreen)
            | None => false
            end
          else false in
        if stillInside then ret true
        else
          setVirtualKeyStatus deviceId CurrentVirtualKeyState.STATUS_CANCELED ;;
          dispatchVirtualKey when deviceId policyFlags KEY_EVENT_ACTION_UP
            (Z.lor (Z.lor KEY_EVENT_FLAG_FROM_SYSTEM KEY_EVENT_FLAG_VIRTUAL_HARD_KEY)
                   KEY_EVENT_FLAG_CANCELED) ;;
          ret true
  | _ =>
      if (currentPointerCount =? 1)
         && (TouchData.pointerCount (TouchScreenState.lastTouch touchScreen) =? 0)
      then
        match TouchScreenState.findVirtualKeyHit touchScreen with
        | Some virtualKey =>
            modifyTouchScreen deviceId (fun ts =>
              TouchScreenState.set_currentVirtualKey
                {| CurrentVirtualKeyState.status := CurrentVirtualKeyState.STATUS_DOWN;
                   CurrentVirtualKeyState.downTime := when;
                   CurrentVirtualKeyState.keyCode := VirtualKey.keyCode virtualKey;
                   CurrentVirtualKeyState.scanCode := VirtualKey.scanCode virtualKey |}
                ts) ;;
            dispatchVirtualKey when deviceId policyFlags KEY_EVENT_ACTION_DOWN
              (Z.lor KEY_EVENT_FLAG_FROM_SYSTEM KEY_EVENT_FLAG_VIRTUAL_HARD_KEY) ;;
            ret true
        | None => ret false
        end
      else ret false
  end.

(** ** Touch frames *)

(** A filter hook run on the touch screen of the device. *)
Definition applyFilter (deviceId : Z)
  (filter : TouchScreenState.t FilterState -> bool * TouchData.t * FilterState)
  : M bool :=
  device <- deref deviceId ;;
  let '(changed, touch, history) := filter (InputDevice.touchScreen device) in
  modifyTouchScreen deviceId (fun ts =>
    TouchScreenState.set_filters history (TouchScreenState.set_currentTouch touch ts)) ;;
  ret changed.

(** A hook that answers nothing: the pointer-id calculation and the averaging
    filter. *)
Definition applyHook (deviceId : Z)
  (hook : TouchScreenState.t FilterState -> TouchData.t * FilterState) : M unit :=
  device <- deref deviceId ;;
  let '(touch, history) := hook (InputDevice.touchScreen device) in
  modifyTouchScreen deviceId (fun ts =>
    TouchScreenState.set_filters history (TouchScreenState.set_currentTouch touch ts)).

Definition onTouchScreenChanged (when deviceId : Z) (havePointerIds : bool) : M unit :=
  policyActions <- call (interceptTouch when) ;;
  '(dispatch, policyFlags) <-
     applyStandardInputDispatchPolicyActions when policyActions 0 ;;
  if negb dispatch then
    modifyTouchScreen deviceId (fun ts =>
      TouchScreenState.set_lastTouch (TouchData.clear (TouchScreenState.lastTouch ts)) ts)
  else
    device <- deref deviceId ;;
    let parameters := TouchScreenState.parameters (InputDevice.touchScreen device) in
    havePointerIds <-
      (if TouchScreenState.useBadTouchFilter parameters then
         changed <- applyFilter deviceId applyBadTouchFilter ;;
         ret (if changed then false else havePointerIds)
       else ret havePointerIds) ;;
    havePointerIds <-
      (if TouchScreenState.useJumpyTouchFilter parameters then
         changed <- applyFilter deviceId applyJumpyTouchFilter ;;
         ret (if changed then false else havePointerIds)
       else ret havePointerIds) ;;
    (if negb havePointerIds then
       applyHook deviceId calculatePointerIds
     else ret tt) ;;
    (* [savedTouch] points to the copy [temp] or to the current frame *)
    savedTouch <-
      (if TouchScreenState.useAveragingTouchFilter parameters then
         device <- deref deviceId ;;
         let temp := TouchData.copyFrom
                       (TouchScreenState.currentTouch (InputDevice.touchScreen device)) in
         applyHook deviceId applyAveragingTouchFilter ;;
         ret (Some temp)
       else ret None) ;;
    consumed <- consumeVirtualKeyTouches when deviceId policyFlags ;;
    (if negb consumed then dispatchTouches when deviceId policyFlags else ret tt) ;;
    modifyTouchScreen deviceId (fun ts =>
      TouchScreenState.set_lastTouch
        (TouchData.copyFrom
           (match savedTouch with
            | Some temp => temp
            | None => TouchScreenState.currentTouch ts
            end)) ts).

Definition REQUIRED_FIELDS : Z :=
  Z.lor (Z.lor (Z.lor MultiTouchScreenState.FIELD_ABS_MT_POSITION_X
                      MultiTouchScreenState.FIELD_ABS_MT_POSITION_Y)
               MultiTouchScreenState.FIELD_ABS_MT_TOUCH_MAJOR)
        MultiTouchScreenState.FIELD_ABS_MT_WIDTH_MAJOR.

(** The body of the [for] loop of the multi-touch assembly at [inIndex]; the
    state is the frame under construction, [outCount] and [havePointerIds]. *)
Definition assemblePointer (accumulator : MultiTouchScreenState.Accumulator)
  (st : TouchData.t * Z * bool) (inIndex : Z) : TouchData.t * Z * bool :=
  let '(out, outCount, havePointerIds) := st in
  let pointer :=
    arrayGet MultiTouchScreenState.zeroPointer
      (MultiTouchScreenState.pointers accumulator) inIndex in
  let fields := MultiTouchScreenState.fields pointer in
  if negb (Z.land fields REQUIRED_FIELDS =? REQUIRED_FIELDS) && DEBUG_POINTERS
  then st   (* the [continue] that only a DEBUG_POINTERS build has *)
  else if MultiTouchScreenState.absMTTouchMajor pointer <=? 0
  then st   (* pointer is not down: drop it *)
  else
    let slot := arrayGet PointerData.zero (TouchData.pointers out) outCount in
    let slot :=
      {| PointerData.id := PointerData.id slot;
         PointerData.x := MultiTouchScreenState.absMTPositionX pointer;
         PointerData.y := MultiTouchScreenState.absMTPositionY pointer;
         PointerData.pressure := MultiTouchScreenState.absMTTouchMajor pointer;
         PointerData.size := MultiTouchScreenState.absMTWidthMajor pointer |} in
    let out := TouchData.set_pointers (arraySet (TouchData.pointers out) outCount slot) out in
    let '(out, havePointerIds) :=
      if havePointerIds then
        if anySet fields MultiTouchScreenState.FIELD_ABS_MT_TRACKING_ID then
          let id := toUint32 (MultiTouchScreenState.absMTTrackingId pointer) in
          if id >? MAX_POINTER_ID then (out, false)
          else
            (TouchData.set_idBits (markBit (TouchData.idBits out) id)
               (TouchData.set_idToIndex (arraySet (TouchData.idToIndex out) id outCount)
                  (TouchData.set_pointers
                     (arraySet (TouchData.pointers out) outCount
                        (PointerData.set_id id slot)) out)),
             true)
        else (out, false)
      else (out, havePointerIds) in
    (out, outCount + 1, havePointerIds).

(** The frame and [havePointerIds] that the assembly hands to
    [onTouchScreenChanged]. *)
Definition assembleMultiTouch (accumulator : MultiTouchScreenState.Accumulator)
  (out : TouchData.t) : TouchData.t * bool :=
  let inCount := MultiTouchScreenState.pointerCount accumulator in
  let '(out, outCount, havePointerIds) :=
    fold_left (assemblePointer accumulator)
      (map Z.of_nat (seq 0 (Z.to_nat inCount)))
      (TouchData.clear out, 0, true) in
  (TouchData.set_pointerCount outCount out, havePointerIds).

Definition onMultiTouchScreenStateChanged (when deviceId : Z) : M unit :=
  refreshed <- refreshDisplayProperties ;;
  if negb refreshed then ret tt
  else
    device <- deref deviceId ;;
    let '(out, havePointerIds) :=
      assembleMultiTouch
        (MultiTouchScreenState.accumulator (InputDevice.multiTouchScreen device))
        (TouchScreenState.currentTouch (InputDevice.touchScreen device)) in
    modifyTouchScreen deviceId (TouchScreenState.set_currentTouch out) ;;
    onTouchScreenChanged when deviceId havePointerIds.

(** The committed single-touch state with the fields of the accumulator
    merged in. *)
Definition mergeSingleTouch (s : SingleTouchScreenState.t) : SingleTouchScreenState.Current :=
  let a := SingleTouchScreenState.accumulator s in
  let c := SingleTouchScreenState.current s in
  let fields := SingleTouchScreenState.fields a in
  {| SingleTouchScreenState.down :=
       if anySet fields SingleTouchScreenState.FIELD_BTN_TOUCH
       then SingleTouchScreenState.btnTouch a else SingleTouchScreenState.down c;
     SingleTouchScreenState.x :=
       if anySet fields SingleTouchScreenState.FIELD_ABS_X
       then SingleTouchScreenState.absX a else SingleTouchScreenState.x c;
     SingleTouchScreenState.y :=
       if anySet fields SingleTouchScreenState.FIELD_ABS_Y
       then SingleTouchScreenState.absY a else SingleTouchScreenState.y c;
     SingleTouchScreenState.pressure :=
       if anySet fields SingleTouchScreenState.FIELD_ABS_PRESSURE
       then SingleTouchScreenState.absPressure a else SingleTouchScreenState.pressure c;
     SingleTouchScreenState.size :=
       if anySet fields SingleTouchScreenState.FIELD_ABS_TOOL_WIDTH
       then SingleTouchScreenState.absToolWidth a else SingleTouchScreenState.size c |}.

Definition assembleSingleTouch (current : SingleTouchScreenState.Current)
  (out : TouchData.t) : TouchData.t :=
  let out := TouchData.clear out in
  if SingleTouchScreenState.down current then
    {| TouchData.pointerCount := 1;
       TouchData.pointers :=
         arraySet (TouchData.pointers out) 0
           {| PointerData.id := 0;
              PointerData.x := SingleTouchScreenState.x current;
              PointerData.y := SingleTouchScreenState.y current;
              PointerData.pressure := SingleTouchScreenState.pressure current;
              PointerData.size := SingleTouchScreenState.size current |};
       TouchData.idBits := markBit (TouchData.idBits out) 0;
       TouchData.idToIndex := arraySet (TouchData.idToIndex out) 0 0 |}
  else out.

Definition onSingleTouchScreenStateChanged (when deviceId : Z) : M unit :=
  refreshed <- refreshDisplayProperties ;;
  if negb refreshed then ret tt
  else
    modifyDevice deviceId (fun d =>
      InputDevice.set_singleTouchScreen
        (SingleTouchScreenState.set_current
           (mergeSingleTouch (InputDevice.singleTouchScreen d))
           (InputDevice.singleTouchScreen d)) d) ;;
    modifyDevice deviceId (fun d =>
      InputDevice.set_touchScreen
        (TouchScreenState.set_currentTouch
           (assembleSingleTouch
              (SingleTouchScreenState.current (InputDevice.singleTouchScreen d))
              (TouchScreenState.currentTouch (InputDevice.touchScreen d)))
           (InputDevice.touchScreen d)) d) ;;
    onTouchScreenChanged when deviceId true.

(** ** Trackball *)

Definition DELTA_FIELDS : Z := Z.lor TrackballState.FIELD_REL_X TrackballState.FIELD_REL_Y.

Definition onTrackballStateChanged (when deviceId : Z) : M unit :=
  refreshed <- refreshDisplayProperties ;;
  if negb refreshed then ret tt
  else
    device <- deref deviceId ;;
    let accumulator := TrackballState.accumulator (InputDevice.trackball device) in
    let fields := TrackballState.fields accumulator in
    let downChanged := anySet fields TrackballState.FIELD_BTN_MOUSE in
    let deltaChanged := anySet fields DELTA_FIELDS in
    let setCurrent v d :=
      InputDevice.set_trackball (TrackballState.set_current v (InputDevice.trackball d)) d in
    down <-
      (if downChanged then
         if TrackballState.btnMouse accumulator then
           modifyDevice deviceId
             (setCurrent {| TrackballState.down := true; TrackballState.downTime := when |}) ;;
           ret true
         else
           modifyDevice deviceId (fun d =>
             setCurrent
               {| TrackballState.down := false;
                  TrackballState.downTime :=
                    TrackballState.downTime (TrackballState.current (InputDevice.trackball d)) |}
               d) ;;
           ret false
       else ret (TrackballState.down (TrackballState.current (InputDevice.trackball device)))) ;;
    policyActions <- call (interceptTrackball when downChanged down deltaChanged) ;;
    '(dispatch, policyFlags) <-
       applyStandardInputDispatchPolicyActions when policyActions 0 ;;
    if negb dispatch then ret tt
    else
      let motionEventAction :=
        if downChanged
        then (if down then MOTION_EVENT_ACTION_DOWN else MOTION_EVENT_ACTION_UP)
        else MOTION_EVENT_ACTION_MOVE in
      let precalculated := TrackballState.precalculated (InputDevice.trackball device) in
      let x := if anySet fields TrackballState.FIELD_REL_X
               then FMul (FInt (TrackballState.relX accumulator))
                         (TrackballState.xScale precalculated)
               else FInt 0 in
      let y := if anySet fields TrackballState.FIELD_REL_Y
               then FMul (FInt (TrackballState.relY accumulator))
                         (TrackballState.yScale precalculated)
               else FInt 0 in
      r <- getReader ;;
      let orientation := InputReader.mDisplayOrientation r in
      let '(x, y) :=
        if orientation =? ROTATION_90 then (y, FNeg x)
        else if orientation =? ROTATION_180 then (FNeg x, FNeg y)
        else if orientation =? ROTATION_270 then (FNeg y, x)
        else (x, y) in
      let pointerCoords :=
        {| PointerCoords.x := x; PointerCoords.y := y;
           PointerCoords.pressure := FOne; PointerCoords.size := FInt 0 |} in
      metaState <- globalMetaState ;;
      device <- deref deviceId ;;
      emit (NotifyMotion when (InputDevice.id device) INPUT_EVENT_NATURE_TRACKBALL
              policyFlags motionEventAction metaState MOTION_EVENT_EDGE_FLAG_NONE
              1 [0] [pointerCoords]
              (TrackballState.xPrecision precalculated)
              (TrackballState.yPrecision precalculated)
              (TrackballState.downTime (TrackballState.current (InputDevice.trackball device)))).

(** ** Keys and switches *)

Definition setKeyboardDownTime (when : Z) (d : Device) : Device :=
  InputDevice.set_keyboard
    {| KeyboardState.metaState := KeyboardState.metaState (InputDevice.keyboard d);
       KeyboardState.downTime := when |} d.

Definition onKey (when deviceId : Z) (down : bool) (keyCode scanCode policyFlags : Z)
  : M unit :=
  refreshed <- refreshDisplayProperties ;;
  if negb refreshed then ret tt
  else
    device <- deref deviceId ;;
    let oldMetaState := KeyboardState.metaState (InputDevice.keyboard device) in
    let newMetaState := updateMetaState keyCode down oldMetaState in
    (if negb (oldMetaState =? newMetaState) then
       modifyDevice deviceId (fun d =>
         InputDevice.set_keyboard
           {| KeyboardState.metaState := newMetaState;
              KeyboardState.downTime := KeyboardState.downTime (InputDevice.keyboard d) |}
           d) ;;
       resetGlobalMetaState
     else ret tt) ;;
    r <- getReader ;;
    (* outside the rotation table the program has no defined behaviour: the
       model keeps the key code *)
    let keyCode :=
      match rotateKeyCode keyCode (InputReader.mDisplayOrientation r) with
      | Some rotated => rotated
      | None => keyCode
      end in
    (if down then modifyDevice deviceId (setKeyboardDownTime when) else ret tt) ;;
    policyActions <- call (interceptKey when (InputDevice.id device) down keyCode scanCode
                             policyFlags) ;;
    '(dispatch, policyFlags) <-
       applyStandardInputDispatchPolicyActions when policyActions policyFlags ;;
    if negb dispatch then ret tt
    else
      keyEventAction <-
        (if down then
           modifyDevice deviceId (setKeyboardDownTime when) ;; ret KEY_EVENT_ACTION_DOWN
         else ret KEY_EVENT_ACTION_UP) ;;
      let keyEventFlags :=
        if anySet policyActions ACTION_WOKE_HERE
        then Z.lor KEY_EVENT_FLAG_FROM_SYSTEM KEY_EVENT_FLAG_WOKE_HERE
        else KEY_EVENT_FLAG_FROM_SYSTEM in
      device <- deref deviceId ;;
      emit (NotifyKey when (InputDevice.id device) INPUT_EVENT_NATURE_KEY policyFlags
              keyEventAction keyEventFlags keyCode scanCode
              (KeyboardState.metaState (InputDevice.keyboard device))
              (KeyboardState.downTime (InputDevice.keyboard device))).

Definition onSwitch (when deviceId switchCode switchValue : Z) : M unit :=
  policyActions <- call (interceptSwitch when switchCode switchValue) ;;
  _ <- applyStandardInputDispatchPolicyActions when policyActions 0 ;;
  ret tt.

(** ** Raw event handlers *)

Definition setMultiTouchAccumulator (v : MultiTouchScreenState.Accumulator) (d : Device)
  : Device :=
  InputDevice.set_multiTouchScreen {| MultiTouchScreenState.accumulator := v |} d.

Definition mapMultiTouchAccumulator
  (f : MultiTouchScreenState.Accumulator -> MultiTouchScreenState.Accumulator)
  (d : Device) : Device :=
  setMultiTouchAccumulator
    (f (MultiTouchScreenState.accumulator (InputDevice.multiTouchScreen d))) d.

Definition mapSingleTouchAccumulator
  (f : SingleTouchScreenState.Accumulator -> SingleTouchScreenState.Accumulator)
  (d : Device) : Device :=
  InputDevice.set_singleTouchScreen
    (SingleTouchScreenState.set_accumulator
       (f (SingleTouchScreenState.accumulator (InputDevice.singleTouchScreen d)))
       (InputDevice.singleTouchScreen d)) d.

Definition mapTrackballAccumulator
  (f : TrackballState.Accumulator -> TrackballState.Accumulator) (d : Device) : Device :=
  InputDevice.set_trackball
    (TrackballState.set_accumulator
       (f (TrackballState.accumulator (InputDevice.trackball d)))
       (InputDevice.trackball d)) d.

(** [pointers[pointerIndex].clear()]. *)
Definition clearPointerAt (pointerIndex : Z) (a : MultiTouchScreenState.Accumulator)
  : MultiTouchScreenState.Accumulator :=
  {| MultiTouchScreenState.pointerCount := MultiTouchScreenState.pointerCount a;
     MultiTouchScreenState.pointers :=
       arraySet (MultiTouchScreenState.pointers a) pointerIndex
         (MultiTouchScreenState.clearPointer
            (arrayGet MultiTouchScreenState.zeroPointer
               (MultiTouchScreenState.pointers a) pointerIndex)) |}.

Definition setPointerCount (v : Z) (a : MultiTouchScreenState.Accumulator)
  : MultiTouchScreenState.Accumulator :=
  {| MultiTouchScreenState.pointerCount := v;
     MultiTouchScreenState.pointers := MultiTouchScreenState.pointers a |}.

Definition handleSync (rawEvent : RawEvent.t) : M unit :=
  let deviceId := RawEvent.deviceId rawEvent in
  found <- getNonIgnoredDevice deviceId ;;
  match found with
  | None => ret tt
  | Some _ =>
      if RawEvent.scanCode rawEvent =? SYN_MT_REPORT then
        device <- deref deviceId ;;
        if InputDevice.isMultiTouchScreen device then
          let accumulator :=
            MultiTouchScreenState.accumulator (InputDevice.multiTouchScreen device) in
          let pointerIndex := MultiTouchScreenState.pointerCount accumulator in
          pointerIndex <-
            (if negb (MultiTouchScreenState.fields
                        (arrayGet MultiTouchScreenState.zeroPointer
                           (MultiTouchScreenState.pointers accumulator) pointerIndex)
                      =? 0)
             then
               if pointerIndex =? MAX_POINTERS then
                 emit (LogW (TooManyPointers MAX_POINTERS)) ;; ret pointerIndex
               else
                 let pointerIndex := pointerIndex + 1 in
                 modifyDevice deviceId
                   (mapMultiTouchAccumulator (setPointerCount pointerIndex)) ;;
                 ret pointerIndex
             else ret pointerIndex) ;;
          modifyDevice deviceId (mapMultiTouchAccumulator (clearPointerAt pointerIndex))
        else ret tt
      else if RawEvent.scanCode rawEvent =? SYN_REPORT then
        device <- deref deviceId ;;
        (if InputDevice.isMultiTouchScreen device then
           if MultiTouchScreenState.isDirty
                (MultiTouchScreenState.accumulator (InputDevice.multiTouchScreen device))
           then
             onMultiTouchScreenStateChanged (RawEvent.when rawEvent) deviceId ;;
             modifyDevice deviceId (mapMultiTouchAccumulator MultiTouchScreenState.clear)
           else ret tt
         else if InputDevice.isSingleTouchScreen device then
           if SingleTouchScreenState.isDirty
                (SingleTouchScreenState.accumulator (InputDevice.singleTouchScreen device))
           then
             onSingleTouchScreenStateChanged (RawEvent.when rawEvent) deviceId ;;
             modifyDevice deviceId (mapSingleTouchAccumulator SingleTouchScreenState.clear)
           else ret tt
         else ret tt) ;;
        device <- deref deviceId ;;
        if TrackballState.isDirty (TrackballState.accumulator (InputDevice.trackball device))
        then
          onTrackballStateChanged (RawEvent.when rawEvent) deviceId ;;
          modifyDevice deviceId (mapTrackballAccumulator TrackballState.clear)
        else ret tt
      else ret tt
  end.

Definition handleKey (rawEvent : RawEvent.t) : M unit :=
  let deviceId := RawEvent.deviceId rawEvent in
  found <- getNonIgnoredDevice deviceId ;;
  match found with
  | None => ret tt
  | Some device =>
      let down := negb (RawEvent.value rawEvent =? 0) in
      let scanCode := RawEvent.scanCode rawEvent in
      if InputDevice.isSingleTouchScreen device && (scanCode =? BTN_TOUCH) then
        modifyDevice deviceId (mapSingleTouchAccumulator (fun a =>
          {| SingleTouchScreenState.fields :=
               Z.lor (SingleTouchScreenState.fields a) SingleTouchScreenState.FIELD_BTN_TOUCH;
             SingleTouchScreenState.btnTouch := down;
             SingleTouchScreenState.absX := SingleTouchScreenState.absX a;
             SingleTouchScreenState.absY := SingleTouchScreenState.absY a;
             SingleTouchScreenState.absPressure := SingleTouchScreenState.absPressure a;
             SingleTouchScreenState.absToolWidth := SingleTouchScreenState.absToolWidth a |}))
      else if InputDevice.isTrackball device && (scanCode =? BTN_MOUSE) then
        modifyDevice deviceId (mapTrackballAccumulator (fun a =>
          {| TrackballState.fields :=
               Z.lor (TrackballState.fields a) TrackballState.FIELD_BTN_MOUSE;
             TrackballState.btnMouse := down;
             TrackballState.relX := TrackballState.relX a;
             TrackballState.relY := TrackballState.relY a |}))
      else if InputDevice.isKeyboard device then
        onKey (RawEvent.when rawEvent) deviceId down (RawEvent.keyCode rawEvent) scanCode
          (RawEvent.flags rawEvent)
      else ret tt
  end.

Definition handleRelativeMotion (rawEvent : RawEvent.t) : M unit :=
  let deviceId := RawEvent.deviceId rawEvent in
  found <- getNonIgnoredDevice deviceId ;;
  match found with
  | None => ret tt
  | Some device =>
      if InputDevice.isTrackball device then
        if RawEvent.scanCode rawEvent =? REL_X then
          modifyDevice deviceId (mapTrackballAccumulator (fun a =>
            {| TrackballState.fields :=
                 Z.lor (TrackballState.fields a) TrackballState.FIELD_REL_X;
               TrackballState.btnMouse := TrackballState.btnMouse a;
               TrackballState.relX := RawEvent.value rawEvent;
               TrackballState.relY := TrackballState.relY a |}))
        else if RawEvent.scanCode rawEvent =? REL_Y then
          modifyDevice deviceId (mapTrackballAccumulator (fun a =>
            {| TrackballState.fields :=
                 Z.lor (TrackballState.fields a) TrackballState.FIELD_REL_Y;
               TrackballState.btnMouse := TrackballState.btnMouse a;
               TrackballState.relX := TrackballState.relX a;
               TrackballState.relY := RawEvent.value rawEvent |}))
        else ret tt
      else ret tt
  end.

(** The write [pointer->field = value] with its bit of [fields], for the
    pointer slot at [pointerCount]. *)
Definition recordMultiTouchAxis (scanCode value : Z) (p : MultiTouchScreenState.Pointer)
  : MultiTouchScreenState.Pointer :=
  let withFields bit :=
    Z.lor (MultiTouchScreenState.fields p) bit in
  if scanCode =? ABS_MT_POSITION_X then
    {| MultiTouchScreenState.fields := withFields MultiTouchScreenState.FIELD_ABS_MT_POSITION_X;
       MultiTouchScreenState.absMTPositionX := value;
       MultiTouchScreenState.absMTPositionY := MultiTouchScreenState.absMTPositionY p;
       MultiTouchScreenState.absMTTouchMajor := MultiTouchScreenState.absMTTouchMajor p;
       MultiTouchScreenState.absMTWidthMajor := MultiTouchScreenState.absMTWidthMajor p;
       MultiTouchScreenState.absMTTrackingId := MultiTouchScreenState.absMTTrackingId p |}
  else if scanCode =? ABS_MT_POSITION_Y then
    {| MultiTouchScreenState.fields := withFields MultiTouchScreenState.FIELD_ABS_MT_POSITION_Y;
       MultiTouchScreenState.absMTPositionX := MultiTouchScreenState.absMTPositionX p;
       MultiTouchScreenState.absMTPositionY := value;
       MultiTouchScreenState.absMTTouchMajor := MultiTouchScreenState.absMTTouchMajor p;
       MultiTouchScreenState.absMTWidthMajor := MultiTouchScreenState.absMTWidthMajor p;
       MultiTouchScreenState.absMTTrackingId := MultiTouchScreenState.absMTTrackingId p |}
  else if scanCode =? ABS_MT_TOUCH_MAJOR then
    {| MultiTouchScreenState.fields := withFields MultiTouchScreenState.FIELD_ABS_MT_TOUCH_MAJOR;
       MultiTouchScreenState.absMTPositionX := MultiTouchScreenState.absMTPositionX p;
       MultiTouchScreenState.absMTPositionY := MultiTouchScreenState.absMTPositionY p;
       MultiTouchScreenState.absMTTouchMajor := value;
       MultiTouchScreenState.absMTWidthMajor := MultiTouchScreenState.absMTWidthMajor p;
       MultiTouchScreenState.absMTTrackingId := MultiTouchScreenState.absMTTrackingId p |}
  else if scanCode =? ABS_MT_WIDTH_MAJOR then
    {| MultiTouchScreenState.fields := withFields MultiTouchScreenState.FIELD_ABS_MT_WIDTH_MAJOR;
       MultiTouchScreenState.absMTPositionX := MultiTouchScreenState.absMTPositionX p;
       MultiTouchScreenState.absMTPositionY := MultiTouchScreenState.absMTPositionY p;
       MultiTouchScreenState.absMTTouchMajor := MultiTouchScreenState.absMTTouchMajor p;
       MultiTouchScreenState.absMTWidthMajor := value;
       MultiTouchScreenState.absMTTrackingId := MultiTouchScreenState.absMTTrackingId p |}
  else if scanCode =? ABS_MT_TRACKING_ID then
    {| MultiTouchScreenState.fields := withFields MultiTouchScreenState.FIELD_ABS_MT_TRACKING_ID;
       MultiTouchScreenState.absMTPositionX := MultiTouchScreenState.absMTPositionX p;
       MultiTouchScreenState.absMTPositionY := MultiTouchScreenState.absMTPositionY p;
       MultiTouchScreenState.absMTTouchMajor := MultiTouchScreenState.absMTTouchMajor p;
       MultiTouchScreenState.absMTWidthMajor := MultiTouchScreenState.absMTWidthMajor p;
       MultiTouchScreenState.absMTTrackingId := value |}
  else p.

Definition recordSingleTouchAxis (scanCode value : Z) (a : SingleTouchScreenState.Accumulator)
  : SingleTouchScreenState.Accumulator :=
  let withFields bit := Z.lor (SingleTouchScreenState.fields a) bit in
  if scanCode =? ABS_X then
    {| SingleTouchScreenState.fields := withFields SingleTouchScreenState.FIELD_ABS_X;
       SingleTouchScreenState.btnTouch := SingleTouchScreenState.btnTouch a;
       SingleTouchScreenState.absX := value;
       SingleTouchScreenState.absY := SingleTouchScreenState.absY a;
       SingleTouchScreenState.absPressure := SingleTouchScreenState.absPressure a;
       SingleTouchScreenState.absToolWidth := SingleTouchScreenState.absToolWidth a |}
  else if scanCode =? ABS_Y then
    {| SingleTouchScreenState.fields := withFields SingleTouchScreenState.FIELD_ABS_Y;
       SingleTouchScreenState.btnTouch := SingleTouchScreenState.btnTouch a;
       SingleTouchScreenState.absX := SingleTouchScreenState.absX a;
       SingleTouchScreenState.absY := value;
       SingleTouchScreenState.absPressure := SingleTouchScreenState.absPressure a;
       SingleTouchScreenState.absToolWidth := SingleTouchScreenState.absToolWidth a |}
  else if scanCode =? ABS_PRESSURE then
    {| SingleTouchScreenState.fields := withFields SingleTouchScreenState.FIELD_ABS_PRESSURE;
       SingleTouchScreenState.btnTouch := SingleTouchScreenState.btnTouch a;
       SingleTouchScreenState.absX := SingleTouchScreenState.absX a;
       SingleTouchScreenState.absY := SingleTouchScreenState.absY a;
       SingleTouchScreenState.absPressure := value;
       SingleTouchScreenState.absToolWidth := SingleTouchScreenState.absToolWidth a |}
  else if scanCode =? ABS_TOOL_WIDTH then
    {| SingleTouchScreenState.fields := withFields SingleTouchScreenState.FIELD_ABS_TOOL_WIDTH;
       SingleTouchScreenState.btnTouch := SingleTouchScreenState.btnTouch a;
       SingleTouchScreenState.absX := SingleTouchScreenState.absX a;
       SingleTouchScreenState.absY := SingleTouchScreenState.absY a;
       SingleTouchScreenState.absPressure := SingleTouchScreenState.absPressure a;
       SingleTouchScreenState.absToolWidth := value |}
  else a.

Definition handleAbsoluteMotion (rawEvent : RawEvent.t) : M unit :=
  let deviceId := RawEvent.deviceId rawEvent in
  found <- getNonIgnoredDevice deviceId ;;
  match found with
  | None => ret tt
  | Some device =>
      if InputDevice.isMultiTouchScreen device then
        modifyDevice deviceId (mapMultiTouchAccumulator (fun a =>
          let pointerIndex := MultiTouchScreenState.pointerCount a in
          {| MultiTouchScreenState.pointerCount := MultiTouchScreenState.pointerCount a;
             MultiTouchScreenState.pointers :=
               arraySet (MultiTouchScreenState.pointers a) pointerIndex
                 (recordMultiTouchAxis (RawEvent.scanCode rawEvent) (RawEvent.value rawEvent)
                    (arrayGet MultiTouchScreenState.zeroPointer
                       (MultiTouchScreenState.pointers a) pointerIndex)) |}))
      else if InputDevice.isSingleTouchScreen device then
        modifyDevice deviceId (mapSingleTouchAccumulator
          (recordSingleTouchAxis (RawEvent.scanCode rawEvent) (RawEvent.value rawEvent)))
      else ret tt
  end.

Definition handleSwitch (rawEvent : RawEvent.t) : M unit :=
  found <- getNonIgnoredDevice (RawEvent.deviceId rawEvent) ;;
  match found with
  | None => ret tt
  | Some _ =>
      onSwitch (RawEvent.when rawEvent) (RawEvent.deviceId rawEvent)
        (RawEvent.scanCode rawEvent) (RawEvent.value rawEvent)
  end.

Definition process (rawEvent : RawEvent.t) : M unit :=
  let type := RawEvent.type rawEvent in
  if type =? DEVICE_ADDED then handleDeviceAdded rawEvent
  else if type =? DEVICE_REMOVED then handleDeviceRemoved rawEvent
  else if type =? EV_SYN then handleSync rawEvent
  else if type =? EV_KEY then handleKey rawEvent
  else if type =? EV_REL then handleRelativeMotion rawEvent
  else if type =? EV_ABS then handleAbsoluteMotion rawEvent
  else if type =? EV_SW then handleSwitch rawEvent
  else ret tt.

(** The event is stamped again with the monotonic clock of the system. *)
Definition loopOnce : M unit :=
  rawEvent <- call getEvent ;;
  when <- call systemTime ;;
  process (RawEvent.set_when when rawEvent).

(** [n] iterations of the reader thread. *)
Fixpoint loopTimes (n : nat) : M unit :=
  match n with
  | O => ret tt
  | S n => loopOnce ;; loopTimes n
  end.

(** The events of a list, handled in order. *)
Fixpoint processAll (rawEvents : list RawEvent.t) : M unit :=
  match rawEvents with
  | [] => ret tt
  | rawEvent :: rest => process rawEvent ;; processAll rest
  end.

(** The reader object as the constructor finds it: the registry is empty,
    and the plain fields hold what the memory held.  The constructor writes
    all of them but the exported configuration. *)
Context {uninitialised : UninitialisedFields}.

Definition unconstructedReader : Reader :=
  {| InputReader.mDevices := [];
     InputReader.mDisplayWidth := uninitialisedDisplayWidth;
     InputReader.mDisplayHeight := uninitialisedDisplayHeight;
     InputReader.mDisplayOrientation := uninitialisedDisplayOrientation;
     InputReader.mGlobalMetaState := uninitialisedGlobalMetaState;
     InputReader.mExportedVirtualKeyCode := uninitialisedVirtualKeyCode;
     InputReader.mExportedVirtualScanCode := uninitialisedVirtualScanCode;
     InputReader.mExportedInputConfiguration := uninitialisedInputConfiguration |}.

Definition constructInputReader : M unit :=
  configureExcludedDevices ;;
  resetGlobalMetaState ;;
  resetDisplayProperties ;;
  updateExportedVirtualKeyState.

(** The reader as its constructor leaves it, in a given world. *)
Definition newInputReader (w : World) : State :=
  stateOf (constructInputReader (unconstructedReader, w)).

(** ** Vocabulary of the properties *)

(** The ids a 32-bit set can hold, in ascending order. *)
Definition allIds : list Z := map Z.of_nat (seq 0 32).

Definition memId (i : Z) (ids : list Z) : bool := existsb (Z.eqb i) ids.
Definition removeId (u : Z) (ids : list Z) : list Z :=
  filter (fun i => negb (i =? u)) ids.
Definition insertId (d : Z) (ids : list Z) : list Z :=
  filter (fun i => memId i ids || (i =? d)) allIds.
Definition isNil {A : Type} (l : list A) : bool :=
  match l with [] => true | _ => false end.

(** What a motion event tells about the pointers: its action, the pointer
    ids and their coordinates.  Other effects tell nothing. *)
Definition motionOf (e : Effect) : option (Z * list Z * list PointerCoords.t) :=
  match e with
  | NotifyMotion _ _ _ _ action _ _ _ pointerIds pointerCoords _ _ _ =>
      Some (action, pointerIds, pointerCoords)
  | _ => None
  end.

(** The coordinates of the pointers of given ids in a frame. *)
Definition frameCoords (coordsOf : PointerData.t -> PointerCoords.t)
  (touch : TouchData.t) (ids : list Z) : list PointerCoords.t :=
  map (fun id =>
         coordsOf (arrayGet PointerData.zero (TouchData.pointers touch)
                     (arrayGet 0 (TouchData.idToIndex touch) id)))
      ids.

(** The events the spec asks for when pointers go up: one per id, in the
    order given; the event shows the pointers that were active before the id
    is removed and is UP when no pointer is active after. *)
Fixpoint expectedUps (coordsOf : PointerData.t -> PointerCoords.t)
  (lastTouch : TouchData.t) (active ups : list Z)
  : list (Z * list Z * list PointerCoords.t) :=
  match ups with
  | [] => []
  | upId :: rest =>
      let after := removeId upId active in
      (if isNil after then MOTION_EVENT_ACTION_UP
       else Z.lor MOTION_EVENT_ACTION_POINTER_UP
              (Z.shiftl upId MOTION_EVENT_ACTION_POINTER_INDEX_SHIFT),
       active, frameCoords coordsOf lastTouch active)
      :: expectedUps coordsOf lastTouch after rest
  end.

(** The events the spec asks for when pointers go down: the event shows the
    pointers active after the id is added and is DOWN when no pointer was
    active before. *)
Fixpoint expectedDowns (coordsOf : PointerData.t -> PointerCoords.t)
  (currentTouch : TouchData.t) (active downs : list Z)
  : list (Z * list Z * list PointerCoords.t) :=
  match downs with
  | [] => []
  | downId :: rest =>
      let after := insertId downId active in
      (if isNil active then MOTION_EVENT_ACTION_DOWN
       else Z.lor MOTION_EVENT_ACTION_POINTER_DOWN
              (Z.shiftl downId MOTION_EVENT_ACTION_POINTER_INDEX_SHIFT),
       after, frameCoords coordsOf currentTouch after)
      :: expectedDowns coordsOf currentTouch after rest
  end.

(** Section 4.3 of the spec, touch dispatch, on the id lists of the two
    frames. *)
Definition expectedTouchMotions (coordsOf : PointerData.t -> PointerCoords.t)
  (currentTouch lastTouch : TouchData.t) : list (Z * list Z * list PointerCoords.t) :=
  let currentIds := idsOf (TouchData.idBits currentTouch) in
  let lastIds := idsOf (TouchData.idBits lastTouch) in
  if TouchData.idBits currentTouch =? TouchData.idBits lastTouch then
    if isNil currentIds then []
    else [(MOTION_EVENT_ACTION_MOVE, currentIds,
           frameCoords coordsOf currentTouch currentIds)]
  else
    let ups := filter (fun i => negb (memId i currentIds)) lastIds in
    let downs := filter (fun i => negb (memId i lastIds)) currentIds in
    expectedUps coordsOf lastTouch lastIds ups
    ++ expectedDowns coordsOf currentTouch
         (fold_left (fun active upId => removeId upId active) ups lastIds) downs.

(** A frame whose pointer count is zero exactly when its id set is empty, as
    every frame with ids is. *)
Definition frameCountsIds (touch : TouchData.t) : Prop :=
  TouchData.pointerCount touch = 0 <-> TouchData.idBits touch = 0.

(** The display mapping the reader applies to the pointers of a device. *)
Definition displayCoordsOf (r : Reader) (device : Device)
  : PointerData.t -> PointerCoords.t :=
  pointerCoordsOf (TouchScreenState.precalculated (InputDevice.touchScreen device))
    (InputReader.mDisplayWidth r) (InputReader.mDisplayHeight r)
    (InputReader.mDisplayOrientation r).

(** Two states that show the same display and, for the device of a key, the
    same id, display mapping and touch frames. *)
Definition touchStable (deviceId : Z) (s s' : State) : Prop :=
  InputReader.mDisplayWidth (fst s') = InputReader.mDisplayWidth (fst s) /\
  InputReader.mDisplayHeight (fst s') = InputReader.mDisplayHeight (fst s) /\
  InputReader.mDisplayOrientation (fst s') = InputReader.mDisplayOrientation (fst s) /\
  forall d, keyedLookup (InputReader.mDevices (fst s)) deviceId = Some d ->
    exists d',
      keyedLookup (InputReader.mDevices (fst s')) deviceId = Some d' /\
      InputDevice.id d' = InputDevice.id d /\
      TouchScreenState.precalculated (InputDevice.touchScreen d')
      = TouchScreenState.precalculated (InputDevice.touchScreen d) /\
      TouchScreenState.currentTouch (InputDevice.touchScreen d')
      = TouchScreenState.currentTouch (InputDevice.touchScreen d) /\
      TouchScreenState.lastTouch (InputDevice.touchScreen d')
      = TouchScreenState.lastTouch (InputDevice.touchScreen d).

(** An event handed to the dispatcher as a motion or as a key. *)
Definition isMotionOrKey (e : Effect) : bool :=
  match e with
  | NotifyMotion _ _ _ _ _ _ _ _ _ _ _ _ _ => true
  | NotifyKey _ _ _ _ _ _ _ _ _ _ => true
  | _ => false
  end.

(** A pointer slot of the accumulator with position and touch-major but no
    width-major, and the accumulator that holds it as its only pointer. *)
Definition slotWithoutWidth : MultiTouchScreenState.Pointer :=
  {| MultiTouchScreenState.fields :=
       Z.lor (Z.lor MultiTouchScreenState.FIELD_ABS_MT_POSITION_X
                    MultiTouchScreenState.FIELD_ABS_MT_POSITION_Y)
             MultiTouchScreenState.FIELD_ABS_MT_TOUCH_MAJOR;
     MultiTouchScreenState.absMTPositionX := 100;
     MultiTouchScreenState.absMTPositionY := 200;
     MultiTouchScreenState.absMTTouchMajor := 5;
     MultiTouchScreenState.absMTWidthMajor := 0;
     MultiTouchScreenState.absMTTrackingId := 0 |}.

Definition accumulatorWithoutWidth : MultiTouchScreenState.Accumulator :=
  {| MultiTouchScreenState.pointerCount := 1;
     MultiTouchScreenState.pointers :=
       slotWithoutWidth :: repeat MultiTouchScreenState.zeroPointer 10 |}.

Definition virtualKeyStatus (d : Device) : CurrentVirtualKeyState.Status :=
  CurrentVirtualKeyState.status
    (TouchScreenState.currentVirtualKey (InputDevice.touchScreen d)).


(** ** Frames: what an update leaves alone *)

(** A computation keeps a relation between the state it starts in and the
    state it ends in. *)
Definition preserves {A : Type} (R : State -> State -> Prop) (m : M A) : Prop :=
  forall s, R s (stateOf (m s)).

(** The state with the device of a key updated. *)
Definition updateDevice (deviceId : Z) (f : Device -> Device) (s : State) : State :=
  (InputReader.set_mDevices (keyedUpdate (InputReader.mDevices (fst s)) deviceId f) (fst s),
   snd s).

(** An update of the reader that keeps the devices and the exported virtual
    key. *)
Definition readerFrame (f : Reader -> Reader) : Prop :=
  forall r,
    InputReader.mDevices (f r) = InputReader.mDevices r /\
    InputReader.mExportedVirtualKeyCode (f r) = InputReader.mExportedVirtualKeyCode r /\
    InputReader.mExportedVirtualScanCode (f r) = InputReader.mExportedVirtualScanCode r.

(** An update of a device that keeps its identity and its accumulators. *)
Definition keepsAccumulators (f : Device -> Device) : Prop :=
  forall d,
    InputDevice.id (f d) = InputDevice.id d /\
    InputDevice.classes (f d) = InputDevice.classes d /\
    InputDevice.ignored (f d) = InputDevice.ignored d /\
    InputDevice.multiTouchScreen (f d) = InputDevice.multiTouchScreen d /\
    SingleTouchScreenState.accumulator (InputDevice.singleTouchScreen (f d))
    = SingleTouchScreenState.accumulator (InputDevice.singleTouchScreen d) /\
    TrackballState.accumulator (InputDevice.trackball (f d))
    = TrackballState.accumulator (InputDevice.trackball d).

(** An update of a device that keeps its identity and its touch screen. *)
Definition keepsTouchScreen (f : Device -> Device) : Prop :=
  forall d,
    InputDevice.id (f d) = InputDevice.id d /\
    InputDevice.classes (f d) = InputDevice.classes d /\
    InputDevice.ignored (f d) = InputDevice.ignored d /\
    InputDevice.touchScreen (f d) = InputDevice.touchScreen d.

(** An update of a device that keeps its identity, its accumulators, its
    virtual keys and its current virtual key: what the frame handlers do to
    a device outside the virtual-key state machine. *)
Definition devFrame (f : Device -> Device) : Prop :=
  keepsAccumulators f /\
  forall d,
    TouchScreenState.currentVirtualKey (InputDevice.touchScreen (f d))
    = TouchScreenState.currentVirtualKey (InputDevice.touchScreen d) /\
    TouchScreenState.virtualKeys (InputDevice.touchScreen (f d))
    = TouchScreenState.virtualKeys (InputDevice.touchScreen d).

(** An update of the accumulators of a device that keeps the multi-touch
    pointer count or resets it. *)
Definition accFrame (f : Device -> Device) : Prop :=
  keepsTouchScreen f /\
  forall d,
    MultiTouchScreenState.pointerCount
      (MultiTouchScreenState.accumulator (InputDevice.multiTouchScreen (f d)))
    = MultiTouchScreenState.pointerCount
        (MultiTouchScreenState.accumulator (InputDevice.multiTouchScreen d)) \/
    MultiTouchScreenState.pointerCount
      (MultiTouchScreenState.accumulator (InputDevice.multiTouchScreen (f d))) = 0.






(** Virtual keys whose key code is not the "no key" value -1. *)
Definition virtualKeyCodesOk (virtualKeys : list VirtualKey.t) : Prop :=
  Forall (fun k => VirtualKey.keyCode k <> -1) virtualKeys.

(** The event hub never translates a scan code to the key code -1, which
    the reader uses for "no key". *)
Definition hubKeyCodesValid : Prop :=
  forall deviceId scanCode (w w' : World) keyCode flags,
    scancodeToKeycode deviceId scanCode w = (Some (keyCode, flags), w') ->
    keyCode <> -1.

(** The touch screen of a device after it is configured for the display:
    new precalculated values and a new list of virtual keys. *)
Definition reconfigured (pre : TouchScreenState.Precalculated)
  (virtualKeys : list VirtualKey.t) (d : Device) : Device :=
  InputDevice.set_touchScreen
    (TouchScreenState.set_virtualKeys virtualKeys
       (TouchScreenState.set_precalculated pre (InputDevice.touchScreen d))) d.

(** The list of virtual keys is the one of the device, or the device is a
    touch screen and the list was built by the configuration loop. *)
Definition virtualKeysFrom (d : Device) (virtualKeys : list VirtualKey.t) : Prop :=
  virtualKeys = TouchScreenState.virtualKeys (InputDevice.touchScreen d) \/
  (InputDevice.isTouchScreen d = true /\
   exists (d' : Device) displayWidth displayHeight definitions (s' : State),
     virtualKeys
     = valueOf (configureVirtualKeysLoop d' displayWidth displayHeight definitions [] s')).

(** The two halves of a frame sync for a device: the touch accumulator of
    its class, then the trackball accumulator. *)
Definition syncTouchScreen (when deviceId : Z) (device : Device) : M unit :=
  if InputDevice.isMultiTouchScreen device then
    if MultiTouchScreenState.isDirty
         (MultiTouchScreenState.accumulator (InputDevice.multiTouchScreen device))
    then
      onMultiTouchScreenStateChanged when deviceId ;;
      modifyDevice deviceId (mapMultiTouchAccumulator MultiTouchScreenState.clear)
    else ret tt
  else if InputDevice.isSingleTouchScreen device then
    if SingleTouchScreenState.isDirty
         (SingleTouchScreenState.accumulator (InputDevice.singleTouchScreen device))
    then
      onSingleTouchScreenStateChanged when deviceId ;;
      modifyDevice deviceId (mapSingleTouchAccumulator SingleTouchScreenState.clear)
    else ret tt
  else ret tt.

Definition syncTrackball (when deviceId : Z) (device : Device) : M unit :=
  if TrackballState.isDirty (TrackballState.accumulator (InputDevice.trackball device))
  then
    onTrackballStateChanged when deviceId ;;
    modifyDevice deviceId (mapTrackballAccumulator TrackballState.clear)
  else ret tt.


(** ** Invariants of the registry *)

(** A property of every device of the registry, with the key it is
    registered under. *)
Definition allEntries (P : Z -> Device -> Prop) (s : State) : Prop :=
  Forall (fun kv => P (fst kv) (snd kv)) (InputReader.mDevices (fst s)).

Definition registeredUnderOwnId (deviceId : Z) (d : Device) : Prop :=
  InputDevice.id d = deviceId.

(** Every device is registered under its own id. *)
Definition registeredUnderOwnIds (s : State) : Prop :=
  allEntries registeredUnderOwnId s.

(** The pointer count of the multi-touch accumulator is an index into
    [pointers], whose last slot [MAX_POINTERS] is the scratch slot. *)
Definition pointerCountInRange (deviceId : Z) (d : Device) : Prop :=
  0 <= MultiTouchScreenState.pointerCount
         (MultiTouchScreenState.accumulator (InputDevice.multiTouchScreen d))
    <= MAX_POINTERS.

(** What one iteration of the loop of [updateExportedVirtualKeyState] stores
    for a device, when it stores. *)
Definition downVirtualKey (d : Device) : option (Z * Z) :=
  if InputDevice.isTouchScreen d
  then
    match virtualKeyStatus d with
    | CurrentVirtualKeyState.STATUS_DOWN =>
        Some (CurrentVirtualKeyState.keyCode
                (TouchScreenState.currentVirtualKey (InputDevice.touchScreen d)),
              CurrentVirtualKeyState.scanCode
                (TouchScreenState.currentVirtualKey (InputDevice.touchScreen d)))
    | _ => None
    end
  else None.

Definition downVirtualKeys (devices : list (Z * Device)) : list (Z * Z) :=
  flat_map (fun kv => match downVirtualKey (snd kv) with
                      | Some key => [key]
                      | None => []
                      end) devices.

(** The exported virtual key is what [updateExportedVirtualKeyState] would
    store now. *)
Definition exportedIsCurrent (s : State) : Prop :=
  (InputReader.mExportedVirtualKeyCode (fst s),
   InputReader.mExportedVirtualScanCode (fst s))
  = exportedVirtualKeyOf (InputReader.mDevices (fst s)).

(** What the virtual-key state machine keeps of a device: a virtual key that
    is down belongs to a touch screen and has a key code; the configured
    virtual keys have key codes; only touch screens have virtual keys; an
    ignored device is no touch screen. *)
Definition virtualKeyEntryOk (deviceId : Z) (d : Device) : Prop :=
  InputDevice.id d = deviceId /\
  (virtualKeyStatus d = CurrentVirtualKeyState.STATUS_DOWN ->
   InputDevice.isTouchScreen d = true /\
   CurrentVirtualKeyState.keyCode
     (TouchScreenState.currentVirtualKey (InputDevice.touchScreen d)) <> -1) /\
  virtualKeyCodesOk (TouchScreenState.virtualKeys (InputDevice.touchScreen d)) /\
  (InputDevice.isTouchScreen d = false ->
   TouchScreenState.virtualKeys (InputDevice.touchScreen d) = []) /\
  (InputDevice.ignored d = true -> InputDevice.isTouchScreen d = false).

Definition virtualKeyInvariant (s : State) : Prop :=
  exportedIsCurrent s /\ allEntries virtualKeyEntryOk s.

(** The relation of a step that keeps an invariant. *)
Definition keepsInvariant (I : State -> Prop) (s s' : State) : Prop := I s -> I s'.

(** The state of the registry after [mDevices.add] and [mDevices.removeItem]. *)
Definition addedDevice (deviceId : Z) (device : Device) (r : Reader) : Reader :=
  InputReader.set_mDevices (keyedAdd (InputReader.mDevices r) deviceId device) r.

Definition removedDevice (deviceId : Z) (r : Reader) : Reader :=
  InputReader.set_mDevices (keyedRemove (InputReader.mDevices r) deviceId) r.

(** A device as [addDevice] registers it: under its own id, reset, with the
    virtual keys the configuration gave it. *)
Definition freshDevice (deviceId : Z) (device : Device) : Prop :=
  InputDevice.id device = deviceId /\
  (InputDevice.ignored device = true -> InputDevice.isTouchScreen device = false) /\
  virtualKeyStatus device = CurrentVirtualKeyState.STATUS_NONE /\
  MultiTouchScreenState.pointerCount
    (MultiTouchScreenState.accumulator (InputDevice.multiTouchScreen device)) = 0 /\
  (TouchScreenState.virtualKeys (InputDevice.touchScreen device) = [] \/
   (InputDevice.isTouchScreen device = true /\
    exists (d' : Device) displayWidth displayHeight definitions (s' : State),
      TouchScreenState.virtualKeys (InputDevice.touchScreen device)
      = valueOf (configureVirtualKeysLoop d' displayWidth displayHeight definitions []
                   s'))).

(** ** Vocabulary for the registry, the frames and the exported state *)

(** The keys of the registry go up strictly: [mDevices] is a sorted vector
    that holds a key once. *)
Fixpoint sortedKeys {A : Type} (l : list (Z * A)) : Prop :=
  match l with
  | [] => True
  | (k, _) :: rest => Forall (fun kv => k < fst kv) rest /\ sortedKeys rest
  end.

Definition registryOk (s : State) : Prop :=
  sortedKeys (InputReader.mDevices (fst s)) /\ registeredUnderOwnIds s.

(** Every effect of a computation passes a test. *)
Definition effectsAll {A : Type} (ok : Effect -> bool) (m : M A) : Prop :=
  forall s, forallb ok (effectsOf (m s)) = true.

Definition isConfigurationChanged (e : Effect) : bool :=
  match e with
  | NotifyConfigurationChanged _ => true
  | _ => false
  end.

Definition isWarning (e : Effect) : bool :=
  match e with
  | LogW _ => true
  | _ => false
  end.

(** The end of the program at a division without defined behaviour, and the
    runs that hold it. *)
Definition isTrap (e : Effect) : bool :=
  match e with
  | ArithmeticTrap => true
  | _ => false
  end.

Definition trapped (effects : list Effect) : bool := existsb isTrap effects.

Definition isWarningOrTrap (e : Effect) : bool := isWarning e || isTrap e.

(** The policy has no display to tell of, in any world. *)
Definition displayUnavailable : Prop :=
  forall w : World, fst (getDisplayInfo 0 w) = None.

(** The slots the multi-touch assembly reads, in the order it reads them,
    and those of them whose pointer is down. *)
Definition countedSlots (accumulator : MultiTouchScreenState.Accumulator)
  : list MultiTouchScreenState.Pointer :=
  map (fun i => arrayGet MultiTouchScreenState.zeroPointer
                  (MultiTouchScreenState.pointers accumulator) (Z.of_nat i))
      (seq 0 (Z.to_nat (MultiTouchScreenState.pointerCount accumulator))).

Definition slotIsDown (p : MultiTouchScreenState.Pointer) : bool :=
  negb (MultiTouchScreenState.absMTTouchMajor p <=? 0).

Definition downSlots (accumulator : MultiTouchScreenState.Accumulator)
  : list MultiTouchScreenState.Pointer :=
  filter slotIsDown (countedSlots accumulator).

(** Position, pressure and size of a pointer of a frame, and what a slot of
    the accumulator gives for them. *)
Definition geometryOf (p : PointerData.t) : Z * Z * Z * Z :=
  (PointerData.x p, PointerData.y p, PointerData.pressure p, PointerData.size p).

Definition slotGeometry (p : MultiTouchScreenState.Pointer) : Z * Z * Z * Z :=
  (MultiTouchScreenState.absMTPositionX p, MultiTouchScreenState.absMTPositionY p,
   MultiTouchScreenState.absMTTouchMajor p, MultiTouchScreenState.absMTWidthMajor p).

(** The id the driver gave a slot, and whether the assembly can use it. *)
Definition slotId (p : MultiTouchScreenState.Pointer) : Z :=
  toUint32 (MultiTouchScreenState.absMTTrackingId p).

Definition slotHasId (p : MultiTouchScreenState.Pointer) : bool :=
  anySet (MultiTouchScreenState.fields p) MultiTouchScreenState.FIELD_ABS_MT_TRACKING_ID
  && negb (slotId p >? MAX_POINTER_ID).

(** The navigation of the exported configuration: the last device of the
    registry with a trackball or a DPAD decides. *)
Definition hasNavigation (d : Device) : bool :=
  anySet (InputDevice.classes d) INPUT_DEVICE_CLASS_TRACKBALL
  || anySet (InputDevice.classes d) INPUT_DEVICE_CLASS_DPAD.

Definition navigationOf (devices : list (Z * Device)) : Z :=
  match find (fun kv => hasNavigation (snd kv)) (rev devices) with
  | Some kv =>
      if anySet (InputDevice.classes (snd kv)) INPUT_DEVICE_CLASS_TRACKBALL
      then NAVIGATION_TRACKBALL else NAVIGATION_DPAD
  | None => NAVIGATION_NONAV
  end.

Definition hasClass (class : Z) (devices : list (Z * Device)) : bool :=
  existsb (fun kv => anySet (InputDevice.classes (snd kv)) class) devices.

(** An update of a device that leaves what is not touch or trackball state:
    its identity and its keyboard. *)
Definition keepsKeyboard (f : Device -> Device) : Prop :=
  forall d,
    InputDevice.id (f d) = InputDevice.id d /\
    InputDevice.classes (f d) = InputDevice.classes d /\
    InputDevice.name (f d) = InputDevice.name d /\
    InputDevice.ignored (f d) = InputDevice.ignored d /\
    InputDevice.keyboard (f d) = InputDevice.keyboard d.

(** An update of the reader that changes the display properties at most. *)
Definition displayFrame (f : Reader -> Reader) : Prop :=
  forall r,
    InputReader.mDevices (f r) = InputReader.mDevices r /\
    InputReader.mGlobalMetaState (f r) = InputReader.mGlobalMetaState r /\
    InputReader.mExportedVirtualKeyCode (f r) = InputReader.mExportedVirtualKeyCode r /\
    InputReader.mExportedVirtualScanCode (f r) = InputReader.mExportedVirtualScanCode r /\
    InputReader.mExportedInputConfiguration (f r)
    = InputReader.mExportedInputConfiguration r.

(** The new meta state of the keyboard of a device, as [onKey] stores it. *)
Definition setKeyboardMetaState (newMetaState : Z) (d : Device) : Device :=
  InputDevice.set_keyboard
    {| KeyboardState.metaState := newMetaState;
       KeyboardState.downTime := KeyboardState.downTime (InputDevice.keyboard d) |} d.

(** The cache of the global meta state is stale (-1) or holds the
    combination of the meta states of the keyboards. *)
Definition metaStateCached (s : State) : Prop :=
  InputReader.mGlobalMetaState (fst s) = -1 \/
  InputReader.mGlobalMetaState (fst s) = combinedMetaState (InputReader.mDevices (fst s)).

(** An ignored device is one without classes. *)
Definition ignoredWithoutClasses (s : State) : Prop :=
  allEntries (fun _ d => InputDevice.ignored d = (InputDevice.classes d =? 0)) s.

(** The exported input configuration is the one of the registered devices. *)
Definition configurationExported (s : State) : Prop :=
  InputReader.mExportedInputConfiguration (fst s)
  = inputConfigurationOf (InputReader.mDevices (fst s)).

(** What holds of the reader between two raw events; the exported input
    configuration is current once [c] holds, that is once a configuration
    change has been notified. *)
Definition readerFacts (c : Prop) (s : State) : Prop :=
  registeredUnderOwnIds s /\ ignoredWithoutClasses s /\ metaStateCached s /\
  (c -> configurationExported s).

(** What a device is registered as, and the registry seen that way. *)
Definition identityOf (d : Device) : Z * Z * list Z * bool :=
  (InputDevice.id d, InputDevice.classes d, InputDevice.name d, InputDevice.ignored d).

Definition registeredIdentities (s : State) : list (Z * (Z * Z * list Z * bool)) :=
  map (fun kv => (fst kv, identityOf (snd kv))) (InputReader.mDevices (fst s)).

(** The keyboards of the registered devices. *)
Definition registeredKeyboards (s : State) : list (Z * KeyboardState.t) :=
  map (fun kv => (fst kv, InputDevice.keyboard (snd kv))) (InputReader.mDevices (fst s)).


(** The raw events by which a multi-touch driver reports one pointer: its
    position, touch major, width major and tracking id, then SYN_MT_REPORT. *)
Definition pointerReport (deviceId when x y touchMajor widthMajor trackingId : Z)
  : list RawEvent.t :=
  map (fun tcv : Z * Z * Z =>
         {| RawEvent.deviceId := deviceId; RawEvent.type := fst (fst tcv);
            RawEvent.scanCode := snd (fst tcv); RawEvent.keyCode := 0;
            RawEvent.flags := 0; RawEvent.value := snd tcv; RawEvent.when := when |})
      [ (EV_ABS, ABS_MT_POSITION_X, x); (EV_ABS, ABS_MT_POSITION_Y, y);
        (EV_ABS, ABS_MT_TOUCH_MAJOR, touchMajor); (EV_ABS, ABS_MT_WIDTH_MAJOR, widthMajor);
        (EV_ABS, ABS_MT_TRACKING_ID, trackingId); (EV_SYN, SYN_MT_REPORT, 0) ].


(** The raw events by which the driver of a single-touch screen reports a
    position: the two absolute axes, then SYN_REPORT. *)
Definition singleTouchReport (deviceId when x y : Z) : list RawEvent.t :=
  map (fun tcv : Z * Z * Z =>
         {| RawEvent.deviceId := deviceId; RawEvent.type := fst (fst tcv);
            RawEvent.scanCode := snd (fst tcv); RawEvent.keyCode := 0;
            RawEvent.flags := 0; RawEvent.value := snd tcv; RawEvent.when := when |})
      [ (EV_ABS, ABS_X, x); (EV_ABS, ABS_Y, y); (EV_SYN, SYN_REPORT, 0) ].



(** What a device holds outside the state of its touch screen, and the
    registry seen that way. *)
Definition outsideTouchScreen (d : Device) :=
  (identityOf d, InputDevice.keyboard d, InputDevice.trackball d,
   InputDevice.singleTouchScreen d, InputDevice.multiTouchScreen d).

Definition registeredOutsideTouchScreen (s : State) :=
  map (fun kv => (fst kv, outsideTouchScreen (snd kv))) (InputReader.mDevices (fst s)).

(** What the reader knows of the display and has exported of the
    configuration. *)
Definition displayAndConfiguration (s : State) :=
  (InputReader.mDisplayWidth (fst s), InputReader.mDisplayHeight (fst s),
   InputReader.mDisplayOrientation (fst s),
   InputReader.mExportedInputConfiguration (fst s)).

(** ** Displays the configuration divides by *)

(** The display properties with which the configuration of a touch screen
    divides without a trap: a width below 0, which the program tests for
    and takes for an unknown display, or a width and a height above 0. *)
Definition displayUsable (r : Reader) : Prop :=
  InputReader.mDisplayWidth r < 0 \/
  (0 < InputReader.mDisplayWidth r /\ 0 < InputReader.mDisplayHeight r).

(** [edge * extent / display + origin] where the division is defined. *)
Definition scaledEdge (edge extent display origin : Z) : Z :=
  i32add (toInt32 (Z.quot (i32mul edge extent) display)) origin.

(** The virtual key of a definition whose scan code has the key code and
    flags given, on a display of a width and a height above 0: the centre
    of the definition less and plus half its extent, as coordinates of the
    touch screen. *)
Definition virtualKeyOf (device : Device) (displayWidth displayHeight : Z)
  (definition : VirtualKeyDefinition.t) (keyCode flags : Z) : VirtualKey.t :=
  let parameters := TouchScreenState.parameters (InputDevice.touchScreen device) in
  let xAxis := TouchScreenState.xAxis parameters in
  let yAxis := TouchScreenState.yAxis parameters in
  let halfWidth := toInt32 (Z.quot (VirtualKeyDefinition.width definition) 2) in
  let halfHeight := toInt32 (Z.quot (VirtualKeyDefinition.height definition) 2) in
  let centerX := VirtualKeyDefinition.centerX definition in
  let centerY := VirtualKeyDefinition.centerY definition in
  {| VirtualKey.keyCode := keyCode;
     VirtualKey.scanCode := VirtualKeyDefinition.scanCode definition;
     VirtualKey.flags := flags;
     VirtualKey.hitLeft :=
       scaledEdge (i32sub centerX halfWidth) (AbsoluteAxisInfo.range xAxis) displayWidth
         (AbsoluteAxisInfo.minValue xAxis);
     VirtualKey.hitTop :=
       scaledEdge (i32sub centerY halfHeight) (AbsoluteAxisInfo.range yAxis) displayHeight
         (AbsoluteAxisInfo.minValue yAxis);
     VirtualKey.hitRight :=
       scaledEdge (i32add centerX halfWidth) (AbsoluteAxisInfo.range xAxis) displayWidth
         (AbsoluteAxisInfo.minValue xAxis);
     VirtualKey.hitBottom :=
       scaledEdge (i32add centerY halfHeight) (AbsoluteAxisInfo.range yAxis) displayHeight
         (AbsoluteAxisInfo.minValue yAxis) |}.

(** The answers of the event hub when it is asked for the key codes of the
    scan codes of the definitions, in their order, from a world on. *)
Fixpoint keyCodeAnswers (deviceId : Z) (definitions : list VirtualKeyDefinition.t)
  (w : World) : list (option (Z * Z)) :=
  match definitions with
  | [] => []
  | definition :: rest =>
      let answer := scancodeToKeycode deviceId (VirtualKeyDefinition.scanCode definition) w in
      fst answer :: keyCodeAnswers deviceId rest (snd answer)
  end.

(** The keys and the warnings the definitions give with these answers: a
    definition with a key code gives its key, one without gives the warning
    that names its scan code. *)
Definition configuredKeys (device : Device) (displayWidth displayHeight : Z)
  (definitions : list VirtualKeyDefinition.t) (answers : list (option (Z * Z)))
  : list VirtualKey.t :=
  flat_map (fun da : VirtualKeyDefinition.t * option (Z * Z) =>
              match snd da with
              | Some (keyCode, flags) =>
                  [virtualKeyOf device displayWidth displayHeight (fst da) keyCode flags]
              | None => []
              end)
           (combine definitions answers).

Definition configurationWarnings (definitions : list VirtualKeyDefinition.t)
  (answers : list (option (Z * Z))) : list Effect :=
  flat_map (fun da : VirtualKeyDefinition.t * option (Z * Z) =>
              match snd da with
              | Some _ => []
              | None =>
                  [LogW (VirtualKeyWithoutKeyCode (VirtualKeyDefinition.scanCode (fst da)))]
              end)
           (combine definitions answers).

(** ** Triples

    From a state where [P] holds, [m] ends in a state and with an answer of
    which [Q] holds, and all its effects are of the kind [ok]. *)
Definition hoare {A : Type} (ok : Effect -> bool) (P : State -> Prop) (m : M A)
  (Q : A -> State -> Prop) : Prop :=
  forall s, P s ->
    Q (valueOf (m s)) (stateOf (m s)) /\ forallb ok (effectsOf (m s)) = true.

Definition isMotion (e : Effect) : bool :=
  match e with
  | NotifyMotion _ _ _ _ _ _ _ _ _ _ _ _ _ => true
  | _ => false
  end.

(** The virtual key of the device of a key is held: down, or canceled and
    not yet released. *)
Definition virtualKeyHeld (deviceId : Z) (s : State) : Prop :=
  exists d,
    keyedLookup (InputReader.mDevices (fst s)) deviceId = Some d /\
    (virtualKeyStatus d = CurrentVirtualKeyState.STATUS_DOWN \/
     virtualKeyStatus d = CurrentVirtualKeyState.STATUS_CANCELED).

(** * Properties *)

(** ** Running the monad *)

Lemma bind_run {A B : Type} (m : M A) (k : A -> M B) (s : State) :
  bind m k s =
  (valueOf (k (valueOf (m s)) (stateOf (m s))),
   stateOf (k (valueOf (m s)) (stateOf (m s))),
   effectsOf (m s) ++ effectsOf (k (valueOf (m s)) (stateOf (m s)))).
Proof.
  unfold bind, valueOf, stateOf, effectsOf.
  destruct (m s) as [[a s1] t1]. cbn.
  destruct (k a s1) as [[b s2] t2]. reflexivity.
Qed.

Lemma valueOf_bind {A B : Type} (m : M A) (k : A -> M B) (s : State) :
  valueOf (bind m k s) = valueOf (k (valueOf (m s)) (stateOf (m s))).
Proof. rewrite bind_run. reflexivity. Qed.

Lemma stateOf_bind {A B : Type} (m : M A) (k : A -> M B) (s : State) :
  stateOf (bind m k s) = stateOf (k (valueOf (m s)) (stateOf (m s))).
Proof. rewrite bind_run. reflexivity. Qed.

Lemma effectsOf_bind {A B : Type} (m : M A) (k : A -> M B) (s : State) :
  effectsOf (bind m k s) =
  effectsOf (m s) ++ effectsOf (k (valueOf (m s)) (stateOf (m s))).
Proof. rewrite bind_run. reflexivity. Qed.

Lemma call_run {A : Type} (f : World -> A * World) (s : State) :
  call f s = (fst (f (snd s)), (fst s, snd (f (snd s))), []).
Proof. unfold call. destruct (f (snd s)). reflexivity. Qed.

Lemma run_eta {A : Type} (r : A * State * list Effect) :
  r = (valueOf r, stateOf r, effectsOf r).
Proof. destruct r as [[a s] t]. reflexivity. Qed.
(** ** Meta state: bit-level facts *)

Lemma anySet_lor m a b : anySet m (Z.lor a b) = anySet m a || anySet m b.
Proof.
  unfold anySet. rewrite Z.land_lor_distr_r.
  destruct (Z.land m a =? 0) eqn:Ea, (Z.land m b =? 0) eqn:Eb; simpl;
    rewrite ?Z.eqb_eq, ?Z.eqb_neq in *.
  - rewrite Ea, Eb. reflexivity.
  - apply negb_true_iff, Z.eqb_neq. rewrite Z.lor_eq_0_iff. tauto.
  - apply negb_true_iff, Z.eqb_neq. rewrite Z.lor_eq_0_iff. tauto.
  - apply negb_true_iff, Z.eqb_neq. rewrite Z.lor_eq_0_iff. tauto.
Qed.

Lemma anySet_bit m k : 0 <= k -> anySet m (2 ^ k) = Z.testbit m k.
Proof.
  intros Hk. unfold anySet.
  destruct (Z.testbit m k) eqn:Eb.
  - apply negb_true_iff, Z.eqb_neq. intros H0.
    assert (Z.testbit (Z.land m (2 ^ k)) k = true) as Ht.
    { rewrite Z.land_spec, Eb, Z.pow2_bits_true; auto. }
    rewrite H0, Z.bits_0 in Ht. discriminate.
  - apply negb_false_iff, Z.eqb_eq, Z.bits_inj'. intros n Hn.
    rewrite Z.land_spec, Z.bits_0, Z.pow2_bits_eqb by assumption.
    destruct (Z.eqb_spec k n) as [->|]; [rewrite Eb|]; auto using andb_false_r.
Qed.

Lemma testbit_set m k n :
  0 <= k -> 0 <= n ->
  Z.testbit (Z.lor m (2 ^ k)) n = Z.testbit m n || (k =? n).
Proof. intros. rewrite Z.lor_spec, Z.pow2_bits_eqb; auto. Qed.

Lemma testbit_clear m k n :
  0 <= k -> 0 <= n ->
  Z.testbit (Z.land m (Z.lnot (2 ^ k))) n = Z.testbit m n && negb (k =? n).
Proof. intros. rewrite Z.land_spec, Z.lnot_spec, Z.pow2_bits_eqb; auto. Qed.


Lemma testbit_if_set (c : bool) (x k n : Z) :
  0 <= k -> 0 <= n ->
  Z.testbit (if c then Z.lor x (2 ^ k) else x) n = Z.testbit x n || (c && (k =? n)).
Proof.
  intros. destruct c; [apply testbit_set; auto|]. cbn [andb]. now rewrite orb_false_r.
Qed.


(** ** BitSet32 *)

Lemma bitOfId_pow2 (n : Z) : 0 <= n <= 31 -> bitOfId n = 2 ^ (31 - n).
Proof.
  intros Hn. unfold bitOfId. change 0x80000000 with (2 ^ 31).
  rewrite Z.shiftr_div_pow2 by lia.
  replace 31 with ((31 - n) + n) at 1 by lia.
  rewrite Z.pow_add_r by lia. apply Z.div_mul. apply Z.pow_nonzero; lia.
Qed.

Lemma hasBit_testbit (b n : Z) : 0 <= n <= 31 -> hasBit b n = Z.testbit b (31 - n).
Proof.
  intros Hn. unfold hasBit. rewrite bitOfId_pow2 by assumption.
  apply anySet_bit. lia.
Qed.

Lemma firstMarkedBit_range (b : Z) :
  isUint32 b -> b <> 0 -> 0 <= firstMarkedBit b <= 31.
Proof.
  unfold isUint32, firstMarkedBit. intros Hb Hne.
  assert (0 <= Z.log2 b) by apply Z.log2_nonneg.
  assert (Z.log2 b < 32) by (apply Z.log2_lt_pow2; lia).
  lia.
Qed.

Lemma hasBit_firstMarkedBit (b : Z) :
  isUint32 b -> b <> 0 -> hasBit b (firstMarkedBit b) = true.
Proof.
  intros Hb Hne. rewrite hasBit_testbit by (apply firstMarkedBit_range; assumption).
  unfold firstMarkedBit. replace (31 - (31 - Z.log2 b)) with (Z.log2 b) by lia.
  apply Z.bit_log2. unfold isUint32 in Hb. lia.
Qed.

Lemma hasBit_below_first (b n : Z) :
  isUint32 b -> b <> 0 -> 0 <= n < firstMarkedBit b -> hasBit b n = false.
Proof.
  intros Hb Hne Hn.
  pose proof (firstMarkedBit_range Hb Hne) as Hf.
  rewrite hasBit_testbit by lia.
  apply Z.bits_above_log2; unfold isUint32, firstMarkedBit in *; lia.
Qed.

Lemma isUint32_high_bits (b n : Z) : isUint32 b -> 32 <= n -> Z.testbit b n = false.
Proof.
  unfold isUint32. intros Hb Hn.
  destruct (Z.eq_dec b 0) as [->|Hne]; [apply Z.bits_0|].
  apply Z.bits_above_log2; [lia|].
  assert (Z.log2 b < 32) by (apply Z.log2_lt_pow2; lia). lia.
Qed.

Lemma isUint32_of_bits (b : Z) :
  0 <= b -> (forall n, 32 <= n -> Z.testbit b n = false) -> isUint32 b.
Proof.
  intros Hb Hbits. unfold isUint32. split; [assumption|].
  assert (b = b mod 2 ^ 32) as ->.
  { apply Z.bits_inj'. intros n Hn.
    destruct (Z.lt_ge_cases n 32).
    - rewrite Z.mod_pow2_bits_low by lia. reflexivity.
    - rewrite Z.mod_pow2_bits_high by lia. apply Hbits. assumption. }
  apply Z.mod_pos_bound. lia.
Qed.

Lemma difference_isUint32 (a b : Z) : isUint32 a -> isUint32 (Z.land a (Z.lnot b)).
Proof.
  intros Ha. apply isUint32_of_bits.
  - apply Z.land_nonneg. left. apply Ha.
  - intros n Hn. rewrite Z.land_spec, (isUint32_high_bits Ha Hn). reflexivity.
Qed.

Lemma clearBit_isUint32 (b n : Z) : isUint32 b -> isUint32 (clearBit b n).
Proof. apply difference_isUint32. Qed.

Lemma markBit_isUint32 (b n : Z) : isUint32 b -> 0 <= n <= 31 -> isUint32 (markBit b n).
Proof.
  intros Hb Hn. unfold markBit. rewrite bitOfId_pow2 by assumption.
  apply isUint32_of_bits.
  - apply Z.lor_nonneg. split; [apply Hb|apply Z.pow_nonneg; lia].
  - intros i Hi. rewrite Z.lor_spec, (isUint32_high_bits Hb Hi).
    rewrite Z.pow2_bits_eqb by lia.
    destruct (Z.eqb_spec (31 - n) i); [lia|reflexivity].
Qed.

Lemma hasBit_clearBit (b n i : Z) :
  0 <= n <= 31 -> 0 <= i <= 31 ->
  hasBit (clearBit b n) i = hasBit b i && negb (i =? n).
Proof.
  intros Hn Hi. rewrite !hasBit_testbit by assumption.
  unfold clearBit. rewrite bitOfId_pow2 by assumption.
  rewrite testbit_clear by lia.
  f_equal. f_equal. destruct (Z.eqb_spec (31 - n) (31 - i)), (Z.eqb_spec i n); lia || reflexivity.
Qed.

Lemma hasBit_markBit (b n i : Z) :
  0 <= n <= 31 -> 0 <= i <= 31 ->
  hasBit (markBit b n) i = hasBit b i || (i =? n).
Proof.
  intros Hn Hi. rewrite !hasBit_testbit by assumption.
  unfold markBit. rewrite bitOfId_pow2 by assumption.
  rewrite testbit_set by lia.
  f_equal. destruct (Z.eqb_spec (31 - n) (31 - i)), (Z.eqb_spec i n); lia || reflexivity.
Qed.

Lemma hasBit_difference (a b i : Z) :
  0 <= i <= 31 ->
  hasBit (Z.land a (Z.lnot b)) i = hasBit a i && negb (hasBit b i).
Proof.
  intros Hi. rewrite !hasBit_testbit by assumption.
  rewrite Z.land_spec, Z.lnot_spec by lia. reflexivity.
Qed.

(** ** The ids of a set *)

Lemma In_allIds (i : Z) : In i allIds <-> 0 <= i <= 31.
Proof.
  unfold allIds. rewrite in_map_iff. split.
  - intros (n & <- & Hn). apply in_seq in Hn. lia.
  - intros Hi. exists (Z.to_nat i). split; [lia|]. apply in_seq. lia.
Qed.

Lemma idsOf_filter (b : Z) : idsOf b = filter (hasBit b) allIds.
Proof. reflexivity. Qed.

Lemma In_idsOf (b i : Z) : In i (idsOf b) <-> 0 <= i <= 31 /\ hasBit b i = true.
Proof. rewrite idsOf_filter, filter_In, In_allIds. reflexivity. Qed.

Lemma seq_split (n : nat) :
  (n <= 31)%nat -> seq 0 32 = seq 0 n ++ n :: seq (S n) (31 - n).
Proof.
  intros Hn.
  assert (forall len start k, (k < len)%nat ->
            seq start len = seq start k ++ (start + k)%nat :: seq (S (start + k)) (len - S k))
    as Hgen.
  { induction len as [|len IH]; intros start k Hk; [lia|].
    destruct k as [|k].
    - cbn [seq app]. rewrite Nat.add_0_r.
      replace (S len - 1)%nat with len by lia. reflexivity.
    - cbn [seq app]. f_equal. rewrite (IH (S start) k) by lia.
      replace (S start + k)%nat with (start + S k)%nat by lia.
      replace (S len - S (S k))%nat with (len - S k)%nat by lia. reflexivity. }
  apply (Hgen 32%nat 0%nat n). lia.
Qed.

Lemma allIds_split (n : Z) :
  0 <= n <= 31 ->
  exists before after,
    allIds = before ++ n :: after /\
    (forall i, In i before -> 0 <= i < n) /\
    (forall i, In i after -> n < i <= 31).
Proof.
  intros Hn.
  exists (map Z.of_nat (seq 0 (Z.to_nat n))),
         (map Z.of_nat (seq (S (Z.to_nat n)) (31 - Z.to_nat n))).
  split; [|split].
  - unfold allIds. rewrite (@seq_split (Z.to_nat n)) by lia.
    rewrite map_app. cbn [map]. rewrite Z2Nat.id by lia. reflexivity.
  - intros i Hi. apply in_map_iff in Hi. destruct Hi as (k & <- & Hk).
    apply in_seq in Hk. lia.
  - intros i Hi. apply in_map_iff in Hi. destruct Hi as (k & <- & Hk).
    apply in_seq in Hk. lia.
Qed.

Lemma filter_none {A : Type} (f : A -> bool) (l : list A) :
  (forall a, In a l -> f a = false) -> filter f l = [].
Proof.
  induction l as [|a l IH]; intros H; [reflexivity|].
  cbn [filter]. rewrite (H a) by (left; reflexivity). apply IH.
  intros b Hb. apply H. right. assumption.
Qed.

Lemma filter_first_id (f g : Z -> bool) (n : Z) :
  0 <= n <= 31 ->
  (forall i, 0 <= i < n -> f i = false /\ g i = false) ->
  f n = true -> g n = false ->
  (forall i, n < i <= 31 -> g i = f i) ->
  filter f allIds = n :: filter g allIds.
Proof.
  intros Hn Hlow Hfn Hgn Hhigh.
  destruct (allIds_split Hn) as (before & after & Hsplit & Hb & Ha).
  rewrite Hsplit.
  rewrite !filter_app. cbn [filter]. rewrite Hfn, Hgn.
  rewrite (filter_none f before) by (intros i Hi; apply Hlow, Hb, Hi).
  rewrite (filter_none g before) by (intros i Hi; apply Hlow, Hb, Hi).
  cbn [app]. f_equal. apply filter_ext_in. intros i Hi. symmetry. apply Hhigh, Ha, Hi.
Qed.

Lemma idsOf_zero : idsOf 0 = [].
Proof. reflexivity. Qed.

Lemma idsOf_first (b : Z) :
  isUint32 b -> b <> 0 ->
  idsOf b = firstMarkedBit b :: idsOf (clearBit b (firstMarkedBit b)).
Proof.
  intros Hb Hne. pose proof (firstMarkedBit_range Hb Hne) as Hn.
  rewrite !idsOf_filter. apply filter_first_id; try assumption.
  - intros i Hi. split.
    + apply hasBit_below_first; assumption.
    + rewrite hasBit_clearBit by lia.
      rewrite hasBit_below_first by assumption. reflexivity.
  - apply hasBit_firstMarkedBit; assumption.
  - rewrite hasBit_clearBit, Z.eqb_refl by lia. apply andb_false_r.
  - intros i Hi. rewrite hasBit_clearBit by lia.
    destruct (Z.eqb_spec i (firstMarkedBit b)); [lia|]. apply andb_true_r.
Qed.

Lemma isEmpty_idsOf (b : Z) : isUint32 b -> isEmpty b = isNil (idsOf b).
Proof.
  intros Hb. unfold isEmpty. destruct (Z.eqb_spec b 0) as [->|Hne].
  - rewrite idsOf_zero. reflexivity.
  - rewrite (idsOf_first Hb Hne). reflexivity.
Qed.

Lemma idsOf_range (b i : Z) : In i (idsOf b) -> 0 <= i <= 31.
Proof. intros Hi. apply In_idsOf in Hi. apply Hi. Qed.

Lemma memId_In (i : Z) (ids : list Z) : memId i ids = true <-> In i ids.
Proof.
  unfold memId. rewrite existsb_exists. split.
  - intros (x & Hx & Heq). apply Z.eqb_eq in Heq. subst. assumption.
  - intros Hi. exists i. split; [assumption|apply Z.eqb_refl].
Qed.

Lemma memId_idsOf (b i : Z) : 0 <= i <= 31 -> memId i (idsOf b) = hasBit b i.
Proof.
  intros Hi. destruct (hasBit b i) eqn:Eb.
  - apply memId_In, In_idsOf. split; assumption.
  - destruct (memId i (idsOf b)) eqn:Em; [|reflexivity].
    apply memId_In, In_idsOf in Em. destruct Em as [_ Em]. congruence.
Qed.

Lemma filter_filter {A : Type} (f g : A -> bool) (l : list A) :
  filter f (filter g l) = filter (fun a => g a && f a) l.
Proof.
  induction l as [|a l IH]; [reflexivity|]. cbn [filter].
  destruct (g a); cbn [andb filter]; [destruct (f a)|]; rewrite IH; reflexivity.
Qed.

Lemma idsOf_clearBit (b u : Z) :
  0 <= u <= 31 -> idsOf (clearBit b u) = removeId u (idsOf b).
Proof.
  intros Hu. unfold removeId. rewrite !idsOf_filter, filter_filter.
  apply filter_ext_in. intros i Hi. apply In_allIds in Hi.
  apply hasBit_clearBit; assumption.
Qed.

Lemma idsOf_markBit (b d : Z) :
  0 <= d <= 31 -> idsOf (markBit b d) = insertId d (idsOf b).
Proof.
  intros Hd. unfold insertId. rewrite (idsOf_filter (markBit b d)).
  apply filter_ext_in. intros i Hi. apply In_allIds in Hi.
  rewrite memId_idsOf by assumption. apply hasBit_markBit; assumption.
Qed.

Lemma idsOf_difference (a b : Z) :
  idsOf (Z.land a (Z.lnot b)) = filter (fun i => negb (memId i (idsOf b))) (idsOf a).
Proof.
  rewrite (idsOf_filter (Z.land a (Z.lnot b))), (idsOf_filter a), filter_filter.
  apply filter_ext_in. intros i Hi. apply In_allIds in Hi.
  rewrite memId_idsOf by assumption. apply hasBit_difference; assumption.
Qed.

Lemma idsOf_length (b : Z) : (length (idsOf b) <= 32)%nat.
Proof.
  rewrite idsOf_filter. etransitivity; [apply filter_length_le|].
  unfold allIds. rewrite length_map, length_seq. reflexivity.
Qed.

(** ** Touch dispatch *)

Lemma walkPointers_S (turns : nat) (coordsOf : PointerData.t -> PointerCoords.t)
  (touch : TouchData.t) (b : Z) (ids : list Z) (coords : list PointerCoords.t) :
  walkPointers (S turns) coordsOf touch b ids coords
  = if negb (isEmpty b)
    then walkPointers turns coordsOf touch (clearBit b (firstMarkedBit b))
           (ids ++ [firstMarkedBit b])
           (coords ++ [coordsOf (arrayGet PointerData.zero (TouchData.pointers touch)
                                   (arrayGet 0 (TouchData.idToIndex touch) (firstMarkedBit b)))])
    else (ids, coords).
Proof. reflexivity. Qed.

Lemma length_le_0_nil {A : Type} (l : list A) : (length l <= 0)%nat -> l = [].
Proof. destruct l; cbn [length]; [reflexivity|lia]. Qed.

Lemma length_cons_le {A : Type} (a : A) (l : list A) (n : nat) :
  (length (a :: l) <= S n)%nat -> (length l <= n)%nat.
Proof. cbn [length]. lia. Qed.

Lemma frameCoords_cons (coordsOf : PointerData.t -> PointerCoords.t)
  (touch : TouchData.t) (i : Z) (l : list Z) :
  frameCoords coordsOf touch (i :: l)
  = coordsOf (arrayGet PointerData.zero (TouchData.pointers touch)
                (arrayGet 0 (TouchData.idToIndex touch) i))
    :: frameCoords coordsOf touch l.
Proof. reflexivity. Qed.

Lemma walkPointers_idsOf (turns : nat) (coordsOf : PointerData.t -> PointerCoords.t)
  (touch : TouchData.t) (b : Z) (ids : list Z) (coords : list PointerCoords.t) :
  isUint32 b -> (length (idsOf b) <= turns)%nat ->
  walkPointers turns coordsOf touch b ids coords
  = (ids ++ idsOf b, coords ++ frameCoords coordsOf touch (idsOf b)).
Proof.
  revert b ids coords.
  induction turns as [|turns IH]; intros b ids coords Hb Hlen.
  - rewrite (length_le_0_nil _ Hlen).
    cbn [walkPointers frameCoords map]. rewrite !app_nil_r. reflexivity.
  - rewrite walkPointers_S. unfold isEmpty.
    destruct (Z.eqb_spec b 0) as [Heq|Hne]; cbn [negb].
    + rewrite Heq, idsOf_zero. cbn [frameCoords map]. rewrite !app_nil_r. reflexivity.
    + rewrite (idsOf_first Hb Hne) in Hlen |- *.
      rewrite IH.
      * rewrite frameCoords_cons, <- !app_assoc. reflexivity.
      * apply clearBit_isUint32; assumption.
      * exact (length_cons_le Hlen).
Qed.

Lemma deref_run (deviceId : Z) (s : State) (d : Device) :
  keyedLookup (InputReader.mDevices (fst s)) deviceId = Some d ->
  deref deviceId s = (d, s, []).
Proof. intros H. unfold deref. rewrite H. reflexivity. Qed.

Lemma globalMetaState_run (s : State) :
  exists g, globalMetaState s = (g, (InputReader.set_mGlobalMetaState g (fst s), snd s), []).
Proof.
  destruct s as [r w]. destruct r. unfold globalMetaState.
  rewrite bind_run. cbn [getReader valueOf stateOf effectsOf fst snd InputReader.mGlobalMetaState].
  destruct (mGlobalMetaState =? -1); eexists; reflexivity.
Qed.

Lemma touchStable_refl (deviceId : Z) (s : State) : touchStable deviceId s s.
Proof.
  unfold touchStable. repeat split. intros d Hd. exists d. repeat split. assumption.
Qed.

Lemma touchStable_trans (deviceId : Z) (s1 s2 s3 : State) :
  touchStable deviceId s1 s2 -> touchStable deviceId s2 s3 -> touchStable deviceId s1 s3.
Proof.
  unfold touchStable. intros (Hw & Hh & Ho & Hd) (Hw' & Hh' & Ho' & Hd').
  repeat split; try congruence.
  intros d Hl. destruct (Hd d Hl) as (d' & Hl' & Hi & Hp & Hc & Hla).
  destruct (Hd' d' Hl') as (d'' & Hl'' & Hi' & Hp' & Hc' & Hla').
  exists d''. repeat split; congruence.
Qed.

Lemma touchStable_meta (deviceId : Z) (s : State) (g : Z) :
  touchStable deviceId s (InputReader.set_mGlobalMetaState g (fst s), snd s).
Proof.
  unfold touchStable. cbn. repeat split. intros d Hd. exists d. repeat split. assumption.
Qed.

Lemma dispatchTouch_run (when deviceId policyFlags : Z) (touch : TouchData.t)
  (idBits action : Z) (s : State) (device : Device) :
  keyedLookup (InputReader.mDevices (fst s)) deviceId = Some device ->
  isUint32 idBits ->
  map motionOf (effectsOf (dispatchTouch when deviceId policyFlags touch idBits action s))
  = [Some (action, idsOf idBits,
           frameCoords (displayCoordsOf (fst s) device) touch (idsOf idBits))] /\
  touchStable deviceId s
    (stateOf (dispatchTouch when deviceId policyFlags touch idBits action s)).
Proof.
  intros Hdev Hbits. unfold dispatchTouch.
  rewrite bind_run. cbn [getReader valueOf stateOf effectsOf fst snd app].
  rewrite bind_run, (deref_run _ _ Hdev). cbn [valueOf stateOf effectsOf fst snd app].
  rewrite bind_run. destruct (globalMetaState_run s) as (g & ->).
  cbn [valueOf stateOf effectsOf fst snd app emit map motionOf].
  rewrite walkPointers_idsOf by (try assumption; apply idsOf_length).
  cbn [fst snd app]. split; [reflexivity|]. apply touchStable_meta.
Qed.

Lemma keyedLookup_update_same {A : Type} (l : list (Z * A)) (k : Z) (f : A -> A) :
  keyedLookup (keyedUpdate l k f) k = option_map f (keyedLookup l k).
Proof.
  induction l as [|[k' v] l IH]; [reflexivity|].
  cbn [keyedUpdate keyedLookup]. destruct (k' =? k) eqn:E.
  - cbn [keyedLookup]. rewrite E. reflexivity.
  - cbn [keyedLookup]. rewrite E. apply IH.
Qed.

Lemma keyedLookup_update_other {A : Type} (l : list (Z * A)) (k k' : Z) (f : A -> A) :
  k' <> k -> keyedLookup (keyedUpdate l k f) k' = keyedLookup l k'.
Proof.
  intros Hne. induction l as [|[k0 v] l IH]; [reflexivity|].
  cbn [keyedUpdate keyedLookup]. destruct (k0 =? k) eqn:E.
  - cbn [keyedLookup]. apply Z.eqb_eq in E. subst k0.
    destruct (Z.eqb_spec k k'); [congruence|reflexivity].
  - cbn [keyedLookup]. destruct (k0 =? k'); [reflexivity|apply IH].
Qed.

Lemma modifyDevice_run (deviceId : Z) (f : Device -> Device) (s : State) :
  modifyDevice deviceId f s
  = (tt, (InputReader.set_mDevices
            (keyedUpdate (InputReader.mDevices (fst s)) deviceId f) (fst s), snd s), []).
Proof. reflexivity. Qed.

Lemma touchStable_downTime (deviceId when : Z) (s : State) :
  touchStable deviceId s
    (stateOf (modifyTouchScreen deviceId (TouchScreenState.set_downTime when) s)).
Proof.
  unfold modifyTouchScreen. rewrite modifyDevice_run.
  unfold touchStable. cbn [stateOf fst snd InputReader.set_mDevices
    InputReader.mDisplayWidth InputReader.mDisplayHeight InputReader.mDisplayOrientation
    InputReader.mDevices].
  repeat split. intros d Hd. rewrite keyedLookup_update_same, Hd. cbn [option_map].
  eexists. split; [reflexivity|]. repeat split.
Qed.

Lemma displayCoordsOf_stable (deviceId : Z) (s s' : State) (d d' : Device) :
  touchStable deviceId s s' ->
  keyedLookup (InputReader.mDevices (fst s)) deviceId = Some d ->
  keyedLookup (InputReader.mDevices (fst s')) deviceId = Some d' ->
  displayCoordsOf (fst s') d' = displayCoordsOf (fst s) d /\
  TouchScreenState.currentTouch (InputDevice.touchScreen d')
  = TouchScreenState.currentTouch (InputDevice.touchScreen d) /\
  TouchScreenState.lastTouch (InputDevice.touchScreen d')
  = TouchScreenState.lastTouch (InputDevice.touchScreen d).
Proof.
  intros (Hw & Hh & Ho & Hdev) Hd Hd'.
  destruct (Hdev d Hd) as (d2 & Hd2 & _ & Hp & Hc & Hl).
  rewrite Hd' in Hd2. inversion Hd2. subst d2.
  unfold displayCoordsOf. rewrite Hw, Hh, Ho, Hp. repeat split; assumption.
Qed.

Lemma touchStable_lookup (deviceId : Z) (s s' : State) (d : Device) :
  touchStable deviceId s s' ->
  keyedLookup (InputReader.mDevices (fst s)) deviceId = Some d ->
  exists d', keyedLookup (InputReader.mDevices (fst s')) deviceId = Some d'.
Proof.
  intros (_ & _ & _ & Hdev) Hd. destruct (Hdev d Hd) as (d' & Hd' & _).
  exists d'. assumption.
Qed.

Lemma dispatchPointersUp_S (turns : nat) (when deviceId policyFlags up active : Z) :
  (dispatchPointersUp (S turns) when deviceId policyFlags up active : M BitSet32)
  = if negb (isEmpty up) then
      bind (deref deviceId) (fun device =>
        bind (dispatchTouch when deviceId policyFlags
                (TouchScreenState.lastTouch (InputDevice.touchScreen device)) active
                (if isEmpty (clearBit active (firstMarkedBit up))
                 then MOTION_EVENT_ACTION_UP
                 else Z.lor MOTION_EVENT_ACTION_POINTER_UP
                        (Z.shiftl (firstMarkedBit up)
                           MOTION_EVENT_ACTION_POINTER_INDEX_SHIFT)))
          (fun _ => dispatchPointersUp turns when deviceId policyFlags
                      (clearBit up (firstMarkedBit up))
                      (clearBit active (firstMarkedBit up))))
    else ret active.
Proof. reflexivity. Qed.

Lemma expectedUps_cons (coordsOf : PointerData.t -> PointerCoords.t)
  (lastTouch : TouchData.t) (active : list Z) (upId : Z) (rest : list Z) :
  expectedUps coordsOf lastTouch active (upId :: rest)
  = (if isNil (removeId upId active) then MOTION_EVENT_ACTION_UP
     else Z.lor MOTION_EVENT_ACTION_POINTER_UP
            (Z.shiftl upId MOTION_EVENT_ACTION_POINTER_INDEX_SHIFT),
     active, frameCoords coordsOf lastTouch active)
    :: expectedUps coordsOf lastTouch (removeId upId active) rest.
Proof. reflexivity. Qed.

Lemma fold_left_cons {A B : Type} (f : A -> B -> A) (b : B) (l : list B) (a : A) :
  fold_left f (b :: l) a = fold_left f l (f a b).
Proof. reflexivity. Qed.

Lemma dispatchPointersUp_run (turns : nat) (when deviceId policyFlags : Z) :
  forall (up active : Z) (s : State) (device : Device),
  keyedLookup (InputReader.mDevices (fst s)) deviceId = Some device ->
  isUint32 up -> isUint32 active -> (length (idsOf up) <= turns)%nat ->
  map motionOf (effectsOf (dispatchPointersUp turns when deviceId policyFlags up active s))
  = map Some (expectedUps (displayCoordsOf (fst s) device)
                (TouchScreenState.lastTouch (InputDevice.touchScreen device))
                (idsOf active) (idsOf up)) /\
  idsOf (valueOf (dispatchPointersUp turns when deviceId policyFlags up active s))
  = fold_left (fun a u => removeId u a) (idsOf up) (idsOf active) /\
  isUint32 (valueOf (dispatchPointersUp turns when deviceId policyFlags up active s)) /\
  touchStable deviceId s
    (stateOf (dispatchPointersUp turns when deviceId policyFlags up active s)).
Proof.
  induction turns as [|turns IH]; intros up active s device Hdev Hup Hact Hlen.
  - rewrite (length_le_0_nil _ Hlen).
    cbn [dispatchPointersUp ret effectsOf valueOf stateOf fst snd map expectedUps fold_left].
    split; [reflexivity|]. split; [reflexivity|]. split; [assumption|].
    apply touchStable_refl.
  - rewrite dispatchPointersUp_S.
    destruct (Z.eq_dec up 0) as [Heq|Hne].
    + rewrite Heq, idsOf_zero. change (isEmpty 0) with true. cbn [negb].
      cbn [ret effectsOf valueOf stateOf fst snd map expectedUps fold_left].
      split; [reflexivity|]. split; [reflexivity|].
      split; [assumption|]. apply touchStable_refl.
    + pose proof (firstMarkedBit_range Hup Hne) as Hn.
      assert (isEmpty up = false) as Hemp by (apply Z.eqb_neq; assumption).
      rewrite Hemp. cbn [negb].
      rewrite (idsOf_first Hup Hne) in Hlen |- *.
      set (n := firstMarkedBit up) in *.
      rewrite bind_run, (deref_run _ _ Hdev).
      cbn [valueOf stateOf effectsOf fst snd app].
      rewrite bind_run. cbn [valueOf stateOf effectsOf fst snd].
      match goal with
      | |- context [dispatchTouch ?w ?i ?p ?t ?b ?a s] =>
          destruct (@dispatchTouch_run w i p t b a s device Hdev Hact) as [Heff Hst];
          set (r1 := dispatchTouch w i p t b a s) in *
      end.
      destruct (touchStable_lookup Hst Hdev) as (d1 & Hd1).
      destruct (displayCoordsOf_stable Hst Hdev Hd1) as (Hc1 & _ & Hl1).
      destruct (IH (clearBit up n) (clearBit active n) (stateOf r1) d1 Hd1
                  (clearBit_isUint32 n Hup) (clearBit_isUint32 n Hact)
                  (length_cons_le Hlen)) as (IHe & IHv & IHu & IHs).
      rewrite map_app, Heff, IHe, IHv, Hc1, Hl1.
      rewrite expectedUps_cons, fold_left_cons, map_cons.
      rewrite (isEmpty_idsOf (clearBit_isUint32 n Hact)).
      rewrite !idsOf_clearBit by assumption.
      split; [reflexivity|]. split; [reflexivity|]. split; [assumption|].
      eapply touchStable_trans; eassumption.
Qed.

Lemma dispatchPointersDown_S (turns : nat) (when deviceId policyFlags down active : Z) :
  (dispatchPointersDown (S turns) when deviceId policyFlags down active : M BitSet32)
  = if negb (isEmpty down) then
      bind (if isEmpty active then
              bind (modifyTouchScreen deviceId (TouchScreenState.set_downTime when))
                (fun _ => ret MOTION_EVENT_ACTION_DOWN)
            else
              ret (Z.lor MOTION_EVENT_ACTION_POINTER_DOWN
                     (Z.shiftl (firstMarkedBit down)
                        MOTION_EVENT_ACTION_POINTER_INDEX_SHIFT)))
        (fun motionEventAction =>
           bind (deref deviceId) (fun device =>
             bind (dispatchTouch when deviceId policyFlags
                     (TouchScreenState.currentTouch (InputDevice.touchScreen device))
                     (markBit active (firstMarkedBit down)) motionEventAction)
               (fun _ => dispatchPointersDown turns when deviceId policyFlags
                           (clearBit down (firstMarkedBit down))
                           (markBit active (firstMarkedBit down)))))
    else ret active.
Proof. reflexivity. Qed.

Lemma expectedDowns_cons (coordsOf : PointerData.t -> PointerCoords.t)
  (currentTouch : TouchData.t) (active : list Z) (downId : Z) (rest : list Z) :
  expectedDowns coordsOf currentTouch active (downId :: rest)
  = (if isNil active then MOTION_EVENT_ACTION_DOWN
     else Z.lor MOTION_EVENT_ACTION_POINTER_DOWN
            (Z.shiftl downId MOTION_EVENT_ACTION_POINTER_INDEX_SHIFT),
     insertId downId active, frameCoords coordsOf currentTouch (insertId downId active))
    :: expectedDowns coordsOf currentTouch (insertId downId active) rest.
Proof. reflexivity. Qed.

(** The choice of the action of a pointer going down, with the down time it
    may set. *)
Lemma downAction_run (when deviceId active n : Z) (s : State) :
  isUint32 active ->
  exists s0,
    (if isEmpty active then
       bind (modifyTouchScreen deviceId (TouchScreenState.set_downTime when))
         (fun _ => ret MOTION_EVENT_ACTION_DOWN)
     else
       ret (Z.lor MOTION_EVENT_ACTION_POINTER_DOWN
              (Z.shiftl n MOTION_EVENT_ACTION_POINTER_INDEX_SHIFT))) s
    = (if isNil (idsOf active) then MOTION_EVENT_ACTION_DOWN
       else Z.lor MOTION_EVENT_ACTION_POINTER_DOWN
              (Z.shiftl n MOTION_EVENT_ACTION_POINTER_INDEX_SHIFT), s0, [])
    /\ touchStable deviceId s s0.
Proof.
  intros Hact. rewrite <- (isEmpty_idsOf Hact). destruct (isEmpty active).
  - eexists. rewrite bind_run. split; [reflexivity|].
    apply touchStable_downTime.
  - exists s. split; [reflexivity|apply touchStable_refl].
Qed.

Lemma dispatchPointersDown_run (turns : nat) (when deviceId policyFlags : Z) :
  forall (down active : Z) (s : State) (device : Device),
  keyedLookup (InputReader.mDevices (fst s)) deviceId = Some device ->
  isUint32 down -> isUint32 active -> (length (idsOf down) <= turns)%nat ->
  map motionOf (effectsOf (dispatchPointersDown turns when deviceId policyFlags down active s))
  = map Some (expectedDowns (displayCoordsOf (fst s) device)
                (TouchScreenState.currentTouch (InputDevice.touchScreen device))
                (idsOf active) (idsOf down)) /\
  touchStable deviceId s
    (stateOf (dispatchPointersDown turns when deviceId policyFlags down active s)).
Proof.
  induction turns as [|turns IH]; intros down active s device Hdev Hdown Hact Hlen.
  - rewrite (length_le_0_nil _ Hlen).
    cbn [dispatchPointersDown ret effectsOf valueOf stateOf fst snd map expectedDowns].
    split; [reflexivity|apply touchStable_refl].
  - rewrite dispatchPointersDown_S.
    destruct (Z.eq_dec down 0) as [Heq|Hne].
    + rewrite Heq, idsOf_zero. change (isEmpty 0) with true. cbn [negb].
      cbn [ret effectsOf valueOf stateOf fst snd map expectedDowns].
      split; [reflexivity|apply touchStable_refl].
    + pose proof (firstMarkedBit_range Hdown Hne) as Hn.
      assert (isEmpty down = false) as Hemp by (apply Z.eqb_neq; assumption).
      rewrite Hemp. cbn [negb].
      rewrite (idsOf_first Hdown Hne) in Hlen |- *.
      set (n := firstMarkedBit down) in *.
      rewrite bind_run.
      destruct (downAction_run when deviceId n s Hact) as (s0 & -> & Hst0).
      cbn [valueOf stateOf effectsOf fst snd app].
      destruct (touchStable_lookup Hst0 Hdev) as (d0 & Hd0).
      destruct (displayCoordsOf_stable Hst0 Hdev Hd0) as (Hc0 & Hcur0 & _).
      rewrite bind_run, (deref_run _ _ Hd0).
      cbn [valueOf stateOf effectsOf fst snd app].
      rewrite bind_run. cbn [valueOf stateOf effectsOf fst snd].
      pose proof (markBit_isUint32 Hact Hn) as Hact'.
      match goal with
      | |- context [dispatchTouch ?w ?i ?p ?t ?b ?a s0] =>
          destruct (@dispatchTouch_run w i p t b a s0 d0 Hd0 Hact') as [Heff Hst];
          set (r1 := dispatchTouch w i p t b a s0) in *
      end.
      destruct (touchStable_lookup Hst Hd0) as (d1 & Hd1).
      destruct (displayCoordsOf_stable Hst Hd0 Hd1) as (Hc1 & Hcur1 & _).
      destruct (IH (clearBit down n) (markBit active n) (stateOf r1) d1 Hd1
                  (clearBit_isUint32 n Hdown) Hact'
                  (length_cons_le Hlen)) as (IHe & IHs).
      rewrite map_app, Heff, IHe, Hc1, Hcur1, Hc0, Hcur0.
      rewrite expectedDowns_cons, map_cons.
      rewrite !idsOf_markBit by assumption.
      split; [reflexivity|].
      eapply touchStable_trans; [eassumption|].
      eapply touchStable_trans; eassumption.
Qed.

Lemma dispatchTouches_run (when deviceId policyFlags : Z) (s : State)
  (device : Device) :
  let currentTouch := TouchScreenState.currentTouch (InputDevice.touchScreen device) in
  let lastTouch := TouchScreenState.lastTouch (InputDevice.touchScreen device) in
  keyedLookup (InputReader.mDevices (fst s)) deviceId = Some device ->
  isUint32 (TouchData.idBits currentTouch) ->
  isUint32 (TouchData.idBits lastTouch) ->
  frameCountsIds currentTouch -> frameCountsIds lastTouch ->
  map motionOf (effectsOf (dispatchTouches when deviceId policyFlags s))
  = map Some (expectedTouchMotions (displayCoordsOf (fst s) device)
                currentTouch lastTouch).
Proof.
  intros currentTouch lastTouch Hdev Hcur Hlast Hfc Hfl.
  unfold dispatchTouches. rewrite bind_run, (deref_run _ _ Hdev).
  cbn [valueOf stateOf effectsOf fst snd app].
  fold currentTouch lastTouch. unfold expectedTouchMotions.
  unfold frameCountsIds in Hfc, Hfl.
  destruct ((TouchData.pointerCount currentTouch =? 0)
            && (TouchData.pointerCount lastTouch =? 0)) eqn:Ecount.
  - apply andb_true_iff in Ecount. destruct Ecount as [Ec El].
    apply Z.eqb_eq in Ec, El. apply Hfc in Ec. apply Hfl in El.
    rewrite Ec, El, idsOf_zero. reflexivity.
  - destruct (Z.eqb_spec (TouchData.idBits currentTouch) (TouchData.idBits lastTouch))
      as [Heq|Hne].
    + assert (TouchData.idBits currentTouch <> 0) as Hnz.
      { intros Hz. apply andb_false_iff in Ecount.
        destruct Ecount as [E|E]; apply Z.eqb_neq in E; apply E.
        - apply Hfc. assumption.
        - apply Hfl. congruence. }
      rewrite <- (isEmpty_idsOf Hcur).
      assert (isEmpty (TouchData.idBits currentTouch) = false) as ->
        by (apply Z.eqb_neq; assumption).
      apply (@dispatchTouch_run when deviceId policyFlags currentTouch
               (TouchData.idBits currentTouch) MOTION_EVENT_ACTION_MOVE s device
               Hdev Hcur).
    + rewrite bind_run.
      destruct (@dispatchPointersUp_run 32 when deviceId policyFlags _ _ s device Hdev
                  (difference_isUint32 (TouchData.idBits currentTouch) Hlast) Hlast
                  (idsOf_length _)) as (Hup & Hval & Huint & Hst).
      match type of Hup with
      | context [dispatchPointersUp ?t ?w ?i ?p ?u ?a s] =>
          set (r1 := dispatchPointersUp t w i p u a s) in *
      end.
      destruct (touchStable_lookup Hst Hdev) as (d1 & Hd1).
      destruct (displayCoordsOf_stable Hst Hdev Hd1) as (Hc1 & Hcur1 & _).
      rewrite bind_run. cbn [ret valueOf stateOf effectsOf fst snd].
      destruct (@dispatchPointersDown_run 32 when deviceId policyFlags _ _ _ d1 Hd1
                  (difference_isUint32 (TouchData.idBits lastTouch) Hcur) Huint
                  (idsOf_length _)) as (Hdown & _).
      rewrite app_nil_r, !map_app, Hup, Hdown, Hval, Hc1, Hcur1.
      rewrite !idsOf_difference. reflexivity.
Qed.

(** ** Policy decisions *)

Lemma applyStandardInputDispatchPolicyActions_run (when policyActions policyFlags : Z)
  (s : State) :
  applyStandardInputDispatchPolicyActions when policyActions policyFlags s
  = (anySet policyActions ACTION_DISPATCH,
     (if anySet policyActions ACTION_BRIGHT_HERE
      then Z.lor (if anySet policyActions ACTION_WOKE_HERE
                  then Z.lor policyFlags POLICY_FLAG_WOKE_HERE else policyFlags)
                 POLICY_FLAG_BRIGHT_HERE
      else (if anySet policyActions ACTION_WOKE_HERE
            then Z.lor policyFlags POLICY_FLAG_WOKE_HERE else policyFlags)),
     s,
     if anySet policyActions ACTION_APP_SWITCH_COMING
     then [NotifyAppSwitchComing when] else []).
Proof.
  unfold applyStandardInputDispatchPolicyActions. rewrite bind_run.
  destruct (anySet policyActions ACTION_APP_SWITCH_COMING); reflexivity.
Qed.

Lemma expectedTouchMotions_fresh (coordsOf : PointerData.t -> PointerCoords.t)
  (currentTouch lastTouch : TouchData.t) :
  isUint32 (TouchData.idBits currentTouch) ->
  TouchData.idBits lastTouch = 0 ->
  expectedTouchMotions coordsOf currentTouch lastTouch
  = expectedDowns coordsOf currentTouch [] (idsOf (TouchData.idBits currentTouch)).
Proof.
  intros Hcur Hlast. unfold expectedTouchMotions. rewrite Hlast, idsOf_zero.
  destruct (Z.eqb_spec (TouchData.idBits currentTouch) 0) as [Heq|Hne].
  - rewrite Heq, idsOf_zero. reflexivity.
  - cbn [filter fold_left app expectedUps].
    f_equal. clear. induction (idsOf (TouchData.idBits currentTouch)) as [|i l IH];
      [reflexivity|]. cbn [filter memId existsb negb]. f_equal. exact IH.
Qed.


(** ** Virtual keys *)

Lemma updateExportedVirtualKeyState_run (s : State) :
  updateExportedVirtualKeyState s
  = (tt,
     (InputReader.set_exportedVirtualKey
        (fst (exportedVirtualKeyOf (InputReader.mDevices (fst s))))
        (snd (exportedVirtualKeyOf (InputReader.mDevices (fst s)))) (fst s), snd s),
     [ExportedVirtualKeyStored
        (fst (exportedVirtualKeyOf (InputReader.mDevices (fst s))))
        (snd (exportedVirtualKeyOf (InputReader.mDevices (fst s))))]).
Proof.
  unfold updateExportedVirtualKeyState. rewrite bind_run.
  cbn [getReader valueOf stateOf effectsOf fst snd app].
  destruct (exportedVirtualKeyOf (InputReader.mDevices (fst s))) as [k sc].
  reflexivity.
Qed.

Lemma dispatchVirtualKey_run (when deviceId policyFlags keyEventAction keyEventFlags : Z)
  (s : State) :
  exists g w rest,
    dispatchVirtualKey when deviceId policyFlags keyEventAction keyEventFlags s
    = (tt,
       (InputReader.set_mGlobalMetaState g
          (InputReader.set_exportedVirtualKey
             (fst (exportedVirtualKeyOf (InputReader.mDevices (fst s))))
             (snd (exportedVirtualKeyOf (InputReader.mDevices (fst s)))) (fst s)), w),
       ExportedVirtualKeyStored
         (fst (exportedVirtualKeyOf (InputReader.mDevices (fst s))))
         (snd (exportedVirtualKeyOf (InputReader.mDevices (fst s)))) :: rest).
Proof.
  unfold dispatchVirtualKey.
  rewrite bind_run, updateExportedVirtualKeyState_run.
  cbn [valueOf stateOf effectsOf fst snd app].
  set (s1 := (InputReader.set_exportedVirtualKey _ _ (fst s), snd s)).
  rewrite bind_run. cbn [deref valueOf stateOf effectsOf fst snd app].
  rewrite bind_run. destruct (globalMetaState_run s1) as (g & ->).
  cbn [valueOf stateOf effectsOf fst snd app].
  rewrite bind_run.
  set (s2 := stateOf ((if keyEventAction =? KEY_EVENT_ACTION_DOWN
                       then tell virtualKeyDownFeedback else ret tt)
                        (InputReader.set_mGlobalMetaState g (fst s1), snd s1))).
  assert (fst s2 = InputReader.set_mGlobalMetaState g (fst s1)) as Hs2.
  { unfold s2. destruct (keyEventAction =? KEY_EVENT_ACTION_DOWN); reflexivity. }
  assert (effectsOf ((if keyEventAction =? KEY_EVENT_ACTION_DOWN
                      then tell virtualKeyDownFeedback else ret tt)
                       (InputReader.set_mGlobalMetaState g (fst s1), snd s1)) = []) as ->.
  { destruct (keyEventAction =? KEY_EVENT_ACTION_DOWN); reflexivity. }
  cbn [app]. rewrite bind_run, call_run.
  cbn [valueOf stateOf effectsOf fst snd app].
  rewrite bind_run, applyStandardInputDispatchPolicyActions_run.
  cbn [valueOf stateOf effectsOf fst snd]. rewrite Hs2.
  match goal with
  | |- context [if anySet ?a ACTION_DISPATCH then _ else _] =>
      destruct (anySet a ACTION_DISPATCH)
  end; cbn [emit ret valueOf stateOf effectsOf fst snd]; do 3 eexists; reflexivity.
Qed.

Lemma setVirtualKeyStatus_run (deviceId : Z) (status : CurrentVirtualKeyState.Status)
  (s : State) :
  setVirtualKeyStatus deviceId status s
  = (tt,
     (InputReader.set_mDevices
        (keyedUpdate (InputReader.mDevices (fst s)) deviceId
           (fun d =>
              InputDevice.set_touchScreen
                (TouchScreenState.set_currentVirtualKey
                   (CurrentVirtualKeyState.set_status status
                      (TouchScreenState.currentVirtualKey (InputDevice.touchScreen d)))
                   (InputDevice.touchScreen d)) d))
        (fst s), snd s), []).
Proof. reflexivity. Qed.

Lemma consume_after_dispatch (when deviceId policyFlags action flags : Z)
  (setStatus : M unit) (s s1 : State) :
  setStatus s = (tt, s1, []) ->
  let r := bind setStatus (fun _ =>
             bind (dispatchVirtualKey when deviceId policyFlags action flags)
               (fun _ => ret true)) s in
  InputReader.mDevices (fst (stateOf r)) = InputReader.mDevices (fst s1) /\
  (exists rest,
     effectsOf r
     = ExportedVirtualKeyStored
         (fst (exportedVirtualKeyOf (InputReader.mDevices (fst s1))))
         (snd (exportedVirtualKeyOf (InputReader.mDevices (fst s1)))) :: rest) /\
  InputReader.mExportedVirtualKeyCode (fst (stateOf r))
  = fst (exportedVirtualKeyOf (InputReader.mDevices (fst s1))) /\
  InputReader.mExportedVirtualScanCode (fst (stateOf r))
  = snd (exportedVirtualKeyOf (InputReader.mDevices (fst s1))).
Proof.
  intros Hset r. unfold r. rewrite bind_run, Hset.
  cbn [valueOf stateOf effectsOf fst snd app].
  rewrite bind_run.
  destruct (dispatchVirtualKey_run when deviceId policyFlags action flags s1)
    as (g & w & rest & ->).
  cbn [ret valueOf stateOf effectsOf fst snd app InputReader.mDevices
       InputReader.set_mGlobalMetaState InputReader.set_exportedVirtualKey
       InputReader.mExportedVirtualKeyCode InputReader.mExportedVirtualScanCode].
  split; [reflexivity|]. split; [|split; reflexivity].
  exists (rest ++ []). reflexivity.
Qed.


(** ** Relations kept by the handlers *)

Section Preservation.

Variable R : State -> State -> Prop.
Hypothesis R_refl : forall s, R s s.
Hypothesis R_trans : forall s1 s2 s3, R s1 s2 -> R s2 s3 -> R s1 s3.
Hypothesis R_world : forall r (w w' : World), R (r, w) (r, w').
Hypothesis R_reader : forall f r (w : World), readerFrame f -> R (r, w) (f r, w).
Hypothesis R_exported : preserves R updateExportedVirtualKeyState.
Hypothesis R_device : forall deviceId f s, devFrame f -> R s (updateDevice deviceId f s).

Lemma pres_ret {A : Type} (a : A) : preserves R (ret a).
Proof. intros s. apply R_refl. Qed.

Lemma pres_bind {A B : Type} (m : M A) (k : A -> M B) :
  preserves R m -> (forall a, preserves R (k a)) -> preserves R (bind m k).
Proof.
  intros Hm Hk s. rewrite stateOf_bind. eapply R_trans; [apply Hm|apply Hk].
Qed.

Lemma pres_call {A : Type} (f : World -> A * World) : preserves R (call f).
Proof. intros [r w]. rewrite call_run. apply R_world. Qed.

Lemma pres_tell (f : World -> World) : preserves R (tell f).
Proof. intros [r w]. apply R_world. Qed.

Lemma pres_emit (e : Effect) : preserves R (emit e).
Proof. intros s. apply R_refl. Qed.

Lemma pres_getReader : preserves R getReader.
Proof. intros s. apply R_refl. Qed.

Lemma pres_deref (deviceId : Z) : preserves R (deref deviceId).
Proof. intros s. apply R_refl. Qed.

Lemma pres_getDevice (deviceId : Z) : preserves R (getDevice deviceId).
Proof. intros s. apply R_refl. Qed.

Lemma pres_getNonIgnoredDevice (deviceId : Z) : preserves R (getNonIgnoredDevice deviceId).
Proof. intros s. unfold getNonIgnoredDevice. rewrite stateOf_bind. apply R_refl. Qed.

Lemma pres_modifyReader (f : Reader -> Reader) :
  readerFrame f -> preserves R (modifyReader f).
Proof. intros Hf [r w]. apply R_reader. assumption. Qed.

Lemma pres_modifyDevice (deviceId : Z) (f : Device -> Device) :
  devFrame f -> preserves R (modifyDevice deviceId f).
Proof. intros Hf s. apply (R_device deviceId s Hf). Qed.

Lemma pres_forEach {A : Type} (l : list A) (body : A -> M unit) :
  (forall a, preserves R (body a)) -> preserves R (forEach l body).
Proof.
  intros Hbody. induction l as [|a l IH]; cbn [forEach].
  - apply pres_ret.
  - apply pres_bind; [apply Hbody|intros _; apply IH].
Qed.

Ltac frame_leaf :=
  first
    [ solve [ intros ?; repeat split; reflexivity ]
    | solve [ split; intros ?; repeat split; reflexivity ] ].

Ltac pres_step :=
  lazymatch goal with
  | |- preserves _ (ret _) => apply pres_ret
  | |- preserves _ (bind _ _) => apply pres_bind; [|intros ?; cbv beta]
  | |- preserves _ (call _) => apply pres_call
  | |- preserves _ (tell _) => apply pres_tell
  | |- preserves _ (emit _) => apply pres_emit
  | |- preserves _ getReader => apply pres_getReader
  | |- preserves _ (deref _) => apply pres_deref
  | |- preserves _ (getDevice _) => apply pres_getDevice
  | |- preserves _ (getNonIgnoredDevice _) => apply pres_getNonIgnoredDevice
  | |- preserves _ (modifyReader _) => apply pres_modifyReader; frame_leaf
  | |- preserves _ (modifyDevice _ _) => apply pres_modifyDevice; frame_leaf
  | |- preserves _ (modifyTouchScreen _ _) =>
      unfold modifyTouchScreen; apply pres_modifyDevice; frame_leaf
  | |- preserves _ (forEach _ _) => apply pres_forEach; intros ?
  | |- preserves _ (if ?c then _ else _) => destruct c
  | |- preserves _ (match ?x with _ => _ end) => destruct x
  | |- preserves _ (let _ := _ in _) => cbv zeta
  end.

Ltac pres_auto := repeat pres_step.

Lemma pres_resetGlobalMetaState : preserves R resetGlobalMetaState.
Proof. unfold resetGlobalMetaState. pres_auto. Qed.

Lemma pres_globalMetaState : preserves R globalMetaState.
Proof. unfold globalMetaState. pres_auto. Qed.

Lemma pres_updateExportedInputConfiguration : preserves R updateExportedInputConfiguration.
Proof. unfold updateExportedInputConfiguration. pres_auto. Qed.

Lemma pres_onConfigurationChanged (when : Z) : preserves R (onConfigurationChanged when).
Proof.
  unfold onConfigurationChanged.
  apply pres_bind; [apply pres_resetGlobalMetaState|intros _].
  apply pres_bind; [apply R_exported|intros _].
  apply pres_bind; [apply pres_updateExportedInputConfiguration|intros _].
  apply pres_emit.
Qed.

Lemma pres_applyStandardInputDispatchPolicyActions (when policyActions policyFlags : Z) :
  preserves R (applyStandardInputDispatchPolicyActions when policyActions policyFlags).
Proof. unfold applyStandardInputDispatchPolicyActions. pres_auto. Qed.

Lemma pres_resetDisplayProperties : preserves R resetDisplayProperties.
Proof. unfold resetDisplayProperties. pres_auto. Qed.

Hypothesis R_reconfigure : forall deviceId, preserves R (reconfigureDevice deviceId).

Lemma pres_refreshDisplayProperties : preserves R refreshDisplayProperties.
Proof.
  unfold refreshDisplayProperties.
  apply pres_bind; [apply pres_call|intros info].
  destruct info as [[[newWidth newHeight] newOrientation]|].
  - apply pres_bind; [apply pres_getReader|intros r].
    apply pres_bind.
    + destruct (_ || _); [|apply pres_ret].
      apply pres_bind; [pres_auto|intros _].
      apply pres_forEach. apply R_reconfigure.
    + intros _. pres_auto.
  - apply pres_bind; [apply pres_resetDisplayProperties|intros _]. apply pres_ret.
Qed.

Lemma pres_dispatchTouch (when deviceId policyFlags : Z) (touch : TouchData.t)
  (idBits action : Z) :
  preserves R (dispatchTouch when deviceId policyFlags touch idBits action).
Proof.
  unfold dispatchTouch.
  apply pres_bind; [apply pres_getReader|intros r]. cbv zeta.
  apply pres_bind; [apply pres_deref|intros device]. cbv zeta.
  apply pres_bind; [apply pres_globalMetaState|intros g]. apply pres_emit.
Qed.

Lemma pres_dispatchPointersUp (turns : nat) (when deviceId policyFlags : Z) :
  forall up active,
  preserves R (dispatchPointersUp turns when deviceId policyFlags up active).
Proof.
  induction turns as [|turns IH]; intros up active.
  - apply pres_ret.
  - rewrite dispatchPointersUp_S. destruct (negb (isEmpty up)); [|apply pres_ret].
    apply pres_bind; [apply pres_deref|intros device].
    apply pres_bind; [apply pres_dispatchTouch|intros _]. apply IH.
Qed.

Lemma pres_dispatchPointersDown (turns : nat) (when deviceId policyFlags : Z) :
  forall down active,
  preserves R (dispatchPointersDown turns when deviceId policyFlags down active).
Proof.
  induction turns as [|turns IH]; intros down active.
  - apply pres_ret.
  - rewrite dispatchPointersDown_S. destruct (negb (isEmpty down)); [|apply pres_ret].
    apply pres_bind; [pres_auto|intros action].
    apply pres_bind; [apply pres_deref|intros device].
    apply pres_bind; [apply pres_dispatchTouch|intros _]. apply IH.
Qed.

Lemma pres_dispatchTouches (when deviceId policyFlags : Z) :
  preserves R (dispatchTouches when deviceId policyFlags).
Proof.
  unfold dispatchTouches.
  apply pres_bind; [apply pres_deref|intros device]. cbv zeta.
  destruct (_ && _); [apply pres_ret|].
  destruct (_ =? _); [apply pres_dispatchTouch|].
  apply pres_bind; [apply pres_dispatchPointersUp|intros active].
  apply pres_bind; [apply pres_dispatchPointersDown|intros _]. apply pres_ret.
Qed.

Lemma pres_applyFilter (deviceId : Z)
  (filter : TouchScreenState.t FilterState -> bool * TouchData.t * FilterState) :
  preserves R (applyFilter deviceId filter).
Proof.
  unfold applyFilter. apply pres_bind; [apply pres_deref|intros device].
  destruct (filter (InputDevice.touchScreen device)) as [[changed touch] history].
  pres_auto.
Qed.

Lemma pres_applyHook (deviceId : Z)
  (hook : TouchScreenState.t FilterState -> TouchData.t * FilterState) :
  preserves R (applyHook deviceId hook).
Proof.
  unfold applyHook. apply pres_bind; [apply pres_deref|intros device].
  destruct (hook (InputDevice.touchScreen device)) as [touch history].
  pres_auto.
Qed.

Hypothesis R_consume : forall when deviceId policyFlags,
  preserves R (consumeVirtualKeyTouches when deviceId policyFlags).

Lemma pres_onTouchScreenChanged (when deviceId : Z) (havePointerIds : bool) :
  preserves R (onTouchScreenChanged when deviceId havePointerIds).
Proof.
  unfold onTouchScreenChanged.
  apply pres_bind; [apply pres_call|intros policyActions].
  apply pres_bind; [apply pres_applyStandardInputDispatchPolicyActions|intros [dispatch flags]].
  destruct (negb dispatch); [pres_auto|].
  apply pres_bind; [apply pres_deref|intros device]. cbv zeta.
  apply pres_bind.
  { destruct (TouchScreenState.useBadTouchFilter _); [|apply pres_ret].
    apply pres_bind; [apply pres_applyFilter|intros c]. apply pres_ret. }
  intros have1. apply pres_bind.
  { destruct (TouchScreenState.useJumpyTouchFilter _); [|apply pres_ret].
    apply pres_bind; [apply pres_applyFilter|intros c]. apply pres_ret. }
  intros have2. apply pres_bind.
  { destruct (negb have2); [apply pres_applyHook|apply pres_ret]. }
  intros _. apply pres_bind.
  { destruct (TouchScreenState.useAveragingTouchFilter _); [|apply pres_ret].
    apply pres_bind; [apply pres_deref|intros d].
    apply pres_bind; [apply pres_applyHook|intros _]. apply pres_ret. }
  intros savedTouch.
  apply pres_bind; [apply R_consume|intros consumed].
  apply pres_bind.
  { destruct (negb consumed); [apply pres_dispatchTouches|apply pres_ret]. }
  intros _. pres_auto.
Qed.

Lemma pres_onMultiTouchScreenStateChanged (when deviceId : Z) :
  preserves R (onMultiTouchScreenStateChanged when deviceId).
Proof.
  unfold onMultiTouchScreenStateChanged.
  apply pres_bind; [apply pres_refreshDisplayProperties|intros refreshed].
  destruct (negb refreshed); [apply pres_ret|].
  apply pres_bind; [apply pres_deref|intros device].
  destruct (assembleMultiTouch _ _) as [out have].
  apply pres_bind; [pres_auto|intros _]. apply pres_onTouchScreenChanged.
Qed.

Lemma pres_onSingleTouchScreenStateChanged (when deviceId : Z) :
  preserves R (onSingleTouchScreenStateChanged when deviceId).
Proof.
  unfold onSingleTouchScreenStateChanged.
  apply pres_bind; [apply pres_refreshDisplayProperties|intros refreshed].
  destruct (negb refreshed); [apply pres_ret|].
  apply pres_bind; [pres_auto|intros _].
  apply pres_bind; [pres_auto|intros _]. apply pres_onTouchScreenChanged.
Qed.

Lemma pres_onTrackballStateChanged (when deviceId : Z) :
  preserves R (onTrackballStateChanged when deviceId).
Proof.
  unfold onTrackballStateChanged.
  apply pres_bind; [apply pres_refreshDisplayProperties|intros refreshed].
  destruct (negb refreshed); [apply pres_ret|].
  apply pres_bind; [apply pres_deref|intros device]. cbv zeta.
  apply pres_bind; [pres_auto|intros down].
  apply pres_bind; [apply pres_call|intros policyActions].
  apply pres_bind; [apply pres_applyStandardInputDispatchPolicyActions|intros [dispatch flags]].
  destruct (negb dispatch); [apply pres_ret|]. cbv zeta.
  apply pres_bind; [apply pres_getReader|intros r]. cbv zeta.
  destruct (if _ =? ROTATION_90 then _ else _) as [x y].
  apply pres_bind; [apply pres_globalMetaState|intros g]. pres_auto.
Qed.

Lemma pres_onKey (when deviceId : Z) (down : bool) (keyCode scanCode policyFlags : Z) :
  preserves R (onKey when deviceId down keyCode scanCode policyFlags).
Proof.
  unfold onKey.
  apply pres_bind; [apply pres_refreshDisplayProperties|intros refreshed].
  destruct (negb refreshed); [apply pres_ret|].
  apply pres_bind; [apply pres_deref|intros device]. cbv zeta.
  apply pres_bind.
  { destruct (negb _); [|apply pres_ret].
    apply pres_bind; [pres_auto|intros _]. apply pres_resetGlobalMetaState. }
  intros _. apply pres_bind; [apply pres_getReader|intros r]. cbv zeta.
  apply pres_bind.
  { destruct down; [unfold setKeyboardDownTime; pres_auto|apply pres_ret]. }
  intros _. apply pres_bind; [apply pres_call|intros policyActions].
  apply pres_bind; [apply pres_applyStandardInputDispatchPolicyActions|intros [dispatch flags]].
  destruct (negb dispatch); [apply pres_ret|].
  apply pres_bind.
  { destruct down; [unfold setKeyboardDownTime; pres_auto|apply pres_ret]. }
  intros action. pres_auto.
Qed.

Lemma pres_onSwitch (when deviceId switchCode switchValue : Z) :
  preserves R (onSwitch when deviceId switchCode switchValue).
Proof.
  unfold onSwitch. apply pres_bind; [apply pres_call|intros policyActions].
  apply pres_bind; [apply pres_applyStandardInputDispatchPolicyActions|intros _].
  apply pres_ret.
Qed.

(** The raw event handlers, for the events of the devices in [touched]. *)

Variable touched : Z -> Prop.
Hypothesis R_acc : forall deviceId f s,
  touched deviceId -> accFrame f -> R s (updateDevice deviceId f s).
Hypothesis R_syncMT : forall rawEvent,
  touched (RawEvent.deviceId rawEvent) ->
  RawEvent.scanCode rawEvent = SYN_MT_REPORT -> preserves R (handleSync rawEvent).
Hypothesis R_added : forall rawEvent,
  touched (RawEvent.deviceId rawEvent) -> preserves R (handleDeviceAdded rawEvent).
Hypothesis R_removed : forall rawEvent,
  touched (RawEvent.deviceId rawEvent) -> preserves R (handleDeviceRemoved rawEvent).

Lemma pres_modifyAccumulators (deviceId : Z) (f : Device -> Device) :
  touched deviceId -> accFrame f -> preserves R (modifyDevice deviceId f).
Proof. intros Ht Hf s. apply (R_acc s Ht Hf). Qed.

Ltac acc_leaf :=
  solve [ split; intros ?;
          [ repeat split; reflexivity
          | first [ left; reflexivity | right; reflexivity ] ] ].

Lemma pres_handleSync (rawEvent : RawEvent.t) :
  touched (RawEvent.deviceId rawEvent) -> preserves R (handleSync rawEvent).
Proof.
  intros Ht.
  destruct (Z.eqb_spec (RawEvent.scanCode rawEvent) SYN_MT_REPORT) as [Hmt|Hmt];
    [apply R_syncMT; assumption|].
  unfold handleSync. cbv zeta.
  apply pres_bind; [apply pres_getNonIgnoredDevice|intros found].
  destruct found as [d|]; [|apply pres_ret].
  destruct (RawEvent.scanCode rawEvent =? SYN_MT_REPORT) eqn:E;
    [apply Z.eqb_eq in E; contradiction|].
  destruct (RawEvent.scanCode rawEvent =? SYN_REPORT); [|apply pres_ret].
  apply pres_bind; [apply pres_deref|intros device].
  apply pres_bind.
  { destruct (InputDevice.isMultiTouchScreen device).
    - destruct (MultiTouchScreenState.isDirty _); [|apply pres_ret].
      apply pres_bind; [apply pres_onMultiTouchScreenStateChanged|intros _].
      apply pres_modifyAccumulators; [assumption|acc_leaf].
    - destruct (InputDevice.isSingleTouchScreen device); [|apply pres_ret].
      destruct (SingleTouchScreenState.isDirty _); [|apply pres_ret].
      apply pres_bind; [apply pres_onSingleTouchScreenStateChanged|intros _].
      apply pres_modifyAccumulators; [assumption|acc_leaf]. }
  intros _. apply pres_bind; [apply pres_deref|intros device'].
  destruct (TrackballState.isDirty _); [|apply pres_ret].
  apply pres_bind; [apply pres_onTrackballStateChanged|intros _].
  apply pres_modifyAccumulators; [assumption|acc_leaf].
Qed.

Lemma pres_handleKey (rawEvent : RawEvent.t) :
  touched (RawEvent.deviceId rawEvent) -> preserves R (handleKey rawEvent).
Proof.
  intros Ht. unfold handleKey. cbv zeta.
  apply pres_bind; [apply pres_getNonIgnoredDevice|intros found].
  destruct found as [d|]; [|apply pres_ret].
  destruct (_ && _); [apply pres_modifyAccumulators; [assumption|acc_leaf]|].
  destruct (_ && _); [apply pres_modifyAccumulators; [assumption|acc_leaf]|].
  destruct (InputDevice.isKeyboard d); [apply pres_onKey|apply pres_ret].
Qed.

Lemma pres_handleRelativeMotion (rawEvent : RawEvent.t) :
  touched (RawEvent.deviceId rawEvent) -> preserves R (handleRelativeMotion rawEvent).
Proof.
  intros Ht. unfold handleRelativeMotion. cbv zeta.
  apply pres_bind; [apply pres_getNonIgnoredDevice|intros found].
  destruct found as [d|]; [|apply pres_ret].
  destruct (InputDevice.isTrackball d); [|apply pres_ret].
  destruct (_ =? REL_X); [apply pres_modifyAccumulators; [assumption|acc_leaf]|].
  destruct (_ =? REL_Y); [apply pres_modifyAccumulators; [assumption|acc_leaf]|].
  apply pres_ret.
Qed.

Lemma pres_handleAbsoluteMotion (rawEvent : RawEvent.t) :
  touched (RawEvent.deviceId rawEvent) -> preserves R (handleAbsoluteMotion rawEvent).
Proof.
  intros Ht. unfold handleAbsoluteMotion. cbv zeta.
  apply pres_bind; [apply pres_getNonIgnoredDevice|intros found].
  destruct found as [d|]; [|apply pres_ret].
  destruct (InputDevice.isMultiTouchScreen d);
    [apply pres_modifyAccumulators; [assumption|acc_leaf]|].
  destruct (InputDevice.isSingleTouchScreen d);
    [apply pres_modifyAccumulators; [assumption|acc_leaf]|].
  apply pres_ret.
Qed.

Lemma pres_handleSwitch (rawEvent : RawEvent.t) : preserves R (handleSwitch rawEvent).
Proof.
  unfold handleSwitch.
  apply pres_bind; [apply pres_getNonIgnoredDevice|intros found].
  destruct found as [d|]; [apply pres_onSwitch|apply pres_ret].
Qed.

Lemma pres_process (rawEvent : RawEvent.t) :
  touched (RawEvent.deviceId rawEvent) -> preserves R (process rawEvent).
Proof.
  intros Ht. unfold process. cbv zeta.
  destruct (_ =? DEVICE_ADDED); [apply R_added; assumption|].
  destruct (_ =? DEVICE_REMOVED); [apply R_removed; assumption|].
  destruct (_ =? EV_SYN); [apply pres_handleSync; assumption|].
  destruct (_ =? EV_KEY); [apply pres_handleKey; assumption|].
  destruct (_ =? EV_REL); [apply pres_handleRelativeMotion; assumption|].
  destruct (_ =? EV_ABS); [apply pres_handleAbsoluteMotion; assumption|].
  destruct (_ =? EV_SW); [apply pres_handleSwitch|apply pres_ret].
Qed.

Lemma pres_processAll (rawEvents : list RawEvent.t) :
  Forall (fun e => touched (RawEvent.deviceId e)) rawEvents ->
  preserves R (processAll rawEvents).
Proof.
  induction 1 as [|e l He Hl IH]; cbn [processAll].
  - apply pres_ret.
  - apply pres_bind; [apply pres_process; assumption|intros _; apply IH].
Qed.

Lemma pres_loopOnce : (forall deviceId, touched deviceId) -> preserves R loopOnce.
Proof.
  intros Hall. unfold loopOnce.
  apply pres_bind; [apply pres_call|intros rawEvent].
  apply pres_bind; [apply pres_call|intros when].
  apply pres_process. apply Hall.
Qed.

Lemma pres_loopTimes (n : nat) :
  (forall deviceId, touched deviceId) -> preserves R (loopTimes n).
Proof.
  intros Hall. induction n as [|n IH]; cbn [loopTimes].
  - apply pres_ret.
  - apply pres_bind; [apply pres_loopOnce; assumption|intros _; apply IH].
Qed.

End Preservation.

(** ** Configuration leaves the reader alone *)

Lemma keyedUpdate_ext_lookup {A : Type} (l : list (Z * A)) (k : Z) (f g : A -> A) :
  (forall v, keyedLookup l k = Some v -> f v = g v) ->
  keyedUpdate l k f = keyedUpdate l k g.
Proof.
  induction l as [|[k' v] l IH]; intros H; [reflexivity|].
  cbn [keyedUpdate keyedLookup] in *. destruct (k' =? k).
  - rewrite (H v eq_refl). reflexivity.
  - rewrite IH by assumption. reflexivity.
Qed.

Lemma keptReader_refl (s : State) : fst s = fst s.
Proof. reflexivity. Qed.

Lemma keptReader_trans (s1 s2 s3 : State) :
  fst s2 = fst s1 -> fst s3 = fst s2 -> fst s3 = fst s1.
Proof. congruence. Qed.

Lemma keptReader_world (r : Reader) (w w' : World) : fst (r, w') = fst (r, w).
Proof. reflexivity. Qed.

Ltac kr_ret := apply pres_ret; exact keptReader_refl.
Ltac kr_bind := apply pres_bind; [exact keptReader_trans| |].
Ltac kr_call := apply pres_call; exact keptReader_world.
Ltac kr_emit := apply pres_emit; exact keptReader_refl.
Ltac kr_getReader := apply pres_getReader; exact keptReader_refl.

Lemma configureVirtualKeysLoop_reader (device : Device) (displayWidth displayHeight : Z)
  (definitions : list VirtualKeyDefinition.t) :
  forall virtualKeys,
  preserves (fun s s' => fst s' = fst s)
    (configureVirtualKeysLoop device displayWidth displayHeight definitions virtualKeys).
Proof.
  induction definitions as [|definition rest IH]; intros virtualKeys;
    cbn [configureVirtualKeysLoop].
  - kr_ret.
  - kr_bind; [|intros vks; apply IH].
    unfold configureVirtualKey. cbv zeta.
    kr_bind; [kr_call|].
    intros [[keyCode flags]|].
    + destruct (virtualKeyHitBox _ _ _ _) as [[[[hitLeft hitTop] hitRight] hitBottom]|].
      * kr_ret.
      * kr_bind; [kr_emit|].
        intros _. kr_ret.
    + kr_bind; [kr_emit|].
      intros _. kr_ret.
Qed.

Lemma configureVirtualKeys_reader (device : Device) :
  preserves (fun s s' => fst s' = fst s) (configureVirtualKeys device).
Proof.
  unfold configureVirtualKeys.
  kr_bind; [kr_call|intros defs].
  kr_bind; [kr_getReader|intros r].
  kr_bind; [apply configureVirtualKeysLoop_reader|intros vks].
  kr_ret.
Qed.

Lemma configureDeviceForCurrentDisplaySize_reader (device : Device) :
  preserves (fun s s' => fst s' = fst s) (configureDeviceForCurrentDisplaySize device).
Proof.
  unfold configureDeviceForCurrentDisplaySize. cbv zeta.
  destruct (InputDevice.isTouchScreen device); [|kr_ret].
  destruct (_ && _); [|kr_ret].
  kr_bind; [kr_getReader|intros r].
  destruct (_ <? 0); [kr_ret|apply configureVirtualKeys_reader].
Qed.

Lemma reconfigured_same (d : Device) :
  reconfigured (TouchScreenState.precalculated (InputDevice.touchScreen d))
    (TouchScreenState.virtualKeys (InputDevice.touchScreen d)) d = d.
Proof. destruct d as [i c n ig k t ts st mt]. destruct ts. reflexivity. Qed.

Lemma reconfigured_precalculated (pre : TouchScreenState.Precalculated) (d : Device) :
  InputDevice.set_touchScreen
    (TouchScreenState.set_precalculated pre (InputDevice.touchScreen d)) d
  = reconfigured pre (TouchScreenState.virtualKeys (InputDevice.touchScreen d)) d.
Proof. destruct d as [i c n ig k t ts st mt]. destruct ts. reflexivity. Qed.

Lemma configureDeviceForCurrentDisplaySize_value (d : Device) (s : State) :
  exists pre vks,
    valueOf (configureDeviceForCurrentDisplaySize d s) = reconfigured pre vks d /\
    virtualKeysFrom d vks.
Proof.
  unfold configureDeviceForCurrentDisplaySize. cbv zeta.
  destruct (InputDevice.isTouchScreen d) eqn:Ets.
  - destruct (_ && _).
    + rewrite valueOf_bind. cbn [getReader valueOf stateOf fst snd].
      destruct (_ <? 0).
      * cbn [ret valueOf fst]. rewrite reconfigured_precalculated.
        do 2 eexists. split; [reflexivity|]. left. reflexivity.
      * unfold configureVirtualKeys.
        repeat (rewrite valueOf_bind || rewrite stateOf_bind).
        cbn [ret getReader valueOf stateOf fst snd].
        do 2 eexists. split; [reflexivity|]. right. split; [exact Ets|].
        do 5 eexists. reflexivity.
    + cbn [ret valueOf fst]. rewrite reconfigured_precalculated.
      do 2 eexists. split; [reflexivity|]. left. reflexivity.
  - cbn [ret valueOf fst]. exists (TouchScreenState.precalculated (InputDevice.touchScreen d)),
      (TouchScreenState.virtualKeys (InputDevice.touchScreen d)).
    split; [symmetry; apply reconfigured_same|]. left. reflexivity.
Qed.

Lemma reconfigureDevice_run (deviceId : Z) (s : State) :
  exists w pre vks effects,
    reconfigureDevice deviceId s
    = (tt, updateDevice deviceId (reconfigured pre vks) (fst s, w), effects) /\
    forall d, keyedLookup (InputReader.mDevices (fst s)) deviceId = Some d ->
              virtualKeysFrom d vks.
Proof.
  unfold reconfigureDevice. rewrite bind_run.
  set (dev := valueOf (deref deviceId s)).
  cbn [deref stateOf effectsOf fst snd app].
  rewrite bind_run.
  destruct (configureDeviceForCurrentDisplaySize_value dev s) as (pre & vks & Hval & Hfrom).
  pose proof (configureDeviceForCurrentDisplaySize_reader dev s) as Hreader.
  cbv beta in Hreader.
  rewrite Hval, modifyDevice_run.
  cbn [valueOf stateOf effectsOf fst snd].
  exists (snd (stateOf (configureDeviceForCurrentDisplaySize dev s))), pre, vks.
  eexists. split.
  - f_equal. unfold updateDevice. cbn [fst snd]. rewrite Hreader.
    rewrite (@keyedUpdate_ext_lookup _ (InputReader.mDevices (fst s)) deviceId
               (fun _ => reconfigured pre vks dev) (reconfigured pre vks));
      [reflexivity|].
    intros v Hv.
    unfold dev, deref. cbn [valueOf fst]. rewrite Hv. reflexivity.
  - intros d Hd. unfold dev, deref in Hfrom. cbn [valueOf fst] in Hfrom.
    rewrite Hd in Hfrom. exact Hfrom.
Qed.

Lemma configureVirtualKeysLoop_codes (Hhub : hubKeyCodesValid) (device : Device)
  (displayWidth displayHeight : Z) (definitions : list VirtualKeyDefinition.t) :
  forall virtualKeys s,
  virtualKeyCodesOk virtualKeys ->
  virtualKeyCodesOk
    (valueOf (configureVirtualKeysLoop device displayWidth displayHeight definitions
                virtualKeys s)).
Proof.
  induction definitions as [|definition rest IH]; intros virtualKeys s Hok;
    cbn [configureVirtualKeysLoop].
  - exact Hok.
  - rewrite valueOf_bind. apply IH.
    unfold configureVirtualKey. cbv zeta.
    rewrite valueOf_bind, call_run. cbn [valueOf stateOf fst snd].
    destruct (scancodeToKeycode _ _ (snd s)) as [[[keyCode flags]|] w'] eqn:Ehub;
      cbn [fst snd].
    + destruct (virtualKeyHitBox _ _ _ _) as [[[[hitLeft hitTop] hitRight] hitBottom]|].
      * cbn [ret valueOf fst]. unfold virtualKeyCodesOk. apply Forall_app.
        split; [exact Hok|].
        constructor; [|constructor]. cbn [VirtualKey.keyCode].
        eapply Hhub. exact Ehub.
      * rewrite valueOf_bind. exact Hok.
    + rewrite valueOf_bind. exact Hok.
Qed.

(** ** Relations that only look at the accumulators *)

Section AccumulatorPreservation.

Variable R : State -> State -> Prop.
Hypothesis R_refl : forall s, R s s.
Hypothesis R_trans : forall s1 s2 s3, R s1 s2 -> R s2 s3 -> R s1 s3.
Hypothesis R_world : forall r (w w' : World), R (r, w) (r, w').
Hypothesis R_reader : forall f r (w : World), readerFrame f -> R (r, w) (f r, w).
Hypothesis R_exported : preserves R updateExportedVirtualKeyState.
Hypothesis R_keeps : forall deviceId f s,
  keepsAccumulators f -> R s (updateDevice deviceId f s).

Lemma keeps_device (deviceId : Z) (f : Device -> Device) (s : State) :
  devFrame f -> R s (updateDevice deviceId f s).
Proof. intros [Hf _]. apply R_keeps. exact Hf. Qed.

Lemma keeps_reconfigure (deviceId : Z) : preserves R (reconfigureDevice deviceId).
Proof.
  intros s. destruct (reconfigureDevice_run deviceId s) as (w & pre & vks & eff & -> & _).
  cbn [stateOf fst snd]. apply R_trans with (fst s, w).
  - destruct s as [r w0]. apply R_world.
  - apply R_keeps. intros d. repeat split; reflexivity.
Qed.

Lemma keeps_dispatchVirtualKey (when deviceId policyFlags action flags : Z) :
  preserves R (dispatchVirtualKey when deviceId policyFlags action flags).
Proof.
  unfold dispatchVirtualKey.
  apply pres_bind; [exact R_trans|exact R_exported|intros _].
  apply pres_bind; [exact R_trans|apply pres_deref; exact R_refl|intros device]. cbv zeta.
  apply pres_bind; [exact R_trans|apply pres_globalMetaState; assumption|intros g].
  apply pres_bind; [exact R_trans| |intros _].
  { destruct (_ =? _); [apply pres_tell; exact R_world|apply pres_ret; exact R_refl]. }
  apply pres_bind; [exact R_trans|apply pres_call; exact R_world|intros policyActions].
  apply pres_bind; [exact R_trans| |intros [dispatch pf]].
  { apply pres_applyStandardInputDispatchPolicyActions; assumption. }
  destruct dispatch; [apply pres_emit; exact R_refl|apply pres_ret; exact R_refl].
Qed.

Lemma keeps_modifyTouchScreen (deviceId : Z)
  (g : TouchScreenState.t FilterState -> TouchScreenState.t FilterState) :
  preserves R (modifyTouchScreen deviceId g).
Proof.
  intros s. unfold modifyTouchScreen. rewrite modifyDevice_run.
  apply (R_keeps deviceId s). intros d. repeat split; reflexivity.
Qed.

Lemma keeps_consumeVirtualKeyTouches (when deviceId policyFlags : Z) :
  preserves R (consumeVirtualKeyTouches when deviceId policyFlags).
Proof.
  unfold consumeVirtualKeyTouches.
  apply pres_bind; [exact R_trans|apply pres_deref; exact R_refl|intros device].
  cbv zeta.
  assert (forall st, preserves R (setVirtualKeyStatus deviceId st)) as Hset
    by (intros st; apply keeps_modifyTouchScreen).
  assert (forall a f,
            preserves R
              (bind (dispatchVirtualKey when deviceId policyFlags a f)
                 (fun _ => ret true))) as Hdisp.
  { intros a f. apply pres_bind; [exact R_trans|apply keeps_dispatchVirtualKey|intros _].
    apply pres_ret; exact R_refl. }
  destruct (CurrentVirtualKeyState.status _).
  - destruct (_ && _); [|apply pres_ret; exact R_refl].
    destruct (TouchScreenState.findVirtualKeyHit _); [|apply pres_ret; exact R_refl].
    apply pres_bind; [exact R_trans|apply keeps_modifyTouchScreen|intros _]. apply Hdisp.
  - destruct (_ =? 0).
    + apply pres_bind; [exact R_trans|apply Hset|intros _]. apply Hdisp.
    + destruct (if _ =? 1 then _ else _); [apply pres_ret; exact R_refl|].
      apply pres_bind; [exact R_trans|apply Hset|intros _]. apply Hdisp.
  - apply pres_bind; [exact R_trans| |intros _; apply pres_ret; exact R_refl].
    destruct (_ =? 0); [apply Hset|apply pres_ret; exact R_refl].
  - destruct (_ && _); [|apply pres_ret; exact R_refl].
    destruct (TouchScreenState.findVirtualKeyHit _); [|apply pres_ret; exact R_refl].
    apply pres_bind; [exact R_trans|apply keeps_modifyTouchScreen|intros _]. apply Hdisp.
Qed.

End AccumulatorPreservation.

(** ** Frame sync *)

Lemma getNonIgnoredDevice_run (deviceId : Z) (s : State) :
  getNonIgnoredDevice deviceId s
  = (match keyedLookup (InputReader.mDevices (fst s)) deviceId with
     | Some d => if negb (InputDevice.ignored d) then Some d else None
     | None => None
     end, s, []).
Proof. unfold getNonIgnoredDevice. rewrite bind_run. reflexivity. Qed.

Lemma handleSync_report_run (rawEvent : RawEvent.t) (s : State) (d : Device) :
  RawEvent.scanCode rawEvent = SYN_REPORT ->
  keyedLookup (InputReader.mDevices (fst s)) (RawEvent.deviceId rawEvent) = Some d ->
  InputDevice.ignored d = false ->
  handleSync rawEvent s
  = bind (syncTouchScreen (RawEvent.when rawEvent) (RawEvent.deviceId rawEvent) d)
      (fun _ =>
         bind (deref (RawEvent.deviceId rawEvent))
           (fun device' =>
              syncTrackball (RawEvent.when rawEvent) (RawEvent.deviceId rawEvent) device'))
      s.
Proof.
  intros Hscan Hd Hign. unfold handleSync. cbv zeta.
  rewrite bind_run, getNonIgnoredDevice_run, Hd, Hign.
  cbn [negb valueOf stateOf effectsOf fst snd app].
  rewrite Hscan. change (SYN_REPORT =? SYN_MT_REPORT) with false.
  change (SYN_REPORT =? SYN_REPORT) with true. cbv iota.
  rewrite bind_run, (deref_run _ _ Hd). cbn [valueOf stateOf effectsOf fst snd app].
  symmetry. apply run_eta.
Qed.

Lemma handleSync_absent_run (rawEvent : RawEvent.t) (s : State) :
  match keyedLookup (InputReader.mDevices (fst s)) (RawEvent.deviceId rawEvent) with
  | Some d => InputDevice.ignored d = true
  | None => True
  end ->
  handleSync rawEvent s = (tt, s, []).
Proof.
  intros H. unfold handleSync. cbv zeta. rewrite bind_run, getNonIgnoredDevice_run.
  destruct (keyedLookup _ _) as [d|]; [rewrite H|]; reflexivity.
Qed.





















Lemma lookup_updateDevice (deviceId : Z) (f : Device -> Device) (s : State) :
  keyedLookup (InputReader.mDevices (fst (updateDevice deviceId f s))) deviceId
  = option_map f (keyedLookup (InputReader.mDevices (fst s)) deviceId).
Proof. apply keyedLookup_update_same. Qed.




(** ** Devices coming and going *)

Lemma configureAbsoluteAxisInfo_reader (device : Device) (axis : Z) :
  preserves (fun s s' => fst s' = fst s) (configureAbsoluteAxisInfo device axis).
Proof.
  unfold configureAbsoluteAxisInfo.
  kr_bind; [kr_call|intros info; kr_ret].
Qed.

Lemma configureDevice_reader (device : Device) :
  preserves (fun s s' => fst s' = fst s) (configureDevice device).
Proof.
  unfold configureDevice. cbv zeta.
  kr_bind.
  - destruct (InputDevice.isMultiTouchScreen device);
      [|destruct (InputDevice.isSingleTouchScreen device); [|kr_ret]];
      repeat (kr_bind; [apply configureAbsoluteAxisInfo_reader|intros ?]); kr_ret.
  - intros p. kr_bind.
    + destruct (InputDevice.isTouchScreen device); [|kr_ret].
      repeat (kr_bind; [kr_call|intros ?]). kr_ret.
    + intros ts. apply configureDeviceForCurrentDisplaySize_reader.
Qed.

Lemma configureDevice_value (d0 : Device) (s : State) :
  exists d2 pre vks,
    valueOf (configureDevice d0 s) = reconfigured pre vks d2 /\
    virtualKeysFrom d2 vks /\
    InputDevice.id d2 = InputDevice.id d0 /\
    InputDevice.classes d2 = InputDevice.classes d0 /\
    InputDevice.ignored d2 = InputDevice.ignored d0 /\
    TouchScreenState.virtualKeys (InputDevice.touchScreen d2)
    = TouchScreenState.virtualKeys (InputDevice.touchScreen d0).
Proof.
  unfold configureDevice. cbv zeta.
  rewrite valueOf_bind.
  match goal with
  | |- context [valueOf (?m s)] => set (p := valueOf (m s)); set (s1 := stateOf (m s))
  end.
  rewrite valueOf_bind.
  match goal with
  | |- context [valueOf (?m s1)] => set (ts := valueOf (m s1)); set (s2 := stateOf (m s1))
  end.
  assert (TouchScreenState.virtualKeys ts
          = TouchScreenState.virtualKeys (InputDevice.touchScreen d0)) as Hvk.
  { unfold ts. destruct (InputDevice.isTouchScreen d0); [|reflexivity].
    repeat (rewrite valueOf_bind). reflexivity. }
  match goal with
  | |- context [configureDeviceForCurrentDisplaySize ?d s2] => set (d2 := d)
  end.
  destruct (configureDeviceForCurrentDisplaySize_value d2 s2) as (pre & vks & Hval & Hfrom).
  exists d2, pre, vks. split; [exact Hval|]. split; [exact Hfrom|].
  unfold d2. destruct (InputDevice.isTrackball _); repeat split; exact Hvk.
Qed.

Lemma resetDevice_facts (d : Device) :
  InputDevice.id (resetDevice d) = InputDevice.id d /\
  InputDevice.classes (resetDevice d) = InputDevice.classes d /\
  InputDevice.ignored (resetDevice d) = InputDevice.ignored d /\
  TouchScreenState.virtualKeys (InputDevice.touchScreen (resetDevice d))
  = TouchScreenState.virtualKeys (InputDevice.touchScreen d) /\
  virtualKeyStatus (resetDevice d) = CurrentVirtualKeyState.STATUS_NONE /\
  MultiTouchScreenState.pointerCount
    (MultiTouchScreenState.accumulator (InputDevice.multiTouchScreen (resetDevice d))) = 0.
Proof. repeat split. Qed.

(** The state [addDevice] leaves: the registry with the new device added,
    followed by the configuration change when the device is not ignored. *)
Lemma addDevice_run (when deviceId : Z) (s : State) :
  exists (w : World) (device : Device),
    stateOf (addDevice when deviceId s)
    = (if negb (InputDevice.ignored device)
       then stateOf (onConfigurationChanged when (addedDevice deviceId device (fst s), w))
       else (addedDevice deviceId device (fst s), w)) /\
    freshDevice deviceId device.
Proof.
  unfold addDevice.
  rewrite stateOf_bind, call_run. cbn [valueOf stateOf fst snd].
  rewrite stateOf_bind, call_run. cbn [valueOf stateOf fst snd].
  set (classes := fst (getDeviceClasses deviceId (snd s))).
  set (name := fst (getDeviceName deviceId _)).
  set (w1 := snd (getDeviceName deviceId _)).
  cbv zeta. rewrite stateOf_bind.
  set (d0 := newInputDevice deviceId classes name).
  destruct (negb (classes =? 0)) eqn:Eclasses.
  - destruct (configureDevice_value d0 (fst s, w1))
      as (d2 & pre & vks & Hval & Hfrom & Hid & Hcl & Hig & Hvk).
    assert (fst (stateOf (configureDevice d0 (fst s, w1))) = fst s) as Hreader.
    { exact (configureDevice_reader d0 (fst s, w1)). }
    rewrite Hval.
    rewrite stateOf_bind. cbn [modifyReader valueOf stateOf fst snd].
    rewrite Hreader.
    exists (snd (stateOf (configureDevice d0 (fst s, w1)))),
           (resetDevice (reconfigured pre vks d2)).
    split; [destruct (InputDevice.ignored _); reflexivity|].
    split; [exact Hid|]. split.
    + intros Habs. cbn in Habs. rewrite Hig in Habs. discriminate.
    + split; [reflexivity|]. split; [reflexivity|].
      change (TouchScreenState.virtualKeys
                (InputDevice.touchScreen (resetDevice (reconfigured pre vks d2)))) with vks.
      change (InputDevice.isTouchScreen (resetDevice (reconfigured pre vks d2)))
        with (InputDevice.isTouchScreen d2).
      destruct Hfrom as [Hsame|Hloop]; [left|right; exact Hloop].
      rewrite Hsame, Hvk. reflexivity.
  - cbn [ret valueOf stateOf fst snd].
    rewrite stateOf_bind. cbn [modifyReader valueOf stateOf fst snd].
    exists w1, (resetDevice (InputDevice.set_ignored true d0)).
    split; [destruct (InputDevice.ignored _); reflexivity|]. split; [reflexivity|]. split.
    + intros _. apply negb_false_iff, Z.eqb_eq in Eclasses.
      unfold InputDevice.isTouchScreen. cbn [resetDevice InputDevice.classes
        InputDevice.set_keyboard InputDevice.set_trackball InputDevice.set_touchScreen
        InputDevice.set_singleTouchScreen InputDevice.set_multiTouchScreen
        InputDevice.set_ignored d0 newInputDevice].
      rewrite Eclasses. reflexivity.
    + split; [reflexivity|]. split; [reflexivity|]. left. reflexivity.
Qed.

Lemma removeDevice_run (when : Z) (device : Device) (s : State) :
  stateOf (removeDevice when device s)
  = (if negb (InputDevice.ignored device)
     then stateOf (onConfigurationChanged when
                     (removedDevice (InputDevice.id device) (fst s), snd s))
     else (removedDevice (InputDevice.id device) (fst s), snd s)).
Proof.
  unfold removeDevice. rewrite stateOf_bind.
  cbn [modifyReader valueOf stateOf fst snd].
  destruct (InputDevice.ignored device); reflexivity.
Qed.

(** ** The registry *)

Lemma keyedLookup_add_other {A : Type} (l : list (Z * A)) (k k' : Z) (v : A) :
  k' <> k -> keyedLookup (keyedAdd l k v) k' = keyedLookup l k'.
Proof.
  intros Hne. induction l as [|[k0 v0] l IH]; cbn [keyedAdd keyedLookup].
  - destruct (Z.eqb_spec k k'); [congruence|reflexivity].
  - destruct (k <? k0).
    + cbn [keyedLookup]. destruct (Z.eqb_spec k k'); [congruence|reflexivity].
    + destruct (Z.eqb_spec k k0) as [->|Hk]; cbn [keyedLookup].
      * destruct (Z.eqb_spec k0 k'); [congruence|reflexivity].
      * destruct (k0 =? k'); [reflexivity|apply IH].
Qed.

Lemma keyedLookup_remove_other {A : Type} (l : list (Z * A)) (k k' : Z) :
  k' <> k -> keyedLookup (keyedRemove l k) k' = keyedLookup l k'.
Proof.
  intros Hne. induction l as [|[k0 v0] l IH]; cbn [keyedRemove keyedLookup];
    [reflexivity|].
  destruct (Z.eqb_spec k0 k) as [->|Hk]; cbn [keyedLookup].
  - destruct (Z.eqb_spec k k'); [congruence|reflexivity].
  - destruct (k0 =? k'); [reflexivity|apply IH].
Qed.

Lemma keyedLookup_In {A : Type} (l : list (Z * A)) (k : Z) (v : A) :
  keyedLookup l k = Some v -> In (k, v) l.
Proof.
  induction l as [|[k0 v0] l IH]; cbn [keyedLookup]; [discriminate|].
  destruct (Z.eqb_spec k0 k) as [->|Hk].
  - intros [= ->]. left. reflexivity.
  - intros H. right. apply IH. exact H.
Qed.

Section Entries.

Variable P : Z -> Device -> Prop.

Lemma Forall_keyedUpdate (l : list (Z * Device)) (k : Z) (f : Device -> Device) :
  (forall d, P k d -> P k (f d)) ->
  Forall (fun kv => P (fst kv) (snd kv)) l ->
  Forall (fun kv => P (fst kv) (snd kv)) (keyedUpdate l k f).
Proof.
  intros Hf. induction 1 as [|[k0 v0] l Hx Hl IH]; cbn [keyedUpdate]; [constructor|].
  destruct (Z.eqb_spec k0 k) as [->|Hk].
  - constructor; [apply Hf; exact Hx|exact Hl].
  - constructor; [exact Hx|exact IH].
Qed.

Lemma Forall_keyedUpdate_at (l : list (Z * Device)) (k : Z) (f : Device -> Device)
  (d : Device) :
  keyedLookup l k = Some d ->
  (P k d -> P k (f d)) ->
  Forall (fun kv => P (fst kv) (snd kv)) l ->
  Forall (fun kv => P (fst kv) (snd kv)) (keyedUpdate l k f).
Proof.
  intros Hd Hf. induction 1 as [|[k0 v0] l Hx Hl IH]; cbn [keyedUpdate]; [constructor|].
  cbn [keyedLookup] in Hd. destruct (Z.eqb_spec k0 k) as [->|Hk].
  - injection Hd as ->. constructor; [apply Hf; exact Hx|exact Hl].
  - constructor; [exact Hx|apply IH; exact Hd].
Qed.

Lemma Forall_keyedAdd (l : list (Z * Device)) (k : Z) (d : Device) :
  P k d ->
  Forall (fun kv => P (fst kv) (snd kv)) l ->
  Forall (fun kv => P (fst kv) (snd kv)) (keyedAdd l k d).
Proof.
  intros Hd. induction 1 as [|[k0 v0] l Hx Hl IH]; cbn [keyedAdd].
  - constructor; [exact Hd|constructor].
  - destruct (k <? k0); [constructor; [exact Hd|constructor; assumption]|].
    destruct (k =? k0); constructor; assumption.
Qed.

Lemma Forall_keyedRemove (l : list (Z * Device)) (k : Z) :
  Forall (fun kv => P (fst kv) (snd kv)) l ->
  Forall (fun kv => P (fst kv) (snd kv)) (keyedRemove l k).
Proof.
  induction 1 as [|[k0 v0] l Hx Hl IH]; cbn [keyedRemove]; [constructor|].
  destruct (k0 =? k); [exact Hl|constructor; assumption].
Qed.

Lemma allEntries_lookup (s : State) (k : Z) (d : Device) :
  allEntries P s -> keyedLookup (InputReader.mDevices (fst s)) k = Some d -> P k d.
Proof.
  intros Hall Hd. apply keyedLookup_In in Hd.
  unfold allEntries in Hall. rewrite Forall_forall in Hall.
  exact (Hall _ Hd).
Qed.

Lemma allEntries_update (k : Z) (f : Device -> Device) (s : State) :
  (forall d, P k d -> P k (f d)) -> allEntries P s -> allEntries P (updateDevice k f s).
Proof. intros Hf Hall. apply Forall_keyedUpdate; assumption. Qed.

Lemma allEntries_update_at (k : Z) (f : Device -> Device) (s : State) (d : Device) :
  keyedLookup (InputReader.mDevices (fst s)) k = Some d ->
  (P k d -> P k (f d)) -> allEntries P s -> allEntries P (updateDevice k f s).
Proof. intros Hd Hf Hall. eapply Forall_keyedUpdate_at; eassumption. Qed.

Lemma allEntries_refl (s : State) : keepsInvariant (allEntries P) s s.
Proof. intros H. exact H. Qed.

Lemma allEntries_trans (s1 s2 s3 : State) :
  keepsInvariant (allEntries P) s1 s2 -> keepsInvariant (allEntries P) s2 s3 ->
  keepsInvariant (allEntries P) s1 s3.
Proof. intros H12 H23 H. apply H23, H12, H. Qed.

Lemma allEntries_world (r : Reader) (w w' : World) :
  keepsInvariant (allEntries P) (r, w) (r, w').
Proof. intros H. exact H. Qed.

Lemma allEntries_reader (f : Reader -> Reader) (r : Reader) (w : World) :
  readerFrame f -> keepsInvariant (allEntries P) (r, w) (f r, w).
Proof.
  intros Hf H. unfold allEntries in *. cbn [fst] in *.
  destruct (Hf r) as (-> & _). exact H.
Qed.

Lemma allEntries_exported : preserves (keepsInvariant (allEntries P)) updateExportedVirtualKeyState.
Proof.
  intros s H. rewrite updateExportedVirtualKeyState_run. exact H.
Qed.

(** The property is kept by the updates that keep the accumulators, or by
    those that keep the touch screen. *)
Hypothesis P_frame : forall k f d, devFrame f -> P k d -> P k (f d).
Hypothesis P_acc : forall k f d, accFrame f -> P k d -> P k (f d).
Hypothesis P_fresh : forall k d, freshDevice k d -> P k d.
Hypothesis P_reconfigure : forall deviceId,
  preserves (keepsInvariant (allEntries P)) (reconfigureDevice deviceId).
Hypothesis P_consume : forall when deviceId policyFlags,
  preserves (keepsInvariant (allEntries P))
    (consumeVirtualKeyTouches when deviceId policyFlags).
Hypothesis P_syncMT : forall rawEvent,
  RawEvent.scanCode rawEvent = SYN_MT_REPORT ->
  preserves (keepsInvariant (allEntries P)) (handleSync rawEvent).

Lemma allEntries_device (deviceId : Z) (f : Device -> Device) (s : State) :
  devFrame f -> keepsInvariant (allEntries P) s (updateDevice deviceId f s).
Proof. intros Hf H. apply allEntries_update; [intros d; apply P_frame; exact Hf|exact H]. Qed.

Lemma allEntries_accumulators (deviceId : Z) (f : Device -> Device) (s : State) :
  accFrame f -> keepsInvariant (allEntries P) s (updateDevice deviceId f s).
Proof. intros Hf H. apply allEntries_update; [intros d; apply P_acc; exact Hf|exact H]. Qed.

Lemma allEntries_onConfigurationChanged (when : Z) :
  preserves (keepsInvariant (allEntries P)) (onConfigurationChanged when).
Proof.
  apply pres_onConfigurationChanged;
    first [ exact allEntries_refl | exact allEntries_trans
          | exact allEntries_reader | exact allEntries_exported ].
Qed.

Lemma allEntries_added (rawEvent : RawEvent.t) :
  preserves (keepsInvariant (allEntries P)) (handleDeviceAdded rawEvent).
Proof.
  intros s H. unfold handleDeviceAdded. rewrite stateOf_bind.
  cbn [getDevice valueOf stateOf fst snd].
  destruct (keyedLookup _ _); [exact H|].
  destruct (addDevice_run (RawEvent.when rawEvent) (RawEvent.deviceId rawEvent) s)
    as (w & device & -> & Hfresh).
  assert (allEntries P (addedDevice (RawEvent.deviceId rawEvent) device (fst s), w)) as Hadd.
  { apply Forall_keyedAdd; [apply P_fresh; exact Hfresh|exact H]. }
  destruct (negb _); [|exact Hadd].
  apply allEntries_onConfigurationChanged. exact Hadd.
Qed.

Lemma allEntries_removed (rawEvent : RawEvent.t) :
  preserves (keepsInvariant (allEntries P)) (handleDeviceRemoved rawEvent).
Proof.
  intros s H. unfold handleDeviceRemoved. rewrite stateOf_bind.
  cbn [getDevice valueOf stateOf fst snd].
  destruct (keyedLookup _ _) as [device|]; [|exact H].
  rewrite removeDevice_run.
  assert (allEntries P (removedDevice (InputDevice.id device) (fst s), snd s)) as Hrem.
  { apply Forall_keyedRemove. exact H. }
  destruct (negb _); [|exact Hrem].
  apply allEntries_onConfigurationChanged. exact Hrem.
Qed.

Lemma allEntries_process (rawEvent : RawEvent.t) :
  preserves (keepsInvariant (allEntries P)) (process rawEvent).
Proof.
  apply pres_process with (touched := fun _ => True);
    first [ exact allEntries_refl | exact allEntries_trans | exact allEntries_world
          | exact allEntries_reader | exact allEntries_exported
          | exact allEntries_device | exact P_reconfigure | exact P_consume
          | intros deviceId f s _; apply allEntries_accumulators
          | intros e _; apply P_syncMT
          | intros e _; apply allEntries_added
          | intros e _; apply allEntries_removed
          | exact I ].
Qed.

Lemma allEntries_processAll (rawEvents : list RawEvent.t) :
  preserves (keepsInvariant (allEntries P)) (processAll rawEvents).
Proof.
  induction rawEvents as [|e l IH]; cbn [processAll].
  - intros s H. exact H.
  - intros s H. rewrite stateOf_bind. apply IH, allEntries_process, H.
Qed.

End Entries.

(** ** Per-pointer sync *)

Lemma handleSync_pointer_run (rawEvent : RawEvent.t) (s : State) (d : Device) :
  RawEvent.scanCode rawEvent = SYN_MT_REPORT ->
  keyedLookup (InputReader.mDevices (fst s)) (RawEvent.deviceId rawEvent) = Some d ->
  InputDevice.ignored d = false ->
  let deviceId := RawEvent.deviceId rawEvent in
  let accumulator := MultiTouchScreenState.accumulator (InputDevice.multiTouchScreen d) in
  let pointerIndex := MultiTouchScreenState.pointerCount accumulator in
  handleSync rawEvent s
  = if InputDevice.isMultiTouchScreen d then
      if negb (MultiTouchScreenState.fields
                 (arrayGet MultiTouchScreenState.zeroPointer
                    (MultiTouchScreenState.pointers accumulator) pointerIndex) =? 0)
      then
        if pointerIndex =? MAX_POINTERS
        then (tt,
              updateDevice deviceId (mapMultiTouchAccumulator (clearPointerAt pointerIndex)) s,
              [LogW (TooManyPointers MAX_POINTERS)])
        else (tt,
              updateDevice deviceId
                (mapMultiTouchAccumulator (clearPointerAt (pointerIndex + 1)))
                (updateDevice deviceId
                   (mapMultiTouchAccumulator (setPointerCount (pointerIndex + 1))) s),
              [])
      else (tt,
            updateDevice deviceId (mapMultiTouchAccumulator (clearPointerAt pointerIndex)) s,
            [])
    else (tt, s, []).
Proof.
  intros Hscan Hd Hign. cbv zeta. unfold handleSync. cbv zeta.
  rewrite bind_run, getNonIgnoredDevice_run, Hd, Hign.
  cbn [negb valueOf stateOf effectsOf fst snd app].
  rewrite Hscan. change (SYN_MT_REPORT =? SYN_MT_REPORT) with true. cbv iota.
  rewrite bind_run, (deref_run _ _ Hd). cbn [valueOf stateOf effectsOf fst snd app].
  destruct (InputDevice.isMultiTouchScreen d); [|reflexivity].
  rewrite bind_run.
  destruct (negb _); [|reflexivity].
  destruct (_ =? MAX_POINTERS); reflexivity.
Qed.

Lemma keepsTouchScreen_mapMultiTouchAccumulator
  (g : MultiTouchScreenState.Accumulator -> MultiTouchScreenState.Accumulator) :
  keepsTouchScreen (mapMultiTouchAccumulator g : Device -> Device).
Proof. intros d. repeat split. Qed.

(** A per-pointer sync keeps what every update of the accumulators of the
    device keeps. *)
Lemma pres_handleSync_pointer (R : State -> State -> Prop) (rawEvent : RawEvent.t) :
  (forall s, R s s) ->
  (forall s1 s2 s3, R s1 s2 -> R s2 s3 -> R s1 s3) ->
  (forall f s, keepsTouchScreen f -> R s (updateDevice (RawEvent.deviceId rawEvent) f s)) ->
  RawEvent.scanCode rawEvent = SYN_MT_REPORT ->
  preserves R (handleSync rawEvent).
Proof.
  intros R_refl R_trans R_upd Hscan s.
  destruct (keyedLookup (InputReader.mDevices (fst s)) (RawEvent.deviceId rawEvent))
    as [d|] eqn:Hd.
  - destruct (InputDevice.ignored d) eqn:Hign.
    + rewrite handleSync_absent_run by (rewrite Hd; exact Hign). apply R_refl.
    + rewrite (handleSync_pointer_run _ _ Hscan Hd Hign). cbv zeta.
      destruct (InputDevice.isMultiTouchScreen d); [|apply R_refl].
      destruct (negb _);
        [destruct (_ =? MAX_POINTERS)|]; cbn [stateOf fst snd].
      * apply R_upd, keepsTouchScreen_mapMultiTouchAccumulator.
      * eapply R_trans; apply R_upd, keepsTouchScreen_mapMultiTouchAccumulator.
      * apply R_upd, keepsTouchScreen_mapMultiTouchAccumulator.
  - rewrite handleSync_absent_run by (rewrite Hd; exact I). apply R_refl.
Qed.

(** ** Devices under their own ids *)

Ltac entries_premise :=
  first
    [ intros ?; apply allEntries_refl
    | intros ? ? ? ? ?; eapply allEntries_trans; eassumption
    | intros ? ? ?; apply allEntries_world
    | intros ? ? ? ?; apply allEntries_reader; assumption
    | apply allEntries_exported ].

Lemma registered_keeps (k : Z) (f : Device -> Device) (d : Device) :
  keepsAccumulators f -> registeredUnderOwnId k d -> registeredUnderOwnId k (f d).
Proof. intros Hf H. unfold registeredUnderOwnId. destruct (Hf d) as (-> & _). exact H. Qed.

Lemma registered_touch (k : Z) (f : Device -> Device) (d : Device) :
  keepsTouchScreen f -> registeredUnderOwnId k d -> registeredUnderOwnId k (f d).
Proof. intros Hf H. unfold registeredUnderOwnId. destruct (Hf d) as (-> & _). exact H. Qed.

Lemma registered_process (rawEvent : RawEvent.t) (s : State) :
  registeredUnderOwnIds s -> registeredUnderOwnIds (stateOf (process rawEvent s)).
Proof.
  revert s.
  assert (forall deviceId f s, keepsAccumulators f ->
            keepsInvariant (allEntries registeredUnderOwnId) s (updateDevice deviceId f s))
    as Hkeeps.
  { intros deviceId f s Hf H. apply allEntries_update; [|exact H].
    intros d. apply registered_keeps. exact Hf. }
  apply allEntries_process.
  - intros k f d [Hf _]. apply registered_keeps. exact Hf.
  - intros k f d [Hf _]. apply registered_touch. exact Hf.
  - intros k d (Hid & _). exact Hid.
  - intros deviceId. apply keeps_reconfigure;
      first [ exact Hkeeps | entries_premise ].
  - intros when deviceId policyFlags. apply keeps_consumeVirtualKeyTouches;
      first [ exact Hkeeps | entries_premise ].
  - intros e Hscan. apply pres_handleSync_pointer;
      [entries_premise|entries_premise| |exact Hscan].
    intros f s Hf H. apply allEntries_update; [|exact H].
    intros d. apply registered_touch. exact Hf.
Qed.

(** ** Events of other devices *)









(** ** The pointer count *)

Lemma pointerCount_keeps (k : Z) (f : Device -> Device) (d : Device) :
  keepsAccumulators f -> pointerCountInRange k d -> pointerCountInRange k (f d).
Proof.
  intros Hf H. unfold pointerCountInRange.
  destruct (Hf d) as (_ & _ & _ & -> & _). exact H.
Qed.

Lemma pointerCount_accFrame (k : Z) (f : Device -> Device) (d : Device) :
  accFrame f -> pointerCountInRange k d -> pointerCountInRange k (f d).
Proof.
  intros [_ Hf] H. unfold pointerCountInRange in *.
  destruct (Hf d) as [->| ->]; [exact H|].
  unfold MAX_POINTERS. lia.
Qed.

Lemma pointerCount_handleSync_pointer (rawEvent : RawEvent.t) :
  RawEvent.scanCode rawEvent = SYN_MT_REPORT ->
  preserves (keepsInvariant (allEntries pointerCountInRange)) (handleSync rawEvent).
Proof.
  intros Hscan s Hall.
  destruct (keyedLookup (InputReader.mDevices (fst s)) (RawEvent.deviceId rawEvent))
    as [d|] eqn:Hd.
  - destruct (InputDevice.ignored d) eqn:Hign.
    + rewrite handleSync_absent_run by (rewrite Hd; exact Hign). exact Hall.
    + rewrite (handleSync_pointer_run _ _ Hscan Hd Hign). cbv zeta.
      destruct (InputDevice.isMultiTouchScreen d); [|exact Hall].
      assert (pointerCountInRange (RawEvent.deviceId rawEvent) d) as Hrange
        by (eapply allEntries_lookup with (P := pointerCountInRange); eassumption).
      unfold pointerCountInRange in Hrange.
      destruct (negb _);
        [destruct (Z.eqb_spec (MultiTouchScreenState.pointerCount
                     (MultiTouchScreenState.accumulator (InputDevice.multiTouchScreen d)))
                     MAX_POINTERS) as [Hmax|Hmax]|]; cbn [stateOf fst snd].
      * apply allEntries_update; [|exact Hall]. intros d0 H0. exact H0.
      * apply allEntries_update; [intros d0 H0; exact H0|].
        apply allEntries_update_at with (d := d); [exact Hd| |exact Hall].
        intros _. unfold pointerCountInRange.
        cbn [mapMultiTouchAccumulator setMultiTouchAccumulator setPointerCount
             InputDevice.multiTouchScreen InputDevice.set_multiTouchScreen
             MultiTouchScreenState.accumulator MultiTouchScreenState.pointerCount].
        lia.
      * apply allEntries_update; [|exact Hall]. intros d0 H0. exact H0.
  - rewrite handleSync_absent_run by (rewrite Hd; exact I). exact Hall.
Qed.

Lemma pointerCount_updateDevice (deviceId : Z) (f : Device -> Device) (s : State) :
  keepsAccumulators f ->
  keepsInvariant (allEntries pointerCountInRange) s (updateDevice deviceId f s).
Proof.
  intros Hf H. apply allEntries_update; [|exact H].
  intros d. apply pointerCount_keeps. exact Hf.
Qed.

Lemma pointerCount_reconfigure (deviceId : Z) :
  preserves (keepsInvariant (allEntries pointerCountInRange)) (reconfigureDevice deviceId).
Proof.
  apply keeps_reconfigure;
    first [ intros; apply pointerCount_updateDevice; assumption | entries_premise ].
Qed.

Lemma pointerCount_consume (when deviceId policyFlags : Z) :
  preserves (keepsInvariant (allEntries pointerCountInRange))
    (consumeVirtualKeyTouches when deviceId policyFlags).
Proof.
  apply keeps_consumeVirtualKeyTouches;
    first [ intros; apply pointerCount_updateDevice; assumption | entries_premise ].
Qed.

Lemma configureExcludedDevices_reader :
  preserves (fun s s' => fst s' = fst s) configureExcludedDevices.
Proof.
  unfold configureExcludedDevices.
  kr_bind; [kr_call|intros names].
  apply pres_forEach; [exact keptReader_refl|exact keptReader_trans|].
  intros name. apply pres_tell. exact keptReader_world.
Qed.

(** The reader the constructor leaves: no device, no virtual key. *)
Lemma newInputReader_reader (w : World) :
  InputReader.mDevices (fst (newInputReader w : State)) = [] /\
  InputReader.mExportedVirtualKeyCode (fst (newInputReader w : State)) = -1 /\
  InputReader.mExportedVirtualScanCode (fst (newInputReader w : State)) = -1.
Proof.
  unfold newInputReader, constructInputReader.
  rewrite stateOf_bind.
  pose proof (configureExcludedDevices_reader (unconstructedReader, w)) as Hreader.
  cbv beta in Hreader. cbn [fst] in Hreader.
  destruct (stateOf (configureExcludedDevices (unconstructedReader, w))) as [r w1].
  cbn [fst] in Hreader. subst r.
  repeat split.
Qed.

Lemma pointerCount_newInputReader (w : World) :
  allEntries pointerCountInRange (newInputReader w : State).
Proof.
  unfold allEntries. destruct (newInputReader_reader w) as (-> & _). constructor.
Qed.

Lemma firstn_listSet {A : Type} (a : list A) (n : nat) (v : A) :
  firstn n (listSet a n v) = firstn n a.
Proof.
  revert n. induction a as [|x a IH]; intros [|n]; cbn [listSet firstn]; try reflexivity.
  f_equal. apply IH.
Qed.

Lemma nth_listSet {A : Type} (a : list A) (n : nat) (v default : A) :
  nth n (listSet a n v) default = if (n <? length a)%nat then v else default.
Proof.
  revert n. induction a as [|x a IH]; intros [|n]; cbn [listSet nth length]; try reflexivity.
  rewrite IH. reflexivity.
Qed.


(** ** The exported virtual key *)

Lemma last_cons_default {A : Type} (l : list A) (x d : A) : last (x :: l) d = last l x.
Proof.
  revert x d. induction l as [|y l IH]; intros x d; [reflexivity|].
  change (last (x :: y :: l) d) with (last (y :: l) d).
  rewrite IH. symmetry. apply IH.
Qed.

Lemma last_In {A : Type} (l : list A) (x d : A) : In (last (x :: l) d) (x :: l).
Proof.
  revert x. induction l as [|y l IH]; intros x; [left; reflexivity|].
  right. change (last (x :: y :: l) d) with (last (y :: l) d). apply IH.
Qed.

Lemma exportedVirtualKeyOf_last (devices : list (Z * Device)) :
  exportedVirtualKeyOf devices = last (downVirtualKeys devices) (-1, -1).
Proof.
  unfold exportedVirtualKeyOf. generalize (-1, -1).
  induction devices as [|[k d] l IH]; intros acc; [reflexivity|].
  cbn [fold_left downVirtualKeys flat_map snd]. rewrite IH.
  fold (downVirtualKeys l).
  unfold downVirtualKey, virtualKeyStatus.
  destruct (InputDevice.isTouchScreen d); [|reflexivity].
  destruct (CurrentVirtualKeyState.status _); try reflexivity.
  cbn [app]. symmetry. apply last_cons_default.
Qed.

Lemma In_downVirtualKeys (devices : list (Z * Device)) (key : Z * Z) :
  In key (downVirtualKeys devices) <->
  exists kv, In kv devices /\ downVirtualKey (snd kv) = Some key.
Proof.
  unfold downVirtualKeys. rewrite in_flat_map. split.
  - intros (kv & Hin & Hkey). exists kv. split; [exact Hin|].
    destruct (downVirtualKey (snd kv)) as [key'|]; [|contradiction].
    destruct Hkey as [->|[]]. reflexivity.
  - intros (kv & Hin & Hkey). exists kv. split; [exact Hin|].
    rewrite Hkey. left. reflexivity.
Qed.

Lemma downVirtualKey_inv (d : Device) (key : Z * Z) :
  downVirtualKey d = Some key ->
  InputDevice.isTouchScreen d = true /\
  virtualKeyStatus d = CurrentVirtualKeyState.STATUS_DOWN /\
  CurrentVirtualKeyState.keyCode
    (TouchScreenState.currentVirtualKey (InputDevice.touchScreen d)) = fst key.
Proof.
  unfold downVirtualKey.
  destruct (InputDevice.isTouchScreen d); [|discriminate].
  destruct (virtualKeyStatus d); try discriminate.
  intros [= <-]. repeat split.
Qed.

Lemma downVirtualKeys_update_at (l : list (Z * Device)) (k : Z) (f : Device -> Device)
  (d : Device) :
  keyedLookup l k = Some d -> downVirtualKey (f d) = downVirtualKey d ->
  downVirtualKeys (keyedUpdate l k f) = downVirtualKeys l.
Proof.
  intros Hd Hf. induction l as [|[k0 v0] l IH]; [reflexivity|].
  cbn [keyedLookup] in Hd. cbn [keyedUpdate].
  destruct (Z.eqb_spec k0 k) as [->|Hk].
  - injection Hd as ->. cbn [downVirtualKeys flat_map snd]. rewrite Hf. reflexivity.
  - cbn [downVirtualKeys flat_map snd]. fold (downVirtualKeys (keyedUpdate l k f)).
    fold (downVirtualKeys l). rewrite IH by exact Hd. reflexivity.
Qed.

Lemma keyedUpdate_absent {A : Type} (l : list (Z * A)) (k : Z) (f : A -> A) :
  keyedLookup l k = None -> keyedUpdate l k f = l.
Proof.
  induction l as [|[k0 v0] l IH]; [reflexivity|].
  cbn [keyedLookup keyedUpdate]. destruct (k0 =? k); [discriminate|].
  intros H. rewrite IH by exact H. reflexivity.
Qed.

Lemma downVirtualKeys_update (l : list (Z * Device)) (k : Z) (f : Device -> Device) :
  (forall d, downVirtualKey (f d) = downVirtualKey d) ->
  downVirtualKeys (keyedUpdate l k f) = downVirtualKeys l.
Proof.
  intros Hf. destruct (keyedLookup l k) as [d|] eqn:Hd.
  - apply downVirtualKeys_update_at with d; [exact Hd|apply Hf].
  - rewrite keyedUpdate_absent by exact Hd. reflexivity.
Qed.

Lemma downVirtualKeys_add (l : list (Z * Device)) (k : Z) (d : Device) :
  keyedLookup l k = None -> downVirtualKey d = None ->
  downVirtualKeys (keyedAdd l k d) = downVirtualKeys l.
Proof.
  intros Hl Hd. induction l as [|[k0 v0] l IH]; cbn [keyedAdd].
  - cbn [downVirtualKeys flat_map snd]. rewrite Hd. reflexivity.
  - cbn [keyedLookup] in Hl.
    destruct (k <? k0).
    + change (downVirtualKeys ((k, d) :: (k0, v0) :: l))
        with (match downVirtualKey d with Some key => [key] | None => [] end
              ++ downVirtualKeys ((k0, v0) :: l)).
      rewrite Hd. reflexivity.
    + destruct (Z.eqb_spec k k0) as [->|Hk].
      * rewrite Z.eqb_refl in Hl. discriminate.
      * destruct (k0 =? k); [discriminate|].
        cbn [downVirtualKeys flat_map snd]. fold (downVirtualKeys (keyedAdd l k d)).
        fold (downVirtualKeys l). rewrite IH by exact Hl. reflexivity.
Qed.

Lemma downVirtualKeys_remove (l : list (Z * Device)) (k : Z) (d : Device) :
  keyedLookup l k = Some d -> downVirtualKey d = None ->
  downVirtualKeys (keyedRemove l k) = downVirtualKeys l.
Proof.
  intros Hl Hd. induction l as [|[k0 v0] l IH]; [reflexivity|].
  cbn [keyedLookup] in Hl. cbn [keyedRemove].
  destruct (k0 =? k).
  - injection Hl as ->. cbn [downVirtualKeys flat_map snd]. rewrite Hd. reflexivity.
  - cbn [downVirtualKeys flat_map snd]. fold (downVirtualKeys (keyedRemove l k)).
    fold (downVirtualKeys l). rewrite IH by exact Hl. reflexivity.
Qed.

(** What the invariant says of the exported key code. *)
Lemma virtualKeyInvariant_exported (s : State) :
  virtualKeyInvariant s ->
  let exported := InputReader.mExportedVirtualKeyCode (fst s) in
  (exported <> -1 <->
   exists kv, In kv (InputReader.mDevices (fst s)) /\
              virtualKeyStatus (snd kv) = CurrentVirtualKeyState.STATUS_DOWN) /\
  (exported <> -1 ->
   exists kv, In kv (InputReader.mDevices (fst s)) /\
              virtualKeyStatus (snd kv) = CurrentVirtualKeyState.STATUS_DOWN /\
              CurrentVirtualKeyState.keyCode
                (TouchScreenState.currentVirtualKey (InputDevice.touchScreen (snd kv)))
              = exported).
Proof.
  intros [Hexp Hall] exported.
  unfold exportedIsCurrent in Hexp. rewrite exportedVirtualKeyOf_last in Hexp.
  unfold allEntries in Hall. rewrite Forall_forall in Hall.
  assert (exported <> -1 ->
          exists kv, In kv (InputReader.mDevices (fst s)) /\
                     virtualKeyStatus (snd kv) = CurrentVirtualKeyState.STATUS_DOWN /\
                     CurrentVirtualKeyState.keyCode
                       (TouchScreenState.currentVirtualKey
                          (InputDevice.touchScreen (snd kv))) = exported) as Hsome.
  { intros Hne.
    destruct (downVirtualKeys (InputReader.mDevices (fst s))) as [|key keys] eqn:Hkeys.
    - cbn [last] in Hexp. injection Hexp as Hcode _. contradiction.
    - assert (In (last (key :: keys) (-1, -1))
                (downVirtualKeys (InputReader.mDevices (fst s)))) as Hin
        by (rewrite Hkeys; apply last_In).
      rewrite <- Hexp in Hin. apply In_downVirtualKeys in Hin.
      destruct Hin as (kv & Hkv & Hdown). apply downVirtualKey_inv in Hdown.
      destruct Hdown as (_ & Hstatus & Hcode).
      exists kv. split; [exact Hkv|]. split; [exact Hstatus|exact Hcode]. }
  split; [|exact Hsome]. split.
  - intros Hne. destruct (Hsome Hne) as (kv & Hkv & Hstatus & _).
    exists kv. split; assumption.
  - intros (kv & Hkv & Hstatus).
    destruct (Hall kv Hkv) as (_ & Hdown & _).
    destruct (Hdown Hstatus) as [Hts Hcode].
    assert (In (CurrentVirtualKeyState.keyCode
                  (TouchScreenState.currentVirtualKey (InputDevice.touchScreen (snd kv))),
                CurrentVirtualKeyState.scanCode
                  (TouchScreenState.currentVirtualKey (InputDevice.touchScreen (snd kv))))
              (downVirtualKeys (InputReader.mDevices (fst s)))) as Hin.
    { apply In_downVirtualKeys. exists kv. split; [exact Hkv|].
      unfold downVirtualKey. rewrite Hts, Hstatus. reflexivity. }
    destruct (downVirtualKeys (InputReader.mDevices (fst s))) as [|key keys] eqn:Hkeys;
      [contradiction|].
    assert (In (last (key :: keys) (-1, -1))
              (downVirtualKeys (InputReader.mDevices (fst s)))) as Hlast
      by (rewrite Hkeys; apply last_In).
    rewrite <- Hexp in Hlast. apply In_downVirtualKeys in Hlast.
    destruct Hlast as (kv' & Hkv' & Hdown'). apply downVirtualKey_inv in Hdown'.
    destruct Hdown' as (_ & Hstatus' & Hcode'). cbn [fst] in Hcode'.
    destruct (Hall kv' Hkv') as (_ & Hdown'' & _).
    destruct (Hdown'' Hstatus') as [_ Hne]. unfold exported. congruence.
Qed.

(** ** The invariant of the virtual-key state machine *)

Lemma virtualKeyInvariant_devices (s s' : State) :
  InputReader.mDevices (fst s') = InputReader.mDevices (fst s) ->
  InputReader.mExportedVirtualKeyCode (fst s') = InputReader.mExportedVirtualKeyCode (fst s) ->
  InputReader.mExportedVirtualScanCode (fst s') = InputReader.mExportedVirtualScanCode (fst s) ->
  virtualKeyInvariant s -> virtualKeyInvariant s'.
Proof.
  intros Hd Hk Hs [Hexp Hall]. unfold virtualKeyInvariant, exportedIsCurrent, allEntries in *.
  rewrite Hd, Hk, Hs. split; assumption.
Qed.

(** Any state whose exported key was just stored has the first half of the
    invariant. *)
Lemma virtualKeyInvariant_stored (s : State) :
  InputReader.mExportedVirtualKeyCode (fst s)
  = fst (exportedVirtualKeyOf (InputReader.mDevices (fst s))) ->
  InputReader.mExportedVirtualScanCode (fst s)
  = snd (exportedVirtualKeyOf (InputReader.mDevices (fst s))) ->
  allEntries virtualKeyEntryOk s -> virtualKeyInvariant s.
Proof.
  intros Hk Hs Hall. split; [|exact Hall].
  unfold exportedIsCurrent. rewrite Hk, Hs. symmetry. apply surjective_pairing.
Qed.

Lemma virtualKeyInvariant_update (deviceId : Z) (f : Device -> Device) (s : State) :
  (forall d, downVirtualKey (f d) = downVirtualKey d) ->
  (forall d, virtualKeyEntryOk deviceId d -> virtualKeyEntryOk deviceId (f d)) ->
  virtualKeyInvariant s -> virtualKeyInvariant (updateDevice deviceId f s).
Proof.
  intros Hdown Hok [Hexp Hall]. split.
  - unfold exportedIsCurrent in *. unfold updateDevice.
    cbn [fst InputReader.mDevices InputReader.set_mDevices
         InputReader.mExportedVirtualKeyCode InputReader.mExportedVirtualScanCode].
    rewrite Hexp, !exportedVirtualKeyOf_last, downVirtualKeys_update by exact Hdown.
    reflexivity.
  - apply allEntries_update; assumption.
Qed.

Lemma downVirtualKey_touchScreen (f : Device -> Device) (d : Device) :
  InputDevice.classes (f d) = InputDevice.classes d ->
  TouchScreenState.currentVirtualKey (InputDevice.touchScreen (f d))
  = TouchScreenState.currentVirtualKey (InputDevice.touchScreen d) ->
  downVirtualKey (f d) = downVirtualKey d.
Proof.
  intros Hc Hk. unfold downVirtualKey, virtualKeyStatus, InputDevice.isTouchScreen.
  rewrite Hc, Hk. reflexivity.
Qed.

Lemma virtualKeyEntryOk_ext (k : Z) (d d' : Device) :
  InputDevice.id d' = InputDevice.id d ->
  InputDevice.classes d' = InputDevice.classes d ->
  InputDevice.ignored d' = InputDevice.ignored d ->
  TouchScreenState.currentVirtualKey (InputDevice.touchScreen d')
  = TouchScreenState.currentVirtualKey (InputDevice.touchScreen d) ->
  TouchScreenState.virtualKeys (InputDevice.touchScreen d')
  = TouchScreenState.virtualKeys (InputDevice.touchScreen d) ->
  virtualKeyEntryOk k d -> virtualKeyEntryOk k d'.
Proof.
  intros Hi Hc Hg Hk Hv. unfold virtualKeyEntryOk, virtualKeyStatus, InputDevice.isTouchScreen.
  rewrite Hi, Hc, Hg, Hk, Hv. intros H. exact H.
Qed.

Lemma virtualKeyEntryOk_frame (k : Z) (f : Device -> Device) (d : Device) :
  devFrame f -> virtualKeyEntryOk k d -> virtualKeyEntryOk k (f d).
Proof.
  intros [Hkeep Hvk]. destruct (Hkeep d) as (Hi & Hc & Hg & _).
  destruct (Hvk d) as [Hk Hv]. apply virtualKeyEntryOk_ext; assumption.
Qed.

Lemma virtualKeyEntryOk_touch (k : Z) (f : Device -> Device) (d : Device) :
  keepsTouchScreen f -> virtualKeyEntryOk k d -> virtualKeyEntryOk k (f d).
Proof.
  intros Hf. destruct (Hf d) as (Hi & Hc & Hg & Hts).
  apply virtualKeyEntryOk_ext; try assumption; rewrite Hts; reflexivity.
Qed.

Lemma virtualKeyEntryOk_currentVirtualKey (k : Z) (d : Device)
  (key : CurrentVirtualKeyState.t) :
  (CurrentVirtualKeyState.status key = CurrentVirtualKeyState.STATUS_DOWN ->
   InputDevice.isTouchScreen d = true /\ CurrentVirtualKeyState.keyCode key <> -1) ->
  virtualKeyEntryOk k d ->
  virtualKeyEntryOk k
    (InputDevice.set_touchScreen
       (TouchScreenState.set_currentVirtualKey key (InputDevice.touchScreen d)) d).
Proof.
  intros Hkey (Hi & _ & Hv & Hn & Hg).
  split; [exact Hi|]. split; [exact Hkey|]. split; [exact Hv|]. split; [exact Hn|exact Hg].
Qed.

Lemma virtualKeyEntryOk_fresh (Hhub : hubKeyCodesValid) (k : Z) (d : Device) :
  freshDevice k d -> virtualKeyEntryOk k d.
Proof.
  intros (Hi & Hg & Hstatus & _ & Hvk).
  split; [exact Hi|]. split; [rewrite Hstatus; discriminate|].
  destruct Hvk as [Hnil|(Hts & d' & dw & dh & defs & s' & Hloop)].
  - rewrite Hnil. split; [constructor|]. split; [reflexivity|exact Hg].
  - split; [|split; [congruence|exact Hg]].
    rewrite Hloop. apply configureVirtualKeysLoop_codes; [exact Hhub|constructor].
Qed.

Lemma virtualKeyEntryOk_reconfigured (Hhub : hubKeyCodesValid) (k : Z) (d : Device)
  (pre : TouchScreenState.Precalculated) (vks : list VirtualKey.t) :
  virtualKeysFrom d vks -> virtualKeyEntryOk k d -> virtualKeyEntryOk k (reconfigured pre vks d).
Proof.
  intros Hfrom (Hi & Hdown & Hv & Hn & Hg).
  split; [exact Hi|]. split; [exact Hdown|].
  change (TouchScreenState.virtualKeys (InputDevice.touchScreen (reconfigured pre vks d)))
    with vks.
  change (InputDevice.isTouchScreen (reconfigured pre vks d))
    with (InputDevice.isTouchScreen d).
  change (InputDevice.ignored (reconfigured pre vks d)) with (InputDevice.ignored d).
  destruct Hfrom as [->|(Hts & d' & dw & dh & defs & s' & ->)].
  - split; [exact Hv|]. split; [exact Hn|exact Hg].
  - split; [apply configureVirtualKeysLoop_codes; [exact Hhub|constructor]|].
    split; [congruence|exact Hg].
Qed.

Section VirtualKeyInvariant.

Hypothesis Hhub : hubKeyCodesValid.

Lemma invariant_refl (s : State) : keepsInvariant virtualKeyInvariant s s.
Proof. intros H. exact H. Qed.

Lemma invariant_trans (s1 s2 s3 : State) :
  keepsInvariant virtualKeyInvariant s1 s2 -> keepsInvariant virtualKeyInvariant s2 s3 ->
  keepsInvariant virtualKeyInvariant s1 s3.
Proof. intros H12 H23 H. apply H23, H12, H. Qed.

Lemma invariant_world (r : Reader) (w w' : World) :
  keepsInvariant virtualKeyInvariant (r, w) (r, w').
Proof. intros H. exact H. Qed.

Lemma invariant_reader (f : Reader -> Reader) (r : Reader) (w : World) :
  readerFrame f -> keepsInvariant virtualKeyInvariant (r, w) (f r, w).
Proof.
  intros Hf. destruct (Hf r) as (Hd & Hk & Hs). unfold keepsInvariant.
  apply virtualKeyInvariant_devices; assumption.
Qed.

Lemma invariant_exported :
  preserves (keepsInvariant virtualKeyInvariant) updateExportedVirtualKeyState.
Proof.
  intros s [_ Hall]. rewrite updateExportedVirtualKeyState_run.
  apply virtualKeyInvariant_stored; try reflexivity. exact Hall.
Qed.

Lemma invariant_device (deviceId : Z) (f : Device -> Device) (s : State) :
  devFrame f -> keepsInvariant virtualKeyInvariant s (updateDevice deviceId f s).
Proof.
  intros Hf. unfold keepsInvariant. apply virtualKeyInvariant_update.
  - intros d. destruct Hf as [Hkeep Hvk]. destruct (Hkeep d) as (_ & Hc & _).
    destruct (Hvk d) as [Hk _]. apply downVirtualKey_touchScreen; assumption.
  - intros d. apply virtualKeyEntryOk_frame. exact Hf.
Qed.

Lemma invariant_touch (deviceId : Z) (f : Device -> Device) (s : State) :
  keepsTouchScreen f -> keepsInvariant virtualKeyInvariant s (updateDevice deviceId f s).
Proof.
  intros Hf. unfold keepsInvariant. apply virtualKeyInvariant_update.
  - intros d. destruct (Hf d) as (_ & Hc & _ & Hts).
    apply downVirtualKey_touchScreen; [exact Hc|rewrite Hts; reflexivity].
  - intros d. apply virtualKeyEntryOk_touch. exact Hf.
Qed.

Lemma invariant_reconfigure (deviceId : Z) :
  preserves (keepsInvariant virtualKeyInvariant) (reconfigureDevice deviceId).
Proof.
  intros s Hinv.
  destruct (reconfigureDevice_run deviceId s) as (w & pre & vks & eff & -> & Hfrom).
  cbn [stateOf fst snd].
  assert (virtualKeyInvariant (fst s, w)) as Hinv' by exact Hinv.
  destruct (keyedLookup (InputReader.mDevices (fst s)) deviceId) as [d|] eqn:Hd.
  - destruct Hinv' as [Hexp Hall]. split.
    + unfold exportedIsCurrent in *. unfold updateDevice.
      cbn [fst InputReader.mDevices InputReader.set_mDevices
           InputReader.mExportedVirtualKeyCode InputReader.mExportedVirtualScanCode] in *.
      rewrite Hexp, !exportedVirtualKeyOf_last.
      rewrite (downVirtualKeys_update (InputReader.mDevices (fst s)) deviceId
                 (reconfigured pre vks)); [reflexivity|].
      intros d0. reflexivity.
    + apply allEntries_update_at with (d := d); [exact Hd| |exact Hall].
      apply virtualKeyEntryOk_reconfigured; [exact Hhub|apply Hfrom; reflexivity].
  - unfold updateDevice. cbn [fst snd]. rewrite keyedUpdate_absent by exact Hd.
    revert Hinv'. apply virtualKeyInvariant_devices; reflexivity.
Qed.

Lemma invariant_after_dispatch (when deviceId policyFlags action flags : Z)
  (setStatus : M unit) (f : Device -> Device) (s : State) :
  setStatus s = (tt, updateDevice deviceId f s, []) ->
  allEntries virtualKeyEntryOk (updateDevice deviceId f s) ->
  virtualKeyInvariant
    (stateOf (bind setStatus (fun _ =>
                bind (dispatchVirtualKey when deviceId policyFlags action flags)
                  (fun _ => ret true)) s)).
Proof.
  intros Hset Hall.
  destruct (consume_after_dispatch when deviceId policyFlags action flags setStatus s Hset)
    as (Hd & _ & Hk & Hs).
  apply virtualKeyInvariant_stored.
  - rewrite Hd. exact Hk.
  - rewrite Hd. exact Hs.
  - unfold allEntries in *. rewrite Hd. exact Hall.
Qed.

Lemma invariant_consume_absent (when deviceId policyFlags : Z) (s : State) :
  keyedLookup (InputReader.mDevices (fst s)) deviceId = None ->
  stateOf (consumeVirtualKeyTouches when deviceId policyFlags s) = s.
Proof.
  intros Hd. unfold consumeVirtualKeyTouches. rewrite stateOf_bind.
  unfold deref at 1 2. rewrite Hd. reflexivity.
Qed.

Lemma invariant_consume (when deviceId policyFlags : Z) :
  preserves (keepsInvariant virtualKeyInvariant)
    (consumeVirtualKeyTouches when deviceId policyFlags).
Proof.
  intros s Hinv.
  destruct (keyedLookup (InputReader.mDevices (fst s)) deviceId) as [device|] eqn:Hdev;
    [|rewrite invariant_consume_absent by exact Hdev; exact Hinv].
  pose proof Hinv as [Hexp Hall].
  assert (virtualKeyEntryOk deviceId device) as Hok
    by (eapply allEntries_lookup with (P := virtualKeyEntryOk); eassumption).
  assert (forall status,
            status <> CurrentVirtualKeyState.STATUS_DOWN ->
            allEntries virtualKeyEntryOk
              (updateDevice deviceId
                 (fun d =>
                    InputDevice.set_touchScreen
                      (TouchScreenState.set_currentVirtualKey
                         (CurrentVirtualKeyState.set_status status
                            (TouchScreenState.currentVirtualKey (InputDevice.touchScreen d)))
                         (InputDevice.touchScreen d)) d) s)) as Hleave.
  { intros status Hstatus. apply allEntries_update; [|exact Hall].
    intros d. apply virtualKeyEntryOk_currentVirtualKey.
    intros Hdown. cbn in Hdown. contradiction. }
  assert (forall virtualKey,
            TouchScreenState.findVirtualKeyHit (InputDevice.touchScreen device)
            = Some virtualKey ->
            allEntries virtualKeyEntryOk
              (updateDevice deviceId
                 (fun d =>
                    InputDevice.set_touchScreen
                      (TouchScreenState.set_currentVirtualKey
                         {| CurrentVirtualKeyState.status :=
                              CurrentVirtualKeyState.STATUS_DOWN;
                            CurrentVirtualKeyState.downTime := when;
                            CurrentVirtualKeyState.keyCode := VirtualKey.keyCode virtualKey;
                            CurrentVirtualKeyState.scanCode :=
                              VirtualKey.scanCode virtualKey |}
                         (InputDevice.touchScreen d)) d) s)) as Henter.
  { intros virtualKey Hhit.
    apply allEntries_update_at with (d := device); [exact Hdev| |exact Hall].
    apply virtualKeyEntryOk_currentVirtualKey. intros _.
    cbn [CurrentVirtualKeyState.keyCode].
    unfold TouchScreenState.findVirtualKeyHit in Hhit. apply find_some in Hhit.
    destruct Hhit as [Hin _].
    destruct Hok as (_ & _ & Hcodes & Hnone & _). split.
    - destruct (InputDevice.isTouchScreen device); [reflexivity|].
      rewrite (Hnone eq_refl) in Hin. contradiction.
    - unfold virtualKeyCodesOk in Hcodes. rewrite Forall_forall in Hcodes.
      apply Hcodes. exact Hin. }
  unfold consumeVirtualKeyTouches.
  rewrite stateOf_bind, (deref_run _ _ Hdev).
  cbn [valueOf stateOf effectsOf fst snd].
  destruct (CurrentVirtualKeyState.status
              (TouchScreenState.currentVirtualKey (InputDevice.touchScreen device)))
    eqn:Estatus.
  - (* NONE *)
    destruct ((TouchData.pointerCount _ =? 1) && _); [|exact Hinv].
    destruct (TouchScreenState.findVirtualKeyHit (InputDevice.touchScreen device))
      as [virtualKey|] eqn:Hhit; [|exact Hinv].
    eapply invariant_after_dispatch; [reflexivity|apply Henter; reflexivity].
  - (* DOWN *)
    destruct (TouchData.pointerCount _ =? 0).
    + eapply invariant_after_dispatch; [reflexivity|apply Hleave; discriminate].
    + match goal with
      | |- context [if ?c then ret true else _] => destruct c
      end; [exact Hinv|].
      eapply invariant_after_dispatch; [reflexivity|apply Hleave; discriminate].
  - (* CANCELED *)
    rewrite stateOf_bind.
    destruct (TouchData.pointerCount _ =? 0); [|exact Hinv].
    rewrite setVirtualKeyStatus_run. cbn [ret valueOf stateOf fst snd].
    split; [|apply Hleave; discriminate].
    unfold exportedIsCurrent in *.
    cbn [fst InputReader.mDevices InputReader.set_mDevices
         InputReader.mExportedVirtualKeyCode InputReader.mExportedVirtualScanCode].
    rewrite Hexp, !exportedVirtualKeyOf_last.
    erewrite downVirtualKeys_update_at; [reflexivity|exact Hdev|].
    unfold downVirtualKey, virtualKeyStatus.
    cbn [InputDevice.touchScreen InputDevice.set_touchScreen
         TouchScreenState.currentVirtualKey TouchScreenState.set_currentVirtualKey
         CurrentVirtualKeyState.status CurrentVirtualKeyState.set_status].
    rewrite Estatus.
    change (InputDevice.isTouchScreen (InputDevice.set_touchScreen _ device))
      with (InputDevice.isTouchScreen device).
    destruct (InputDevice.isTouchScreen device); reflexivity.
  - (* UP *)
    destruct ((TouchData.pointerCount _ =? 1) && _); [|exact Hinv].
    destruct (TouchScreenState.findVirtualKeyHit (InputDevice.touchScreen device))
      as [virtualKey|] eqn:Hhit; [|exact Hinv].
    eapply invariant_after_dispatch; [reflexivity|apply Henter; reflexivity].
Qed.

Lemma invariant_onConfigurationChanged (when : Z) :
  preserves (keepsInvariant virtualKeyInvariant) (onConfigurationChanged when).
Proof.
  apply pres_onConfigurationChanged;
    first [ exact invariant_refl | exact invariant_trans
          | exact invariant_reader | exact invariant_exported ].
Qed.

(** A configuration change stores the exported key again: it sets the
    first half of the invariant right wherever the second half holds. *)
Lemma onConfigurationChanged_stores (when : Z) (s : State) :
  allEntries virtualKeyEntryOk s ->
  virtualKeyInvariant (stateOf (onConfigurationChanged when s)).
Proof.
  intros Hall. unfold onConfigurationChanged.
  rewrite stateOf_bind. unfold resetGlobalMetaState at 1.
  cbn [modifyReader valueOf stateOf fst snd].
  rewrite stateOf_bind.
  match goal with
  | |- context [stateOf (updateExportedVirtualKeyState ?s1)] =>
      assert (virtualKeyInvariant (stateOf (updateExportedVirtualKeyState s1))) as Hinv
  end.
  { rewrite updateExportedVirtualKeyState_run.
    apply virtualKeyInvariant_stored; try reflexivity. exact Hall. }
  revert Hinv.
  match goal with
  | |- virtualKeyInvariant ?a -> virtualKeyInvariant (stateOf (?m ?a)) =>
      generalize a
  end.
  intros s2.
  assert (preserves (keepsInvariant virtualKeyInvariant)
            (bind updateExportedInputConfiguration
               (fun _ => emit (NotifyConfigurationChanged when)))) as Hrest.
  { apply pres_bind; [exact invariant_trans| |intros _; apply pres_emit; exact invariant_refl].
    apply pres_updateExportedInputConfiguration. exact invariant_reader. }
  exact (Hrest s2).
Qed.

Lemma invariant_added (rawEvent : RawEvent.t) :
  preserves (keepsInvariant virtualKeyInvariant) (handleDeviceAdded rawEvent).
Proof.
  intros s Hinv. unfold handleDeviceAdded. rewrite stateOf_bind.
  cbn [getDevice valueOf stateOf fst snd].
  destruct (keyedLookup _ _) eqn:Hd; [exact Hinv|].
  destruct (addDevice_run (RawEvent.when rawEvent) (RawEvent.deviceId rawEvent) s)
    as (w & device & -> & Hfresh).
  destruct Hinv as [Hexp Hall].
  assert (virtualKeyInvariant
            (addedDevice (RawEvent.deviceId rawEvent) device (fst s), w)) as Hadd.
  { split.
    - unfold exportedIsCurrent in *. unfold addedDevice.
      cbn [fst InputReader.mDevices InputReader.set_mDevices
           InputReader.mExportedVirtualKeyCode InputReader.mExportedVirtualScanCode].
      rewrite Hexp, !exportedVirtualKeyOf_last, downVirtualKeys_add; [reflexivity|exact Hd|].
      destruct Hfresh as (_ & _ & Hstatus & _).
      unfold downVirtualKey. rewrite Hstatus.
      destruct (InputDevice.isTouchScreen device); reflexivity.
    - apply Forall_keyedAdd; [|exact Hall].
      apply virtualKeyEntryOk_fresh; [exact Hhub|exact Hfresh]. }
  destruct (negb _); [|exact Hadd].
  apply invariant_onConfigurationChanged. exact Hadd.
Qed.

Lemma invariant_removed (rawEvent : RawEvent.t) :
  preserves (keepsInvariant virtualKeyInvariant) (handleDeviceRemoved rawEvent).
Proof.
  intros s Hinv. unfold handleDeviceRemoved. rewrite stateOf_bind.
  cbn [getDevice valueOf stateOf fst snd].
  destruct (keyedLookup _ _) as [device|] eqn:Hd; [|exact Hinv].
  rewrite removeDevice_run.
  destruct Hinv as [Hexp Hall].
  assert (virtualKeyEntryOk (RawEvent.deviceId rawEvent) device) as Hok
    by (eapply allEntries_lookup with (P := virtualKeyEntryOk); eassumption).
  assert (allEntries virtualKeyEntryOk
            (removedDevice (InputDevice.id device) (fst s), snd s)) as Hrem
    by (apply Forall_keyedRemove; exact Hall).
  destruct (InputDevice.ignored device) eqn:Hign; cbn [negb].
  - split; [|exact Hrem].
    destruct Hok as (Hid & Hdown & _ & _ & Hignored).
    unfold exportedIsCurrent in *. unfold removedDevice.
    cbn [fst InputReader.mDevices InputReader.set_mDevices
         InputReader.mExportedVirtualKeyCode InputReader.mExportedVirtualScanCode].
    rewrite Hexp, !exportedVirtualKeyOf_last, Hid.
    erewrite downVirtualKeys_remove; [reflexivity|exact Hd|].
    unfold downVirtualKey. rewrite (Hignored Hign). reflexivity.
  - apply onConfigurationChanged_stores. exact Hrem.
Qed.

Lemma invariant_process (rawEvent : RawEvent.t) :
  preserves (keepsInvariant virtualKeyInvariant) (process rawEvent).
Proof.
  apply pres_process with (touched := fun _ => True);
    first [ exact invariant_refl | exact invariant_trans | exact invariant_world
          | exact invariant_reader | exact invariant_exported
          | exact invariant_device | exact invariant_reconfigure
          | exact invariant_consume
          | intros deviceId f s _ [Hf _]; apply invariant_touch; exact Hf
          | intros e _ Hscan; apply pres_handleSync_pointer;
            [ exact invariant_refl | exact invariant_trans
            | intros f s; apply invariant_touch | exact Hscan ]
          | intros e _; apply invariant_added
          | intros e _; apply invariant_removed
          | exact I ].
Qed.

Lemma invariant_loopTimes (n : nat) :
  preserves (keepsInvariant virtualKeyInvariant) (loopTimes n).
Proof.
  induction n as [|n IH]; cbn [loopTimes].
  - apply pres_ret. exact invariant_refl.
  - apply pres_bind; [exact invariant_trans| |intros _; exact IH].
    unfold loopOnce.
    apply pres_bind; [exact invariant_trans|apply pres_call; exact invariant_world|].
    intros rawEvent.
    apply pres_bind; [exact invariant_trans|apply pres_call; exact invariant_world|].
    intros when. apply invariant_process.
Qed.

Lemma invariant_newInputReader (w : World) :
  virtualKeyInvariant (newInputReader w : State).
Proof.
  assert (InputReader.mDevices (fst (newInputReader w : State)) = [] /\
          InputReader.mExportedVirtualKeyCode (fst (newInputReader w : State)) = -1 /\
          InputReader.mExportedVirtualScanCode (fst (newInputReader w : State)) = -1)
    as (Hd & Hk & Hs) by apply newInputReader_reader.
  split.
  - unfold exportedIsCurrent. rewrite Hd, Hk, Hs. reflexivity.
  - unfold allEntries. rewrite Hd. constructor.
Qed.

End VirtualKeyInvariant.

(** ** The meta state and the rotation of key codes *)

Ltac meta_bits :=
  repeat (first [ rewrite anySet_lor | rewrite anySet_bit by easy
                | rewrite testbit_if_set by easy
                | rewrite testbit_set by easy | rewrite testbit_clear by easy
                | rewrite Z.lor_spec | rewrite Z.land_spec
                | rewrite Z.lnot_spec by easy | rewrite Z.pow2_bits_eqb by easy ]);
  cbn [orb andb negb Z.eqb Pos.eqb].

Lemma updateMetaState_mask_consistent (mask : Z) (down : bool) (old : Z) :
  In mask [META_ALT_LEFT_ON; META_ALT_RIGHT_ON; META_SHIFT_LEFT_ON;
           META_SHIFT_RIGHT_ON; META_SYM_ON] ->
  metaStateConsistent old ->
  let new1 := if down then Z.lor old mask
              else Z.land (Z.land old (Z.lnot mask))
                          (Z.lnot (Z.lor META_ALT_ON META_SHIFT_ON)) in
  let new2 := if anySet new1 (Z.lor META_ALT_LEFT_ON META_ALT_RIGHT_ON)
              then Z.lor new1 META_ALT_ON else new1 in
  let new3 := if anySet new2 (Z.lor META_SHIFT_LEFT_ON META_SHIFT_RIGHT_ON)
              then Z.lor new2 META_SHIFT_ON else new2 in
  metaStateConsistent new3.
Proof.
  unfold metaStateConsistent, altConsistent, shiftConsistent.
  change META_SHIFT_ON with (2 ^ 0); change META_ALT_ON with (2 ^ 1);
    change META_SYM_ON with (2 ^ 2); change META_ALT_LEFT_ON with (2 ^ 4);
    change META_ALT_RIGHT_ON with (2 ^ 5);
    change META_SHIFT_LEFT_ON with (2 ^ 6);
    change META_SHIFT_RIGHT_ON with (2 ^ 7).
  intros Hin [Ha Hs]. cbv zeta.
  rewrite !anySet_bit in Ha, Hs by lia.
  cbn [In] in Hin.
  destruct Hin as [<-|[<-|[<-|[<-|[<-|[]]]]]]; destruct down; meta_bits;
    rewrite <- ?Ha, <- ?Hs;
    destruct (Z.testbit old 4),
      (Z.testbit old 5), (Z.testbit old 6), (Z.testbit old 7);
    cbn [orb andb negb] in *; auto.
Qed.

(** C5: [updateMetaState] keeps both equivalences of the meta state,
    (ALT_LEFT or ALT_RIGHT) iff ALT_ON and (SHIFT_LEFT or SHIFT_RIGHT) iff
    SHIFT_ON, for every key code and down flag. *)
Theorem updateMetaState_preserves_invariant (keyCode : Z) (down : bool) (oldMetaState : Z) :
  metaStateConsistent oldMetaState ->
  metaStateConsistent (updateMetaState keyCode down oldMetaState).
Proof.
  intros Hold. unfold updateMetaState.
  destruct (metaMaskOfKeyCode keyCode) as [mask|] eqn:Em; [|assumption].
  apply updateMetaState_mask_consistent; [|assumption].
  unfold metaMaskOfKeyCode in Em.
  repeat match type of Em with
         | (if ?c then _ else _) = _ => destruct c
         end; inversion Em; simpl; auto 6.
Qed.

Lemma rotateKeyCode_table (i o : nat) :
  (i < 4)%nat -> (o < 4)%nat ->
  rotateKeyCode (dpadCycleAt i) (Z.of_nat o) = Some (dpadCycleAt (i + o)).
Proof.
  intros Hi Ho.
  do 4 (destruct i as [|i]; [do 4 (destruct o as [|o]; [reflexivity|]); lia|]).
  lia.
Qed.

Lemma rotateKeyCodeLoop_other (keyCode orientation : Z) :
  isDpadKeyCode keyCode = false ->
  rotateKeyCodeLoop keyCodeRotationMap keyCode orientation = Some keyCode.
Proof.
  unfold isDpadKeyCode, dpadCycle. cbn [existsb]. intros H.
  repeat (apply orb_false_iff in H; destruct H as [? H]).
  unfold keyCodeRotationMap. cbn [rotateKeyCodeLoop arrayIndex Z.ltb Z.compare Z.to_nat nth_error].
  repeat match goal with Hk : (keyCode =? _) = false |- _ => rewrite Hk; clear Hk end.
  reflexivity.
Qed.

(** C9: [rotateKeyCode] sends AKEYCODE_DPAD_DOWN to DOWN, RIGHT, UP and LEFT at
    0, 90, 180 and 270 degrees; every DPAD key code is stepped along the
    counter-clockwise cycle DOWN, RIGHT, UP, LEFT by the orientation index;
    every other key code is returned unchanged at every orientation. *)
Theorem rotateKeyCode_dpad_cycle :
  rotateKeyCode AKEYCODE_DPAD_DOWN ROTATION_0 = Some AKEYCODE_DPAD_DOWN /\
  rotateKeyCode AKEYCODE_DPAD_DOWN ROTATION_90 = Some AKEYCODE_DPAD_RIGHT /\
  rotateKeyCode AKEYCODE_DPAD_DOWN ROTATION_180 = Some AKEYCODE_DPAD_UP /\
  rotateKeyCode AKEYCODE_DPAD_DOWN ROTATION_270 = Some AKEYCODE_DPAD_LEFT /\
  (forall i o : nat, (i < 4)%nat -> (o < 4)%nat ->
     rotateKeyCode (dpadCycleAt i) (Z.of_nat o) = Some (dpadCycleAt (i + o))) /\
  (forall keyCode orientation : Z, isDpadKeyCode keyCode = false ->
     rotateKeyCode keyCode orientation = Some keyCode).
Proof.
  repeat split; try reflexivity.
  - apply rotateKeyCode_table.
  - intros keyCode orientation Hk. unfold rotateKeyCode.
    destruct (negb (orientation =? ROTATION_0)); [|reflexivity].
    now apply rotateKeyCodeLoop_other.
Qed.

(** C2: for two consecutive frames of a device, [dispatchTouches] dispatches
    exactly the motion events of the spec: with equal id sets one MOVE with
    the current pointers, or nothing when both are empty; with different id
    sets one event per id of last minus current, lowest id first, with the
    coordinates of the last frame, UP exactly when no pointer stays active
    and POINTER_UP otherwise, followed by one event per id of current minus
    last, lowest id first, with the coordinates of the current frame, DOWN
    exactly when no pointer was active before and POINTER_DOWN otherwise. *)
Theorem dispatchTouches_events (when deviceId policyFlags : Z) (s : State)
  (device : Device) :
  let currentTouch := TouchScreenState.currentTouch (InputDevice.touchScreen device) in
  let lastTouch := TouchScreenState.lastTouch (InputDevice.touchScreen device) in
  keyedLookup (InputReader.mDevices (fst s)) deviceId = Some device ->
  isUint32 (TouchData.idBits currentTouch) ->
  isUint32 (TouchData.idBits lastTouch) ->
  frameCountsIds currentTouch -> frameCountsIds lastTouch ->
  map motionOf (effectsOf (dispatchTouches when deviceId policyFlags s))
  = map Some (expectedTouchMotions (displayCoordsOf (fst s) device)
                currentTouch lastTouch).
Proof.
  intros currentTouch lastTouch. apply dispatchTouches_run.
Qed.

(** C8: when the policy's answer to [interceptTouch] lacks the DISPATCH bit,
    the frame gives neither a motion event nor a key event to the dispatcher,
    and the last frame of the device is cleared; a frame dispatched against
    a cleared last frame has every pointer going down. *)
Theorem policy_drop_clears_lastTouch (when deviceId : Z) (havePointerIds : bool)
  (s : State) :
  anySet (fst (interceptTouch when (snd s))) ACTION_DISPATCH = false ->
  let r := onTouchScreenChanged when deviceId havePointerIds s in
  forallb (fun e => negb (isMotionOrKey e)) (effectsOf r) = true /\
  keyedLookup (InputReader.mDevices (fst (stateOf r))) deviceId
  = option_map
      (fun d =>
         InputDevice.set_touchScreen
           (TouchScreenState.set_lastTouch
              (TouchData.clear (TouchScreenState.lastTouch (InputDevice.touchScreen d)))
              (InputDevice.touchScreen d)) d)
      (keyedLookup (InputReader.mDevices (fst s)) deviceId) /\
  (forall d, keyedLookup (InputReader.mDevices (fst (stateOf r))) deviceId = Some d ->
     TouchData.pointerCount (TouchScreenState.lastTouch (InputDevice.touchScreen d)) = 0 /\
     TouchData.idBits (TouchScreenState.lastTouch (InputDevice.touchScreen d)) = 0) /\
  (forall (when' policyFlags : Z) (s' : State) (d : Device),
     keyedLookup (InputReader.mDevices (fst s')) deviceId = Some d ->
     TouchData.pointerCount (TouchScreenState.lastTouch (InputDevice.touchScreen d)) = 0 ->
     TouchData.idBits (TouchScreenState.lastTouch (InputDevice.touchScreen d)) = 0 ->
     isUint32 (TouchData.idBits (TouchScreenState.currentTouch (InputDevice.touchScreen d))) ->
     frameCountsIds (TouchScreenState.currentTouch (InputDevice.touchScreen d)) ->
     map motionOf (effectsOf (dispatchTouches when' deviceId policyFlags s'))
     = map Some
         (expectedDowns (displayCoordsOf (fst s') d)
            (TouchScreenState.currentTouch (InputDevice.touchScreen d)) []
            (idsOf (TouchData.idBits
                      (TouchScreenState.currentTouch (InputDevice.touchScreen d)))))).
Proof.
  intros Hdrop r.
  assert (r = (tt,
               (InputReader.set_mDevices
                  (keyedUpdate (InputReader.mDevices (fst s)) deviceId
                     (fun d =>
                        InputDevice.set_touchScreen
                          (TouchScreenState.set_lastTouch
                             (TouchData.clear
                                (TouchScreenState.lastTouch (InputDevice.touchScreen d)))
                             (InputDevice.touchScreen d)) d))
                  (fst s), snd (interceptTouch when (snd s))),
               if anySet (fst (interceptTouch when (snd s))) ACTION_APP_SWITCH_COMING
               then [NotifyAppSwitchComing when] else [])) as Hr.
  { unfold r, onTouchScreenChanged. rewrite bind_run, call_run.
    cbn [valueOf stateOf effectsOf fst snd app].
    rewrite bind_run, applyStandardInputDispatchPolicyActions_run.
    cbn [valueOf stateOf effectsOf fst snd]. rewrite Hdrop. cbn [negb].
    unfold modifyTouchScreen. rewrite modifyDevice_run.
    cbn [valueOf stateOf effectsOf fst snd]. rewrite app_nil_r. reflexivity. }
  rewrite Hr. cbn [valueOf stateOf effectsOf fst snd InputReader.set_mDevices
    InputReader.mDevices].
  rewrite keyedLookup_update_same.
  split; [|split; [|split]].
  - destruct (anySet _ ACTION_APP_SWITCH_COMING); reflexivity.
  - reflexivity.
  - intros d Hd. destruct (keyedLookup (InputReader.mDevices (fst s)) deviceId);
      [|discriminate]. cbn [option_map] in Hd. inversion Hd. split; reflexivity.
  - intros when' policyFlags s' d Hd Hcount Hbits Hcur Hframe.
    erewrite dispatchTouches_run; [|eassumption|eassumption| |assumption|].
    + rewrite expectedTouchMotions_fresh by assumption. reflexivity.
    + rewrite Hbits. split; cbv; congruence.
    + unfold frameCountsIds. rewrite Hcount, Hbits. tauto.
Qed.

(** C10: when the queried scan code is the exported virtual scan code,
    [getCurrentScanCodeState] answers KEY_STATE_VIRTUAL whatever device id
    and classes the query names, and the event hub is not asked; likewise
    [getCurrentKeyCodeState] for the exported virtual key code.  Only when
    the exported value differs is the event hub asked, and its answer
    returned. *)
Theorem exported_virtual_key_shadows_event_hub (deviceId deviceClasses code : Z)
  (s : State) :
  (InputReader.mExportedVirtualScanCode (fst s) = code ->
   getCurrentScanCodeState deviceId deviceClasses code s = (KEY_STATE_VIRTUAL, s, [])) /\
  (InputReader.mExportedVirtualKeyCode (fst s) = code ->
   getCurrentKeyCodeState deviceId deviceClasses code s = (KEY_STATE_VIRTUAL, s, [])) /\
  (InputReader.mExportedVirtualScanCode (fst s) <> code ->
   getCurrentScanCodeState deviceId deviceClasses code s
   = (fst (getScanCodeState deviceId deviceClasses code (snd s)),
      (fst s, snd (getScanCodeState deviceId deviceClasses code (snd s))),
      [EventHubScanCodeStateQueried deviceId deviceClasses code])) /\
  (InputReader.mExportedVirtualKeyCode (fst s) <> code ->
   getCurrentKeyCodeState deviceId deviceClasses code s
   = (fst (getKeyCodeState deviceId deviceClasses code (snd s)),
      (fst s, snd (getKeyCodeState deviceId deviceClasses code (snd s))),
      [EventHubKeyCodeStateQueried deviceId deviceClasses code])).
Proof.
  unfold getCurrentScanCodeState, getCurrentKeyCodeState.
  rewrite !bind_run. cbn [getReader valueOf stateOf effectsOf fst snd app].
  destruct s as [r w]. cbn [fst snd].
  split; [|split; [|split]]; intros H.
  - apply Z.eqb_eq in H. rewrite H. reflexivity.
  - apply Z.eqb_eq in H. rewrite H. reflexivity.
  - apply Z.eqb_neq in H. rewrite H. rewrite bind_run, call_run. reflexivity.
  - apply Z.eqb_neq in H. rewrite H. rewrite bind_run, call_run. reflexivity.
Qed.

(** C1 (what the program does): a slot of the accumulator that lacks
    ABS_MT_WIDTH_MAJOR, one of the four required fields, is not dropped by
    the multi-touch assembly: its pointer is in the resulting frame. *)
Theorem assembleMultiTouch_keeps_slot_without_width :
  Z.land (MultiTouchScreenState.fields slotWithoutWidth) REQUIRED_FIELDS
  <> REQUIRED_FIELDS /\
  TouchData.pointerCount (fst (assembleMultiTouch accumulatorWithoutWidth TouchData.zero))
  = 1 /\
  arrayGet PointerData.zero
    (TouchData.pointers (fst (assembleMultiTouch accumulatorWithoutWidth TouchData.zero))) 0
  = {| PointerData.id := 0; PointerData.x := 100; PointerData.y := 200;
       PointerData.pressure := 5; PointerData.size := 0 |}.
Proof.
  split; [|split].
  - vm_compute. discriminate.
  - vm_compute. reflexivity.
  - vm_compute. reflexivity.
Qed.



(** C4: whatever raw events the reader has handled since its construction,
    the pointer count of every multi-touch accumulator lies between 0 and
    MAX_POINTERS. At a per-pointer sync whose current slot is dirty the count
    goes up by one when it is below MAX_POINTERS, without a warning; at
    MAX_POINTERS the count and the counted pointers stay, the slot is
    cleared, and the one effect is the warning. *)
Theorem pointerCount_never_exceeds_MAX_POINTERS (rawEvents : list RawEvent.t) (w : World) :
  (forall deviceId d,
     keyedLookup
       (InputReader.mDevices (fst (stateOf (processAll rawEvents (newInputReader w)))))
       deviceId = Some d ->
     0 <= MultiTouchScreenState.pointerCount
            (MultiTouchScreenState.accumulator (InputDevice.multiTouchScreen d))
       <= MAX_POINTERS) /\
  (forall (s : State) (rawEvent : RawEvent.t) (d : Device),
     let accumulator := MultiTouchScreenState.accumulator (InputDevice.multiTouchScreen d) in
     let pointerCount := MultiTouchScreenState.pointerCount accumulator in
     RawEvent.type rawEvent = EV_SYN ->
     RawEvent.scanCode rawEvent = SYN_MT_REPORT ->
     keyedLookup (InputReader.mDevices (fst s)) (RawEvent.deviceId rawEvent) = Some d ->
     InputDevice.ignored d = false ->
     InputDevice.isMultiTouchScreen d = true ->
     MultiTouchScreenState.fields
       (arrayGet MultiTouchScreenState.zeroPointer
          (MultiTouchScreenState.pointers accumulator) pointerCount) <> 0 ->
     exists d',
       keyedLookup (InputReader.mDevices (fst (stateOf (process rawEvent s))))
         (RawEvent.deviceId rawEvent) = Some d' /\
       let accumulator' :=
         MultiTouchScreenState.accumulator (InputDevice.multiTouchScreen d') in
       if pointerCount =? MAX_POINTERS
       then
         MultiTouchScreenState.pointerCount accumulator' = MAX_POINTERS /\
         firstn (Z.to_nat MAX_POINTERS) (MultiTouchScreenState.pointers accumulator')
         = firstn (Z.to_nat MAX_POINTERS) (MultiTouchScreenState.pointers accumulator) /\
         MultiTouchScreenState.fields
           (arrayGet MultiTouchScreenState.zeroPointer
              (MultiTouchScreenState.pointers accumulator') MAX_POINTERS) = 0 /\
         effectsOf (process rawEvent s) = [LogW (TooManyPointers MAX_POINTERS)]
       else
         MultiTouchScreenState.pointerCount accumulator' = pointerCount + 1 /\
         effectsOf (process rawEvent s) = []).
Proof.
  split.
  - intros deviceId d Hd.
    assert (allEntries pointerCountInRange
              (stateOf (processAll rawEvents (newInputReader w)))) as Hall.
    { apply allEntries_processAll with (P := pointerCountInRange).
      - intros k f d0 [Hf _]. apply pointerCount_keeps. exact Hf.
      - intros k f d0. apply pointerCount_accFrame.
      - intros k d0 (_ & _ & _ & Hcount & _). unfold pointerCountInRange.
        rewrite Hcount. unfold MAX_POINTERS. lia.
      - intros i. apply pointerCount_reconfigure.
      - intros when i flags. apply pointerCount_consume.
      - exact pointerCount_handleSync_pointer.
      - apply pointerCount_newInputReader. }
    eapply allEntries_lookup with (P := pointerCountInRange); eassumption.
  - intros s rawEvent d accumulator pointerCount Htype Hscan Hd Hign Hmt Hfields.
    unfold process. cbv zeta. rewrite Htype.
    change (EV_SYN =? DEVICE_ADDED) with false.
    change (EV_SYN =? DEVICE_REMOVED) with false.
    change (EV_SYN =? EV_SYN) with true. cbv iota.
    rewrite (handleSync_pointer_run _ _ Hscan Hd Hign). cbv zeta.
    rewrite Hmt.
    fold accumulator. fold pointerCount.
    apply Z.eqb_neq in Hfields. rewrite Hfields. cbn [negb].
    destruct (Z.eqb_spec pointerCount MAX_POINTERS) as [Hmax|Hmax];
      cbn [stateOf effectsOf fst snd].
    + rewrite lookup_updateDevice, Hd. cbn [option_map].
      eexists. split; [reflexivity|]. cbv zeta.
      cbn [mapMultiTouchAccumulator setMultiTouchAccumulator clearPointerAt
           InputDevice.multiTouchScreen InputDevice.set_multiTouchScreen
           MultiTouchScreenState.accumulator MultiTouchScreenState.pointerCount
           MultiTouchScreenState.pointers].
      fold accumulator. fold pointerCount. rewrite Hmax.
      split; [reflexivity|]. split; [|split; [|reflexivity]].
      * unfold arraySet. change (MAX_POINTERS <? 0) with false. cbv iota.
        apply firstn_listSet.
      * unfold arraySet, arrayGet. change (MAX_POINTERS <? 0) with false. cbv iota.
        rewrite nth_listSet. destruct (_ <? _)%nat; reflexivity.
    + rewrite lookup_updateDevice, lookup_updateDevice, Hd. cbn [option_map].
      eexists. split; [reflexivity|]. cbv zeta. split; reflexivity.
Qed.

(** C3: between any two iterations of the reader loop, started on the
    reader its constructor leaves, the exported virtual key code differs
    from -1 exactly when some device has a virtual key in status DOWN, and
    then it is the key code of the current virtual key of such a device.
    The event hub is taken never to give the key code -1, the value the
    reader keeps for no key. *)
Theorem exported_virtual_key_tracks_down_status (n : nat) (w : World) :
  hubKeyCodesValid ->
  let reader : Reader := fst (stateOf (loopTimes n (newInputReader w))) in
  let exported := InputReader.mExportedVirtualKeyCode reader in
  (exported <> -1 <->
   exists kv, In kv (InputReader.mDevices reader) /\
              virtualKeyStatus (snd kv) = CurrentVirtualKeyState.STATUS_DOWN) /\
  (exported <> -1 ->
   exists kv, In kv (InputReader.mDevices reader) /\
              virtualKeyStatus (snd kv) = CurrentVirtualKeyState.STATUS_DOWN /\
              CurrentVirtualKeyState.keyCode
                (TouchScreenState.currentVirtualKey (InputDevice.touchScreen (snd kv)))
              = exported).
Proof.
  intros Hhub.
  apply virtualKeyInvariant_exported.
  apply invariant_loopTimes; [exact Hhub|].
  apply invariant_newInputReader.
Qed.

(** * More of the reader: the registry of devices *)

Lemma keyedLookup_add_same {A : Type} (l : list (Z * A)) (k : Z) (v : A) :
  keyedLookup (keyedAdd l k v) k = Some v.
Proof.
  induction l as [|[k0 v0] l IH]; cbn [keyedAdd keyedLookup].
  - rewrite Z.eqb_refl. reflexivity.
  - destruct (Z.ltb_spec k k0) as [Hlt|Hge].
    + cbn [keyedLookup]. rewrite Z.eqb_refl. reflexivity.
    + destruct (Z.eqb_spec k k0) as [->|Hne]; cbn [keyedLookup].
      * rewrite Z.eqb_refl. reflexivity.
      * destruct (Z.eqb_spec k0 k); [congruence|exact IH].
Qed.

Lemma Forall_above_add {A : Type} (l : list (Z * A)) (k0 k : Z) (v : A) :
  k0 < k -> Forall (fun kv => k0 < fst kv) l ->
  Forall (fun kv => k0 < fst kv) (keyedAdd l k v).
Proof.
  intros Hk. induction 1 as [|[k1 v1] l Hx Hl IH]; cbn [keyedAdd].
  - constructor; [exact Hk|constructor].
  - destruct (k <? k1); [constructor; [exact Hk|constructor; assumption]|].
    destruct (k =? k1); constructor; assumption.
Qed.

Lemma sortedKeys_add {A : Type} (l : list (Z * A)) (k : Z) (v : A) :
  sortedKeys l -> sortedKeys (keyedAdd l k v).
Proof.
  induction l as [|[k0 v0] l IH]; cbn [keyedAdd sortedKeys].
  - intros _. split; [constructor|exact I].
  - intros [Habove Hsorted].
    destruct (Z.ltb_spec k k0) as [Hlt|Hge].
    + cbn [sortedKeys]. split; [|split; assumption].
      constructor; [exact Hlt|].
      eapply Forall_impl; [|exact Habove]. intros kv Hkv. cbn beta in *. lia.
    + destruct (Z.eqb_spec k k0) as [->|Hne]; cbn [sortedKeys].
      * split; assumption.
      * split; [apply Forall_above_add; [lia|exact Habove]|apply IH; exact Hsorted].
Qed.

Lemma Forall_above_remove {A : Type} (l : list (Z * A)) (k0 k : Z) :
  Forall (fun kv => k0 < fst kv) l -> Forall (fun kv => k0 < fst kv) (keyedRemove l k).
Proof.
  induction 1 as [|[k1 v1] l Hx Hl IH]; cbn [keyedRemove]; [constructor|].
  destruct (k1 =? k); [exact Hl|constructor; assumption].
Qed.

Lemma sortedKeys_remove {A : Type} (l : list (Z * A)) (k : Z) :
  sortedKeys l -> sortedKeys (keyedRemove l k).
Proof.
  induction l as [|[k0 v0] l IH]; cbn [keyedRemove sortedKeys]; [intros H; exact H|].
  intros [Habove Hsorted]. destruct (k0 =? k); [exact Hsorted|].
  cbn [sortedKeys]. split; [apply Forall_above_remove; exact Habove|apply IH; exact Hsorted].
Qed.

Lemma Forall_above_update {A : Type} (l : list (Z * A)) (k0 k : Z) (f : A -> A) :
  Forall (fun kv => k0 < fst kv) l -> Forall (fun kv => k0 < fst kv) (keyedUpdate l k f).
Proof.
  induction 1 as [|[k1 v1] l Hx Hl IH]; cbn [keyedUpdate]; [constructor|].
  destruct (k1 =? k); constructor; assumption.
Qed.

Lemma sortedKeys_update {A : Type} (l : list (Z * A)) (k : Z) (f : A -> A) :
  sortedKeys l -> sortedKeys (keyedUpdate l k f).
Proof.
  induction l as [|[k0 v0] l IH]; cbn [keyedUpdate sortedKeys]; [intros H; exact H|].
  intros [Habove Hsorted]. destruct (k0 =? k); cbn [sortedKeys].
  - split; assumption.
  - split; [apply Forall_above_update; exact Habove|apply IH; exact Hsorted].
Qed.

Lemma keyedLookup_above {A : Type} (l : list (Z * A)) (k : Z) :
  Forall (fun kv => k < fst kv) l -> keyedLookup l k = None.
Proof.
  induction 1 as [|[k1 v1] l Hx Hl IH]; cbn [keyedLookup]; [reflexivity|].
  cbn [fst] in Hx. destruct (Z.eqb_spec k1 k); [lia|exact IH].
Qed.

Lemma keyedLookup_remove_same {A : Type} (l : list (Z * A)) (k : Z) :
  sortedKeys l -> keyedLookup (keyedRemove l k) k = None.
Proof.
  induction l as [|[k0 v0] l IH]; cbn [keyedRemove sortedKeys]; [reflexivity|].
  intros [Habove Hsorted]. destruct (Z.eqb_spec k0 k) as [->|Hne].
  - apply keyedLookup_above. exact Habove.
  - cbn [keyedLookup]. destruct (Z.eqb_spec k0 k); [congruence|apply IH; exact Hsorted].
Qed.

Lemma sortedKeys_lookup {A : Type} (l : list (Z * A)) (k : Z) (v : A) :
  sortedKeys l -> In (k, v) l -> keyedLookup l k = Some v.
Proof.
  induction l as [|[k0 v0] l IH]; cbn [sortedKeys keyedLookup]; [intros _ []|].
  intros [Habove Hsorted] [Heq|Hin].
  - injection Heq as -> ->. rewrite Z.eqb_refl. reflexivity.
  - destruct (Z.eqb_spec k0 k) as [->|Hne]; [|apply IH; assumption].
    rewrite Forall_forall in Habove. specialize (Habove _ Hin). cbn [fst] in Habove. lia.
Qed.

Lemma sortedKeys_NoDup {A : Type} (l : list (Z * A)) :
  sortedKeys l -> NoDup (map fst l).
Proof.
  induction l as [|[k0 v0] l IH]; cbn [sortedKeys map fst]; [intros _; constructor|].
  intros [Habove Hsorted]. constructor; [|apply IH; exact Hsorted].
  intros Hin. apply in_map_iff in Hin. destruct Hin as ([k1 v1] & Hk & Hin).
  cbn [fst] in Hk. subst k1. rewrite Forall_forall in Habove.
  specialize (Habove _ Hin). cbn [fst] in Habove. lia.
Qed.

(** ** The registry keeps its keys sorted *)

Lemma sorted_refl (s : State) :
  keepsInvariant (fun s => sortedKeys (InputReader.mDevices (fst s))) s s.
Proof. intros H. exact H. Qed.

Lemma sorted_trans (s1 s2 s3 : State) :
  keepsInvariant (fun s => sortedKeys (InputReader.mDevices (fst s))) s1 s2 ->
  keepsInvariant (fun s => sortedKeys (InputReader.mDevices (fst s))) s2 s3 ->
  keepsInvariant (fun s => sortedKeys (InputReader.mDevices (fst s))) s1 s3.
Proof. intros H12 H23 H. apply H23, H12, H. Qed.

Lemma sorted_world (r : Reader) (w w' : World) :
  keepsInvariant (fun s => sortedKeys (InputReader.mDevices (fst s))) (r, w) (r, w').
Proof. intros H. exact H. Qed.

Lemma sorted_reader (f : Reader -> Reader) (r : Reader) (w : World) :
  readerFrame f ->
  keepsInvariant (fun s => sortedKeys (InputReader.mDevices (fst s))) (r, w) (f r, w).
Proof.
  intros Hf H. unfold keepsInvariant in *. cbn [fst] in *.
  destruct (Hf r) as (-> & _). exact H.
Qed.

Lemma sorted_exported :
  preserves (keepsInvariant (fun s => sortedKeys (InputReader.mDevices (fst s))))
    updateExportedVirtualKeyState.
Proof. intros s H. rewrite updateExportedVirtualKeyState_run. exact H. Qed.

Lemma sorted_updateDevice (deviceId : Z) (f : Device -> Device) (s : State) :
  keepsInvariant (fun s => sortedKeys (InputReader.mDevices (fst s)))
    s (updateDevice deviceId f s).
Proof. intros H. apply sortedKeys_update. exact H. Qed.

Ltac sorted_premise :=
  first
    [ intros ?; apply sorted_refl
    | intros ? ? ? ? ?; eapply sorted_trans; eassumption
    | intros ? ? ?; apply sorted_world
    | intros ? ? ? ?; apply sorted_reader; assumption
    | apply sorted_exported
    | intros; apply sorted_updateDevice ].

Lemma sorted_onConfigurationChanged (when : Z) :
  preserves (keepsInvariant (fun s => sortedKeys (InputReader.mDevices (fst s))))
    (onConfigurationChanged when).
Proof. apply pres_onConfigurationChanged; sorted_premise. Qed.

Lemma sorted_added (rawEvent : RawEvent.t) :
  preserves (keepsInvariant (fun s => sortedKeys (InputReader.mDevices (fst s))))
    (handleDeviceAdded rawEvent).
Proof.
  intros s H. unfold handleDeviceAdded. rewrite stateOf_bind.
  cbn [getDevice valueOf stateOf fst snd].
  destruct (keyedLookup _ _); [exact H|].
  destruct (addDevice_run (RawEvent.when rawEvent) (RawEvent.deviceId rawEvent) s)
    as (w & device & -> & _).
  assert (sortedKeys
            (InputReader.mDevices
               (fst (addedDevice (RawEvent.deviceId rawEvent) device (fst s), w)))) as Hadd
    by (apply sortedKeys_add; exact H).
  destruct (negb _); [|exact Hadd].
  apply sorted_onConfigurationChanged. exact Hadd.
Qed.

Lemma sorted_removed (rawEvent : RawEvent.t) :
  preserves (keepsInvariant (fun s => sortedKeys (InputReader.mDevices (fst s))))
    (handleDeviceRemoved rawEvent).
Proof.
  intros s H. unfold handleDeviceRemoved. rewrite stateOf_bind.
  cbn [getDevice valueOf stateOf fst snd].
  destruct (keyedLookup _ _) as [device|]; [|exact H].
  rewrite removeDevice_run.
  assert (sortedKeys
            (InputReader.mDevices
               (fst (removedDevice (InputDevice.id device) (fst s), snd s)))) as Hrem
    by (apply sortedKeys_remove; exact H).
  destruct (negb _); [|exact Hrem].
  apply sorted_onConfigurationChanged. exact Hrem.
Qed.

Lemma sorted_process (rawEvent : RawEvent.t) :
  preserves (keepsInvariant (fun s => sortedKeys (InputReader.mDevices (fst s))))
    (process rawEvent).
Proof.
  apply pres_process with (touched := fun _ => True);
    first [ sorted_premise
          | intros; apply keeps_reconfigure; sorted_premise
          | intros; apply keeps_consumeVirtualKeyTouches; sorted_premise
          | intros e _ Hscan; apply pres_handleSync_pointer;
            [ sorted_premise | sorted_premise | intros; apply sorted_updateDevice
            | exact Hscan ]
          | intros e _; apply sorted_added
          | intros e _; apply sorted_removed
          | exact I ].
Qed.

Lemma registryOk_process (rawEvent : RawEvent.t) (s : State) :
  registryOk s -> registryOk (stateOf (process rawEvent s)).
Proof.
  intros [Hsorted Hregistered]. split.
  - apply sorted_process. exact Hsorted.
  - apply registered_process. exact Hregistered.
Qed.

Lemma registryOk_processAll (rawEvents : list RawEvent.t) (s : State) :
  registryOk s -> registryOk (stateOf (processAll rawEvents s)).
Proof.
  revert s. induction rawEvents as [|e l IH]; intros s H; cbn [processAll].
  - exact H.
  - rewrite stateOf_bind. apply IH, registryOk_process, H.
Qed.

Lemma registryOk_newInputReader (w : World) : registryOk (newInputReader w : State).
Proof.
  assert (InputReader.mDevices (fst (newInputReader w : State)) = []) as Hd
    by apply newInputReader_reader.
  split.
  - rewrite Hd. exact I.
  - unfold registeredUnderOwnIds, allEntries. rewrite Hd. constructor.
Qed.

(** X1: whatever raw events the reader has handled since its construction,
    no device id is registered twice, and every registered device is the one
    [getDevice] finds under its key, which is the id the device carries. *)
Theorem registry_holds_each_id_once (rawEvents : list RawEvent.t) (w : World) :
  let s : State := stateOf (processAll rawEvents (newInputReader w)) in
  NoDup (map fst (InputReader.mDevices (fst s))) /\
  forall deviceId device,
    In (deviceId, device) (InputReader.mDevices (fst s)) ->
    valueOf (getDevice deviceId s) = Some device /\ InputDevice.id device = deviceId.
Proof.
  intros s.
  assert (registryOk s) as [Hsorted Hregistered]
    by (apply registryOk_processAll, registryOk_newInputReader).
  split; [apply sortedKeys_NoDup; exact Hsorted|].
  intros deviceId device Hin. split.
  - apply sortedKeys_lookup; assumption.
  - unfold registeredUnderOwnIds, allEntries in Hregistered.
    rewrite Forall_forall in Hregistered. exact (Hregistered _ Hin).
Qed.

(** ** Effects of a kind *)

Lemma effectsAll_ret {A : Type} (ok : Effect -> bool) (a : A) : effectsAll ok (ret a).
Proof. intros s. reflexivity. Qed.

Lemma effectsAll_bind {A B : Type} (ok : Effect -> bool) (m : M A) (k : A -> M B) :
  effectsAll ok m -> (forall a, effectsAll ok (k a)) -> effectsAll ok (bind m k).
Proof.
  intros Hm Hk s. rewrite effectsOf_bind, forallb_app, Hm, Hk. reflexivity.
Qed.

Lemma effectsAll_call {A : Type} (ok : Effect -> bool) (f : World -> A * World) :
  effectsAll ok (call f).
Proof. intros [r w]. rewrite call_run. reflexivity. Qed.

Lemma effectsAll_emit (ok : Effect -> bool) (e : Effect) :
  ok e = true -> effectsAll ok (emit e).
Proof. intros H s. cbn [emit effectsOf snd forallb]. rewrite H. reflexivity. Qed.

Lemma effectsAll_getReader (ok : Effect -> bool) : effectsAll ok getReader.
Proof. intros s. reflexivity. Qed.

Lemma effectsAll_modifyReader (ok : Effect -> bool) (f : Reader -> Reader) :
  effectsAll ok (modifyReader f).
Proof. intros s. reflexivity. Qed.

Lemma effectsAll_configureAbsoluteAxisInfo (ok : Effect -> bool) (device : Device) (axis : Z) :
  effectsAll ok (configureAbsoluteAxisInfo device axis).
Proof.
  unfold configureAbsoluteAxisInfo.
  apply effectsAll_bind; [apply effectsAll_call|intros info; apply effectsAll_ret].
Qed.

Lemma configureVirtualKeysLoop_warnings (device : Device) (displayWidth displayHeight : Z)
  (definitions : list VirtualKeyDefinition.t) :
  forall virtualKeys,
  effectsAll isWarningOrTrap
    (configureVirtualKeysLoop device displayWidth displayHeight definitions virtualKeys).
Proof.
  induction definitions as [|definition rest IH]; intros virtualKeys;
    cbn [configureVirtualKeysLoop].
  - apply effectsAll_ret.
  - apply effectsAll_bind; [|intros vks; apply IH].
    unfold configureVirtualKey. cbv zeta.
    apply effectsAll_bind; [apply effectsAll_call|intros [[keyCode flags]|]].
    + destruct (virtualKeyHitBox _ _ _ _) as [[[[hitLeft hitTop] hitRight] hitBottom]|].
      * apply effectsAll_ret.
      * apply effectsAll_bind; [apply effectsAll_emit; reflexivity|intros _].
        apply effectsAll_ret.
    + apply effectsAll_bind; [apply effectsAll_emit; reflexivity|intros _].
      apply effectsAll_ret.
Qed.

Lemma configureDeviceForCurrentDisplaySize_warnings (device : Device) :
  effectsAll isWarningOrTrap (configureDeviceForCurrentDisplaySize device).
Proof.
  unfold configureDeviceForCurrentDisplaySize. cbv zeta.
  destruct (InputDevice.isTouchScreen device); [|apply effectsAll_ret].
  destruct (_ && _); [|apply effectsAll_ret].
  apply effectsAll_bind; [apply effectsAll_getReader|intros r].
  destruct (_ <? 0); [apply effectsAll_ret|].
  unfold configureVirtualKeys.
  apply effectsAll_bind; [apply effectsAll_call|intros defs].
  apply effectsAll_bind; [apply effectsAll_getReader|intros r'].
  apply effectsAll_bind; [apply configureVirtualKeysLoop_warnings|intros vks].
  apply effectsAll_ret.
Qed.

Lemma configureDevice_warnings (device : Device) :
  effectsAll isWarningOrTrap (configureDevice device).
Proof.
  unfold configureDevice. cbv zeta.
  apply effectsAll_bind.
  - destruct (InputDevice.isMultiTouchScreen device);
      [|destruct (InputDevice.isSingleTouchScreen device); [|apply effectsAll_ret]];
      repeat (apply effectsAll_bind;
              [apply effectsAll_configureAbsoluteAxisInfo|intros ?]);
      apply effectsAll_ret.
  - intros p. apply effectsAll_bind.
    + destruct (InputDevice.isTouchScreen device); [|apply effectsAll_ret].
      repeat (apply effectsAll_bind; [apply effectsAll_call|intros ?]).
      apply effectsAll_ret.
    + intros ts. apply configureDeviceForCurrentDisplaySize_warnings.
Qed.

Lemma warnings_filter (l : list Effect) :
  forallb isWarningOrTrap l = true -> filter isConfigurationChanged l = [].
Proof.
  induction l as [|e l IH]; [reflexivity|].
  cbn [forallb filter]. intros H. apply andb_true_iff in H. destruct H as [He Hl].
  destruct e; try discriminate He; cbn [isConfigurationChanged]; apply IH; exact Hl.
Qed.

(** ** Configuration on a display it can divide by *)

Lemma i32div_defined (a b : Z) : 0 < b -> i32div a b = Some (toInt32 (Z.quot a b)).
Proof.
  intros Hb. unfold i32div.
  destruct (b =? 0) eqn:Ezero; [apply Z.eqb_eq in Ezero; lia|].
  destruct (b =? -1) eqn:Eminus; [apply Z.eqb_eq in Eminus; lia|].
  rewrite andb_false_r. reflexivity.
Qed.

Lemma hitEdge_defined (edge extent display origin : Z) :
  0 < display -> hitEdge edge extent display origin
                 = Some (scaledEdge edge extent display origin).
Proof. intros H. unfold hitEdge. rewrite (i32div_defined _ H). reflexivity. Qed.

(** On a display 0 wide or 0 high the hit box has no defined division: a
    definition whose scan code has a key code ends the program there. *)
Lemma hitEdge_undefined (edge extent origin : Z) : hitEdge edge extent 0 origin = None.
Proof. reflexivity. Qed.

Lemma configureVirtualKey_traps (device : Device) (displayWidth displayHeight : Z)
  (virtualKeys : list VirtualKey.t) (definition : VirtualKeyDefinition.t) (s : State)
  (keyCode flags : Z) :
  fst (scancodeToKeycode (InputDevice.id device)
         (VirtualKeyDefinition.scanCode definition) (snd s)) = Some (keyCode, flags) ->
  displayWidth = 0 \/ displayHeight = 0 ->
  effectsOf (configureVirtualKey device displayWidth displayHeight virtualKeys
               definition s)
  = [ArithmeticTrap].
Proof.
  intros Hanswer Hdisplay. unfold configureVirtualKey. cbv zeta.
  rewrite bind_run, call_run. cbn [valueOf stateOf effectsOf fst snd app].
  rewrite Hanswer.
  assert (virtualKeyHitBox (TouchScreenState.parameters (InputDevice.touchScreen device))
            displayWidth displayHeight definition = None) as Hbox.
  { unfold virtualKeyHitBox. cbv zeta.
    rewrite !i32div_defined by lia. cbn [andThen].
    destruct Hdisplay as [-> | ->].
    - rewrite hitEdge_undefined. reflexivity.
    - rewrite !hitEdge_undefined.
      repeat (match goal with
              | |- context [andThen (hitEdge ?a ?b ?c ?d)] =>
                  destruct (hitEdge a b c d); cbn [andThen]
              end; try reflexivity). }
  rewrite Hbox. rewrite bind_run. cbn [emit ret valueOf stateOf effectsOf fst snd app].
  reflexivity.
Qed.

(** With a width and a height above 0 a definition gives its key or the
    warning, as the event hub answers. *)
Lemma configureVirtualKey_defined (device : Device) (displayWidth displayHeight : Z)
  (virtualKeys : list VirtualKey.t) (definition : VirtualKeyDefinition.t) (s : State) :
  0 < displayWidth -> 0 < displayHeight ->
  let answer := scancodeToKeycode (InputDevice.id device)
                  (VirtualKeyDefinition.scanCode definition) (snd s) in
  configureVirtualKey device displayWidth displayHeight virtualKeys definition s
  = (virtualKeys ++ configuredKeys device displayWidth displayHeight [definition]
                      [fst answer],
     (fst s, snd answer),
     configurationWarnings [definition] [fst answer]).
Proof.
  intros Hw Hh answer. unfold configureVirtualKey. cbv zeta.
  rewrite bind_run, call_run. cbn [valueOf stateOf effectsOf fst snd app].
  fold answer. unfold configuredKeys, configurationWarnings.
  cbn [combine flat_map fst snd app].
  destruct (fst answer) as [[keyCode flags]|].
  - unfold virtualKeyHitBox. cbv zeta.
    rewrite !i32div_defined by lia. cbn [andThen].
    rewrite !hitEdge_defined by assumption. cbn [andThen].
    rewrite app_nil_r. reflexivity.
  - rewrite bind_run. cbn [emit ret valueOf stateOf effectsOf fst snd app].
    rewrite !app_nil_r. reflexivity.
Qed.

Lemma configureVirtualKeysLoop_defined (device : Device) (displayWidth displayHeight : Z)
  (definitions : list VirtualKeyDefinition.t) :
  0 < displayWidth -> 0 < displayHeight ->
  forall (virtualKeys : list VirtualKey.t) (s : State),
    let answers := keyCodeAnswers (InputDevice.id device) definitions (snd s) in
    exists w,
      configureVirtualKeysLoop device displayWidth displayHeight definitions virtualKeys s
      = (virtualKeys
           ++ configuredKeys device displayWidth displayHeight definitions answers,
         (fst s, w),
         configurationWarnings definitions answers).
Proof.
  intros Hw Hh.
  induction definitions as [|definition rest IH]; intros virtualKeys s answers.
  - exists (snd s). cbn [configureVirtualKeysLoop ret]. subst answers.
    unfold configuredKeys, configurationWarnings. cbn [keyCodeAnswers combine flat_map].
    rewrite app_nil_r. destruct s. reflexivity.
  - cbn [configureVirtualKeysLoop]. rewrite bind_run.
    rewrite (configureVirtualKey_defined device virtualKeys definition s Hw Hh).
    cbn [valueOf stateOf effectsOf fst snd].
    match goal with
    | |- context [configureVirtualKeysLoop _ _ _ rest ?vks ?s1] =>
        destruct (IH vks s1) as (w & Hrun)
    end.
    cbn [fst snd] in Hrun. rewrite Hrun. exists w.
    cbn [valueOf stateOf effectsOf fst snd].
    subst answers. cbn [keyCodeAnswers].
    unfold configuredKeys, configurationWarnings. cbn [combine flat_map fst snd].
    rewrite !app_nil_r, <- app_assoc. reflexivity.
Qed.

Lemma configurationWarnings_warnings (definitions : list VirtualKeyDefinition.t)
  (answers : list (option (Z * Z))) :
  forallb isWarning (configurationWarnings definitions answers) = true.
Proof.
  unfold configurationWarnings.
  induction (combine definitions answers) as [|[definition [[keyCode flags]|]] l IH];
    cbn [flat_map fst snd app forallb isWarning]; [reflexivity|exact IH|exact IH].
Qed.

(** Where the reader is kept, what follows sees the display it started
    with. *)
Lemma effects_bind_keptReader {A B : Type} (ok : Effect -> bool) (m : M A)
  (k : A -> M B) (s : State) :
  preserves (fun s s' => fst s' = fst s) m ->
  effectsAll ok m ->
  (forall a s', fst s' = fst s -> forallb ok (effectsOf (k a s')) = true) ->
  forallb ok (effectsOf (bind m k s)) = true.
Proof.
  intros Hkept Hm Hk.
  rewrite effectsOf_bind, forallb_app, Hm, Hk; [reflexivity|apply Hkept].
Qed.

Lemma configureVirtualKeys_quiet (device : Device) (s : State) :
  0 < InputReader.mDisplayWidth (fst s) -> 0 < InputReader.mDisplayHeight (fst s) ->
  forallb isWarning (effectsOf (configureVirtualKeys device s)) = true.
Proof.
  intros Hw Hh. unfold configureVirtualKeys.
  rewrite bind_run, call_run. cbn [valueOf stateOf effectsOf fst snd app].
  rewrite bind_run. cbn [getReader valueOf stateOf effectsOf fst snd app].
  rewrite bind_run.
  match goal with
  | |- context [configureVirtualKeysLoop ?d ?w ?h ?defs [] ?s1] =>
      destruct (@configureVirtualKeysLoop_defined d w h defs Hw Hh [] s1) as (w' & Hrun)
  end.
  rewrite Hrun. cbn [ret valueOf stateOf effectsOf fst snd]. rewrite app_nil_r.
  apply configurationWarnings_warnings.
Qed.

Lemma configureDeviceForCurrentDisplaySize_quiet (device : Device) (s : State) :
  displayUsable (fst s) ->
  forallb isWarning (effectsOf (configureDeviceForCurrentDisplaySize device s)) = true.
Proof.
  intros Hdisplay. unfold configureDeviceForCurrentDisplaySize. cbv zeta.
  destruct (InputDevice.isTouchScreen device); [|reflexivity].
  destruct (_ && _); [|reflexivity].
  rewrite bind_run. cbn [getReader valueOf stateOf effectsOf fst snd app].
  destruct (InputReader.mDisplayWidth (fst s) <? 0) eqn:Enegative; [reflexivity|].
  apply Z.ltb_ge in Enegative.
  destruct Hdisplay as [Hunknown|[Hw Hh]]; [lia|].
  apply configureVirtualKeys_quiet; assumption.
Qed.

Lemma configureDevice_quiet (device : Device) (s : State) :
  displayUsable (fst s) ->
  forallb isWarning (effectsOf (configureDevice device s)) = true.
Proof.
  intros Hdisplay. unfold configureDevice. cbv zeta.
  apply effects_bind_keptReader.
  - destruct (InputDevice.isMultiTouchScreen device);
      [|destruct (InputDevice.isSingleTouchScreen device); [|kr_ret]];
      repeat (kr_bind; [apply configureAbsoluteAxisInfo_reader|intros ?]); kr_ret.
  - destruct (InputDevice.isMultiTouchScreen device);
      [|destruct (InputDevice.isSingleTouchScreen device); [|apply effectsAll_ret]];
      repeat (apply effectsAll_bind;
              [apply effectsAll_configureAbsoluteAxisInfo|intros ?]);
      apply effectsAll_ret.
  - intros p s1 Hs1. apply effects_bind_keptReader.
    + destruct (InputDevice.isTouchScreen device); [|kr_ret].
      repeat (kr_bind; [kr_call|intros ?]). kr_ret.
    + destruct (InputDevice.isTouchScreen device); [|apply effectsAll_ret].
      repeat (apply effectsAll_bind; [apply effectsAll_call|intros ?]).
      apply effectsAll_ret.
    + intros ts s2 Hs2. apply configureDeviceForCurrentDisplaySize_quiet.
      rewrite Hs2, Hs1. exact Hdisplay.
Qed.

Lemma reconfigureDevice_quiet (deviceId : Z) (s : State) :
  displayUsable (fst s) ->
  forallb isWarning (effectsOf (reconfigureDevice deviceId s)) = true.
Proof.
  intros Hdisplay. unfold reconfigureDevice.
  rewrite effectsOf_bind. cbn [deref valueOf stateOf effectsOf fst snd app].
  rewrite effectsOf_bind, forallb_app.
  rewrite (configureDeviceForCurrentDisplaySize_quiet _ s Hdisplay). reflexivity.
Qed.

Lemma reconfigureAll_quiet (deviceIds : list Z) :
  forall s : State,
    displayUsable (fst s) ->
    forallb isWarning (effectsOf (forEach deviceIds reconfigureDevice s)) = true.
Proof.
  induction deviceIds as [|deviceId rest IH]; intros s Hdisplay; [reflexivity|].
  cbn [forEach]. rewrite effectsOf_bind, forallb_app.
  rewrite (reconfigureDevice_quiet deviceId s Hdisplay). cbn [andb].
  apply IH.
  destruct (reconfigureDevice_run deviceId s) as (w & pre & vks & effects & Hrun & _).
  rewrite Hrun. cbn [stateOf fst snd updateDevice].
  destruct Hdisplay as [H|H]; [left|right]; destruct (fst s); exact H.
Qed.

(** The refresh of the display properties for a display of a width and a
    height above 0 has no effect but warnings: no division traps. *)
Lemma refreshDisplayProperties_quiet (s : State) (width height orientation : Z) :
  fst (getDisplayInfo 0 (snd s)) = Some (width, height, orientation) ->
  0 < width -> 0 < height ->
  forallb isWarning (effectsOf (refreshDisplayProperties s)) = true.
Proof.
  intros Hinfo Hw Hh. unfold refreshDisplayProperties.
  rewrite effectsOf_bind, call_run. cbn [valueOf stateOf effectsOf fst snd app].
  rewrite Hinfo.
  rewrite effectsOf_bind. cbn [getReader valueOf stateOf effectsOf fst snd app].
  rewrite effectsOf_bind, forallb_app.
  match goal with
  | |- forallb isWarning (effectsOf (?m ?s1)) && _ = true =>
      assert (forallb isWarning (effectsOf (m s1)) = true) as ->
  end.
  { destruct (_ || _); [|reflexivity].
    rewrite effectsOf_bind. cbn [modifyReader valueOf stateOf effectsOf fst snd app].
    apply reconfigureAll_quiet. right.
    cbn [fst InputReader.set_displaySize InputReader.mDisplayWidth
         InputReader.mDisplayHeight].
    split; assumption. }
  cbn [andb].
  rewrite effectsOf_bind. cbn [getReader valueOf stateOf effectsOf fst snd app].
  rewrite effectsOf_bind.
  destruct (negb _); reflexivity.
Qed.

Lemma warnings_untrapped (l : list Effect) :
  forallb isWarning l = true -> trapped l = false.
Proof.
  unfold trapped. induction l as [|e l IH]; [reflexivity|].
  cbn [forallb existsb]. intros H. apply andb_true_iff in H. destruct H as [He Hl].
  destruct e; try discriminate He. cbn [isTrap orb]. apply IH. exact Hl.
Qed.

Lemma warnings_or_trap (l : list Effect) :
  forallb isWarning l = true -> forallb isWarningOrTrap l = true.
Proof.
  induction l as [|e l IH]; [reflexivity|].
  cbn [forallb]. intros H. apply andb_true_iff in H. destruct H as [He Hl].
  unfold isWarningOrTrap at 1. rewrite He, (IH Hl). reflexivity.
Qed.

Lemma untrapped_iff (l : list Effect) :
  trapped l = false <-> forallb (fun e => negb (isTrap e)) l = true.
Proof.
  unfold trapped. induction l as [|e l IH]; [split; reflexivity|].
  cbn [existsb forallb]. destruct (isTrap e); cbn [negb orb andb]; [|exact IH].
  split; intros H; discriminate H.
Qed.

(** A handler that refreshes the display properties first does not trap
    when the refresh does not and what follows has no division. *)
Lemma untrapped_after_refresh {A : Type} (k : bool -> M A) (s : State) :
  forallb isWarning (effectsOf (refreshDisplayProperties s)) = true ->
  (forall refreshed, effectsAll (fun e => negb (isTrap e)) (k refreshed)) ->
  trapped (effectsOf (bind refreshDisplayProperties k s)) = false.
Proof.
  intros Hrefresh Hk. rewrite effectsOf_bind. unfold trapped. rewrite existsb_app.
  fold (trapped (effectsOf (refreshDisplayProperties s))).
  rewrite (warnings_untrapped _ Hrefresh). cbn [orb].
  apply untrapped_iff, Hk.
Qed.

(** ** Devices coming and going, in full *)

Lemma onConfigurationChanged_run (when : Z) (s : State) :
  onConfigurationChanged when s
  = (tt,
     (InputReader.set_mExportedInputConfiguration
        (inputConfigurationOf (InputReader.mDevices (fst s)))
        (InputReader.set_exportedVirtualKey
           (fst (exportedVirtualKeyOf (InputReader.mDevices (fst s))))
           (snd (exportedVirtualKeyOf (InputReader.mDevices (fst s))))
           (InputReader.set_mGlobalMetaState (-1) (fst s))), snd s),
     [ExportedVirtualKeyStored
        (fst (exportedVirtualKeyOf (InputReader.mDevices (fst s))))
        (snd (exportedVirtualKeyOf (InputReader.mDevices (fst s))));
      NotifyConfigurationChanged when]).
Proof.
  unfold onConfigurationChanged.
  change (resetGlobalMetaState) with (modifyReader (InputReader.set_mGlobalMetaState (-1))
                                       : M unit).
  rewrite !bind_run.
  cbn [modifyReader valueOf stateOf effectsOf fst snd app].
  rewrite updateExportedVirtualKeyState_run.
  reflexivity.
Qed.

Lemma addDevice_full (when deviceId : Z) (s : State) :
  exists (w : World) (device : Device) (warnings : list Effect),
    addDevice when deviceId s
    = (tt,
       (if negb (InputDevice.ignored device)
        then stateOf (onConfigurationChanged when
                        (addedDevice deviceId device (fst s), w))
        else (addedDevice deviceId device (fst s), w)),
       warnings ++
       (if negb (InputDevice.ignored device)
        then effectsOf (onConfigurationChanged when
                          (addedDevice deviceId device (fst s), w))
        else [])) /\
    InputDevice.id device = deviceId /\
    InputDevice.classes device = fst (getDeviceClasses deviceId (snd s)) /\
    InputDevice.ignored device = (fst (getDeviceClasses deviceId (snd s)) =? 0) /\
    forallb isWarningOrTrap warnings = true /\
    (displayUsable (fst s) -> forallb isWarning warnings = true).
Proof.
  unfold addDevice.
  rewrite bind_run, call_run. cbn [valueOf stateOf effectsOf fst snd app].
  rewrite bind_run, call_run. cbn [valueOf stateOf effectsOf fst snd app].
  set (classes := fst (getDeviceClasses deviceId (snd s))).
  set (name := fst (getDeviceName deviceId _)).
  set (w1 := snd (getDeviceName deviceId _)).
  cbv zeta. rewrite bind_run.
  set (d0 := newInputDevice deviceId classes name).
  destruct (classes =? 0) eqn:Eclasses; cbn [negb].
  - cbn [ret valueOf stateOf effectsOf fst snd app].
    rewrite bind_run. cbn [modifyReader valueOf stateOf effectsOf fst snd app].
    exists w1, (resetDevice (InputDevice.set_ignored true d0)), [].
    split; [reflexivity|]. repeat split.
  - destruct (configureDevice_value d0 (fst s, w1))
      as (d2 & pre & vks & Hval & Hfrom & Hid & Hcl & Hig & Hvk).
    assert (fst (stateOf (configureDevice d0 (fst s, w1))) = fst s) as Hreader
      by exact (configureDevice_reader d0 (fst s, w1)).
    pose proof (configureDevice_warnings d0 (fst s, w1)) as Hwarn.
    rewrite Hval.
    rewrite bind_run. cbn [modifyReader valueOf stateOf effectsOf fst snd app].
    rewrite Hreader.
    exists (snd (stateOf (configureDevice d0 (fst s, w1)))),
           (resetDevice (reconfigured pre vks d2)),
           (effectsOf (configureDevice d0 (fst s, w1))).
    split.
    + change (InputDevice.ignored (resetDevice (reconfigured pre vks d2)))
        with (InputDevice.ignored d2).
      rewrite Hig. change (InputDevice.ignored d0) with false. cbn [negb].
      unfold addedDevice. f_equal. f_equal.
      destruct (valueOf (onConfigurationChanged _ _)). reflexivity.
    + split; [exact Hid|]. split; [exact Hcl|]. split; [exact Hig|].
      split; [exact Hwarn|].
      intros Hdisplay. apply configureDevice_quiet. exact Hdisplay.
Qed.

Lemma process_added (rawEvent : RawEvent.t) (s : State) :
  RawEvent.type rawEvent = DEVICE_ADDED -> process rawEvent s = handleDeviceAdded rawEvent s.
Proof. intros H. unfold process. cbv zeta. rewrite H. reflexivity. Qed.

Lemma process_removed (rawEvent : RawEvent.t) (s : State) :
  RawEvent.type rawEvent = DEVICE_REMOVED ->
  process rawEvent s = handleDeviceRemoved rawEvent s.
Proof. intros H. unfold process. cbv zeta. rewrite H. reflexivity. Qed.

Lemma handleDeviceAdded_present (rawEvent : RawEvent.t) (s : State) (device : Device) :
  keyedLookup (InputReader.mDevices (fst s)) (RawEvent.deviceId rawEvent) = Some device ->
  handleDeviceAdded rawEvent s
  = (tt, s, [LogW (SpuriousDeviceAdded (RawEvent.deviceId rawEvent))]).
Proof.
  intros Hd. unfold handleDeviceAdded. rewrite bind_run.
  cbn [getDevice valueOf stateOf effectsOf fst snd app]. rewrite Hd. reflexivity.
Qed.

Lemma handleDeviceRemoved_absent (rawEvent : RawEvent.t) (s : State) :
  keyedLookup (InputReader.mDevices (fst s)) (RawEvent.deviceId rawEvent) = None ->
  handleDeviceRemoved rawEvent s
  = (tt, s, [LogW (SpuriousDeviceRemoved (RawEvent.deviceId rawEvent))]).
Proof.
  intros Hd. unfold handleDeviceRemoved. rewrite bind_run.
  cbn [getDevice valueOf stateOf effectsOf fst snd app]. rewrite Hd. reflexivity.
Qed.

(** X2: on a display the configuration can divide by (its width unknown,
    or its width and height above 0), a DEVICE_ADDED event for an id that
    is not registered is handled without a trap and registers a device
    under that id, with the classes the event hub tells and ignored exactly
    when the classes are 0; the other devices stay as they are; the
    dispatcher is told of a configuration change exactly when the device is
    not ignored; and the same event once more is answered by a warning
    only. *)
Theorem device_added_is_registered (rawEvent : RawEvent.t) (s : State) :
  RawEvent.type rawEvent = DEVICE_ADDED ->
  keyedLookup (InputReader.mDevices (fst s)) (RawEvent.deviceId rawEvent) = None ->
  displayUsable (fst s) ->
  let deviceId := RawEvent.deviceId rawEvent in
  let classes := fst (getDeviceClasses deviceId (snd s)) in
  let r := process rawEvent s in
  trapped (effectsOf r) = false /\
  (exists device,
     valueOf (getDevice deviceId (stateOf r)) = Some device /\
     InputDevice.id device = deviceId /\
     InputDevice.classes device = classes /\
     InputDevice.ignored device = (classes =? 0)) /\
  (forall other, other <> deviceId ->
     valueOf (getDevice other (stateOf r)) = valueOf (getDevice other s)) /\
  filter isConfigurationChanged (effectsOf r)
  = (if classes =? 0 then [] else [NotifyConfigurationChanged (RawEvent.when rawEvent)]) /\
  process rawEvent (stateOf r)
  = (tt, stateOf r, [LogW (SpuriousDeviceAdded deviceId)]).
Proof.
  intros Htype Habsent Hdisplay deviceId classes r.
  assert (exists (w : World) (device : Device) (warnings : list Effect),
            r = (tt,
                 (InputReader.set_mExportedInputConfiguration
                    (if classes =? 0
                     then InputReader.mExportedInputConfiguration (fst s)
                     else inputConfigurationOf
                            (keyedAdd (InputReader.mDevices (fst s)) deviceId device))
                    (InputReader.set_exportedVirtualKey
                       (if classes =? 0 then InputReader.mExportedVirtualKeyCode (fst s)
                        else fst (exportedVirtualKeyOf
                                    (keyedAdd (InputReader.mDevices (fst s)) deviceId device)))
                       (if classes =? 0 then InputReader.mExportedVirtualScanCode (fst s)
                        else snd (exportedVirtualKeyOf
                                    (keyedAdd (InputReader.mDevices (fst s)) deviceId device)))
                       (InputReader.set_mGlobalMetaState
                          (if classes =? 0 then InputReader.mGlobalMetaState (fst s) else -1)
                          (addedDevice deviceId device (fst s)))), w),
                 warnings ++
                 (if classes =? 0 then []
                  else [ExportedVirtualKeyStored
                          (fst (exportedVirtualKeyOf
                                  (keyedAdd (InputReader.mDevices (fst s)) deviceId device)))
                          (snd (exportedVirtualKeyOf
                                  (keyedAdd (InputReader.mDevices (fst s)) deviceId device)));
                        NotifyConfigurationChanged (RawEvent.when rawEvent)])) /\
            InputDevice.id device = deviceId /\
            InputDevice.classes device = classes /\
            InputDevice.ignored device = (classes =? 0) /\
            forallb isWarning warnings = true) as (w & device & warnings & Hr & Hid & Hcl & Hig & Hwarn).
  { unfold r. rewrite process_added by exact Htype.
    unfold handleDeviceAdded. rewrite bind_run.
    cbn [getDevice valueOf stateOf effectsOf fst snd app]. rewrite Habsent.
    destruct (addDevice_full (RawEvent.when rawEvent) deviceId s)
      as (w & device & warnings & Hrun & Hid & Hcl & Hig & _ & Hwarn).
    specialize (Hwarn Hdisplay).
    exists w, device, warnings. split; [|repeat split; assumption].
    fold deviceId. rewrite Hrun. fold classes in Hig. rewrite Hig.
    destruct (classes =? 0); cbn [negb valueOf stateOf effectsOf fst snd].
    - destruct s as [[devs dw dh dor gm ek es ec] w0]. reflexivity.
    - rewrite onConfigurationChanged_run.
      cbn [valueOf stateOf effectsOf fst snd addedDevice InputReader.mDevices
           InputReader.set_mDevices].
      reflexivity. }
  assert (InputReader.mDevices (fst (stateOf r))
          = keyedAdd (InputReader.mDevices (fst s)) deviceId device) as Hdevices
    by (rewrite Hr; reflexivity).
  split; [|split; [|split; [|split]]].
  - rewrite Hr. cbn [effectsOf snd]. unfold trapped. rewrite existsb_app.
    fold (trapped warnings). rewrite (warnings_untrapped _ Hwarn).
    destruct (classes =? 0); reflexivity.
  - exists device. cbn [getDevice valueOf fst]. rewrite Hdevices, keyedLookup_add_same.
    repeat split; assumption.
  - intros other Hother. cbn [getDevice valueOf fst].
    rewrite Hdevices, keyedLookup_add_other by exact Hother. reflexivity.
  - rewrite Hr. cbn [effectsOf snd].
    rewrite filter_app, warnings_filter by (apply warnings_or_trap; exact Hwarn).
    destruct (classes =? 0); reflexivity.
  - rewrite process_added by exact Htype.
    apply handleDeviceAdded_present with device.
    fold deviceId. rewrite Hdevices. apply keyedLookup_add_same.
Qed.

(** X3: a DEVICE_REMOVED event for a registered device takes it out of
    the registry and leaves the other devices in; an ignored device goes
    without any effect, another one with the exported virtual key stored
    again and the configuration change notified; the same event once more
    is answered by a warning only. *)
Theorem device_removed_is_gone (rawEvent : RawEvent.t) (s : State) (device : Device) :
  registryOk s ->
  RawEvent.type rawEvent = DEVICE_REMOVED ->
  keyedLookup (InputReader.mDevices (fst s)) (RawEvent.deviceId rawEvent) = Some device ->
  let deviceId := RawEvent.deviceId rawEvent in
  let remaining := keyedRemove (InputReader.mDevices (fst s)) deviceId in
  let r := process rawEvent s in
  valueOf (getDevice deviceId (stateOf r)) = None /\
  (forall other, other <> deviceId ->
     valueOf (getDevice other (stateOf r)) = valueOf (getDevice other s)) /\
  effectsOf r
  = (if InputDevice.ignored device then []
     else [ExportedVirtualKeyStored (fst (exportedVirtualKeyOf remaining))
             (snd (exportedVirtualKeyOf remaining));
           NotifyConfigurationChanged (RawEvent.when rawEvent)]) /\
  process rawEvent (stateOf r)
  = (tt, stateOf r, [LogW (SpuriousDeviceRemoved deviceId)]).
Proof.
  intros [Hsorted Hregistered] Htype Hdevice deviceId remaining r.
  assert (InputDevice.id device = deviceId) as Hid
    by (eapply allEntries_lookup with (P := registeredUnderOwnId); eassumption).
  assert (InputReader.mDevices (fst (stateOf r)) = remaining /\
          effectsOf r
          = (if InputDevice.ignored device then []
             else [ExportedVirtualKeyStored (fst (exportedVirtualKeyOf remaining))
                     (snd (exportedVirtualKeyOf remaining));
                   NotifyConfigurationChanged (RawEvent.when rawEvent)])) as [Hdevices Heffects].
  { unfold r. rewrite process_removed by exact Htype.
    unfold handleDeviceRemoved. rewrite bind_run.
    cbn [getDevice valueOf stateOf effectsOf fst snd app]. rewrite Hdevice.
    unfold removeDevice. rewrite bind_run.
    cbn [modifyReader valueOf stateOf effectsOf fst snd app]. rewrite Hid.
    destruct (InputDevice.ignored device); cbn [negb].
    - split; reflexivity.
    - rewrite onConfigurationChanged_run. split; reflexivity. }
  split; [|split; [|split]].
  - cbn [getDevice valueOf fst]. rewrite Hdevices. apply keyedLookup_remove_same.
    exact Hsorted.
  - intros other Hother. cbn [getDevice valueOf fst].
    rewrite Hdevices. apply keyedLookup_remove_other. exact Hother.
  - exact Heffects.
  - rewrite process_removed by exact Htype.
    apply handleDeviceRemoved_absent. fold deviceId. rewrite Hdevices.
    apply keyedLookup_remove_same. exact Hsorted.
Qed.

(** X4: a raw event that is neither DEVICE_ADDED nor DEVICE_REMOVED, from
    a device that is not registered or is ignored, is dropped: the reader
    stays as it is and nothing is given to the dispatcher, the policy or the
    log. *)
Theorem event_of_ignored_device_is_dropped (rawEvent : RawEvent.t) (s : State) :
  RawEvent.type rawEvent <> DEVICE_ADDED ->
  RawEvent.type rawEvent <> DEVICE_REMOVED ->
  valueOf (getNonIgnoredDevice (RawEvent.deviceId rawEvent) s) = None ->
  process rawEvent s = (tt, s, []).
Proof.
  intros Hadded Hremoved Hnone.
  rewrite getNonIgnoredDevice_run in Hnone. cbn [valueOf fst] in Hnone.
  assert (forall (k : option Device -> M unit),
            k None s = (tt, s, []) ->
            bind (getNonIgnoredDevice (RawEvent.deviceId rawEvent)) k s = (tt, s, []))
    as Hdrop.
  { intros k Hk. rewrite bind_run, getNonIgnoredDevice_run.
    cbn [valueOf stateOf effectsOf fst snd app]. rewrite Hnone, Hk. reflexivity. }
  unfold process. cbv zeta.
  destruct (Z.eqb_spec (RawEvent.type rawEvent) DEVICE_ADDED); [contradiction|].
  destruct (Z.eqb_spec (RawEvent.type rawEvent) DEVICE_REMOVED); [contradiction|].
  destruct (_ =? EV_SYN); [apply Hdrop; reflexivity|].
  destruct (_ =? EV_KEY); [apply Hdrop; reflexivity|].
  destruct (_ =? EV_REL); [apply Hdrop; reflexivity|].
  destruct (_ =? EV_ABS); [apply Hdrop; reflexivity|].
  destruct (_ =? EV_SW); [apply Hdrop; reflexivity|reflexivity].
Qed.

(** ** Without a display *)

Lemma effectsAll_weaken {A : Type} (ok ok' : Effect -> bool) (m : M A) :
  (forall e, ok e = true -> ok' e = true) -> effectsAll ok m -> effectsAll ok' m.
Proof.
  intros Himp Hm s. specialize (Hm s). rewrite forallb_forall in *.
  intros e He. apply Himp, Hm, He.
Qed.

Lemma effectsAll_bind_value {A B : Type} (ok : Effect -> bool) (m : M A) (k : A -> M B)
  (a : A) :
  (forall s, valueOf (m s) = a) -> effectsAll ok m -> effectsAll ok (k a) ->
  effectsAll ok (bind m k).
Proof.
  intros Hv Hm Hk s. rewrite effectsOf_bind, forallb_app, Hm, Hv, Hk. reflexivity.
Qed.

Lemma effectsAll_silent {A : Type} (ok : Effect -> bool) (m : M A) :
  (forall s, effectsOf (m s) = []) -> effectsAll ok m.
Proof. intros H s. rewrite H. reflexivity. Qed.

Ltac quiet_step :=
  lazymatch goal with
  | |- effectsAll _ (ret _) => apply effectsAll_ret
  | |- effectsAll _ (bind _ _) => apply effectsAll_bind; [|intros ?; cbv beta]
  | |- effectsAll _ (call _) => apply effectsAll_call
  | |- effectsAll _ (emit _) => apply effectsAll_emit; reflexivity
  | |- effectsAll _ getReader => apply effectsAll_getReader
  | |- effectsAll _ (modifyReader _) => apply effectsAll_modifyReader
  | |- effectsAll _ (modifyDevice _ _) => apply effectsAll_silent; reflexivity
  | |- effectsAll _ (modifyTouchScreen _ _) => apply effectsAll_silent; reflexivity
  | |- effectsAll _ (tell _) => apply effectsAll_silent; reflexivity
  | |- effectsAll _ (deref _) => apply effectsAll_silent; reflexivity
  | |- effectsAll _ (getDevice _) => apply effectsAll_silent; reflexivity
  | |- effectsAll _ (getNonIgnoredDevice _) =>
      apply effectsAll_silent; intros ?; rewrite getNonIgnoredDevice_run; reflexivity
  | |- effectsAll _ (if ?c then _ else _) => destruct c
  | |- effectsAll _ (match ?x with _ => _ end) => destruct x
  | |- effectsAll _ (let _ := _ in _) => cbv zeta
  end.

Ltac quiet_auto := repeat quiet_step.

Section WithoutDisplay.

Hypothesis Hdark : displayUnavailable.

Lemma refreshDisplayProperties_unavailable (s : State) :
  refreshDisplayProperties s
  = (false,
     (InputReader.set_mDisplayOrientation (-1)
        (InputReader.set_displaySize (-1) (-1) (fst s)),
      snd (getDisplayInfo 0 (snd s))), []).
Proof.
  unfold refreshDisplayProperties. rewrite bind_run, call_run.
  cbn [valueOf stateOf effectsOf fst snd app]. rewrite (Hdark (snd s)).
  reflexivity.
Qed.

Lemma refresh_then_nothing (ok : Effect -> bool) (k : bool -> M unit) :
  effectsAll ok (k false) -> effectsAll ok (bind refreshDisplayProperties k).
Proof.
  intros Hk. apply effectsAll_bind_value with false.
  - intros s. rewrite refreshDisplayProperties_unavailable. reflexivity.
  - apply effectsAll_silent. intros s.
    rewrite refreshDisplayProperties_unavailable. reflexivity.
  - exact Hk.
Qed.

Lemma quiet_onConfigurationChanged (when : Z) :
  effectsAll (fun e => negb (isMotionOrKey e)) (onConfigurationChanged when).
Proof. intros s. rewrite onConfigurationChanged_run. reflexivity. Qed.

Lemma quiet_applyStandardInputDispatchPolicyActions (when policyActions policyFlags : Z) :
  effectsAll (fun e => negb (isMotionOrKey e))
    (applyStandardInputDispatchPolicyActions when policyActions policyFlags).
Proof. unfold applyStandardInputDispatchPolicyActions. quiet_auto. Qed.

Lemma quiet_process (rawEvent : RawEvent.t) :
  effectsAll (fun e => negb (isMotionOrKey e)) (process rawEvent).
Proof.
  unfold process. cbv zeta.
  destruct (_ =? DEVICE_ADDED).
  { unfold handleDeviceAdded. quiet_auto. unfold addDevice. quiet_auto;
      try apply quiet_onConfigurationChanged.
    apply effectsAll_weaken with isWarningOrTrap;
      [intros [] H; try discriminate H; reflexivity|apply configureDevice_warnings]. }
  destruct (_ =? DEVICE_REMOVED).
  { unfold handleDeviceRemoved, removeDevice. quiet_auto.
    apply quiet_onConfigurationChanged. }
  destruct (_ =? EV_SYN).
  { unfold handleSync. cbv zeta. quiet_auto;
      first [ unfold onMultiTouchScreenStateChanged
            | unfold onSingleTouchScreenStateChanged
            | unfold onTrackballStateChanged ];
      apply refresh_then_nothing; apply effectsAll_ret. }
  destruct (_ =? EV_KEY).
  { unfold handleKey. cbv zeta. quiet_auto.
    unfold onKey. apply refresh_then_nothing. apply effectsAll_ret. }
  destruct (_ =? EV_REL); [unfold handleRelativeMotion; cbv zeta; quiet_auto|].
  destruct (_ =? EV_ABS); [unfold handleAbsoluteMotion; cbv zeta; quiet_auto|].
  destruct (_ =? EV_SW); [|apply effectsAll_ret].
  unfold handleSwitch, onSwitch. quiet_auto.
  apply quiet_applyStandardInputDispatchPolicyActions.
Qed.

End WithoutDisplay.

(** X5: while the policy has no display to tell of, the reader gives the
    dispatcher no key event and no motion event, whatever raw events it
    handles and whatever state it is in: every frame and every key is
    dropped before it is looked at. *)
Theorem without_display_nothing_is_dispatched (rawEvents : list RawEvent.t) (s : State) :
  displayUnavailable ->
  forallb (fun e => negb (isMotionOrKey e)) (effectsOf (processAll rawEvents s)) = true.
Proof.
  intros Hdark. revert s.
  induction rawEvents as [|e l IH]; intros s; cbn [processAll]; [reflexivity|].
  rewrite effectsOf_bind, forallb_app, IH, (quiet_process Hdark e s). reflexivity.
Qed.

(** * More of the reader: the multi-touch assembly *)

Lemma arraySet_nat {A : Type} (a : list A) (n : nat) (v : A) :
  arraySet a (Z.of_nat n) v = listSet a n v.
Proof.
  unfold arraySet. destruct (Z.ltb_spec (Z.of_nat n) 0) as [H|H]; [lia|].
  rewrite Nat2Z.id. reflexivity.
Qed.

Lemma arrayGet_nat {A : Type} (default : A) (a : list A) (n : nat) :
  arrayGet default a (Z.of_nat n) = nth n a default.
Proof.
  unfold arrayGet. destruct (Z.ltb_spec (Z.of_nat n) 0) as [H|H]; [lia|].
  rewrite Nat2Z.id. reflexivity.
Qed.

Lemma listSet_split {A : Type} (a : list A) (n : nat) (v : A) :
  (n < length a)%nat -> listSet a n v = firstn n a ++ v :: skipn (S n) a.
Proof.
  revert n. induction a as [|x a IH]; intros [|n] Hn; cbn [length] in Hn; try lia.
  - reflexivity.
  - cbn [listSet firstn skipn app]. rewrite IH by lia. reflexivity.
Qed.

Lemma listSet_listSet {A : Type} (a : list A) (n : nat) (v v' : A) :
  listSet (listSet a n v) n v' = listSet a n v'.
Proof.
  revert n. induction a as [|x a IH]; intros [|n]; cbn [listSet]; try reflexivity.
  rewrite IH. reflexivity.
Qed.

Lemma firstn_middle {A : Type} (pre post : list A) (v : A) (n : nat) :
  length pre = n -> firstn (S n) (pre ++ v :: post) = pre ++ [v].
Proof.
  intros <-. induction pre as [|x pre IH]; [reflexivity|].
  cbn [length app]. rewrite firstn_cons, IH. reflexivity.
Qed.

Lemma skipn_middle {A : Type} (pre post : list A) (v : A) (n k : nat) :
  length pre = n -> skipn (S n + k) (pre ++ v :: post) = skipn k post.
Proof.
  intros <-. induction pre as [|x pre IH]; [reflexivity|].
  cbn [length app]. change (S (S (length pre)) + k)%nat with (S (S (length pre) + k)).
  rewrite skipn_cons. exact IH.
Qed.

(** The slot the loop reads at an index. *)
Lemma assemblePointer_notDown (accumulator : MultiTouchScreenState.Accumulator)
  (st : TouchData.t * Z * bool) (i : nat) :
  slotIsDown (arrayGet MultiTouchScreenState.zeroPointer
                (MultiTouchScreenState.pointers accumulator) (Z.of_nat i)) = false ->
  assemblePointer accumulator st (Z.of_nat i) = st.
Proof.
  intros Hdown. destruct st as [[out n] have]. unfold assemblePointer.
  unfold DEBUG_POINTERS. rewrite andb_false_r.
  unfold slotIsDown in Hdown. apply negb_false_iff in Hdown. rewrite Hdown.
  reflexivity.
Qed.

Lemma assemblePointer_down (accumulator : MultiTouchScreenState.Accumulator)
  (out : TouchData.t) (n : nat) (have : bool) (i : nat) :
  let p := arrayGet MultiTouchScreenState.zeroPointer
             (MultiTouchScreenState.pointers accumulator) (Z.of_nat i) in
  slotIsDown p = true ->
  (n < length (TouchData.pointers out))%nat ->
  exists out' v,
    assemblePointer accumulator (out, Z.of_nat n, have) (Z.of_nat i)
    = (out', Z.of_nat (S n), have && slotHasId p) /\
    TouchData.pointers out'
    = firstn n (TouchData.pointers out) ++ v :: skipn (S n) (TouchData.pointers out) /\
    geometryOf v = slotGeometry p /\
    (have && slotHasId p = true -> PointerData.id v = slotId p) /\
    TouchData.pointerCount out' = TouchData.pointerCount out /\
    TouchData.idBits out'
    = (if have && slotHasId p then markBit (TouchData.idBits out) (slotId p)
       else TouchData.idBits out).
Proof.
  intros p Hdown Hn. unfold assemblePointer. fold p.
  unfold DEBUG_POINTERS. rewrite andb_false_r.
  unfold slotIsDown in Hdown. apply negb_true_iff in Hdown. rewrite Hdown.
  cbv zeta. rewrite !arraySet_nat.
  cbn [TouchData.set_pointers TouchData.pointers TouchData.idBits TouchData.idToIndex
       TouchData.pointerCount TouchData.set_idBits TouchData.set_idToIndex].
  rewrite listSet_listSet.
  unfold slotHasId, slotId.
  replace (Z.of_nat n + 1) with (Z.of_nat (S n)) by lia.
  destruct have; cbn [andb].
  - destruct (anySet (MultiTouchScreenState.fields p) _); cbn [andb].
    + destruct (toUint32 (MultiTouchScreenState.absMTTrackingId p) >? MAX_POINTER_ID);
        cbn [negb].
      * eexists. eexists. split; [reflexivity|].
        cbn [TouchData.pointers TouchData.pointerCount TouchData.idBits].
        rewrite listSet_split by exact Hn.
        split; [reflexivity|]. split; [reflexivity|].
        split; [discriminate|]. split; reflexivity.
      * eexists. eexists. split; [reflexivity|].
        cbn [TouchData.pointers TouchData.pointerCount TouchData.idBits].
        rewrite listSet_split by exact Hn.
        split; [reflexivity|]. split; [reflexivity|].
        split; [reflexivity|]. split; reflexivity.
    + eexists. eexists. split; [reflexivity|].
      cbn [TouchData.pointers TouchData.pointerCount TouchData.idBits].
      rewrite listSet_split by exact Hn.
      split; [reflexivity|]. split; [reflexivity|].
      split; [discriminate|]. split; reflexivity.
  - eexists. eexists. split; [reflexivity|].
    cbn [TouchData.pointers TouchData.pointerCount TouchData.idBits].
    rewrite listSet_split by exact Hn.
    split; [reflexivity|]. split; [reflexivity|].
    split; [discriminate|]. split; reflexivity.
Qed.

(** The loop of the assembly over any list of indices: the slots that are
    down are written one after the other from [n] on. *)
Lemma assemble_loop (accumulator : MultiTouchScreenState.Accumulator) (idxs : list nat) :
  forall (out : TouchData.t) (n : nat) (have : bool),
    let rd := fun i => arrayGet MultiTouchScreenState.zeroPointer
                         (MultiTouchScreenState.pointers accumulator) (Z.of_nat i) in
    let down := filter slotIsDown (map rd idxs) in
    (n + length down <= length (TouchData.pointers out))%nat ->
    exists out' written,
      fold_left (assemblePointer accumulator) (map Z.of_nat idxs) (out, Z.of_nat n, have)
      = (out', Z.of_nat (n + length down), have && forallb slotHasId down) /\
      TouchData.pointers out'
      = firstn n (TouchData.pointers out) ++ written
        ++ skipn (n + length down) (TouchData.pointers out) /\
      map geometryOf written = map slotGeometry down /\
      (have && forallb slotHasId down = true ->
       map PointerData.id written = map slotId down /\
       TouchData.idBits out' = fold_left markBit (map slotId down) (TouchData.idBits out)) /\
      TouchData.pointerCount out' = TouchData.pointerCount out.
Proof.
  induction idxs as [|i idxs IH]; intros out n have rd down Hlen.
  - exists out, []. subst down. cbn [map filter length fold_left forallb app] in *.
    rewrite Nat.add_0_r, andb_true_r, firstn_skipn.
    repeat split; reflexivity.
  - subst down rd. cbv zeta in IH. cbn [map filter] in *.
    set (p := arrayGet MultiTouchScreenState.zeroPointer
                (MultiTouchScreenState.pointers accumulator) (Z.of_nat i)) in *.
    destruct (slotIsDown p) eqn:Hdown.
    + cbn [length forallb map fold_left] in *.
      assert (n < length (TouchData.pointers out))%nat as Hn by lia.
      destruct (assemblePointer_down accumulator out have i Hdown Hn)
        as (out1 & v & Hstep & Hptrs & Hgeo & Hid & Hcount & Hbits).
      fold p in Hstep, Hgeo, Hid, Hbits.
      rewrite Hstep.
      assert (length (firstn n (TouchData.pointers out)) = n) as Hpre
        by (apply firstn_length_le; lia).
      assert (length (TouchData.pointers out1) = length (TouchData.pointers out)) as Hsame.
      { rewrite Hptrs. rewrite length_app. cbn [length]. rewrite Hpre, length_skipn. lia. }
      destruct (IH out1 (S n) (have && slotHasId p)) as
        (out' & written & Hrun & Hptrs' & Hgeo' & Hids' & Hcount').
      { rewrite Hsame. lia. }
      exists out', (v :: written).
      match goal with
      | |- context [(n + S ?k)%nat] => replace (n + S k)%nat with (S n + k)%nat by lia
      end.
      rewrite andb_assoc.
      split; [exact Hrun|].
      split.
      { rewrite Hptrs'. rewrite Hptrs.
        rewrite (@firstn_middle _ _ _ _ _ Hpre), (@skipn_middle _ _ _ _ _ _ Hpre).
        rewrite skipn_skipn. rewrite <- app_assoc. cbn [app].
        do 3 f_equal. f_equal. lia. }
      split; [cbn [map]; rewrite Hgeo, Hgeo'; reflexivity|].
      split; [|congruence].
      intros Hall. destruct (Hids' Hall) as [Hw Hb].
      assert (have && slotHasId p = true) as Hhead
        by (apply andb_true_iff in Hall; tauto).
      split.
      * cbn [map]. rewrite (Hid Hhead), Hw. reflexivity.
      * rewrite Hb, Hbits, Hhead. reflexivity.
    + cbn [fold_left]. rewrite assemblePointer_notDown by exact Hdown.
      apply IH. exact Hlen.
Qed.

(** What the whole assembly makes of an accumulator. *)
Lemma assembleMultiTouch_frame
  (accumulator : MultiTouchScreenState.Accumulator) (out : TouchData.t) :
  (length (downSlots accumulator) <= length (TouchData.pointers out))%nat ->
  let frame := fst (assembleMultiTouch accumulator out) in
  let n := length (downSlots accumulator) in
  TouchData.pointerCount frame = Z.of_nat n /\
  map geometryOf (firstn n (TouchData.pointers frame))
  = map slotGeometry (downSlots accumulator) /\
  skipn n (TouchData.pointers frame) = skipn n (TouchData.pointers out) /\
  snd (assembleMultiTouch accumulator out) = forallb slotHasId (downSlots accumulator) /\
  (forallb slotHasId (downSlots accumulator) = true ->
   map PointerData.id (firstn n (TouchData.pointers frame))
   = map slotId (downSlots accumulator) /\
   TouchData.idBits frame = fold_left markBit (map slotId (downSlots accumulator)) 0).
Proof.
  intros Hlen frame n.
  destruct (assemble_loop accumulator
              (seq 0 (Z.to_nat (MultiTouchScreenState.pointerCount accumulator)))
              (TouchData.clear out) 0 true)
    as (out' & written & Hrun & Hptrs & Hgeo & Hids & _).
  { exact Hlen. }
  change (filter slotIsDown (map _ (seq 0 _))) with (downSlots accumulator) in *.
  cbn [Nat.add andb firstn app Z.of_nat] in Hrun, Hptrs, Hids.
  change (TouchData.pointers (TouchData.clear out)) with (TouchData.pointers out) in Hptrs.
  change (TouchData.idBits (TouchData.clear out)) with 0 in Hids.
  assert (length written = n) as Hw.
  { unfold n. rewrite <- (length_map geometryOf), Hgeo, length_map. reflexivity. }
  subst frame. unfold assembleMultiTouch. rewrite Hrun.
  cbn [fst snd TouchData.set_pointerCount TouchData.pointerCount TouchData.pointers
       TouchData.idBits].
  fold n in Hptrs. rewrite Hptrs.
  assert (firstn n (written ++ skipn n (TouchData.pointers out)) = written) as Hfirst.
  { rewrite <- Hw at 1. rewrite firstn_app, Nat.sub_diag, firstn_all. cbn [firstn].
    apply app_nil_r. }
  assert (skipn n (written ++ skipn n (TouchData.pointers out))
          = skipn n (TouchData.pointers out)) as Hskip.
  { rewrite <- Hw at 1. rewrite skipn_app, Nat.sub_diag, skipn_all. reflexivity. }
  rewrite Hfirst, Hskip.
  split; [reflexivity|]. split; [exact Hgeo|].
  split; [reflexivity|]. split; [reflexivity|].
  exact Hids.
Qed.

Lemma slotHasId_range (p : MultiTouchScreenState.Pointer) :
  slotHasId p = true -> 0 <= slotId p <= 31.
Proof.
  unfold slotHasId, slotId, toUint32, MAX_POINTER_ID. intros H.
  apply andb_true_iff in H. destruct H as [_ H]. apply negb_true_iff in H.
  pose proof (Z.mod_pos_bound (MultiTouchScreenState.absMTTrackingId p) (2 ^ 32)).
  lia.
Qed.

Lemma markAll_isUint32 (ids : list Z) :
  forall b, isUint32 b -> Forall (fun i => 0 <= i <= 31) ids ->
            isUint32 (fold_left markBit ids b).
Proof.
  induction ids as [|i ids IH]; intros b Hb Hids; [exact Hb|].
  inversion Hids; subst. cbn [fold_left]. apply IH; [|assumption].
  apply markBit_isUint32; assumption.
Qed.

Lemma hasBit_markAll (ids : list Z) (i : Z) :
  0 <= i <= 31 ->
  forall b, Forall (fun i => 0 <= i <= 31) ids ->
            hasBit (fold_left markBit ids b) i = hasBit b i || existsb (Z.eqb i) ids.
Proof.
  intros Hi. induction ids as [|n ids IH]; intros b Hids.
  - cbn. rewrite orb_false_r. reflexivity.
  - inversion Hids; subst. cbn [fold_left existsb].
    rewrite IH by assumption. rewrite hasBit_markBit by assumption.
    rewrite orb_assoc. reflexivity.
Qed.

(** X7: when the multi-touch assembly reports pointer ids, the id set of the
    frame is a 32-bit set that holds exactly the tracking ids of the slots
    that are down, and it is empty exactly when the frame has no pointer. *)
Theorem assembleMultiTouch_id_set
  (accumulator : MultiTouchScreenState.Accumulator) (out : TouchData.t) :
  (length (downSlots accumulator) <= length (TouchData.pointers out))%nat ->
  snd (assembleMultiTouch accumulator out) = true ->
  let frame := fst (assembleMultiTouch accumulator out) in
  isUint32 (TouchData.idBits frame) /\
  (forall i, 0 <= i <= 31 ->
     hasBit (TouchData.idBits frame) i
     = existsb (Z.eqb i) (map slotId (downSlots accumulator))) /\
  frameCountsIds frame.
Proof.
  intros Hlen Hhave frame.
  destruct (assembleMultiTouch_frame accumulator out Hlen)
    as (Hcount & _ & _ & Hsnd & Hids).
  rewrite Hsnd in Hhave. destruct (Hids Hhave) as [_ Hbits]. fold frame in Hcount, Hbits.
  assert (Forall (fun i => 0 <= i <= 31) (map slotId (downSlots accumulator))) as Hrange.
  { apply Forall_forall. intros i Hin. apply in_map_iff in Hin.
    destruct Hin as (p & <- & Hp). apply slotHasId_range.
    rewrite forallb_forall in Hhave. apply Hhave. exact Hp. }
  assert (forall i, 0 <= i <= 31 ->
            hasBit (TouchData.idBits frame) i
            = existsb (Z.eqb i) (map slotId (downSlots accumulator))) as Hmem.
  { intros i Hi. rewrite Hbits, hasBit_markAll by assumption. reflexivity. }
  split; [|split].
  - rewrite Hbits. apply markAll_isUint32; [|exact Hrange]. unfold isUint32. lia.
  - exact Hmem.
  - unfold frameCountsIds. rewrite Hcount.
    destruct (downSlots accumulator) as [|p slots] eqn:Hslots.
    + rewrite Hbits. cbn. tauto.
    + split; [cbn [length]; lia|]. intros Hzero. exfalso.
      inversion Hrange; subst.
      specialize (Hmem (slotId p) ltac:(assumption)).
      rewrite Hzero in Hmem. cbn [map existsb] in Hmem. rewrite Z.eqb_refl in Hmem.
      cbn in Hmem. discriminate.
Qed.

(** X6: the multi-touch assembly gives the frame one pointer per counted
    slot of the accumulator that is down (touch major above 0), in the order
    of the slots, with the slot's position, touch major as pressure and width
    major as size; entries of the pointer array after them stay as they
    were. It reports pointer ids exactly when every such slot has a tracking
    id of at most MAX_POINTER_ID, and then the pointers carry these ids and
    the id set is the set of them. *)
Theorem assembleMultiTouch_copies_down_slots
  (accumulator : MultiTouchScreenState.Accumulator) (out : TouchData.t) :
  (length (downSlots accumulator) <= length (TouchData.pointers out))%nat ->
  let frame := fst (assembleMultiTouch accumulator out) in
  let n := length (downSlots accumulator) in
  TouchData.pointerCount frame = Z.of_nat n /\
  map geometryOf (firstn n (TouchData.pointers frame))
  = map slotGeometry (downSlots accumulator) /\
  skipn n (TouchData.pointers frame) = skipn n (TouchData.pointers out) /\
  snd (assembleMultiTouch accumulator out) = forallb slotHasId (downSlots accumulator) /\
  (forallb slotHasId (downSlots accumulator) = true ->
   map PointerData.id (firstn n (TouchData.pointers frame))
   = map slotId (downSlots accumulator) /\
   TouchData.idBits frame = fold_left markBit (map slotId (downSlots accumulator)) 0).
Proof. exact (assembleMultiTouch_frame accumulator out). Qed.

(** * What the handlers leave alone *)

(** The handlers but [onKey] write touch, trackball and accumulator state of
    a device; the reader itself is written at the display properties, the
    cache of the global meta state and the exported state.  A relation kept
    by these writes is kept by every raw event. *)

Section Footprint.

Variable R : State -> State -> Prop.
Hypothesis F_refl : forall s, R s s.
Hypothesis F_trans : forall s1 s2 s3, R s1 s2 -> R s2 s3 -> R s1 s3.
Hypothesis F_world : forall r (w w' : World), R (r, w) (r, w').
Hypothesis F_display : forall f r (w : World), displayFrame f -> R (r, w) (f r, w).
Hypothesis F_touch : forall deviceId f s, keepsKeyboard f -> R s (updateDevice deviceId f s).
Hypothesis F_reset : preserves R resetGlobalMetaState.
Hypothesis F_global : preserves R globalMetaState.
Hypothesis F_exported : preserves R updateExportedVirtualKeyState.
Hypothesis F_meta : forall deviceId newMetaState,
  preserves R (modifyDevice deviceId (setKeyboardMetaState newMetaState) ;;
               resetGlobalMetaState).
Hypothesis F_downTime : forall deviceId when,
  preserves R (modifyDevice deviceId (setKeyboardDownTime when)).
Hypothesis F_added : forall rawEvent, preserves R (handleDeviceAdded rawEvent).
Hypothesis F_removed : forall rawEvent, preserves R (handleDeviceRemoved rawEvent).

Lemma fp_ret {A : Type} (a : A) : preserves R (ret a).
Proof. intros s. apply F_refl. Qed.

Lemma fp_bind {A B : Type} (m : M A) (k : A -> M B) :
  preserves R m -> (forall a, preserves R (k a)) -> preserves R (bind m k).
Proof.
  intros Hm Hk s. rewrite stateOf_bind. eapply F_trans; [apply Hm|apply Hk].
Qed.

Lemma fp_call {A : Type} (f : World -> A * World) : preserves R (call f).
Proof. intros [r w]. rewrite call_run. apply F_world. Qed.

Lemma fp_tell (f : World -> World) : preserves R (tell f).
Proof. intros [r w]. apply F_world. Qed.

Lemma fp_silent {A : Type} (m : M A) : (forall s, stateOf (m s) = s) -> preserves R m.
Proof. intros H s. rewrite H. apply F_refl. Qed.

Lemma fp_modifyReader (f : Reader -> Reader) :
  displayFrame f -> preserves R (modifyReader f).
Proof. intros Hf [r w]. apply F_display. assumption. Qed.

Lemma fp_modifyDevice (deviceId : Z) (f : Device -> Device) :
  keepsKeyboard f -> preserves R (modifyDevice deviceId f).
Proof. intros Hf s. apply (F_touch deviceId s Hf). Qed.

Lemma fp_forEach {A : Type} (l : list A) (body : A -> M unit) :
  (forall a, preserves R (body a)) -> preserves R (forEach l body).
Proof.
  intros Hbody. induction l as [|a l IH]; cbn [forEach].
  - apply fp_ret.
  - apply fp_bind; [apply Hbody|intros _; apply IH].
Qed.

Ltac fp_leaf := solve [ intros ?; repeat split; reflexivity ].

Ltac fp_step :=
  lazymatch goal with
  | |- preserves _ (ret _) => apply fp_ret
  | |- preserves _ (bind _ _) => apply fp_bind; [|intros ?; cbv beta]
  | |- preserves _ (call _) => apply fp_call
  | |- preserves _ (tell _) => apply fp_tell
  | |- preserves _ (emit _) => apply fp_silent; reflexivity
  | |- preserves _ getReader => apply fp_silent; reflexivity
  | |- preserves _ (deref _) => apply fp_silent; reflexivity
  | |- preserves _ (getDevice _) => apply fp_silent; reflexivity
  | |- preserves _ (getNonIgnoredDevice _) => apply fp_silent; reflexivity
  | |- preserves _ globalMetaState => apply F_global
  | |- preserves _ resetGlobalMetaState => apply F_reset
  | |- preserves _ updateExportedVirtualKeyState => apply F_exported
  | |- preserves _ (modifyReader _) => apply fp_modifyReader; fp_leaf
  | |- preserves _ (modifyDevice _ _) => apply fp_modifyDevice; fp_leaf
  | |- preserves _ (modifyTouchScreen _ _) =>
      unfold modifyTouchScreen; apply fp_modifyDevice; fp_leaf
  | |- preserves _ (setVirtualKeyStatus _ _) =>
      unfold setVirtualKeyStatus, modifyTouchScreen; apply fp_modifyDevice; fp_leaf
  | |- preserves _ (forEach _ _) => apply fp_forEach; intros ?
  | |- preserves _ (if ?c then _ else _) => destruct c
  | |- preserves _ (match ?x with _ => _ end) => destruct x
  | |- preserves _ (let _ := _ in _) => cbv zeta
  end.

Ltac fp_auto := repeat fp_step.

Lemma fp_applyStandardInputDispatchPolicyActions (when policyActions policyFlags : Z) :
  preserves R (applyStandardInputDispatchPolicyActions when policyActions policyFlags).
Proof. unfold applyStandardInputDispatchPolicyActions. fp_auto. Qed.

Lemma fp_reconfigureDevice (deviceId : Z) : preserves R (reconfigureDevice deviceId).
Proof.
  intros [r w]. destruct (reconfigureDevice_run deviceId (r, w)) as (w' & pre & vks & eff & Hrun & _).
  rewrite Hrun. cbn [stateOf fst snd].
  apply F_trans with (r, w'); [apply F_world|].
  apply (F_touch deviceId (r, w')). intros d. repeat split; reflexivity.
Qed.

Lemma fp_refreshDisplayProperties : preserves R refreshDisplayProperties.
Proof.
  unfold refreshDisplayProperties.
  apply fp_bind; [apply fp_call|intros info].
  destruct info as [[[newWidth newHeight] newOrientation]|].
  - apply fp_bind; [fp_auto|intros r].
    apply fp_bind.
    + destruct (_ || _); [|apply fp_ret].
      apply fp_bind; [fp_auto|intros _].
      apply fp_forEach. apply fp_reconfigureDevice.
    + intros _. fp_auto.
  - unfold resetDisplayProperties. fp_auto.
Qed.

Lemma fp_dispatchTouch (when deviceId policyFlags : Z) (touch : TouchData.t)
  (idBits action : Z) :
  preserves R (dispatchTouch when deviceId policyFlags touch idBits action).
Proof. unfold dispatchTouch. fp_auto. Qed.

Lemma fp_dispatchPointersUp (turns : nat) (when deviceId policyFlags : Z) :
  forall up active,
  preserves R (dispatchPointersUp turns when deviceId policyFlags up active).
Proof.
  induction turns as [|turns IH]; intros up active.
  - apply fp_ret.
  - rewrite dispatchPointersUp_S. destruct (negb (isEmpty up)); [|apply fp_ret].
    apply fp_bind; [fp_auto|intros device].
    apply fp_bind; [apply fp_dispatchTouch|intros _]. apply IH.
Qed.

Lemma fp_dispatchPointersDown (turns : nat) (when deviceId policyFlags : Z) :
  forall down active,
  preserves R (dispatchPointersDown turns when deviceId policyFlags down active).
Proof.
  induction turns as [|turns IH]; intros down active.
  - apply fp_ret.
  - rewrite dispatchPointersDown_S. destruct (negb (isEmpty down)); [|apply fp_ret].
    apply fp_bind; [fp_auto|intros action].
    apply fp_bind; [fp_auto|intros device].
    apply fp_bind; [apply fp_dispatchTouch|intros _]. apply IH.
Qed.

Lemma fp_dispatchTouches (when deviceId policyFlags : Z) :
  preserves R (dispatchTouches when deviceId policyFlags).
Proof.
  unfold dispatchTouches.
  apply fp_bind; [fp_auto|intros device]. cbv zeta.
  destruct (_ && _); [apply fp_ret|].
  destruct (_ =? _); [apply fp_dispatchTouch|].
  apply fp_bind; [apply fp_dispatchPointersUp|intros active].
  apply fp_bind; [apply fp_dispatchPointersDown|intros _]. apply fp_ret.
Qed.

Lemma fp_applyFilter (deviceId : Z)
  (filter : TouchScreenState.t FilterState -> bool * TouchData.t * FilterState) :
  preserves R (applyFilter deviceId filter).
Proof.
  unfold applyFilter. apply fp_bind; [fp_auto|intros device].
  destruct (filter (InputDevice.touchScreen device)) as [[changed touch] history].
  fp_auto.
Qed.

Lemma fp_applyHook (deviceId : Z)
  (hook : TouchScreenState.t FilterState -> TouchData.t * FilterState) :
  preserves R (applyHook deviceId hook).
Proof.
  unfold applyHook. apply fp_bind; [fp_auto|intros device].
  destruct (hook (InputDevice.touchScreen device)) as [touch history].
  fp_auto.
Qed.

Lemma fp_dispatchVirtualKey (when deviceId policyFlags keyEventAction keyEventFlags : Z) :
  preserves R (dispatchVirtualKey when deviceId policyFlags keyEventAction keyEventFlags).
Proof.
  unfold dispatchVirtualKey.
  apply fp_bind; [apply F_exported|intros _].
  apply fp_bind; [fp_auto|intros device]. cbv zeta.
  apply fp_bind; [apply F_global|intros metaState].
  apply fp_bind; [fp_auto|intros _].
  apply fp_bind; [apply fp_call|intros policyActions].
  apply fp_bind;
    [apply fp_applyStandardInputDispatchPolicyActions|intros [dispatch flags]].
  fp_auto.
Qed.

Lemma fp_consumeVirtualKeyTouches (when deviceId policyFlags : Z) :
  preserves R (consumeVirtualKeyTouches when deviceId policyFlags).
Proof.
  unfold consumeVirtualKeyTouches.
  apply fp_bind; [fp_auto|intros device]. cbv zeta.
  destruct (CurrentVirtualKeyState.status _).
  - destruct (_ && _); [|apply fp_ret].
    destruct (TouchScreenState.findVirtualKeyHit _); [|apply fp_ret].
    apply fp_bind; [fp_auto|intros _].
    apply fp_bind; [apply fp_dispatchVirtualKey|intros _]. apply fp_ret.
  - destruct (_ =? 0).
    + apply fp_bind; [fp_auto|intros _].
      apply fp_bind; [apply fp_dispatchVirtualKey|intros _]. apply fp_ret.
    + destruct (if _ =? 1 then _ else _); [apply fp_ret|].
      apply fp_bind; [fp_auto|intros _].
      apply fp_bind; [apply fp_dispatchVirtualKey|intros _]. apply fp_ret.
  - apply fp_bind; [fp_auto|intros _]. apply fp_ret.
  - destruct (_ && _); [|apply fp_ret].
    destruct (TouchScreenState.findVirtualKeyHit _); [|apply fp_ret].
    apply fp_bind; [fp_auto|intros _].
    apply fp_bind; [apply fp_dispatchVirtualKey|intros _]. apply fp_ret.
Qed.

Lemma fp_onTouchScreenChanged (when deviceId : Z) (havePointerIds : bool) :
  preserves R (onTouchScreenChanged when deviceId havePointerIds).
Proof.
  unfold onTouchScreenChanged.
  apply fp_bind; [apply fp_call|intros policyActions].
  apply fp_bind;
    [apply fp_applyStandardInputDispatchPolicyActions|intros [dispatch flags]].
  destruct (negb dispatch); [fp_auto|].
  apply fp_bind; [fp_auto|intros device]. cbv zeta.
  apply fp_bind.
  { destruct (TouchScreenState.useBadTouchFilter _); [|apply fp_ret].
    apply fp_bind; [apply fp_applyFilter|intros c]. apply fp_ret. }
  intros have1. apply fp_bind.
  { destruct (TouchScreenState.useJumpyTouchFilter _); [|apply fp_ret].
    apply fp_bind; [apply fp_applyFilter|intros c]. apply fp_ret. }
  intros have2. apply fp_bind.
  { destruct (negb have2); [apply fp_applyHook|apply fp_ret]. }
  intros _. apply fp_bind.
  { destruct (TouchScreenState.useAveragingTouchFilter _); [|apply fp_ret].
    apply fp_bind; [fp_auto|intros d].
    apply fp_bind; [apply fp_applyHook|intros _]. apply fp_ret. }
  intros savedTouch.
  apply fp_bind; [apply fp_consumeVirtualKeyTouches|intros consumed].
  apply fp_bind.
  { destruct (negb consumed); [apply fp_dispatchTouches|apply fp_ret]. }
  intros _. fp_auto.
Qed.

Lemma fp_onMultiTouchScreenStateChanged (when deviceId : Z) :
  preserves R (onMultiTouchScreenStateChanged when deviceId).
Proof.
  unfold onMultiTouchScreenStateChanged.
  apply fp_bind; [apply fp_refreshDisplayProperties|intros refreshed].
  destruct (negb refreshed); [apply fp_ret|].
  apply fp_bind; [fp_auto|intros device].
  destruct (assembleMultiTouch _ _) as [out have].
  apply fp_bind; [fp_auto|intros _]. apply fp_onTouchScreenChanged.
Qed.

Lemma fp_onSingleTouchScreenStateChanged (when deviceId : Z) :
  preserves R (onSingleTouchScreenStateChanged when deviceId).
Proof.
  unfold onSingleTouchScreenStateChanged.
  apply fp_bind; [apply fp_refreshDisplayProperties|intros refreshed].
  destruct (negb refreshed); [apply fp_ret|].
  apply fp_bind; [fp_auto|intros _].
  apply fp_bind; [fp_auto|intros _]. apply fp_onTouchScreenChanged.
Qed.

Lemma fp_onTrackballStateChanged (when deviceId : Z) :
  preserves R (onTrackballStateChanged when deviceId).
Proof.
  unfold onTrackballStateChanged.
  apply fp_bind; [apply fp_refreshDisplayProperties|intros refreshed].
  destruct (negb refreshed); [apply fp_ret|].
  apply fp_bind; [fp_auto|intros device]. cbv zeta.
  apply fp_bind; [fp_auto|intros down].
  apply fp_bind; [apply fp_call|intros policyActions].
  apply fp_bind;
    [apply fp_applyStandardInputDispatchPolicyActions|intros [dispatch flags]].
  destruct (negb dispatch); [apply fp_ret|]. cbv zeta.
  apply fp_bind; [fp_auto|intros r]. cbv zeta.
  destruct (if _ =? ROTATION_90 then _ else _) as [x y].
  apply fp_bind; [apply F_global|intros g]. fp_auto.
Qed.

Lemma fp_onKey (when deviceId : Z) (down : bool) (keyCode scanCode policyFlags : Z) :
  preserves R (onKey when deviceId down keyCode scanCode policyFlags).
Proof.
  unfold onKey.
  apply fp_bind; [apply fp_refreshDisplayProperties|intros refreshed].
  destruct (negb refreshed); [apply fp_ret|].
  apply fp_bind; [fp_auto|intros device]. cbv zeta.
  apply fp_bind.
  { destruct (negb _); [|apply fp_ret]. apply F_meta. }
  intros _. apply fp_bind; [fp_auto|intros r]. cbv zeta.
  apply fp_bind.
  { destruct down; [apply F_downTime|apply fp_ret]. }
  intros _. apply fp_bind; [apply fp_call|intros policyActions].
  apply fp_bind;
    [apply fp_applyStandardInputDispatchPolicyActions|intros [dispatch flags]].
  destruct (negb dispatch); [apply fp_ret|].
  apply fp_bind.
  { destruct down; [|apply fp_ret].
    apply fp_bind; [apply F_downTime|intros _]. apply fp_ret. }
  intros action. fp_auto.
Qed.

Lemma fp_onSwitch (when deviceId switchCode switchValue : Z) :
  preserves R (onSwitch when deviceId switchCode switchValue).
Proof.
  unfold onSwitch. apply fp_bind; [apply fp_call|intros policyActions].
  apply fp_bind; [apply fp_applyStandardInputDispatchPolicyActions|intros _].
  apply fp_ret.
Qed.

Lemma fp_handleSync (rawEvent : RawEvent.t) : preserves R (handleSync rawEvent).
Proof.
  unfold handleSync. cbv zeta.
  apply fp_bind; [fp_auto|intros found].
  destruct found as [d|]; [|apply fp_ret].
  destruct (RawEvent.scanCode rawEvent =? SYN_MT_REPORT).
  { apply fp_bind; [fp_auto|intros device].
    destruct (InputDevice.isMultiTouchScreen device); [|apply fp_ret]. cbv zeta.
    apply fp_bind; [|intros pointerIndex; fp_auto].
    destruct (negb _); [|apply fp_ret].
    destruct (_ =? MAX_POINTERS); fp_auto. }
  destruct (RawEvent.scanCode rawEvent =? SYN_REPORT); [|apply fp_ret].
  apply fp_bind; [fp_auto|intros device].
  apply fp_bind.
  { destruct (InputDevice.isMultiTouchScreen device).
    - destruct (MultiTouchScreenState.isDirty _); [|apply fp_ret].
      apply fp_bind; [apply fp_onMultiTouchScreenStateChanged|intros _]. fp_auto.
    - destruct (InputDevice.isSingleTouchScreen device); [|apply fp_ret].
      destruct (SingleTouchScreenState.isDirty _); [|apply fp_ret].
      apply fp_bind; [apply fp_onSingleTouchScreenStateChanged|intros _]. fp_auto. }
  intros _. apply fp_bind; [fp_auto|intros device'].
  destruct (TrackballState.isDirty _); [|apply fp_ret].
  apply fp_bind; [apply fp_onTrackballStateChanged|intros _]. fp_auto.
Qed.

Lemma fp_handleKey (rawEvent : RawEvent.t) : preserves R (handleKey rawEvent).
Proof.
  unfold handleKey. cbv zeta.
  apply fp_bind; [fp_auto|intros found].
  destruct found as [d|]; [|apply fp_ret].
  destruct (_ && _); [fp_auto|].
  destruct (_ && _); [fp_auto|].
  destruct (InputDevice.isKeyboard d); [apply fp_onKey|apply fp_ret].
Qed.

Lemma fp_handleRelativeMotion (rawEvent : RawEvent.t) :
  preserves R (handleRelativeMotion rawEvent).
Proof.
  unfold handleRelativeMotion. cbv zeta.
  apply fp_bind; [fp_auto|intros found].
  destruct found as [d|]; [|apply fp_ret].
  destruct (InputDevice.isTrackball d); [|apply fp_ret].
  destruct (_ =? REL_X); [fp_auto|].
  destruct (_ =? REL_Y); [fp_auto|].
  apply fp_ret.
Qed.

Lemma fp_handleAbsoluteMotion (rawEvent : RawEvent.t) :
  preserves R (handleAbsoluteMotion rawEvent).
Proof.
  unfold handleAbsoluteMotion. cbv zeta.
  apply fp_bind; [fp_auto|intros found].
  destruct found as [d|]; [|apply fp_ret].
  destruct (InputDevice.isMultiTouchScreen d); [fp_auto|].
  destruct (InputDevice.isSingleTouchScreen d); [fp_auto|].
  apply fp_ret.
Qed.

Lemma fp_handleSwitch (rawEvent : RawEvent.t) : preserves R (handleSwitch rawEvent).
Proof.
  unfold handleSwitch.
  apply fp_bind; [fp_auto|intros found].
  destruct found as [d|]; [apply fp_onSwitch|apply fp_ret].
Qed.

Lemma fp_process (rawEvent : RawEvent.t) : preserves R (process rawEvent).
Proof.
  unfold process. cbv zeta.
  destruct (_ =? DEVICE_ADDED); [apply F_added|].
  destruct (_ =? DEVICE_REMOVED); [apply F_removed|].
  destruct (_ =? EV_SYN); [apply fp_handleSync|].
  destruct (_ =? EV_KEY); [apply fp_handleKey|].
  destruct (_ =? EV_REL); [apply fp_handleRelativeMotion|].
  destruct (_ =? EV_ABS); [apply fp_handleAbsoluteMotion|].
  destruct (_ =? EV_SW); [apply fp_handleSwitch|apply fp_ret].
Qed.

(** The raw events that are not a device coming or going, and those among
    them that are not of a key. *)
Lemma fp_process_other (rawEvent : RawEvent.t) :
  RawEvent.type rawEvent <> DEVICE_ADDED -> RawEvent.type rawEvent <> DEVICE_REMOVED ->
  preserves R (process rawEvent).
Proof.
  intros Hadd Hrem. unfold process. cbv zeta.
  destruct (Z.eqb_spec (RawEvent.type rawEvent) DEVICE_ADDED); [contradiction|].
  destruct (Z.eqb_spec (RawEvent.type rawEvent) DEVICE_REMOVED); [contradiction|].
  destruct (_ =? EV_SYN); [apply fp_handleSync|].
  destruct (_ =? EV_KEY); [apply fp_handleKey|].
  destruct (_ =? EV_REL); [apply fp_handleRelativeMotion|].
  destruct (_ =? EV_ABS); [apply fp_handleAbsoluteMotion|].
  destruct (_ =? EV_SW); [apply fp_handleSwitch|apply fp_ret].
Qed.

Lemma fp_process_other_than_key (rawEvent : RawEvent.t) :
  RawEvent.type rawEvent <> DEVICE_ADDED -> RawEvent.type rawEvent <> DEVICE_REMOVED ->
  RawEvent.type rawEvent <> EV_KEY ->
  preserves R (process rawEvent).
Proof.
  intros Hadd Hrem Hkey. unfold process. cbv zeta.
  destruct (Z.eqb_spec (RawEvent.type rawEvent) DEVICE_ADDED); [contradiction|].
  destruct (Z.eqb_spec (RawEvent.type rawEvent) DEVICE_REMOVED); [contradiction|].
  destruct (_ =? EV_SYN); [apply fp_handleSync|].
  destruct (Z.eqb_spec (RawEvent.type rawEvent) EV_KEY); [contradiction|].
  destruct (_ =? EV_REL); [apply fp_handleRelativeMotion|].
  destruct (_ =? EV_ABS); [apply fp_handleAbsoluteMotion|].
  destruct (_ =? EV_SW); [apply fp_handleSwitch|apply fp_ret].
Qed.

Lemma fp_processAll (rawEvents : list RawEvent.t) : preserves R (processAll rawEvents).
Proof.
  induction rawEvents as [|e l IH]; cbn [processAll].
  - apply fp_ret.
  - apply fp_bind; [apply fp_process|intros _; apply IH].
Qed.

Lemma fp_loopTimes (n : nat) : preserves R (loopTimes n).
Proof.
  induction n as [|n IH]; cbn [loopTimes].
  - apply fp_ret.
  - apply fp_bind; [|intros _; apply IH].
    unfold loopOnce.
    apply fp_bind; [apply fp_call|intros rawEvent].
    apply fp_bind; [apply fp_call|intros when].
    apply fp_process.
Qed.

End Footprint.

(** * What the handlers tell the outside *)

(** A kind of effect that holds the events given to the dispatcher but a
    configuration change, the warnings, the trap of a division and the
    stores into the exported virtual key: every raw event that is not a
    device coming or going has effects of this kind only. *)

Section EffectFootprint.

Variable ok : Effect -> bool.
Hypothesis ok_key : forall when deviceId nature policyFlags action flags keyCode scanCode
                           metaState downTime,
  ok (NotifyKey when deviceId nature policyFlags action flags keyCode scanCode
        metaState downTime) = true.
Hypothesis ok_motion : forall when deviceId nature policyFlags action metaState edgeFlags
                              pointerCount pointerIds pointerCoords xPrecision yPrecision
                              downTime,
  ok (NotifyMotion when deviceId nature policyFlags action metaState edgeFlags
        pointerCount pointerIds pointerCoords xPrecision yPrecision downTime) = true.
Hypothesis ok_appSwitch : forall when, ok (NotifyAppSwitchComing when) = true.
Hypothesis ok_warning : forall message, ok (LogW message) = true.
Hypothesis ok_trap : ok ArithmeticTrap = true.
Hypothesis ok_stored : forall keyCode scanCode,
  ok (ExportedVirtualKeyStored keyCode scanCode) = true.

Ltac ef_step :=
  lazymatch goal with
  | |- effectsAll _ (ret _) => apply effectsAll_ret
  | |- effectsAll _ (bind _ _) => apply effectsAll_bind; [|intros ?; cbv beta]
  | |- effectsAll _ (call _) => apply effectsAll_call
  | |- effectsAll _ (emit _) =>
      apply effectsAll_emit;
      first [ apply ok_key | apply ok_motion | apply ok_appSwitch | apply ok_warning
            | apply ok_stored ]
  | |- effectsAll _ getReader => apply effectsAll_getReader
  | |- effectsAll _ (modifyReader _) => apply effectsAll_modifyReader
  | |- effectsAll _ (modifyDevice _ _) => apply effectsAll_silent; reflexivity
  | |- effectsAll _ (modifyTouchScreen _ _) => apply effectsAll_silent; reflexivity
  | |- effectsAll _ (setVirtualKeyStatus _ _) => apply effectsAll_silent; reflexivity
  | |- effectsAll _ resetGlobalMetaState => apply effectsAll_silent; reflexivity
  | |- effectsAll _ (tell _) => apply effectsAll_silent; reflexivity
  | |- effectsAll _ (deref _) => apply effectsAll_silent; reflexivity
  | |- effectsAll _ (getDevice _) => apply effectsAll_silent; reflexivity
  | |- effectsAll _ (getNonIgnoredDevice _) =>
      apply effectsAll_silent; intros ?; rewrite getNonIgnoredDevice_run; reflexivity
  | |- effectsAll _ (if ?c then _ else _) => destruct c
  | |- effectsAll _ (match ?x with _ => _ end) => destruct x
  | |- effectsAll _ (let _ := _ in _) => cbv zeta
  end.

Ltac ef_auto := repeat ef_step.

Lemma ef_warnings {A : Type} (m : M A) : effectsAll isWarningOrTrap m -> effectsAll ok m.
Proof.
  apply effectsAll_weaken. intros [] H; try discriminate H;
    [apply ok_warning|apply ok_trap].
Qed.

Lemma ef_forEach {A : Type} (l : list A) (body : A -> M unit) :
  (forall a, effectsAll ok (body a)) -> effectsAll ok (forEach l body).
Proof.
  intros Hbody. induction l as [|a l IH]; cbn [forEach].
  - apply effectsAll_ret.
  - apply effectsAll_bind; [apply Hbody|intros _; apply IH].
Qed.

Lemma ef_globalMetaState : effectsAll ok globalMetaState.
Proof. unfold globalMetaState. ef_auto. Qed.

Lemma ef_updateExportedVirtualKeyState : effectsAll ok updateExportedVirtualKeyState.
Proof.
  intros s. rewrite updateExportedVirtualKeyState_run.
  cbn [effectsOf snd forallb]. rewrite ok_stored. reflexivity.
Qed.

Lemma ef_applyStandardInputDispatchPolicyActions (when policyActions policyFlags : Z) :
  effectsAll ok (applyStandardInputDispatchPolicyActions when policyActions policyFlags).
Proof. unfold applyStandardInputDispatchPolicyActions. ef_auto. Qed.

Lemma ef_reconfigureDevice (deviceId : Z) : effectsAll ok (reconfigureDevice deviceId).
Proof.
  unfold reconfigureDevice.
  apply effectsAll_bind; [ef_auto|intros device].
  apply effectsAll_bind;
    [apply ef_warnings, configureDeviceForCurrentDisplaySize_warnings|intros device'].
  ef_auto.
Qed.

Lemma ef_refreshDisplayProperties : effectsAll ok refreshDisplayProperties.
Proof.
  unfold refreshDisplayProperties.
  apply effectsAll_bind; [apply effectsAll_call|intros info].
  destruct info as [[[newWidth newHeight] newOrientation]|].
  - apply effectsAll_bind; [ef_auto|intros r].
    apply effectsAll_bind.
    + destruct (_ || _); [|apply effectsAll_ret].
      apply effectsAll_bind; [ef_auto|intros _].
      apply ef_forEach. apply ef_reconfigureDevice.
    + intros _. ef_auto.
  - unfold resetDisplayProperties. ef_auto.
Qed.

Lemma ef_dispatchTouch (when deviceId policyFlags : Z) (touch : TouchData.t)
  (idBits action : Z) :
  effectsAll ok (dispatchTouch when deviceId policyFlags touch idBits action).
Proof.
  unfold dispatchTouch.
  apply effectsAll_bind; [ef_auto|intros r]. cbv zeta.
  apply effectsAll_bind; [ef_auto|intros device]. cbv zeta.
  apply effectsAll_bind; [apply ef_globalMetaState|intros g]. ef_auto.
Qed.

Lemma ef_dispatchPointersUp (turns : nat) (when deviceId policyFlags : Z) :
  forall up active,
  effectsAll ok (dispatchPointersUp turns when deviceId policyFlags up active).
Proof.
  induction turns as [|turns IH]; intros up active.
  - apply effectsAll_ret.
  - rewrite dispatchPointersUp_S. destruct (negb (isEmpty up)); [|apply effectsAll_ret].
    apply effectsAll_bind; [ef_auto|intros device].
    apply effectsAll_bind; [apply ef_dispatchTouch|intros _]. apply IH.
Qed.

Lemma ef_dispatchPointersDown (turns : nat) (when deviceId policyFlags : Z) :
  forall down active,
  effectsAll ok (dispatchPointersDown turns when deviceId policyFlags down active).
Proof.
  induction turns as [|turns IH]; intros down active.
  - apply effectsAll_ret.
  - rewrite dispatchPointersDown_S. destruct (negb (isEmpty down)); [|apply effectsAll_ret].
    apply effectsAll_bind; [ef_auto|intros action].
    apply effectsAll_bind; [ef_auto|intros device].
    apply effectsAll_bind; [apply ef_dispatchTouch|intros _]. apply IH.
Qed.

Lemma ef_dispatchTouches (when deviceId policyFlags : Z) :
  effectsAll ok (dispatchTouches when deviceId policyFlags).
Proof.
  unfold dispatchTouches.
  apply effectsAll_bind; [ef_auto|intros device]. cbv zeta.
  destruct (_ && _); [apply effectsAll_ret|].
  destruct (_ =? _); [apply ef_dispatchTouch|].
  apply effectsAll_bind; [apply ef_dispatchPointersUp|intros active].
  apply effectsAll_bind; [apply ef_dispatchPointersDown|intros _]. apply effectsAll_ret.
Qed.

Lemma ef_applyFilter (deviceId : Z)
  (filter : TouchScreenState.t FilterState -> bool * TouchData.t * FilterState) :
  effectsAll ok (applyFilter deviceId filter).
Proof.
  unfold applyFilter. apply effectsAll_bind; [ef_auto|intros device].
  destruct (filter (InputDevice.touchScreen device)) as [[changed touch] history].
  ef_auto.
Qed.

Lemma ef_applyHook (deviceId : Z)
  (hook : TouchScreenState.t FilterState -> TouchData.t * FilterState) :
  effectsAll ok (applyHook deviceId hook).
Proof.
  unfold applyHook. apply effectsAll_bind; [ef_auto|intros device].
  destruct (hook (InputDevice.touchScreen device)) as [touch history].
  ef_auto.
Qed.

Lemma ef_dispatchVirtualKey (when deviceId policyFlags keyEventAction keyEventFlags : Z) :
  effectsAll ok (dispatchVirtualKey when deviceId policyFlags keyEventAction keyEventFlags).
Proof.
  unfold dispatchVirtualKey.
  apply effectsAll_bind; [apply ef_updateExportedVirtualKeyState|intros _].
  apply effectsAll_bind; [ef_auto|intros device]. cbv zeta.
  apply effectsAll_bind; [apply ef_globalMetaState|intros metaState].
  apply effectsAll_bind; [ef_auto|intros _].
  apply effectsAll_bind; [apply effectsAll_call|intros policyActions].
  apply effectsAll_bind;
    [apply ef_applyStandardInputDispatchPolicyActions|intros [dispatch flags]].
  ef_auto.
Qed.

Lemma ef_consumeVirtualKeyTouches (when deviceId policyFlags : Z) :
  effectsAll ok (consumeVirtualKeyTouches when deviceId policyFlags).
Proof.
  unfold consumeVirtualKeyTouches.
  apply effectsAll_bind; [ef_auto|intros device]. cbv zeta.
  destruct (CurrentVirtualKeyState.status _).
  - destruct (_ && _); [|apply effectsAll_ret].
    destruct (TouchScreenState.findVirtualKeyHit _); [|apply effectsAll_ret].
    apply effectsAll_bind; [ef_auto|intros _].
    apply effectsAll_bind; [apply ef_dispatchVirtualKey|intros _]. apply effectsAll_ret.
  - destruct (_ =? 0).
    + apply effectsAll_bind; [ef_auto|intros _].
      apply effectsAll_bind; [apply ef_dispatchVirtualKey|intros _]. apply effectsAll_ret.
    + destruct (if _ =? 1 then _ else _); [apply effectsAll_ret|].
      apply effectsAll_bind; [ef_auto|intros _].
      apply effectsAll_bind; [apply ef_dispatchVirtualKey|intros _]. apply effectsAll_ret.
  - apply effectsAll_bind; [ef_auto|intros _]. apply effectsAll_ret.
  - destruct (_ && _); [|apply effectsAll_ret].
    destruct (TouchScreenState.findVirtualKeyHit _); [|apply effectsAll_ret].
    apply effectsAll_bind; [ef_auto|intros _].
    apply effectsAll_bind; [apply ef_dispatchVirtualKey|intros _]. apply effectsAll_ret.
Qed.

Lemma ef_onTouchScreenChanged (when deviceId : Z) (havePointerIds : bool) :
  effectsAll ok (onTouchScreenChanged when deviceId havePointerIds).
Proof.
  unfold onTouchScreenChanged.
  apply effectsAll_bind; [apply effectsAll_call|intros policyActions].
  apply effectsAll_bind;
    [apply ef_applyStandardInputDispatchPolicyActions|intros [dispatch flags]].
  destruct (negb dispatch); [ef_auto|].
  apply effectsAll_bind; [ef_auto|intros device]. cbv zeta.
  apply effectsAll_bind.
  { destruct (TouchScreenState.useBadTouchFilter _); [|apply effectsAll_ret].
    apply effectsAll_bind; [apply ef_applyFilter|intros c]. apply effectsAll_ret. }
  intros have1. apply effectsAll_bind.
  { destruct (TouchScreenState.useJumpyTouchFilter _); [|apply effectsAll_ret].
    apply effectsAll_bind; [apply ef_applyFilter|intros c]. apply effectsAll_ret. }
  intros have2. apply effectsAll_bind.
  { destruct (negb have2); [apply ef_applyHook|apply effectsAll_ret]. }
  intros _. apply effectsAll_bind.
  { destruct (TouchScreenState.useAveragingTouchFilter _); [|apply effectsAll_ret].
    apply effectsAll_bind; [ef_auto|intros d].
    apply effectsAll_bind; [apply ef_applyHook|intros _]. apply effectsAll_ret. }
  intros savedTouch.
  apply effectsAll_bind; [apply ef_consumeVirtualKeyTouches|intros consumed].
  apply effectsAll_bind.
  { destruct (negb consumed); [apply ef_dispatchTouches|apply effectsAll_ret]. }
  intros _. ef_auto.
Qed.

Lemma ef_onMultiTouchScreenStateChanged (when deviceId : Z) :
  effectsAll ok (onMultiTouchScreenStateChanged when deviceId).
Proof.
  unfold onMultiTouchScreenStateChanged.
  apply effectsAll_bind; [apply ef_refreshDisplayProperties|intros refreshed].
  destruct (negb refreshed); [apply effectsAll_ret|].
  apply effectsAll_bind; [ef_auto|intros device].
  destruct (assembleMultiTouch _ _) as [out have].
  apply effectsAll_bind; [ef_auto|intros _]. apply ef_onTouchScreenChanged.
Qed.

Lemma ef_onSingleTouchScreenStateChanged (when deviceId : Z) :
  effectsAll ok (onSingleTouchScreenStateChanged when deviceId).
Proof.
  unfold onSingleTouchScreenStateChanged.
  apply effectsAll_bind; [apply ef_refreshDisplayProperties|intros refreshed].
  destruct (negb refreshed); [apply effectsAll_ret|].
  apply effectsAll_bind; [ef_auto|intros _].
  apply effectsAll_bind; [ef_auto|intros _]. apply ef_onTouchScreenChanged.
Qed.

Lemma ef_onTrackballStateChanged (when deviceId : Z) :
  effectsAll ok (onTrackballStateChanged when deviceId).
Proof.
  unfold onTrackballStateChanged.
  apply effectsAll_bind; [apply ef_refreshDisplayProperties|intros refreshed].
  destruct (negb refreshed); [apply effectsAll_ret|].
  apply effectsAll_bind; [ef_auto|intros device]. cbv zeta.
  apply effectsAll_bind; [ef_auto|intros down].
  apply effectsAll_bind; [apply effectsAll_call|intros policyActions].
  apply effectsAll_bind;
    [apply ef_applyStandardInputDispatchPolicyActions|intros [dispatch flags]].
  destruct (negb dispatch); [apply effectsAll_ret|]. cbv zeta.
  apply effectsAll_bind; [ef_auto|intros r]. cbv zeta.
  destruct (if _ =? ROTATION_90 then _ else _) as [x y].
  apply effectsAll_bind; [apply ef_globalMetaState|intros g]. ef_auto.
Qed.

Lemma ef_onKey (when deviceId : Z) (down : bool) (keyCode scanCode policyFlags : Z) :
  effectsAll ok (onKey when deviceId down keyCode scanCode policyFlags).
Proof.
  unfold onKey.
  apply effectsAll_bind; [apply ef_refreshDisplayProperties|intros refreshed].
  destruct (negb refreshed); [apply effectsAll_ret|].
  apply effectsAll_bind; [ef_auto|intros device]. cbv zeta.
  apply effectsAll_bind; [ef_auto|intros _].
  apply effectsAll_bind; [ef_auto|intros r]. cbv zeta.
  apply effectsAll_bind; [ef_auto|intros _].
  apply effectsAll_bind; [apply effectsAll_call|intros policyActions].
  apply effectsAll_bind;
    [apply ef_applyStandardInputDispatchPolicyActions|intros [dispatch flags]].
  destruct (negb dispatch); [apply effectsAll_ret|].
  apply effectsAll_bind; [ef_auto|intros action]. ef_auto.
Qed.

Lemma ef_handleSync (rawEvent : RawEvent.t) : effectsAll ok (handleSync rawEvent).
Proof.
  unfold handleSync. cbv zeta.
  apply effectsAll_bind; [ef_auto|intros found].
  destruct found as [d|]; [|apply effectsAll_ret].
  destruct (RawEvent.scanCode rawEvent =? SYN_MT_REPORT).
  { apply effectsAll_bind; [ef_auto|intros device].
    destruct (InputDevice.isMultiTouchScreen device); [|apply effectsAll_ret]. cbv zeta.
    apply effectsAll_bind; [|intros pointerIndex; ef_auto].
    destruct (negb _); [|apply effectsAll_ret].
    destruct (_ =? MAX_POINTERS); ef_auto. }
  destruct (RawEvent.scanCode rawEvent =? SYN_REPORT); [|apply effectsAll_ret].
  apply effectsAll_bind; [ef_auto|intros device].
  apply effectsAll_bind.
  { destruct (InputDevice.isMultiTouchScreen device).
    - destruct (MultiTouchScreenState.isDirty _); [|apply effectsAll_ret].
      apply effectsAll_bind; [apply ef_onMultiTouchScreenStateChanged|intros _]. ef_auto.
    - destruct (InputDevice.isSingleTouchScreen device); [|apply effectsAll_ret].
      destruct (SingleTouchScreenState.isDirty _); [|apply effectsAll_ret].
      apply effectsAll_bind; [apply ef_onSingleTouchScreenStateChanged|intros _].
      ef_auto. }
  intros _. apply effectsAll_bind; [ef_auto|intros device'].
  destruct (TrackballState.isDirty _); [|apply effectsAll_ret].
  apply effectsAll_bind; [apply ef_onTrackballStateChanged|intros _]. ef_auto.
Qed.

Lemma ef_handleKey (rawEvent : RawEvent.t) : effectsAll ok (handleKey rawEvent).
Proof.
  unfold handleKey. cbv zeta.
  apply effectsAll_bind; [ef_auto|intros found].
  destruct found as [d|]; [|apply effectsAll_ret].
  destruct (_ && _); [ef_auto|].
  destruct (_ && _); [ef_auto|].
  destruct (InputDevice.isKeyboard d); [apply ef_onKey|apply effectsAll_ret].
Qed.

Lemma ef_handleSwitch (rawEvent : RawEvent.t) : effectsAll ok (handleSwitch rawEvent).
Proof.
  unfold handleSwitch.
  apply effectsAll_bind; [ef_auto|intros found].
  destruct found as [d|]; [|apply effectsAll_ret].
  unfold onSwitch. apply effectsAll_bind; [apply effectsAll_call|intros policyActions].
  apply effectsAll_bind; [apply ef_applyStandardInputDispatchPolicyActions|intros _].
  apply effectsAll_ret.
Qed.

(** The raw events that are not a device coming or going. *)
Lemma ef_process (rawEvent : RawEvent.t) :
  RawEvent.type rawEvent <> DEVICE_ADDED -> RawEvent.type rawEvent <> DEVICE_REMOVED ->
  effectsAll ok (process rawEvent).
Proof.
  intros Hadd Hrem. unfold process. cbv zeta.
  destruct (Z.eqb_spec (RawEvent.type rawEvent) DEVICE_ADDED); [contradiction|].
  destruct (Z.eqb_spec (RawEvent.type rawEvent) DEVICE_REMOVED); [contradiction|].
  destruct (_ =? EV_SYN); [apply ef_handleSync|].
  destruct (_ =? EV_KEY); [apply ef_handleKey|].
  destruct (_ =? EV_REL); [unfold handleRelativeMotion; cbv zeta; ef_auto|].
  destruct (_ =? EV_ABS); [unfold handleAbsoluteMotion; cbv zeta; ef_auto|].
  destruct (_ =? EV_SW); [apply ef_handleSwitch|apply effectsAll_ret].
Qed.

End EffectFootprint.

(** * The caches of the reader *)

(** ** Loops over the registry *)

Lemma fold_keyedUpdate_same {B : Type} (step : B -> Z * Device -> B)
  (l : list (Z * Device)) (k : Z) (f : Device -> Device) :
  (forall acc k' d, step acc (k', f d) = step acc (k', d)) ->
  forall b, fold_left step (keyedUpdate l k f) b = fold_left step l b.
Proof.
  intros Hf. induction l as [|[k0 d0] l IH]; intros b; [reflexivity|].
  cbn [keyedUpdate]. destruct (k0 =? k); cbn [fold_left].
  - rewrite Hf. reflexivity.
  - apply IH.
Qed.

Lemma fold_keyedAdd_neutral {B : Type} (step : B -> Z * Device -> B)
  (l : list (Z * Device)) (k : Z) (d : Device) :
  keyedLookup l k = None ->
  (forall acc, step acc (k, d) = acc) ->
  forall b, fold_left step (keyedAdd l k d) b = fold_left step l b.
Proof.
  intros Hnone Hd. induction l as [|[k0 d0] l IH]; intros b.
  - cbn [keyedAdd fold_left]. rewrite Hd. reflexivity.
  - cbn [keyedAdd keyedLookup] in *.
    destruct (Z.eqb_spec k0 k) as [->|Hk]; [discriminate|].
    destruct (k <? k0).
    + cbn [fold_left]. rewrite Hd. reflexivity.
    + destruct (Z.eqb_spec k k0) as [->|_]; [contradiction|].
      cbn [fold_left]. apply IH. exact Hnone.
Qed.

Lemma fold_keyedRemove_neutral {B : Type} (step : B -> Z * Device -> B)
  (l : list (Z * Device)) (k : Z) (d : Device) :
  keyedLookup l k = Some d ->
  (forall acc k', step acc (k', d) = acc) ->
  forall b, fold_left step (keyedRemove l k) b = fold_left step l b.
Proof.
  intros Hsome Hd. induction l as [|[k0 d0] l IH]; intros b; [discriminate|].
  cbn [keyedRemove keyedLookup] in *. destruct (k0 =? k).
  - injection Hsome as ->. cbn [fold_left]. rewrite Hd. reflexivity.
  - cbn [fold_left]. apply IH. exact Hsome.
Qed.

Lemma combinedMetaState_update (l : list (Z * Device)) (k : Z) (f : Device -> Device) :
  (forall d, InputDevice.classes (f d) = InputDevice.classes d /\
             KeyboardState.metaState (InputDevice.keyboard (f d))
             = KeyboardState.metaState (InputDevice.keyboard d)) ->
  combinedMetaState (keyedUpdate l k f) = combinedMetaState l.
Proof.
  intros Hf. unfold combinedMetaState. apply fold_keyedUpdate_same.
  intros acc k' d. destruct (Hf d) as [Hc Hm]. cbn [snd].
  unfold InputDevice.isKeyboard. rewrite Hc, Hm. reflexivity.
Qed.

Lemma inputConfigurationOf_update (l : list (Z * Device)) (k : Z) (f : Device -> Device) :
  (forall d, InputDevice.classes (f d) = InputDevice.classes d) ->
  inputConfigurationOf (keyedUpdate l k f) = inputConfigurationOf l.
Proof.
  intros Hf. unfold inputConfigurationOf. apply fold_keyedUpdate_same.
  intros acc k' d. cbn [snd]. rewrite Hf. reflexivity.
Qed.

Lemma anySet_zero (mask : Z) : anySet 0 mask = false.
Proof. unfold anySet. rewrite Z.land_0_l. reflexivity. Qed.

Lemma combinedMetaState_step_classless (acc : Z) (k : Z) (d : Device) :
  InputDevice.classes d = 0 ->
  (if InputDevice.isKeyboard (snd (k, d))
   then Z.lor acc (KeyboardState.metaState (InputDevice.keyboard (snd (k, d))))
   else acc) = acc.
Proof.
  intros Hc. cbn [snd]. unfold InputDevice.isKeyboard. rewrite Hc, anySet_zero.
  reflexivity.
Qed.

Lemma inputConfigurationOf_step_classless (acc : InputConfiguration.t) (k : Z) (d : Device) :
  InputDevice.classes d = 0 ->
  {| InputConfiguration.touchScreen :=
       if anySet (InputDevice.classes (snd (k, d))) INPUT_DEVICE_CLASS_TOUCHSCREEN
       then TOUCHSCREEN_FINGER else InputConfiguration.touchScreen acc;
     InputConfiguration.keyboard :=
       if anySet (InputDevice.classes (snd (k, d))) INPUT_DEVICE_CLASS_ALPHAKEY
       then KEYBOARD_QWERTY else InputConfiguration.keyboard acc;
     InputConfiguration.navigation :=
       if anySet (InputDevice.classes (snd (k, d))) INPUT_DEVICE_CLASS_TRACKBALL
       then NAVIGATION_TRACKBALL
       else if anySet (InputDevice.classes (snd (k, d))) INPUT_DEVICE_CLASS_DPAD
       then NAVIGATION_DPAD else InputConfiguration.navigation acc |} = acc.
Proof.
  intros Hc. cbn [snd]. rewrite Hc, !anySet_zero. destruct acc. reflexivity.
Qed.

Lemma classless_added (l : list (Z * Device)) (k : Z) (d : Device) :
  keyedLookup l k = None -> InputDevice.classes d = 0 ->
  combinedMetaState (keyedAdd l k d) = combinedMetaState l /\
  inputConfigurationOf (keyedAdd l k d) = inputConfigurationOf l.
Proof.
  intros Hnone Hc. split.
  - unfold combinedMetaState. apply fold_keyedAdd_neutral; [exact Hnone|].
    intros acc. apply combinedMetaState_step_classless. exact Hc.
  - unfold inputConfigurationOf. apply fold_keyedAdd_neutral; [exact Hnone|].
    intros acc. apply inputConfigurationOf_step_classless. exact Hc.
Qed.

Lemma classless_removed (l : list (Z * Device)) (k : Z) (d : Device) :
  keyedLookup l k = Some d -> InputDevice.classes d = 0 ->
  combinedMetaState (keyedRemove l k) = combinedMetaState l /\
  inputConfigurationOf (keyedRemove l k) = inputConfigurationOf l.
Proof.
  intros Hsome Hc. split.
  - unfold combinedMetaState. apply fold_keyedRemove_neutral with d; [exact Hsome|].
    intros acc k'. apply combinedMetaState_step_classless. exact Hc.
  - unfold inputConfigurationOf. apply fold_keyedRemove_neutral with d; [exact Hsome|].
    intros acc k'. apply inputConfigurationOf_step_classless. exact Hc.
Qed.

(** ** The facts are kept *)

Lemma readerFacts_weaken (c c' : Prop) (s : State) :
  (c' -> c) -> readerFacts c s -> readerFacts c' s.
Proof. intros Hc (H1 & H2 & H3 & H4). repeat split; try assumption. intros H. apply H4, Hc, H. Qed.

Lemma readerFacts_refl (c : Prop) (s : State) : keepsInvariant (readerFacts c) s s.
Proof. intros H. exact H. Qed.

Lemma readerFacts_trans (c : Prop) (s1 s2 s3 : State) :
  keepsInvariant (readerFacts c) s1 s2 -> keepsInvariant (readerFacts c) s2 s3 ->
  keepsInvariant (readerFacts c) s1 s3.
Proof. intros H12 H23 H. apply H23, H12, H. Qed.

Lemma readerFacts_world (c : Prop) (r : Reader) (w w' : World) :
  keepsInvariant (readerFacts c) (r, w) (r, w').
Proof. intros H. exact H. Qed.

(** The facts look at the devices, the cache and the exported configuration
    of the reader. *)
Lemma readerFacts_same (c : Prop) (s s' : State) :
  InputReader.mDevices (fst s') = InputReader.mDevices (fst s) ->
  InputReader.mGlobalMetaState (fst s') = InputReader.mGlobalMetaState (fst s) ->
  InputReader.mExportedInputConfiguration (fst s')
  = InputReader.mExportedInputConfiguration (fst s) ->
  readerFacts c s -> readerFacts c s'.
Proof.
  intros Hd Hm Hc (H1 & H2 & H3 & H4).
  unfold readerFacts, registeredUnderOwnIds, ignoredWithoutClasses, allEntries,
    metaStateCached, configurationExported in *.
  rewrite Hd, Hm, Hc. repeat split; assumption.
Qed.

Lemma readerFacts_display (c : Prop) (f : Reader -> Reader) (r : Reader) (w : World) :
  displayFrame f -> keepsInvariant (readerFacts c) (r, w) (f r, w).
Proof.
  intros Hf H. destruct (Hf r) as (Hd & Hm & _ & _ & Hc).
  apply readerFacts_same with (s := (r, w)); assumption.
Qed.

(** A write to a device that keeps its identity and the meta state of its
    keyboard. *)
Lemma readerFacts_update (c : Prop) (deviceId : Z) (f : Device -> Device) (s : State) :
  (forall d, InputDevice.id (f d) = InputDevice.id d /\
             InputDevice.classes (f d) = InputDevice.classes d /\
             InputDevice.ignored (f d) = InputDevice.ignored d /\
             KeyboardState.metaState (InputDevice.keyboard (f d))
             = KeyboardState.metaState (InputDevice.keyboard d)) ->
  keepsInvariant (readerFacts c) s (updateDevice deviceId f s).
Proof.
  intros Hf (H1 & H2 & H3 & H4).
  assert (combinedMetaState (keyedUpdate (InputReader.mDevices (fst s)) deviceId f)
          = combinedMetaState (InputReader.mDevices (fst s))) as Hmeta.
  { apply combinedMetaState_update. intros d. destruct (Hf d) as (_ & ? & _ & ?). tauto. }
  assert (inputConfigurationOf (keyedUpdate (InputReader.mDevices (fst s)) deviceId f)
          = inputConfigurationOf (InputReader.mDevices (fst s))) as Hconf.
  { apply inputConfigurationOf_update. intros d. destruct (Hf d) as (_ & ? & _). assumption. }
  split; [|split; [|split]].
  - apply allEntries_update; [|exact H1].
    intros d Hd. unfold registeredUnderOwnId in *. destruct (Hf d) as (-> & _). exact Hd.
  - apply allEntries_update; [|exact H2].
    intros d Hd. destruct (Hf d) as (_ & -> & -> & _). exact Hd.
  - unfold metaStateCached, updateDevice in *. cbn [fst InputReader.set_mDevices
      InputReader.mGlobalMetaState InputReader.mDevices]. rewrite Hmeta. exact H3.
  - intros Hc. specialize (H4 Hc).
    unfold configurationExported, updateDevice in *. cbn [fst InputReader.set_mDevices
      InputReader.mExportedInputConfiguration InputReader.mDevices]. rewrite Hconf. exact H4.
Qed.

Lemma readerFacts_touch (c : Prop) (deviceId : Z) (f : Device -> Device) (s : State) :
  keepsKeyboard f -> keepsInvariant (readerFacts c) s (updateDevice deviceId f s).
Proof.
  intros Hf. apply readerFacts_update. intros d.
  destruct (Hf d) as (? & ? & _ & ? & Hk). rewrite Hk. tauto.
Qed.

(** The cache may be reset at any time. *)
Lemma readerFacts_stale (c : Prop) (s : State) :
  readerFacts c s ->
  readerFacts c (InputReader.set_mGlobalMetaState (-1) (fst s), snd s).
Proof.
  intros (H1 & H2 & H3 & H4). repeat split; try assumption. left. reflexivity.
Qed.

Lemma readerFacts_reset (c : Prop) :
  preserves (keepsInvariant (readerFacts c)) resetGlobalMetaState.
Proof. intros s H. apply readerFacts_stale. exact H. Qed.

Lemma readerFacts_global (c : Prop) :
  preserves (keepsInvariant (readerFacts c)) globalMetaState.
Proof.
  intros s (H1 & H2 & H3 & H4). unfold globalMetaState.
  rewrite !stateOf_bind. cbn [getReader valueOf stateOf fst snd ret].
  destruct (InputReader.mGlobalMetaState (fst s) =? -1) eqn:E.
  - repeat split; try assumption. right. reflexivity.
  - repeat split; assumption.
Qed.

Lemma readerFacts_exported (c : Prop) :
  preserves (keepsInvariant (readerFacts c)) updateExportedVirtualKeyState.
Proof.
  intros s H. rewrite updateExportedVirtualKeyState_run.
  apply readerFacts_same with (s := s); [reflexivity..|exact H].
Qed.

Lemma readerFacts_meta (c : Prop) (deviceId newMetaState : Z) :
  preserves (keepsInvariant (readerFacts c))
    (modifyDevice deviceId (setKeyboardMetaState newMetaState) ;; resetGlobalMetaState).
Proof.
  intros s (H1 & H2 & H3 & H4). rewrite stateOf_bind.
  split; [|split; [|split]].
  - apply allEntries_update with (P := registeredUnderOwnId) (k := deviceId)
      (f := setKeyboardMetaState newMetaState) (s := s); [|exact H1].
    intros d Hd. exact Hd.
  - apply allEntries_update
      with (P := fun (_ : Z) (d : Device) =>
                   InputDevice.ignored d = (InputDevice.classes d =? 0))
           (k := deviceId) (f := setKeyboardMetaState newMetaState) (s := s); [|exact H2].
    intros d Hd. exact Hd.
  - left. reflexivity.
  - intros Hc. specialize (H4 Hc). unfold configurationExported in *.
    cbn [resetGlobalMetaState modifyDevice modifyReader valueOf stateOf fst snd
         InputReader.set_mGlobalMetaState InputReader.set_mDevices
         InputReader.mExportedInputConfiguration InputReader.mDevices].
    rewrite inputConfigurationOf_update; [exact H4|]. intros d. reflexivity.
Qed.

Lemma readerFacts_downTime (c : Prop) (deviceId when : Z) :
  preserves (keepsInvariant (readerFacts c))
    (modifyDevice deviceId (setKeyboardDownTime when)).
Proof.
  intros s. apply (@readerFacts_update c deviceId (setKeyboardDownTime when) s).
  intros d. repeat split; reflexivity.
Qed.

Lemma warnings_not_configuration (l : list Effect) :
  forallb isWarningOrTrap l = true -> existsb isConfigurationChanged l = false.
Proof.
  induction l as [|e l IH]; [reflexivity|].
  cbn [forallb existsb]. intros H. apply andb_true_iff in H. destruct H as [He Hl].
  destruct e; try discriminate He; cbn [isConfigurationChanged orb]; apply IH; exact Hl.
Qed.

(** After [onConfigurationChanged] the cache is stale and the exported
    configuration is current. *)
Lemma readerFacts_onConfigurationChanged (c : Prop) (when : Z) (s : State) :
  registeredUnderOwnIds s -> ignoredWithoutClasses s ->
  readerFacts c (stateOf (onConfigurationChanged when s)).
Proof.
  intros H1 H2. rewrite onConfigurationChanged_run.
  split; [exact H1|]. split; [exact H2|]. split; [left; reflexivity|].
  intros _. reflexivity.
Qed.

Lemma readerFacts_added_flag (c : Prop) (rawEvent : RawEvent.t) (s : State) :
  readerFacts c s ->
  readerFacts
    (c \/ existsb isConfigurationChanged (effectsOf (handleDeviceAdded rawEvent s)) = true)
    (stateOf (handleDeviceAdded rawEvent s)).
Proof.
  intros Hfacts.
  destruct (keyedLookup (InputReader.mDevices (fst s)) (RawEvent.deviceId rawEvent))
    as [present|] eqn:Hlookup.
  - rewrite (handleDeviceAdded_present rawEvent s Hlookup).
    cbn [stateOf effectsOf fst snd existsb isConfigurationChanged orb].
    apply readerFacts_weaken with c; [|exact Hfacts].
    intros [H|H]; [exact H|discriminate H].
  - unfold handleDeviceAdded. rewrite bind_run.
    cbn [getDevice valueOf stateOf effectsOf fst snd app]. rewrite Hlookup.
    destruct (addDevice_full (RawEvent.when rawEvent) (RawEvent.deviceId rawEvent) s)
      as (w & device & warnings & Hrun & Hid & Hclasses & Hignored & Hwarn & _).
    rewrite Hrun. cbn [stateOf effectsOf fst snd].
    destruct Hfacts as (H1 & H2 & H3 & H4).
    assert (readerFacts c
              (addedDevice (RawEvent.deviceId rawEvent) device (fst s), w)
            \/ InputDevice.ignored device = false) as Hadded.
    { destruct (InputDevice.ignored device) eqn:Eig; [left|right; reflexivity].
      assert (InputDevice.classes device = 0) as Hzero.
      { rewrite Hclasses. symmetry in Hignored. apply Z.eqb_eq in Hignored. exact Hignored. }
      destruct (classless_added (InputReader.mDevices (fst s)) (RawEvent.deviceId rawEvent)
                  device Hlookup Hzero) as [Hmeta Hconf].
      split; [|split; [|split]].
      - apply Forall_keyedAdd; [exact Hid|exact H1].
      - apply Forall_keyedAdd; [|exact H2]. cbn beta.
        rewrite Eig, Hzero. reflexivity.
      - unfold metaStateCached, addedDevice in *.
        cbn [fst InputReader.set_mDevices InputReader.mGlobalMetaState InputReader.mDevices].
        rewrite Hmeta. exact H3.
      - intros Hc. specialize (H4 Hc). unfold configurationExported, addedDevice in *.
        cbn [fst InputReader.set_mDevices InputReader.mExportedInputConfiguration
             InputReader.mDevices].
        rewrite Hconf. exact H4. }
    destruct (InputDevice.ignored device) eqn:Eig; cbn [negb].
    + destruct Hadded as [Hadded|Hno]; [|discriminate Hno].
      apply readerFacts_weaken with c; [|exact Hadded].
      rewrite app_nil_r, (warnings_not_configuration _ Hwarn).
      intros [H|H]; [exact H|discriminate H].
    + apply readerFacts_onConfigurationChanged.
      * apply Forall_keyedAdd; [exact Hid|exact H1].
      * apply Forall_keyedAdd; [|exact H2]. cbn beta.
        rewrite Eig, Hclasses. exact Hignored.
Qed.

Lemma removeDevice_full (when : Z) (device : Device) (s : State) :
  removeDevice when device s
  = (tt,
     (if negb (InputDevice.ignored device)
      then stateOf (onConfigurationChanged when
                      (removedDevice (InputDevice.id device) (fst s), snd s))
      else (removedDevice (InputDevice.id device) (fst s), snd s)),
     (if negb (InputDevice.ignored device)
      then effectsOf (onConfigurationChanged when
                        (removedDevice (InputDevice.id device) (fst s), snd s))
      else [])).
Proof.
  unfold removeDevice. rewrite bind_run.
  cbn [modifyReader valueOf stateOf effectsOf fst snd app].
  destruct (InputDevice.ignored device); cbn [negb]; [reflexivity|].
  fold (removedDevice (InputDevice.id device) (fst s)).
  rewrite onConfigurationChanged_run. reflexivity.
Qed.

Lemma readerFacts_removed_flag (c : Prop) (rawEvent : RawEvent.t) (s : State) :
  readerFacts c s ->
  readerFacts
    (c \/ existsb isConfigurationChanged (effectsOf (handleDeviceRemoved rawEvent s)) = true)
    (stateOf (handleDeviceRemoved rawEvent s)).
Proof.
  intros Hfacts.
  destruct (keyedLookup (InputReader.mDevices (fst s)) (RawEvent.deviceId rawEvent))
    as [device|] eqn:Hlookup.
  - unfold handleDeviceRemoved. rewrite bind_run.
    cbn [getDevice valueOf stateOf effectsOf fst snd app]. rewrite Hlookup.
    rewrite removeDevice_full. cbn [stateOf effectsOf fst snd].
    destruct Hfacts as (H1 & H2 & H3 & H4).
    assert (InputDevice.id device = RawEvent.deviceId rawEvent) as Hid.
    { eapply allEntries_lookup with (P := registeredUnderOwnId); eassumption. }
    assert (InputDevice.ignored device = (InputDevice.classes device =? 0)) as Hignored.
    { eapply allEntries_lookup
        with (P := fun (_ : Z) (d : Device) =>
                     InputDevice.ignored d = (InputDevice.classes d =? 0));
        eassumption. }
    rewrite Hid.
    destruct (InputDevice.ignored device) eqn:Eig; cbn [negb].
    + assert (InputDevice.classes device = 0) as Hzero.
      { symmetry in Hignored. apply Z.eqb_eq in Hignored. exact Hignored. }
      destruct (classless_removed (InputReader.mDevices (fst s))
                  (RawEvent.deviceId rawEvent) Hlookup Hzero) as [Hmeta Hconf].
      apply readerFacts_weaken with c;
        [cbn [existsb]; intros [H|H]; [exact H|discriminate H]|].
      split; [|split; [|split]].
      * apply Forall_keyedRemove. exact H1.
      * apply Forall_keyedRemove. exact H2.
      * unfold metaStateCached, removedDevice in *.
        cbn [fst InputReader.set_mDevices InputReader.mGlobalMetaState
             InputReader.mDevices].
        rewrite Hmeta. exact H3.
      * intros Hc. specialize (H4 Hc). unfold configurationExported, removedDevice in *.
        cbn [fst InputReader.set_mDevices InputReader.mExportedInputConfiguration
             InputReader.mDevices].
        rewrite Hconf. exact H4.
    + apply readerFacts_onConfigurationChanged.
      * apply Forall_keyedRemove. exact H1.
      * apply Forall_keyedRemove. exact H2.
  - rewrite (handleDeviceRemoved_absent rawEvent s Hlookup).
    cbn [stateOf effectsOf fst snd existsb isConfigurationChanged orb].
    apply readerFacts_weaken with c; [|exact Hfacts].
    intros [H|H]; [exact H|discriminate H].
Qed.

Lemma readerFacts_added (c : Prop) (rawEvent : RawEvent.t) :
  preserves (keepsInvariant (readerFacts c)) (handleDeviceAdded rawEvent).
Proof.
  intros s H. eapply readerFacts_weaken; [|apply readerFacts_added_flag; exact H].
  intros Hc. left. exact Hc.
Qed.

Lemma readerFacts_removed (c : Prop) (rawEvent : RawEvent.t) :
  preserves (keepsInvariant (readerFacts c)) (handleDeviceRemoved rawEvent).
Proof.
  intros s H. eapply readerFacts_weaken; [|apply readerFacts_removed_flag; exact H].
  intros Hc. left. exact Hc.
Qed.

Lemma readerFacts_process (c : Prop) (rawEvent : RawEvent.t) :
  preserves (keepsInvariant (readerFacts c)) (process rawEvent).
Proof.
  apply fp_process;
    first [ intros ?; apply readerFacts_refl
          | intros ? ? ? ? ?; eapply readerFacts_trans; eassumption
          | intros ? ? ?; apply readerFacts_world
          | intros ? ? ? ?; apply readerFacts_display; assumption
          | intros ? ? ? ?; apply readerFacts_touch; assumption
          | apply readerFacts_reset
          | apply readerFacts_global
          | apply readerFacts_exported
          | intros ? ?; apply readerFacts_meta
          | intros ? ?; apply readerFacts_downTime
          | intros ?; apply readerFacts_added
          | intros ?; apply readerFacts_removed ].
Qed.

Lemma process_not_configuration (rawEvent : RawEvent.t) (s : State) :
  RawEvent.type rawEvent <> DEVICE_ADDED -> RawEvent.type rawEvent <> DEVICE_REMOVED ->
  existsb isConfigurationChanged (effectsOf (process rawEvent s)) = false.
Proof.
  intros Hadd Hrem.
  assert (effectsAll (fun e => negb (isConfigurationChanged e)) (process rawEvent)) as H.
  { apply ef_process; try assumption; intros; reflexivity. }
  specialize (H s). revert H. generalize (effectsOf (process rawEvent s)).
  induction l as [|e l IH]; [reflexivity|].
  cbn [forallb existsb]. intros H. apply andb_true_iff in H. destruct H as [He Hl].
  apply negb_true_iff in He. rewrite He. apply IH. exact Hl.
Qed.

Lemma readerFacts_process_flag (c : Prop) (rawEvent : RawEvent.t) (s : State) :
  readerFacts c s ->
  readerFacts
    (c \/ existsb isConfigurationChanged (effectsOf (process rawEvent s)) = true)
    (stateOf (process rawEvent s)).
Proof.
  intros Hfacts.
  destruct (Z.eq_dec (RawEvent.type rawEvent) DEVICE_ADDED) as [Hadd|Hadd].
  { rewrite (process_added rawEvent s Hadd). apply readerFacts_added_flag. exact Hfacts. }
  destruct (Z.eq_dec (RawEvent.type rawEvent) DEVICE_REMOVED) as [Hrem|Hrem].
  { rewrite (process_removed rawEvent s Hrem). apply readerFacts_removed_flag.
    exact Hfacts. }
  rewrite (process_not_configuration rawEvent s Hadd Hrem).
  apply readerFacts_weaken with c; [intros [H|H]; [exact H|discriminate H]|].
  apply readerFacts_process. exact Hfacts.
Qed.

Lemma readerFacts_processAll_flag (rawEvents : list RawEvent.t) :
  forall (c : Prop) (s : State),
  readerFacts c s ->
  readerFacts
    (c \/ existsb isConfigurationChanged (effectsOf (processAll rawEvents s)) = true)
    (stateOf (processAll rawEvents s)).
Proof.
  induction rawEvents as [|e l IH]; intros c s Hfacts; cbn [processAll].
  - apply readerFacts_weaken with c; [intros [H|H]; [exact H|discriminate H]|exact Hfacts].
  - rewrite stateOf_bind, effectsOf_bind, existsb_app.
    eapply readerFacts_weaken; [|apply IH; apply readerFacts_process_flag; exact Hfacts].
    intros [Hc|H]; [left; left; exact Hc|].
    apply orb_true_iff in H. destruct H as [H|H]; [left; right; exact H|right; exact H].
Qed.

Lemma readerFacts_newInputReader (w : World) : readerFacts False (newInputReader w).
Proof.
  unfold newInputReader, constructInputReader.
  rewrite stateOf_bind.
  pose proof (configureExcludedDevices_reader ((unconstructedReader, w) : State)) as Hreader.
  cbv beta in Hreader. cbn [fst] in Hreader.
  destruct (stateOf (configureExcludedDevices (unconstructedReader, w))) as [r w1].
  cbn [fst] in Hreader. subst r.
  split; [constructor|]. split; [constructor|]. split; [left; reflexivity|].
  intros [].
Qed.

(** X8: whatever raw events the reader has handled since it was constructed,
    globalMetaState returns the meta states of the registered keyboards
    or-ed together: the cached value is never out of date. *)
Theorem globalMetaState_is_never_stale (rawEvents : list RawEvent.t) (w : World) :
  let s : State := stateOf (processAll rawEvents (newInputReader w)) in
  valueOf (globalMetaState s) = combinedMetaState (InputReader.mDevices (fst s)).
Proof.
  intros s.
  assert (readerFacts False s) as (_ & _ & Hcache & _).
  { eapply readerFacts_weaken;
      [|apply readerFacts_processAll_flag; apply readerFacts_newInputReader].
    intros []. }
  unfold globalMetaState. repeat (rewrite valueOf_bind || rewrite stateOf_bind).
  cbn [getReader valueOf stateOf fst snd ret].
  destruct (InputReader.mGlobalMetaState (fst s) =? -1) eqn:E.
  - reflexivity.
  - destruct Hcache as [H|H]; [rewrite H in E; discriminate E|exact H].
Qed.

(** X9: once the reader has notified a configuration change,
    getCurrentInputConfiguration returns the configuration of the devices
    that are registered, whatever raw events were handled before and after
    the notification. *)
Theorem exported_configuration_is_current (rawEvents : list RawEvent.t) (w : World) :
  let run := processAll rawEvents (newInputReader w) in
  existsb isConfigurationChanged (effectsOf run) = true ->
  valueOf (getCurrentInputConfiguration (stateOf run))
  = inputConfigurationOf (InputReader.mDevices (fst (stateOf run))).
Proof.
  intros run Hnotified.
  assert (readerFacts (False \/ existsb isConfigurationChanged (effectsOf run) = true)
            (stateOf run)) as (_ & _ & _ & Hconf).
  { apply readerFacts_processAll_flag. apply readerFacts_newInputReader. }
  apply Hconf. right. exact Hnotified.
Qed.

(** ** Events that are not of a device coming or going *)

Lemma map_keyedUpdate_same {B : Type} (view : Z * Device -> B) (l : list (Z * Device))
  (k : Z) (f : Device -> Device) :
  (forall k' d, view (k', f d) = view (k', d)) ->
  map view (keyedUpdate l k f) = map view l.
Proof.
  intros Hf. induction l as [|[k0 d0] l IH]; [reflexivity|].
  cbn [keyedUpdate]. destruct (k0 =? k); cbn [map].
  - rewrite Hf. reflexivity.
  - rewrite IH. reflexivity.
Qed.

Lemma identities_process (rawEvent : RawEvent.t) :
  RawEvent.type rawEvent <> DEVICE_ADDED -> RawEvent.type rawEvent <> DEVICE_REMOVED ->
  preserves (fun s s' => registeredIdentities s' = registeredIdentities s)
    (process rawEvent).
Proof.
  intros Hadd Hrem. apply fp_process_other; try assumption;
    first
      [ intros s; reflexivity
      | intros s1 s2 s3 H12 H23; congruence
      | intros r w0 w'; reflexivity
      | intros f r w0 Hf; unfold registeredIdentities; cbn [fst];
        destruct (Hf r) as (-> & _); reflexivity
      | intros deviceId f s Hf; unfold registeredIdentities, updateDevice;
        cbn [fst InputReader.set_mDevices InputReader.mDevices];
        apply map_keyedUpdate_same; intros k' d; unfold identityOf; cbn [fst snd];
        destruct (Hf d) as (-> & -> & -> & -> & _); reflexivity
      | intros s; unfold globalMetaState; rewrite !stateOf_bind;
        cbn [getReader valueOf stateOf fst snd ret];
        destruct (_ =? -1); reflexivity
      | intros s; rewrite updateExportedVirtualKeyState_run; reflexivity
      | intros deviceId newMetaState s; rewrite stateOf_bind;
        unfold registeredIdentities;
        cbn [resetGlobalMetaState modifyDevice modifyReader valueOf stateOf fst snd
             InputReader.set_mGlobalMetaState InputReader.set_mDevices
             InputReader.mDevices];
        apply map_keyedUpdate_same; intros k' d; reflexivity
      | intros deviceId when s; unfold registeredIdentities;
        cbn [modifyDevice modifyReader valueOf stateOf fst snd
             InputReader.set_mDevices InputReader.mDevices];
        apply map_keyedUpdate_same; intros k' d; reflexivity ].
Qed.

Lemma keyboards_process (rawEvent : RawEvent.t) :
  RawEvent.type rawEvent <> DEVICE_ADDED -> RawEvent.type rawEvent <> DEVICE_REMOVED ->
  RawEvent.type rawEvent <> EV_KEY ->
  preserves (fun s s' => registeredKeyboards s' = registeredKeyboards s)
    (process rawEvent).
Proof.
  intros Hadd Hrem Hkey. apply fp_process_other_than_key; try assumption;
    first
      [ intros s; reflexivity
      | intros s1 s2 s3 H12 H23; congruence
      | intros r w0 w'; reflexivity
      | intros f r w0 Hf; unfold registeredKeyboards; cbn [fst];
        destruct (Hf r) as (-> & _); reflexivity
      | intros deviceId f s Hf; unfold registeredKeyboards, updateDevice;
        cbn [fst InputReader.set_mDevices InputReader.mDevices];
        apply map_keyedUpdate_same; intros k' d; cbn [fst snd];
        destruct (Hf d) as (_ & _ & _ & _ & ->); reflexivity
      | intros s; unfold globalMetaState; rewrite !stateOf_bind;
        cbn [getReader valueOf stateOf fst snd ret];
        destruct (_ =? -1); reflexivity
      | intros s; rewrite updateExportedVirtualKeyState_run; reflexivity ].
Qed.

(** X10: a raw event that is not a device coming or going leaves every
    registered device with its id, classes, name and ignored flag, under the
    key it had, and notifies no configuration change; and unless it is a key
    event it leaves the meta state and the down time of every keyboard as
    they were. *)
Theorem other_events_keep_the_registry (rawEvent : RawEvent.t) (s : State) :
  RawEvent.type rawEvent <> DEVICE_ADDED -> RawEvent.type rawEvent <> DEVICE_REMOVED ->
  let r := process rawEvent s in
  registeredIdentities (stateOf r) = registeredIdentities s /\
  existsb isConfigurationChanged (effectsOf r) = false /\
  (RawEvent.type rawEvent <> EV_KEY ->
   registeredKeyboards (stateOf r) = registeredKeyboards s).
Proof.
  intros Hadd Hrem r. split; [|split].
  - apply (identities_process rawEvent Hadd Hrem s).
  - apply process_not_configuration; assumption.
  - intros Hkey. apply (keyboards_process rawEvent Hadd Hrem Hkey s).
Qed.

(** * Keys *)

Lemma keyedLookup_map {B : Type} (g : Device -> B) (l : list (Z * Device)) (k : Z) :
  keyedLookup (map (fun kv => (fst kv, g (snd kv))) l) k = option_map g (keyedLookup l k).
Proof.
  induction l as [|[k0 d0] l IH]; [reflexivity|].
  cbn [map keyedLookup fst snd]. destruct (k0 =? k); [reflexivity|exact IH].
Qed.

(** The refresh of the display properties leaves what the devices are
    registered as, and their keyboards. *)
Lemma refreshDisplayProperties_keeps (s : State) :
  registeredIdentities (stateOf (refreshDisplayProperties s)) = registeredIdentities s /\
  registeredKeyboards (stateOf (refreshDisplayProperties s)) = registeredKeyboards s.
Proof.
  revert s.
  apply fp_refreshDisplayProperties
    with (R := fun s s' : State =>
                 registeredIdentities s' = registeredIdentities s /\
                 registeredKeyboards s' = registeredKeyboards s).
  - intros s. split; reflexivity.
  - intros s1 s2 s3 [H1 H2] [H3 H4]. split; congruence.
  - intros r w w'. split; reflexivity.
  - intros f r w Hf. unfold registeredIdentities, registeredKeyboards. cbn [fst].
    destruct (Hf r) as (-> & _). split; reflexivity.
  - intros deviceId f s Hf. unfold registeredIdentities, registeredKeyboards, updateDevice.
    cbn [fst InputReader.set_mDevices InputReader.mDevices].
    split; apply map_keyedUpdate_same; intros k' d; unfold identityOf; cbn [fst snd];
      destruct (Hf d) as (H1 & H2 & H3 & H4 & H5); rewrite ?H1, ?H2, ?H3, ?H4, ?H5;
      reflexivity.
Qed.





Lemma refreshDisplayProperties_available (s : State)
  (info : Z * Z * Z) :
  fst (getDisplayInfo 0 (snd s)) = Some info ->
  valueOf (refreshDisplayProperties s) = true.
Proof.
  intros Hinfo. unfold refreshDisplayProperties.
  rewrite valueOf_bind, call_run. cbn [valueOf stateOf fst snd].
  rewrite Hinfo. destruct info as [[newWidth newHeight] newOrientation].
  repeat rewrite valueOf_bind. reflexivity.
Qed.




(** * The display properties *)

Lemma reconfigureDevice_display (deviceId : Z) (s : State) :
  let s' := stateOf (reconfigureDevice deviceId s) in
  InputReader.mDisplayWidth (fst s') = InputReader.mDisplayWidth (fst s) /\
  InputReader.mDisplayHeight (fst s') = InputReader.mDisplayHeight (fst s) /\
  InputReader.mDisplayOrientation (fst s') = InputReader.mDisplayOrientation (fst s).
Proof.
  destruct (reconfigureDevice_run deviceId s) as (w & pre & vks & eff & Hrun & _).
  rewrite Hrun. cbn [stateOf fst snd updateDevice]. repeat split.
Qed.

Lemma reconfigureAll_display (deviceIds : list Z) :
  forall s : State,
  let s' := stateOf (forEach deviceIds reconfigureDevice s) in
  InputReader.mDisplayWidth (fst s') = InputReader.mDisplayWidth (fst s) /\
  InputReader.mDisplayHeight (fst s') = InputReader.mDisplayHeight (fst s) /\
  InputReader.mDisplayOrientation (fst s') = InputReader.mDisplayOrientation (fst s).
Proof.
  induction deviceIds as [|deviceId rest IH]; intros s; cbn [forEach].
  - repeat split.
  - cbv zeta. rewrite stateOf_bind.
    destruct (IH (stateOf (reconfigureDevice deviceId s))) as (Hw & Hh & Ho).
    destruct (reconfigureDevice_display deviceId s) as (Hw' & Hh' & Ho').
    cbv zeta in *. repeat split; congruence.
Qed.

Lemma refresh_size (width height : Z) (s : State) :
  let r :=
    (if negb (width =? InputReader.mDisplayWidth (fst s))
        || negb (height =? InputReader.mDisplayHeight (fst s))
     then
       bind (modifyReader (InputReader.set_displaySize width height))
         (fun _ => forEach (map fst (InputReader.mDevices (fst s))) reconfigureDevice)
     else ret tt) s in
  InputReader.mDisplayWidth (fst (stateOf r)) = width /\
  InputReader.mDisplayHeight (fst (stateOf r)) = height /\
  InputReader.mDisplayOrientation (fst (stateOf r))
  = InputReader.mDisplayOrientation (fst s) /\
  (width = InputReader.mDisplayWidth (fst s) ->
   height = InputReader.mDisplayHeight (fst s) ->
   stateOf r = s /\ effectsOf r = []).
Proof.
  destruct (Z.eqb_spec width (InputReader.mDisplayWidth (fst s))) as [Hw|Hw];
    destruct (Z.eqb_spec height (InputReader.mDisplayHeight (fst s))) as [Hh|Hh];
    cbn [negb orb]; cbv zeta.
  1: { cbn [ret stateOf effectsOf fst snd]. repeat split; auto. }
  all: rewrite stateOf_bind;
    match goal with
    | |- context [forEach ?l reconfigureDevice ?s0] =>
        destruct (reconfigureAll_display l s0) as (Hw' & Hh' & Ho')
    end;
    cbv zeta in Hw', Hh', Ho'; rewrite Hw', Hh', Ho';
    cbn [modifyReader stateOf fst snd InputReader.set_displaySize InputReader.mDisplayWidth
         InputReader.mDisplayHeight InputReader.mDisplayOrientation];
    repeat split; intros; congruence.
Qed.

Lemma refresh_orientation (orientation : Z) (s : State) :
  let r :=
    (if negb (orientation =? InputReader.mDisplayOrientation (fst s))
     then modifyReader (InputReader.set_mDisplayOrientation orientation)
     else ret tt) s in
  InputReader.mDisplayWidth (fst (stateOf r)) = InputReader.mDisplayWidth (fst s) /\
  InputReader.mDisplayHeight (fst (stateOf r)) = InputReader.mDisplayHeight (fst s) /\
  InputReader.mDisplayOrientation (fst (stateOf r)) = orientation /\
  InputReader.mDevices (fst (stateOf r)) = InputReader.mDevices (fst s) /\
  effectsOf r = [].
Proof.
  destruct (Z.eqb_spec orientation (InputReader.mDisplayOrientation (fst s))) as [Ho|Ho];
    cbn [negb]; cbv zeta;
    cbn [modifyReader ret stateOf effectsOf fst snd InputReader.set_mDisplayOrientation
         InputReader.mDisplayWidth InputReader.mDisplayHeight
         InputReader.mDisplayOrientation InputReader.mDevices];
    repeat split; auto.
Qed.

(** What the refresh of the display properties leaves in the reader. *)
Lemma refreshDisplayProperties_result (s : State) :
  let r := refreshDisplayProperties s in
  let reader := fst (stateOf r) in
  match fst (getDisplayInfo 0 (snd s)) with
  | Some (width, height, orientation) =>
      valueOf r = true /\
      InputReader.mDisplayWidth reader = width /\
      InputReader.mDisplayHeight reader = height /\
      InputReader.mDisplayOrientation reader = orientation /\
      (width = InputReader.mDisplayWidth (fst s) ->
       height = InputReader.mDisplayHeight (fst s) ->
       InputReader.mDevices reader = InputReader.mDevices (fst s) /\ effectsOf r = [])
  | None =>
      valueOf r = false /\
      InputReader.mDisplayWidth reader = -1 /\
      InputReader.mDisplayHeight reader = -1 /\
      InputReader.mDisplayOrientation reader = -1 /\
      InputReader.mDevices reader = InputReader.mDevices (fst s) /\ effectsOf r = []
  end /\
  registeredIdentities (stateOf r) = registeredIdentities s /\
  registeredKeyboards (stateOf r) = registeredKeyboards s.
Proof.
  intros r reader. split; [|apply refreshDisplayProperties_keeps].
  subst reader r. unfold refreshDisplayProperties.
  rewrite bind_run, call_run. cbn [valueOf stateOf effectsOf fst snd app].
  destruct (getDisplayInfo 0 (snd s)) as [[[[width height] orientation]|] w1];
    cbn [fst snd].
  - set (s1 := (fst s, w1) : State).
    rewrite bind_run. cbn [getReader valueOf stateOf effectsOf fst snd app].
    rewrite bind_run.
    destruct (refresh_size width height s1) as (Hw & Hh & Ho & Hsame).
    cbv zeta in Hw, Hh, Ho, Hsame. cbn [fst snd s1] in Hw, Hh, Ho, Hsame.
    unfold s1.
    match goal with
    | |- context [stateOf (?m (fst s, w1))] => set (r1 := m (fst s, w1)) in *
    end.
    rewrite bind_run. cbn [getReader valueOf stateOf effectsOf fst snd app].
    rewrite bind_run.
    destruct (refresh_orientation orientation (stateOf r1)) as (Hw2 & Hh2 & Ho2 & Hd2 & He2).
    cbv zeta in Hw2, Hh2, Ho2, Hd2, He2.
    match goal with
    | |- context [stateOf (?m (stateOf r1))] => set (r2 := m (stateOf r1)) in *
    end.
    cbn [ret valueOf stateOf effectsOf fst snd app].
    rewrite He2, app_nil_r.
    split; [reflexivity|].
    split; [rewrite Hw2; exact Hw|]. split; [rewrite Hh2; exact Hh|].
    split; [exact Ho2|].
    intros Hsw Hsh. destruct (Hsame Hsw Hsh) as [Hs1 He1].
    change (stateOf r1 = (fst s, w1)) in Hs1. change (effectsOf r1 = []) in He1.
    rewrite Hd2, Hs1, He1. split; reflexivity.
  - rewrite bind_run. unfold resetDisplayProperties.
    cbn [modifyReader ret valueOf stateOf effectsOf fst snd app
         InputReader.set_mDisplayOrientation InputReader.set_displaySize
         InputReader.mDisplayWidth InputReader.mDisplayHeight
         InputReader.mDisplayOrientation InputReader.mDevices].
    repeat split.
Qed.

(** X12: refreshDisplayProperties answers whether the policy tells of a
    display.  If it tells of one whose width and height are above 0, or
    whose size is the one the reader already held, the refresh ends without
    a trap, the reader holds the width, height and orientation the policy
    told, and when the size is the one the reader already held no device is
    configured again and nothing is logged; if the policy tells of no
    display, the three properties are -1 and the devices are left alone.
    In these cases every device stays registered as it was, with its
    keyboard state. *)
Theorem refreshDisplayProperties_follows_policy (s : State) :
  let r := refreshDisplayProperties s in
  let reader := fst (stateOf r) in
  match fst (getDisplayInfo 0 (snd s)) with
  | Some (width, height, orientation) =>
      (0 < width /\ 0 < height) \/
      (width = InputReader.mDisplayWidth (fst s) /\
       height = InputReader.mDisplayHeight (fst s)) ->
      trapped (effectsOf r) = false /\
      valueOf r = true /\
      InputReader.mDisplayWidth reader = width /\
      InputReader.mDisplayHeight reader = height /\
      InputReader.mDisplayOrientation reader = orientation /\
      (width = InputReader.mDisplayWidth (fst s) ->
       height = InputReader.mDisplayHeight (fst s) ->
       InputReader.mDevices reader = InputReader.mDevices (fst s) /\ effectsOf r = []) /\
      registeredIdentities (stateOf r) = registeredIdentities s /\
      registeredKeyboards (stateOf r) = registeredKeyboards s
  | None =>
      effectsOf r = [] /\
      valueOf r = false /\
      InputReader.mDisplayWidth reader = -1 /\
      InputReader.mDisplayHeight reader = -1 /\
      InputReader.mDisplayOrientation reader = -1 /\
      InputReader.mDevices reader = InputReader.mDevices (fst s) /\
      registeredIdentities (stateOf r) = registeredIdentities s /\
      registeredKeyboards (stateOf r) = registeredKeyboards s
  end.
Proof.
  intros r reader.
  destruct (refreshDisplayProperties_result s) as (Hresult & Hidentities & Hkeyboards).
  fold r in Hresult, Hidentities, Hkeyboards. cbv zeta in Hresult. fold reader in Hresult.
  destruct (fst (getDisplayInfo 0 (snd s))) as [[[width height] orientation]|] eqn:Hinfo.
  - intros Hsize.
    destruct Hresult as (Hvalue & Hwidth & Hheight & Horientation & Hsame).
    split;
      [|split; [exact Hvalue|]; split; [exact Hwidth|]; split; [exact Hheight|];
        split; [exact Horientation|]; split; [exact Hsame|]; split; assumption].
    destruct Hsize as [[Hw Hh]|[Hw Hh]].
    + apply warnings_untrapped.
      exact (refreshDisplayProperties_quiet s Hinfo Hw Hh).
    + destruct (Hsame Hw Hh) as [_ Heffects]. rewrite Heffects. reflexivity.
  - destruct Hresult as (Hvalue & Hwidth & Hheight & Horientation & Hdevices & Heffects).
    repeat split; assumption.
Qed.

(** * The exported input configuration *)

Lemma inputConfigurationOf_fields (devices : list (Z * Device)) :
  inputConfigurationOf devices
  = {| InputConfiguration.touchScreen :=
         if hasClass INPUT_DEVICE_CLASS_TOUCHSCREEN devices
         then TOUCHSCREEN_FINGER else TOUCHSCREEN_NOTOUCH;
       InputConfiguration.keyboard :=
         if hasClass INPUT_DEVICE_CLASS_ALPHAKEY devices
         then KEYBOARD_QWERTY else KEYBOARD_NOKEYS;
       InputConfiguration.navigation := navigationOf devices |}.
Proof.
  induction devices as [|kv devices IH] using rev_ind; [reflexivity|].
  unfold inputConfigurationOf in *. rewrite fold_left_app. cbn [fold_left].
  rewrite IH. cbn [InputConfiguration.touchScreen InputConfiguration.keyboard
                   InputConfiguration.navigation].
  unfold hasClass, navigationOf, hasNavigation.
  rewrite !existsb_app, rev_app_distr. cbn [existsb rev app find].
  rewrite !orb_false_r.
  destruct (anySet (InputDevice.classes (snd kv)) INPUT_DEVICE_CLASS_TOUCHSCREEN);
    destruct (anySet (InputDevice.classes (snd kv)) INPUT_DEVICE_CLASS_ALPHAKEY);
    destruct (anySet (InputDevice.classes (snd kv)) INPUT_DEVICE_CLASS_TRACKBALL) eqn:Eball;
    destruct (anySet (InputDevice.classes (snd kv)) INPUT_DEVICE_CLASS_DPAD) eqn:Epad;
    rewrite ?orb_true_r, ?orb_false_r; cbn [orb]; rewrite ?Eball, ?Epad; reflexivity.
Qed.

(** X13: after updateExportedInputConfiguration, what
    getCurrentInputConfiguration returns describes the registered devices:
    a finger touch screen when some device has the touch-screen class, a
    QWERTY keyboard when some device has the alphabetic-key class, and the
    navigation of the last device of the registry that has a trackball or a
    DPAD (trackball if it has one), or none. *)
Theorem exported_configuration_describes_devices (s : State) :
  let devices := InputReader.mDevices (fst s) in
  valueOf (getCurrentInputConfiguration (stateOf (updateExportedInputConfiguration s)))
  = {| InputConfiguration.touchScreen :=
         if hasClass INPUT_DEVICE_CLASS_TOUCHSCREEN devices
         then TOUCHSCREEN_FINGER else TOUCHSCREEN_NOTOUCH;
       InputConfiguration.keyboard :=
         if hasClass INPUT_DEVICE_CLASS_ALPHAKEY devices
         then KEYBOARD_QWERTY else KEYBOARD_NOKEYS;
       InputConfiguration.navigation := navigationOf devices |}.
Proof.
  intros devices. subst devices. rewrite <- inputConfigurationOf_fields. reflexivity.
Qed.

(** * Reports of a multi-touch driver *)

Lemma nth_listSet_other {A : Type} (a : list A) (n i : nat) (v default : A) :
  i <> n -> nth i (listSet a n v) default = nth i a default.
Proof.
  revert n i. induction a as [|x a IH]; intros [|n] [|i] Hne; cbn [listSet nth];
    try reflexivity; try congruence.
  apply IH. congruence.
Qed.

(** An axis event of a multi-touch screen writes the slot being filled. *)
Lemma process_multiTouchAxis (rawEvent : RawEvent.t) (s : State) (device : Device) :
  RawEvent.type rawEvent = EV_ABS ->
  keyedLookup (InputReader.mDevices (fst s)) (RawEvent.deviceId rawEvent) = Some device ->
  InputDevice.ignored device = false ->
  InputDevice.isMultiTouchScreen device = true ->
  process rawEvent s
  = (tt,
     updateDevice (RawEvent.deviceId rawEvent)
       (mapMultiTouchAccumulator (fun a =>
          {| MultiTouchScreenState.pointerCount := MultiTouchScreenState.pointerCount a;
             MultiTouchScreenState.pointers :=
               arraySet (MultiTouchScreenState.pointers a)
                 (MultiTouchScreenState.pointerCount a)
                 (recordMultiTouchAxis (RawEvent.scanCode rawEvent)
                    (RawEvent.value rawEvent)
                    (arrayGet MultiTouchScreenState.zeroPointer
                       (MultiTouchScreenState.pointers a)
                       (MultiTouchScreenState.pointerCount a))) |})) s,
     []).
Proof.
  intros Htype Hd Hig Hmt. unfold process. cbv zeta. rewrite Htype.
  cbn [Z.eqb Pos.eqb DEVICE_ADDED DEVICE_REMOVED EV_SYN EV_KEY EV_REL EV_ABS].
  unfold handleAbsoluteMotion. cbv zeta.
  rewrite bind_run, getNonIgnoredDevice_run, Hd, Hig.
  cbn [negb valueOf stateOf effectsOf fst snd app]. rewrite Hmt.
  rewrite modifyDevice_run. reflexivity.
Qed.

Lemma recorded_slot (ps : list MultiTouchScreenState.Pointer) (n : nat)
  (p : MultiTouchScreenState.Pointer) (scanCode value : Z) :
  (n < length ps)%nat ->
  arraySet (listSet ps n p) (Z.of_nat n)
    (recordMultiTouchAxis scanCode value
       (arrayGet MultiTouchScreenState.zeroPointer (listSet ps n p) (Z.of_nat n)))
  = listSet ps n (recordMultiTouchAxis scanCode value p).
Proof.
  intros Hn. rewrite arraySet_nat, arrayGet_nat, nth_listSet, listSet_listSet.
  apply Nat.ltb_lt in Hn. rewrite Hn. reflexivity.
Qed.

Lemma listSet_same {A : Type} (a : list A) (n : nat) (default : A) :
  listSet a n (nth n a default) = a.
Proof.
  revert n. induction a as [|x a IH]; intros [|n]; cbn [listSet nth]; try reflexivity.
  rewrite IH. reflexivity.
Qed.

(** The loop invariant of a report: the device is registered, a multi-touch
    screen that is not ignored, and its accumulator counts [n] pointers and
    holds [p] in the slot being filled. *)
Lemma axis_step (rawEvent : RawEvent.t) (s : State) (device : Device)
  (ps : list MultiTouchScreenState.Pointer) (n : nat) (p : MultiTouchScreenState.Pointer) :
  RawEvent.type rawEvent = EV_ABS ->
  keyedLookup (InputReader.mDevices (fst s)) (RawEvent.deviceId rawEvent) = Some device ->
  InputDevice.ignored device = false ->
  InputDevice.isMultiTouchScreen device = true ->
  MultiTouchScreenState.accumulator (InputDevice.multiTouchScreen device)
  = {| MultiTouchScreenState.pointerCount := Z.of_nat n;
       MultiTouchScreenState.pointers := listSet ps n p |} ->
  (n < length ps)%nat ->
  exists device',
    process rawEvent s
    = (tt, updateDevice (RawEvent.deviceId rawEvent) (fun _ => device') s, []) /\
    InputDevice.ignored device' = false /\
    InputDevice.isMultiTouchScreen device' = true /\
    MultiTouchScreenState.accumulator (InputDevice.multiTouchScreen device')
    = {| MultiTouchScreenState.pointerCount := Z.of_nat n;
         MultiTouchScreenState.pointers :=
           listSet ps n
             (recordMultiTouchAxis (RawEvent.scanCode rawEvent) (RawEvent.value rawEvent)
                p) |}.
Proof.
  intros Htype Hd Hig Hmt Hacc Hn.
  rewrite (process_multiTouchAxis rawEvent s Htype Hd Hig Hmt).
  eexists. split.
  - f_equal. f_equal. unfold updateDevice. f_equal. f_equal.
    apply keyedUpdate_ext_lookup. intros v Hv. rewrite Hd in Hv. injection Hv as <-.
    reflexivity.
  - split; [exact Hig|]. split; [exact Hmt|].
    unfold mapMultiTouchAccumulator, setMultiTouchAccumulator.
    cbn [InputDevice.multiTouchScreen InputDevice.set_multiTouchScreen
         MultiTouchScreenState.accumulator].
    rewrite Hacc.
    cbn [MultiTouchScreenState.pointerCount MultiTouchScreenState.pointers].
    rewrite recorded_slot by exact Hn. reflexivity.
Qed.

Lemma lookup_updated (deviceId : Z) (s : State) (device device' : Device) :
  keyedLookup (InputReader.mDevices (fst s)) deviceId = Some device ->
  keyedLookup (InputReader.mDevices (fst (updateDevice deviceId (fun _ => device') s)))
    deviceId = Some device'.
Proof.
  intros Hd. unfold updateDevice. cbn [fst InputReader.set_mDevices InputReader.mDevices].
  rewrite keyedLookup_update_same, Hd. reflexivity.
Qed.

Lemma keyedUpdate_twice {A : Type} (l : list (Z * A)) (k : Z) (f g : A -> A) :
  keyedUpdate (keyedUpdate l k f) k g = keyedUpdate l k (fun v => g (f v)).
Proof.
  induction l as [|[k0 v0] l IH]; [reflexivity|].
  cbn [keyedUpdate]. destruct (k0 =? k) eqn:E; cbn [keyedUpdate]; rewrite E.
  - reflexivity.
  - rewrite IH. reflexivity.
Qed.

(** SYN_MT_REPORT counts the slot that was filled and clears the next
    one. *)
Lemma report_step (rawEvent : RawEvent.t) (s : State) (device : Device)
  (a : MultiTouchScreenState.Accumulator) :
  RawEvent.type rawEvent = EV_SYN ->
  RawEvent.scanCode rawEvent = SYN_MT_REPORT ->
  keyedLookup (InputReader.mDevices (fst s)) (RawEvent.deviceId rawEvent) = Some device ->
  InputDevice.ignored device = false ->
  InputDevice.isMultiTouchScreen device = true ->
  MultiTouchScreenState.accumulator (InputDevice.multiTouchScreen device) = a ->
  MultiTouchScreenState.fields
    (arrayGet MultiTouchScreenState.zeroPointer (MultiTouchScreenState.pointers a)
       (MultiTouchScreenState.pointerCount a)) <> 0 ->
  MultiTouchScreenState.pointerCount a <> MAX_POINTERS ->
  process rawEvent s
  = (tt,
     updateDevice (RawEvent.deviceId rawEvent)
       (fun _ =>
          setMultiTouchAccumulator
            (clearPointerAt (MultiTouchScreenState.pointerCount a + 1)
               (setPointerCount (MultiTouchScreenState.pointerCount a + 1) a))
            device) s,
     []).
Proof.
  intros Htype Hscan Hd Hig Hmt Hacc Hfields Hmax. unfold process. cbv zeta. rewrite Htype.
  cbn [Z.eqb Pos.eqb DEVICE_ADDED DEVICE_REMOVED EV_SYN].
  unfold handleSync. cbv zeta.
  rewrite bind_run, getNonIgnoredDevice_run, Hd, Hig.
  cbn [negb valueOf stateOf effectsOf fst snd app]. rewrite Hscan.
  cbn [Z.eqb Pos.eqb SYN_MT_REPORT].
  rewrite bind_run, (deref_run _ s Hd).
  cbn [valueOf stateOf effectsOf fst snd app]. rewrite Hmt, Hacc.
  apply Z.eqb_neq in Hfields, Hmax. rewrite Hfields, Hmax. cbn [negb].
  assert (keyedUpdate
            (keyedUpdate (InputReader.mDevices (fst s)) (RawEvent.deviceId rawEvent)
               (mapMultiTouchAccumulator
                  (setPointerCount (MultiTouchScreenState.pointerCount a + 1))))
            (RawEvent.deviceId rawEvent)
            (mapMultiTouchAccumulator
               (clearPointerAt (MultiTouchScreenState.pointerCount a + 1)))
          = keyedUpdate (InputReader.mDevices (fst s)) (RawEvent.deviceId rawEvent)
              (fun _ =>
                 setMultiTouchAccumulator
                   (clearPointerAt (MultiTouchScreenState.pointerCount a + 1)
                      (setPointerCount (MultiTouchScreenState.pointerCount a + 1) a))
                   device)) as Hupd.
  { rewrite keyedUpdate_twice.
    apply keyedUpdate_ext_lookup. intros v Hv. rewrite Hd in Hv. injection Hv as <-.
    unfold mapMultiTouchAccumulator, setMultiTouchAccumulator.
    cbn [InputDevice.multiTouchScreen InputDevice.set_multiTouchScreen
         MultiTouchScreenState.accumulator]. rewrite Hacc.
    destruct device. reflexivity. }
  rewrite !bind_run, !modifyDevice_run.
  cbn [ret valueOf stateOf effectsOf fst snd app].
  unfold updateDevice. rewrite <- Hupd.
  destruct s as [[devices dw dh dor gm vk vs ic] w]. reflexivity.
Qed.

Lemma trackingId_marked (fields : Z) :
  anySet (Z.lor fields MultiTouchScreenState.FIELD_ABS_MT_TRACKING_ID)
    MultiTouchScreenState.FIELD_ABS_MT_TRACKING_ID = true.
Proof.
  change MultiTouchScreenState.FIELD_ABS_MT_TRACKING_ID with (2 ^ 4).
  rewrite anySet_bit by lia. rewrite Z.lor_spec. apply orb_true_r.
Qed.

Lemma processAll_cons (rawEvent : RawEvent.t) (rest : list RawEvent.t) (s s' : State) :
  process rawEvent s = (tt, s', []) ->
  processAll (rawEvent :: rest) s = processAll rest s'.
Proof.
  intros H. cbn [processAll]. rewrite bind_run, H.
  cbn [valueOf stateOf effectsOf fst snd app].
  destruct (processAll rest s') as [[u s''] e]. destruct u. reflexivity.
Qed.

(** X14: when a multi-touch driver reports a pointer (position, touch major,
    width major and tracking id, then SYN_MT_REPORT) and the accumulator of
    the screen counts fewer than MAX_POINTERS pointers, the accumulator
    counts one pointer more: the pointers counted before are as they were,
    and the new one has the reported position, touch major, width major and
    tracking id, marked as given.  Nothing is dispatched or logged. *)
Theorem pointer_report_is_counted
  (deviceId when x y touchMajor widthMajor trackingId : Z) (s : State) (device : Device) :
  keyedLookup (InputReader.mDevices (fst s)) deviceId = Some device ->
  InputDevice.ignored device = false ->
  InputDevice.isMultiTouchScreen device = true ->
  let acc := MultiTouchScreenState.accumulator (InputDevice.multiTouchScreen device) in
  0 <= MultiTouchScreenState.pointerCount acc < MAX_POINTERS ->
  (Z.to_nat (MultiTouchScreenState.pointerCount acc)
   < length (MultiTouchScreenState.pointers acc))%nat ->
  let r :=
    processAll (pointerReport deviceId when x y touchMajor widthMajor trackingId) s in
  effectsOf r = [] /\
  exists (device' : Device) (slot : MultiTouchScreenState.Pointer),
    keyedLookup (InputReader.mDevices (fst (stateOf r))) deviceId = Some device' /\
    let acc' := MultiTouchScreenState.accumulator (InputDevice.multiTouchScreen device') in
    MultiTouchScreenState.pointerCount acc' = MultiTouchScreenState.pointerCount acc + 1 /\
    countedSlots acc' = countedSlots acc ++ [slot] /\
    slotGeometry slot = (x, y, touchMajor, widthMajor) /\
    MultiTouchScreenState.absMTTrackingId slot = trackingId /\
    anySet (MultiTouchScreenState.fields slot)
      MultiTouchScreenState.FIELD_ABS_MT_TRACKING_ID = true.
Proof.
  intros Hd Hig Hmt acc Hcount Hlen r.
  destruct acc as [count ps] eqn:Hacc. subst acc.
  cbn [MultiTouchScreenState.pointerCount MultiTouchScreenState.pointers] in *.
  set (n := Z.to_nat count) in *.
  assert (count = Z.of_nat n) as Hn by (unfold n; lia).
  set (p0 := nth n ps MultiTouchScreenState.zeroPointer).
  assert (MultiTouchScreenState.accumulator (InputDevice.multiTouchScreen device)
          = {| MultiTouchScreenState.pointerCount := Z.of_nat n;
               MultiTouchScreenState.pointers := listSet ps n p0 |}) as Hacc0.
  { unfold p0. rewrite listSet_same, Hacc, Hn. reflexivity. }
  pose (ev := fun type scanCode value : Z =>
               {| RawEvent.deviceId := deviceId; RawEvent.type := type;
                  RawEvent.scanCode := scanCode; RawEvent.keyCode := 0;
                  RawEvent.flags := 0; RawEvent.value := value;
                  RawEvent.when := when |}).
  change (pointerReport deviceId when x y touchMajor widthMajor trackingId)
    with [ ev EV_ABS ABS_MT_POSITION_X x; ev EV_ABS ABS_MT_POSITION_Y y;
           ev EV_ABS ABS_MT_TOUCH_MAJOR touchMajor; ev EV_ABS ABS_MT_WIDTH_MAJOR widthMajor;
           ev EV_ABS ABS_MT_TRACKING_ID trackingId; ev EV_SYN SYN_MT_REPORT 0 ] in r.
  (* the five axis events *)
  destruct (@axis_step (ev EV_ABS ABS_MT_POSITION_X x) s device ps n p0
              eq_refl Hd Hig Hmt Hacc0 Hlen) as (d1 & Hrun1 & Hig1 & Hmt1 & Hacc1).
  pose proof (lookup_updated deviceId s d1 Hd) as Hd1.
  set (s1 := updateDevice deviceId (fun _ => d1) s) in *.
  destruct (@axis_step (ev EV_ABS ABS_MT_POSITION_Y y) s1 d1 ps n _
              eq_refl Hd1 Hig1 Hmt1 Hacc1 Hlen) as (d2 & Hrun2 & Hig2 & Hmt2 & Hacc2).
  pose proof (lookup_updated deviceId s1 d2 Hd1) as Hd2.
  set (s2 := updateDevice deviceId (fun _ => d2) s1) in *.
  destruct (@axis_step (ev EV_ABS ABS_MT_TOUCH_MAJOR touchMajor) s2 d2 ps n _
              eq_refl Hd2 Hig2 Hmt2 Hacc2 Hlen) as (d3 & Hrun3 & Hig3 & Hmt3 & Hacc3).
  pose proof (lookup_updated deviceId s2 d3 Hd2) as Hd3.
  set (s3 := updateDevice deviceId (fun _ => d3) s2) in *.
  destruct (@axis_step (ev EV_ABS ABS_MT_WIDTH_MAJOR widthMajor) s3 d3 ps n _
              eq_refl Hd3 Hig3 Hmt3 Hacc3 Hlen) as (d4 & Hrun4 & Hig4 & Hmt4 & Hacc4).
  pose proof (lookup_updated deviceId s3 d4 Hd3) as Hd4.
  set (s4 := updateDevice deviceId (fun _ => d4) s3) in *.
  destruct (@axis_step (ev EV_ABS ABS_MT_TRACKING_ID trackingId) s4 d4 ps n _
              eq_refl Hd4 Hig4 Hmt4 Hacc4 Hlen) as (d5 & Hrun5 & Hig5 & Hmt5 & Hacc5).
  pose proof (lookup_updated deviceId s4 d5 Hd4) as Hd5.
  set (s5 := updateDevice deviceId (fun _ => d5) s4) in *.
  (* the slot as the five events leave it *)
  cbn [ev RawEvent.scanCode RawEvent.value RawEvent.deviceId] in Hacc5.
  cbv beta iota zeta delta
      [recordMultiTouchAxis Z.eqb Pos.eqb ABS_MT_POSITION_X ABS_MT_POSITION_Y
       ABS_MT_TOUCH_MAJOR ABS_MT_WIDTH_MAJOR ABS_MT_TRACKING_ID
       MultiTouchScreenState.fields MultiTouchScreenState.absMTPositionX
       MultiTouchScreenState.absMTPositionY MultiTouchScreenState.absMTTouchMajor
       MultiTouchScreenState.absMTWidthMajor MultiTouchScreenState.absMTTrackingId]
    in Hacc5.
  match type of Hacc5 with
  | _ = {| MultiTouchScreenState.pointerCount := _;
           MultiTouchScreenState.pointers := listSet ps n ?p |} => set (slot := p) in *
  end.
  assert (anySet (MultiTouchScreenState.fields slot)
            MultiTouchScreenState.FIELD_ABS_MT_TRACKING_ID = true) as Hmarked
    by apply trackingId_marked.
  assert (arrayGet MultiTouchScreenState.zeroPointer (listSet ps n slot) (Z.of_nat n) = slot)
    as Hslot.
  { rewrite arrayGet_nat, nth_listSet. apply Nat.ltb_lt in Hlen. rewrite Hlen. reflexivity. }
  (* SYN_MT_REPORT *)
  pose proof (@report_step (ev EV_SYN SYN_MT_REPORT 0) s5 d5 _
                eq_refl eq_refl Hd5 Hig5 Hmt5 Hacc5) as Hrun6.
  cbn [MultiTouchScreenState.pointerCount MultiTouchScreenState.pointers] in Hrun6.
  rewrite Hslot in Hrun6.
  specialize (Hrun6 ltac:(intros Hzero; unfold anySet in Hmarked; rewrite Hzero in Hmarked;
                           discriminate Hmarked)
                    ltac:(unfold MAX_POINTERS in *; lia)).
  cbn [ev RawEvent.deviceId] in Hrun1, Hrun2, Hrun3, Hrun4, Hrun5, Hrun6.
  fold (ev EV_ABS ABS_MT_POSITION_X x) in Hrun1.
  subst r.
  rewrite (@processAll_cons _ _ _ _ Hrun1), (@processAll_cons _ _ _ _ Hrun2),
    (@processAll_cons _ _ _ _ Hrun3), (@processAll_cons _ _ _ _ Hrun4),
    (@processAll_cons _ _ _ _ Hrun5), (@processAll_cons _ _ _ _ Hrun6).
  cbn [processAll ret stateOf effectsOf fst snd].
  split; [reflexivity|].
  eexists. exists slot. split; [apply (lookup_updated deviceId s5 _ Hd5)|].
  cbv zeta. unfold setMultiTouchAccumulator.
  cbn [InputDevice.multiTouchScreen InputDevice.set_multiTouchScreen
       MultiTouchScreenState.accumulator clearPointerAt setPointerCount
       MultiTouchScreenState.pointerCount MultiTouchScreenState.pointers].
  split; [lia|]. split.
  - unfold countedSlots.
    cbn [clearPointerAt setPointerCount MultiTouchScreenState.pointerCount
         MultiTouchScreenState.pointers].
    replace (Z.to_nat (Z.of_nat n + 1)) with (S n) by lia. fold n.
    rewrite seq_S, map_app. cbn [map Nat.add]. f_equal.
    + apply map_ext_in. intros i Hi. apply in_seq in Hi.
      replace (Z.of_nat n + 1) with (Z.of_nat (S n)) by lia.
      rewrite arraySet_nat, !arrayGet_nat, !nth_listSet_other by lia. reflexivity.
    + replace (Z.of_nat n + 1) with (Z.of_nat (S n)) by lia.
      rewrite arraySet_nat, arrayGet_nat, nth_listSet_other by lia.
      rewrite <- arrayGet_nat, Hslot. reflexivity.
  - repeat split. exact Hmarked.
Qed.

(** * The trackball *)





(** * The last frame *)

Ltac identities_premise :=
  first
    [ intros ?; reflexivity
    | intros ? ? ? ? ?; congruence
    | intros ? ? ?; reflexivity
    | let f := fresh "f" in
      let r := fresh "r" in
      let w0 := fresh "w" in
      let Hf := fresh "Hf" in
      intros f r w0 Hf; unfold registeredIdentities; cbn [fst];
      destruct (Hf r) as (-> & _); reflexivity
    | let f := fresh "f" in
      let Hf := fresh "Hf" in
      let d := fresh "d" in
      intros ? f ? Hf; unfold registeredIdentities, updateDevice;
      cbn [fst InputReader.set_mDevices InputReader.mDevices];
      apply map_keyedUpdate_same; intros ? d; unfold identityOf; cbn [fst snd];
      destruct (Hf d) as (-> & -> & -> & -> & _); reflexivity
    | intros ?; unfold globalMetaState; rewrite !stateOf_bind;
      cbn [getReader valueOf stateOf fst snd ret];
      destruct (_ =? -1); reflexivity
    | intros ?; rewrite updateExportedVirtualKeyState_run; reflexivity ].

Lemma identities_applyFilter (deviceId : Z)
  (filter : TouchScreenState.t FilterState -> bool * TouchData.t * FilterState) :
  preserves (fun s s' : State => registeredIdentities s' = registeredIdentities s)
    (applyFilter deviceId filter).
Proof. apply fp_applyFilter; identities_premise. Qed.

Lemma identities_applyHook (deviceId : Z)
  (hook : TouchScreenState.t FilterState -> TouchData.t * FilterState) :
  preserves (fun s s' : State => registeredIdentities s' = registeredIdentities s)
    (applyHook deviceId hook).
Proof. apply fp_applyHook; identities_premise. Qed.

Lemma identities_consumeVirtualKeyTouches (when deviceId policyFlags : Z) :
  preserves (fun s s' : State => registeredIdentities s' = registeredIdentities s)
    (consumeVirtualKeyTouches when deviceId policyFlags).
Proof. apply fp_consumeVirtualKeyTouches; identities_premise. Qed.

Lemma identities_dispatchTouches (when deviceId policyFlags : Z) :
  preserves (fun s s' : State => registeredIdentities s' = registeredIdentities s)
    (dispatchTouches when deviceId policyFlags).
Proof. apply fp_dispatchTouches; identities_premise. Qed.

Lemma identities_registered (s s' : State) (deviceId : Z) (device : Device) :
  registeredIdentities s' = registeredIdentities s ->
  keyedLookup (InputReader.mDevices (fst s)) deviceId = Some device ->
  exists device', keyedLookup (InputReader.mDevices (fst s')) deviceId = Some device'.
Proof.
  intros Hids Hd. apply (f_equal (fun l => keyedLookup l deviceId)) in Hids.
  unfold registeredIdentities in Hids.
  rewrite !(keyedLookup_map identityOf) in Hids. rewrite Hd in Hids.
  destruct (keyedLookup (InputReader.mDevices (fst s')) deviceId) as [device'|];
    [exists device'; reflexivity|discriminate Hids].
Qed.

Lemma identities_onTouchScreenChanged (when deviceId : Z) (havePointerIds : bool) :
  preserves (fun s s' : State => registeredIdentities s' = registeredIdentities s)
    (onTouchScreenChanged when deviceId havePointerIds).
Proof. apply fp_onTouchScreenChanged; identities_premise. Qed.

(** What holds of the state after [k], whatever [m] did. *)
Lemma after_bind {A B : Type} (Q : State -> Prop) (m : M A) (k : A -> M B) (s : State) :
  (forall a s', Q (stateOf (k a s'))) -> Q (stateOf (bind m k s)).
Proof. intros H. rewrite stateOf_bind. apply H. Qed.

(** X16: when the policy lets a touch frame through and the device does not
    use the averaging filter, the frame that was handled is the last frame of
    the device afterwards: lastTouch equals currentTouch, whatever the
    filters, the virtual keys and the dispatch did with the frame. *)
Theorem handled_frame_becomes_last_touch (when deviceId : Z) (havePointerIds : bool)
  (s : State) (device : Device) :
  keyedLookup (InputReader.mDevices (fst s)) deviceId = Some device ->
  anySet (fst (interceptTouch when (snd s))) ACTION_DISPATCH = true ->
  TouchScreenState.useAveragingTouchFilter
    (TouchScreenState.parameters (InputDevice.touchScreen device)) = false ->
  exists device',
    keyedLookup
      (InputReader.mDevices
         (fst (stateOf (onTouchScreenChanged when deviceId havePointerIds s))))
      deviceId = Some device' /\
    TouchScreenState.lastTouch (InputDevice.touchScreen device')
    = TouchScreenState.currentTouch (InputDevice.touchScreen device').
Proof.
  intros Hd Hdispatch Havg.
  pose proof (identities_onTouchScreenChanged when deviceId havePointerIds s) as Hids.
  cbv beta in Hids.
  edestruct identities_registered as (device' & Hd'); [exact Hids|exact Hd|].
  exists device'. split; [exact Hd'|].
  revert device' Hd'. unfold onTouchScreenChanged.
  rewrite stateOf_bind, call_run. cbn [valueOf stateOf fst snd].
  rewrite stateOf_bind, applyStandardInputDispatchPolicyActions_run.
  cbn [valueOf stateOf fst snd]. rewrite Hdispatch. cbn [negb].
  set (s0 := (fst s, snd (interceptTouch when (snd s))) : State).
  assert (keyedLookup (InputReader.mDevices (fst s0)) deviceId = Some device) as Hd0
    by exact Hd.
  rewrite stateOf_bind, (deref_run deviceId s0 Hd0). cbn [valueOf stateOf fst snd].
  cbv zeta. rewrite Havg.
  apply (after_bind
           (fun S : State =>
              forall d, keyedLookup (InputReader.mDevices (fst S)) deviceId = Some d ->
                        TouchScreenState.lastTouch (InputDevice.touchScreen d)
                        = TouchScreenState.currentTouch (InputDevice.touchScreen d))).
  intros have1 s1. apply after_bind. intros have2 s2. apply after_bind. intros u s3.
  rewrite stateOf_bind. cbn [ret valueOf stateOf fst snd].
  apply after_bind. intros consumed s4. apply after_bind. intros u' s5.
  unfold modifyTouchScreen. rewrite modifyDevice_run.
  cbn [stateOf fst snd InputReader.set_mDevices InputReader.mDevices].
  rewrite keyedLookup_update_same. intros d Hfinal.
  destruct (keyedLookup (InputReader.mDevices (fst s5)) deviceId) as [d5|];
    [|discriminate Hfinal].
  cbn [option_map] in Hfinal. injection Hfinal as <-. reflexivity.
Qed.

(** * A held virtual key takes the touches *)

Lemma hoare_bind {A B : Type} (ok : Effect -> bool) (P : State -> Prop) (m : M A)
  (Q : A -> State -> Prop) (k : A -> M B) (Q' : B -> State -> Prop) :
  hoare ok P m Q -> (forall a, hoare ok (Q a) (k a) Q') -> hoare ok P (bind m k) Q'.
Proof.
  intros Hm Hk s HP. destruct (Hm s HP) as [HQ Hok].
  destruct (Hk _ _ HQ) as [HQ' Hok'].
  rewrite valueOf_bind, stateOf_bind, effectsOf_bind, forallb_app, Hok, Hok'.
  split; [exact HQ'|reflexivity].
Qed.

(** A computation that keeps [P] and has effects of the kind [ok] only. *)
Lemma hoare_frame {A : Type} (ok : Effect -> bool) (P : State -> Prop) (m : M A) :
  preserves (fun s s' => P s -> P s') m -> effectsAll ok m ->
  hoare ok P m (fun _ => P).
Proof. intros Hp He s HP. split; [exact (Hp s HP)|apply He]. Qed.

Lemma hoare_effects {A : Type} (ok : Effect -> bool) (P : State -> Prop) (m : M A) :
  effectsAll ok m -> hoare ok P m (fun _ _ => True).
Proof. intros He s _. split; [exact I|apply He]. Qed.

Lemma held_device (deviceId key : Z) (f : Device -> Device) (s : State) :
  devFrame f -> virtualKeyHeld key s -> virtualKeyHeld key (updateDevice deviceId f s).
Proof.
  intros [_ Hf] (d & Hd & Hstatus). unfold virtualKeyHeld, updateDevice. cbn.
  destruct (Z.eq_dec deviceId key) as [->|Hne].
  - exists (f d). rewrite keyedLookup_update_same, Hd. split; [reflexivity|].
    unfold virtualKeyStatus in *. destruct (Hf d) as [-> _]. exact Hstatus.
  - exists d. rewrite keyedLookup_update_other by congruence. split; assumption.
Qed.

Ltac held_premise :=
  first [ solve [intros; assumption]
        | solve [intros ? ? ? H12 H23 H; apply H23, H12, H]
        | solve [intros ? ? ? H; exact H]
        | solve [intros ? ? ? ? [_ Hf] (d & Hd & Hstatus); exists d;
                 split; [cbn in *; rewrite ?Hf; exact Hd|exact Hstatus]]
        | solve [intros; apply held_device; assumption] ].

(** Whatever the touches are, a held virtual key consumes them. *)
Lemma consumeVirtualKeyTouches_held (when deviceId policyFlags : Z) (s : State) :
  virtualKeyHeld deviceId s ->
  valueOf (consumeVirtualKeyTouches when deviceId policyFlags s) = true.
Proof.
  intros (d & Hd & Hstatus). unfold consumeVirtualKeyTouches, virtualKeyStatus in *.
  rewrite valueOf_bind, (deref_run _ _ Hd). cbn [valueOf stateOf fst snd]. cbv zeta.
  destruct Hstatus as [-> | ->].
  - destruct (_ =? 0).
    + rewrite !valueOf_bind. reflexivity.
    + destruct (if _ =? 1 then _ else _); [reflexivity|].
      rewrite !valueOf_bind. reflexivity.
  - rewrite valueOf_bind. reflexivity.
Qed.

(** X17: while the virtual key of a touch screen is held - down, or canceled
    and not yet released - no touch frame of the device reaches the dispatcher
    as a motion event, whatever the frame holds and whatever the policy and
    the filters do: the key consumes the touches. *)
Theorem held_virtual_key_takes_the_touches (when deviceId : Z) (havePointerIds : bool)
  (s : State) :
  virtualKeyHeld deviceId s ->
  forallb (fun e => negb (isMotion e))
    (effectsOf (onTouchScreenChanged when deviceId havePointerIds s)) = true.
Proof.
  intros Hheld.
  set (ok := fun e => negb (isMotion e)).
  assert (forall A (m : M A), preserves (fun s s' => virtualKeyHeld deviceId s ->
                                 virtualKeyHeld deviceId s') m ->
            effectsAll ok m -> hoare ok (virtualKeyHeld deviceId) m
                                 (fun _ => virtualKeyHeld deviceId)) as Hframe.
  { intros A m. apply hoare_frame. }
  assert (hoare ok (virtualKeyHeld deviceId)
            (onTouchScreenChanged when deviceId havePointerIds) (fun _ _ => True)) as H.
  { unfold onTouchScreenChanged.
    eapply hoare_bind; [apply Hframe; [apply pres_call; held_premise|apply effectsAll_call]|].
    intros policyActions.
    eapply hoare_bind.
    { apply Hframe.
      - apply pres_applyStandardInputDispatchPolicyActions; held_premise.
      - apply ef_applyStandardInputDispatchPolicyActions; intros; reflexivity. }
    intros [dispatch flags].
    destruct (negb dispatch).
    { apply hoare_effects, effectsAll_silent. reflexivity. }
    eapply hoare_bind;
      [apply Hframe; [apply pres_deref; held_premise|apply effectsAll_silent; reflexivity]|].
    intros device. cbv zeta.
    eapply hoare_bind.
    { apply Hframe.
      - destruct (TouchScreenState.useBadTouchFilter _); [|apply pres_ret; held_premise].
        apply pres_bind; [held_premise|apply pres_applyFilter; held_premise|].
        intros c. apply pres_ret; held_premise.
      - destruct (TouchScreenState.useBadTouchFilter _); [|apply effectsAll_ret].
        apply effectsAll_bind; [apply ef_applyFilter|intros c; apply effectsAll_ret]. }
    intros have1. eapply hoare_bind.
    { apply Hframe.
      - destruct (TouchScreenState.useJumpyTouchFilter _); [|apply pres_ret; held_premise].
        apply pres_bind; [held_premise|apply pres_applyFilter; held_premise|].
        intros c. apply pres_ret; held_premise.
      - destruct (TouchScreenState.useJumpyTouchFilter _); [|apply effectsAll_ret].
        apply effectsAll_bind; [apply ef_applyFilter|intros c; apply effectsAll_ret]. }
    intros have2. eapply hoare_bind.
    { apply Hframe.
      - destruct (negb have2); [apply pres_applyHook|apply pres_ret]; held_premise.
      - destruct (negb have2); [apply ef_applyHook|apply effectsAll_ret]. }
    intros u. eapply hoare_bind.
    { apply Hframe.
      - destruct (TouchScreenState.useAveragingTouchFilter _); [|apply pres_ret; held_premise].
        apply pres_bind; [held_premise|apply pres_deref; held_premise|intros d].
        apply pres_bind; [held_premise|apply pres_applyHook; held_premise|intros _].
        apply pres_ret; held_premise.
      - destruct (TouchScreenState.useAveragingTouchFilter _); [|apply effectsAll_ret].
        apply effectsAll_bind; [apply effectsAll_silent; reflexivity|intros d].
        apply effectsAll_bind; [apply ef_applyHook|intros _; apply effectsAll_ret]. }
    intros savedTouch.
    apply hoare_bind with (Q := fun consumed _ => consumed = true).
    { intros s' Hs'. split; [apply consumeVirtualKeyTouches_held; exact Hs'|].
      apply ef_consumeVirtualKeyTouches; intros; reflexivity. }
    intros [|] s' Hconsumed; [|discriminate Hconsumed]. split; [exact I|]. cbn [negb].
    apply effectsAll_bind; [apply effectsAll_ret|intros _].
    apply effectsAll_silent. reflexivity. }
  exact (proj2 (H s Hheld)).
Qed.

(** * Switches *)


(** * Reports of a trackball *)





(** * What a touch frame leaves alone *)

(** A touch frame writes the touch screen of its device, the cache of the
    global meta state and the exported virtual key.  A relation kept by
    these writes is kept by [onTouchScreenChanged]. *)

Section TouchFootprint.

Variable R : State -> State -> Prop.
Hypothesis T_refl : forall s, R s s.
Hypothesis T_trans : forall s1 s2 s3, R s1 s2 -> R s2 s3 -> R s1 s3.
Hypothesis T_world : forall r (w w' : World), R (r, w) (r, w').
Hypothesis T_touch : forall deviceId f, preserves R (modifyTouchScreen deviceId f).
Hypothesis T_global : preserves R globalMetaState.
Hypothesis T_exported : preserves R updateExportedVirtualKeyState.

Lemma tf_ret {A : Type} (a : A) : preserves R (ret a).
Proof. intros s. apply T_refl. Qed.

Lemma tf_bind {A B : Type} (m : M A) (k : A -> M B) :
  preserves R m -> (forall a, preserves R (k a)) -> preserves R (bind m k).
Proof.
  intros Hm Hk s. rewrite stateOf_bind. eapply T_trans; [apply Hm|apply Hk].
Qed.

Lemma tf_call {A : Type} (f : World -> A * World) : preserves R (call f).
Proof. intros [r w]. rewrite call_run. apply T_world. Qed.

Lemma tf_tell (f : World -> World) : preserves R (tell f).
Proof. intros [r w]. apply T_world. Qed.

Lemma tf_silent {A : Type} (m : M A) : (forall s, stateOf (m s) = s) -> preserves R m.
Proof. intros H s. rewrite H. apply T_refl. Qed.

Ltac tf_step :=
  lazymatch goal with
  | |- preserves _ (ret _) => apply tf_ret
  | |- preserves _ (bind _ _) => apply tf_bind; [|intros ?; cbv beta]
  | |- preserves _ (call _) => apply tf_call
  | |- preserves _ (tell _) => apply tf_tell
  | |- preserves _ (emit _) => apply tf_silent; reflexivity
  | |- preserves _ getReader => apply tf_silent; reflexivity
  | |- preserves _ (deref _) => apply tf_silent; reflexivity
  | |- preserves _ globalMetaState => apply T_global
  | |- preserves _ updateExportedVirtualKeyState => apply T_exported
  | |- preserves _ (modifyTouchScreen _ _) => apply T_touch
  | |- preserves _ (setVirtualKeyStatus _ _) => unfold setVirtualKeyStatus; apply T_touch
  | |- preserves _ (if ?c then _ else _) => destruct c
  | |- preserves _ (match ?x with _ => _ end) => destruct x
  | |- preserves _ (let _ := _ in _) => cbv zeta
  end.

Ltac tf_auto := repeat tf_step.

Lemma tf_applyStandardInputDispatchPolicyActions (when policyActions policyFlags : Z) :
  preserves R (applyStandardInputDispatchPolicyActions when policyActions policyFlags).
Proof. unfold applyStandardInputDispatchPolicyActions. tf_auto. Qed.

Lemma tf_dispatchTouch (when deviceId policyFlags : Z) (touch : TouchData.t)
  (idBits action : Z) :
  preserves R (dispatchTouch when deviceId policyFlags touch idBits action).
Proof. unfold dispatchTouch. tf_auto. Qed.

Lemma tf_dispatchPointersUp (turns : nat) (when deviceId policyFlags : Z) :
  forall up active,
  preserves R (dispatchPointersUp turns when deviceId policyFlags up active).
Proof.
  induction turns as [|turns IH]; intros up active.
  - apply tf_ret.
  - rewrite dispatchPointersUp_S. destruct (negb (isEmpty up)); [|apply tf_ret].
    apply tf_bind; [tf_auto|intros device].
    apply tf_bind; [apply tf_dispatchTouch|intros _]. apply IH.
Qed.

Lemma tf_dispatchPointersDown (turns : nat) (when deviceId policyFlags : Z) :
  forall down active,
  preserves R (dispatchPointersDown turns when deviceId policyFlags down active).
Proof.
  induction turns as [|turns IH]; intros down active.
  - apply tf_ret.
  - rewrite dispatchPointersDown_S. destruct (negb (isEmpty down)); [|apply tf_ret].
    apply tf_bind; [tf_auto|intros action].
    apply tf_bind; [tf_auto|intros device].
    apply tf_bind; [apply tf_dispatchTouch|intros _]. apply IH.
Qed.

Lemma tf_dispatchTouches (when deviceId policyFlags : Z) :
  preserves R (dispatchTouches when deviceId policyFlags).
Proof.
  unfold dispatchTouches.
  apply tf_bind; [tf_auto|intros device]. cbv zeta.
  destruct (_ && _); [apply tf_ret|].
  destruct (_ =? _); [apply tf_dispatchTouch|].
  apply tf_bind; [apply tf_dispatchPointersUp|intros active].
  apply tf_bind; [apply tf_dispatchPointersDown|intros _]. apply tf_ret.
Qed.

Lemma tf_applyFilter (deviceId : Z)
  (filter : TouchScreenState.t FilterState -> bool * TouchData.t * FilterState) :
  preserves R (applyFilter deviceId filter).
Proof.
  unfold applyFilter. apply tf_bind; [tf_auto|intros device].
  destruct (filter (InputDevice.touchScreen device)) as [[changed touch] history].
  tf_auto.
Qed.

Lemma tf_applyHook (deviceId : Z)
  (hook : TouchScreenState.t FilterState -> TouchData.t * FilterState) :
  preserves R (applyHook deviceId hook).
Proof.
  unfold applyHook. apply tf_bind; [tf_auto|intros device].
  destruct (hook (InputDevice.touchScreen device)) as [touch history].
  tf_auto.
Qed.

Lemma tf_dispatchVirtualKey (when deviceId policyFlags keyEventAction keyEventFlags : Z) :
  preserves R (dispatchVirtualKey when deviceId policyFlags keyEventAction keyEventFlags).
Proof.
  unfold dispatchVirtualKey.
  apply tf_bind; [apply T_exported|intros _].
  apply tf_bind; [tf_auto|intros device]. cbv zeta.
  apply tf_bind; [apply T_global|intros metaState].
  apply tf_bind; [tf_auto|intros _].
  apply tf_bind; [apply tf_call|intros policyActions].
  apply tf_bind;
    [apply tf_applyStandardInputDispatchPolicyActions|intros [dispatch flags]].
  tf_auto.
Qed.

Lemma tf_consumeVirtualKeyTouches (when deviceId policyFlags : Z) :
  preserves R (consumeVirtualKeyTouches when deviceId policyFlags).
Proof.
  unfold consumeVirtualKeyTouches.
  apply tf_bind; [tf_auto|intros device]. cbv zeta.
  destruct (CurrentVirtualKeyState.status _).
  - destruct (_ && _); [|apply tf_ret].
    destruct (TouchScreenState.findVirtualKeyHit _); [|apply tf_ret].
    apply tf_bind; [tf_auto|intros _].
    apply tf_bind; [apply tf_dispatchVirtualKey|intros _]. apply tf_ret.
  - destruct (_ =? 0).
    + apply tf_bind; [tf_auto|intros _].
      apply tf_bind; [apply tf_dispatchVirtualKey|intros _]. apply tf_ret.
    + destruct (if _ =? 1 then _ else _); [apply tf_ret|].
      apply tf_bind; [tf_auto|intros _].
      apply tf_bind; [apply tf_dispatchVirtualKey|intros _]. apply tf_ret.
  - apply tf_bind; [tf_auto|intros _]. apply tf_ret.
  - destruct (_ && _); [|apply tf_ret].
    destruct (TouchScreenState.findVirtualKeyHit _); [|apply tf_ret].
    apply tf_bind; [tf_auto|intros _].
    apply tf_bind; [apply tf_dispatchVirtualKey|intros _]. apply tf_ret.
Qed.

Lemma tf_onTouchScreenChanged (when deviceId : Z) (havePointerIds : bool) :
  preserves R (onTouchScreenChanged when deviceId havePointerIds).
Proof.
  unfold onTouchScreenChanged.
  apply tf_bind; [apply tf_call|intros policyActions].
  apply tf_bind;
    [apply tf_applyStandardInputDispatchPolicyActions|intros [dispatch flags]].
  destruct (negb dispatch); [tf_auto|].
  apply tf_bind; [tf_auto|intros device]. cbv zeta.
  apply tf_bind.
  { destruct (TouchScreenState.useBadTouchFilter _); [|apply tf_ret].
    apply tf_bind; [apply tf_applyFilter|intros c]. apply tf_ret. }
  intros have1. apply tf_bind.
  { destruct (TouchScreenState.useJumpyTouchFilter _); [|apply tf_ret].
    apply tf_bind; [apply tf_applyFilter|intros c]. apply tf_ret. }
  intros have2. apply tf_bind.
  { destruct (negb have2); [apply tf_applyHook|apply tf_ret]. }
  intros _. apply tf_bind.
  { destruct (TouchScreenState.useAveragingTouchFilter _); [|apply tf_ret].
    apply tf_bind; [tf_auto|intros d].
    apply tf_bind; [apply tf_applyHook|intros _]. apply tf_ret. }
  intros savedTouch.
  apply tf_bind; [apply tf_consumeVirtualKeyTouches|intros consumed].
  apply tf_bind.
  { destruct (negb consumed); [apply tf_dispatchTouches|apply tf_ret]. }
  intros _. tf_auto.
Qed.

End TouchFootprint.

(** The writes of a touch frame keep what the devices hold outside their
    touch screens, the display properties and the exported configuration. *)
Lemma onTouchScreenChanged_outside (when deviceId : Z) (havePointerIds : bool) :
  preserves (fun s s' : State =>
               registeredOutsideTouchScreen s' = registeredOutsideTouchScreen s /\
               displayAndConfiguration s' = displayAndConfiguration s)
    (onTouchScreenChanged when deviceId havePointerIds).
Proof.
  apply tf_onTouchScreenChanged;
    first
      [ intros s; split; reflexivity
      | intros s1 s2 s3 [H12 H12'] [H23 H23']; split; congruence
      | intros r w w'; split; reflexivity
      | intros k f s; unfold modifyTouchScreen; rewrite modifyDevice_run;
        cbn [stateOf fst snd]; split;
        [ unfold registeredOutsideTouchScreen;
          cbn [fst InputReader.set_mDevices InputReader.mDevices];
          apply map_keyedUpdate_same; intros k' d; reflexivity
        | destruct s as [[] w]; reflexivity ]
      | intros s; unfold globalMetaState; rewrite !stateOf_bind;
        cbn [getReader valueOf stateOf fst snd ret];
        destruct (_ =? -1); destruct s as [[] w]; split; reflexivity
      | intros s; rewrite updateExportedVirtualKeyState_run;
        destruct s as [[] w]; split; reflexivity ].
Qed.

(** X20: a touch frame writes nothing but touch screen state: whatever the
    policy, the filters and the virtual keys do with it, handling it leaves
    the registry with the same devices under the same ids, and for each of
    them its classes, name and ignored flag, its keyboard, its trackball and
    its single- and multi-touch state; the display properties and the
    exported configuration of the reader are as they were. *)
Theorem touch_frame_writes_touch_state_only (when deviceId : Z) (havePointerIds : bool)
  (s : State) :
  let s' := stateOf (onTouchScreenChanged when deviceId havePointerIds s) in
  registeredOutsideTouchScreen s' = registeredOutsideTouchScreen s /\
  displayAndConfiguration s' = displayAndConfiguration s.
Proof. exact (onTouchScreenChanged_outside when deviceId havePointerIds s). Qed.

(** * Reports of a single-touch screen *)

Lemma outside_registered (s s' : State) (deviceId : Z) (device : Device) :
  registeredOutsideTouchScreen s' = registeredOutsideTouchScreen s ->
  keyedLookup (InputReader.mDevices (fst s)) deviceId = Some device ->
  exists device',
    keyedLookup (InputReader.mDevices (fst s')) deviceId = Some device' /\
    outsideTouchScreen device' = outsideTouchScreen device.
Proof.
  intros Hout Hd. apply (f_equal (fun l => keyedLookup l deviceId)) in Hout.
  unfold registeredOutsideTouchScreen in Hout.
  rewrite !(keyedLookup_map (fun d : Device => outsideTouchScreen d)) in Hout.
  rewrite Hd in Hout.
  destruct (keyedLookup (InputReader.mDevices (fst s')) deviceId) as [device'|];
    [|discriminate Hout].
  exists device'. split; [reflexivity|]. cbn [option_map] in Hout. congruence.
Qed.

(** The refresh of the display properties configures touch screens again
    and leaves the rest of the devices. *)
Lemma refreshDisplayProperties_outside :
  preserves (fun s s' : State =>
               registeredOutsideTouchScreen s' = registeredOutsideTouchScreen s)
    refreshDisplayProperties.
Proof.
  apply pres_refreshDisplayProperties;
    first
      [ intros s0; reflexivity
      | intros s1 s2 s3 H12 H23; congruence
      | intros r w0 w'; reflexivity
      | intros f r w0 Hf; unfold registeredOutsideTouchScreen; cbn [fst];
        destruct (Hf r) as (-> & _); reflexivity
      | intros k s0;
        destruct (reconfigureDevice_run k s0) as (w' & pre & vks & eff & Hrun & _);
        rewrite Hrun; unfold registeredOutsideTouchScreen;
        cbn [stateOf fst snd updateDevice InputReader.set_mDevices InputReader.mDevices];
        apply map_keyedUpdate_same; intros k' d; reflexivity ].
Qed.

(** A device that is a single-touch screen is no multi-touch screen. *)
Lemma single_not_multi (device : Device) :
  InputDevice.isSingleTouchScreen device = true ->
  InputDevice.isMultiTouchScreen device = false.
Proof.
  unfold InputDevice.isSingleTouchScreen, InputDevice.isMultiTouchScreen, anySet.
  intros H. apply Z.eqb_eq in H. apply negb_false_iff, Z.eqb_eq.
  assert (Z.land (InputDevice.classes device) INPUT_DEVICE_CLASS_TOUCHSCREEN_MT
          = Z.land (Z.land (InputDevice.classes device)
                      (Z.lor INPUT_DEVICE_CLASS_TOUCHSCREEN
                             INPUT_DEVICE_CLASS_TOUCHSCREEN_MT))
                   INPUT_DEVICE_CLASS_TOUCHSCREEN_MT) as ->.
  { rewrite <- Z.land_assoc. reflexivity. }
  rewrite H. reflexivity.
Qed.

(** What a frame sync of a single-touch screen commits. *)
Lemma onSingleTouchScreenStateChanged_merged (when deviceId : Z) (s : State)
  (device : Device) (info : Z * Z * Z) :
  keyedLookup (InputReader.mDevices (fst s)) deviceId = Some device ->
  fst (getDisplayInfo 0 (snd s)) = Some info ->
  exists device',
    keyedLookup
      (InputReader.mDevices (fst (stateOf (onSingleTouchScreenStateChanged when deviceId s))))
      deviceId = Some device' /\
    identityOf device' = identityOf device /\
    InputDevice.trackball device' = InputDevice.trackball device /\
    InputDevice.singleTouchScreen device'
    = SingleTouchScreenState.set_current
        (mergeSingleTouch (InputDevice.singleTouchScreen device))
        (InputDevice.singleTouchScreen device).
Proof.
  intros Hd Hinfo. unfold onSingleTouchScreenStateChanged.
  rewrite stateOf_bind, (refreshDisplayProperties_available s Hinfo). cbn [negb].
  edestruct outside_registered as (d1 & Hd1 & Hout1);
    [exact (refreshDisplayProperties_outside s)|exact Hd|].
  set (s1 := stateOf (refreshDisplayProperties s)) in *. clearbody s1.
  rewrite stateOf_bind, modifyDevice_run. cbn [valueOf stateOf fst snd].
  rewrite stateOf_bind, modifyDevice_run. cbn [valueOf stateOf fst snd].
  match goal with
  | |- context [onTouchScreenChanged ?w ?k ?h ?S] =>
      pose proof (onTouchScreenChanged_outside w k h S) as [Hout _];
      set (s2 := S) in *
  end.
  match type of Hd1 with _ = Some ?D => idtac end.
  edestruct outside_registered as (d3 & Hd3 & Hout3); [exact Hout| |].
  { subst s2. cbn [fst InputReader.set_mDevices InputReader.mDevices].
    rewrite !keyedLookup_update_same, Hd1. cbn [option_map]. reflexivity. }
  exists d3. split; [exact Hd3|].
  unfold outsideTouchScreen in Hout1, Hout3.
  cbn [InputDevice.set_touchScreen InputDevice.set_singleTouchScreen
       InputDevice.singleTouchScreen InputDevice.trackball InputDevice.keyboard
       InputDevice.multiTouchScreen identityOf InputDevice.id InputDevice.classes
       InputDevice.name InputDevice.ignored] in Hout3.
  inversion Hout1 as [[Hi1 Hc1 Hn1 Hg1 Hk1 Hb1 Hs1 Hm1]].
  inversion Hout3 as [[Hi3 Hc3 Hn3 Hg3 Hk3 Hb3 Hs3 Hm3]].
  unfold identityOf. rewrite Hi3, Hc3, Hn3, Hg3, Hb3, Hs3, Hi1, Hc1, Hn1, Hg1, Hb1, Hs1.
  repeat split.
Qed.

(** An axis event of a single-touch screen goes into the accumulator. *)
Lemma process_singleTouchAxis (rawEvent : RawEvent.t) (s : State) (device : Device) :
  RawEvent.type rawEvent = EV_ABS ->
  keyedLookup (InputReader.mDevices (fst s)) (RawEvent.deviceId rawEvent) = Some device ->
  InputDevice.ignored device = false ->
  InputDevice.isSingleTouchScreen device = true ->
  process rawEvent s
  = (tt,
     updateDevice (RawEvent.deviceId rawEvent)
       (mapSingleTouchAccumulator
          (recordSingleTouchAxis (RawEvent.scanCode rawEvent) (RawEvent.value rawEvent))) s,
     []).
Proof.
  intros Htype Hd Hig Hst. unfold process. cbv zeta. rewrite Htype.
  cbn [Z.eqb Pos.eqb DEVICE_ADDED DEVICE_REMOVED EV_SYN EV_KEY EV_REL EV_ABS].
  unfold handleAbsoluteMotion. cbv zeta.
  rewrite bind_run, getNonIgnoredDevice_run, Hd, Hig.
  cbn [negb valueOf stateOf effectsOf fst snd app].
  rewrite (single_not_multi device Hst), Hst.
  rewrite modifyDevice_run. reflexivity.
Qed.

(** [onSingleTouchScreenStateChanged] divides nowhere but in the refresh of
    the display properties. *)
Lemma onSingleTouchScreenStateChanged_untrapped (when deviceId : Z) (s : State) :
  forallb isWarning (effectsOf (refreshDisplayProperties s)) = true ->
  trapped (effectsOf (onSingleTouchScreenStateChanged when deviceId s)) = false.
Proof.
  intros Hrefresh. unfold onSingleTouchScreenStateChanged.
  apply untrapped_after_refresh; [exact Hrefresh|].
  intros refreshed. destruct (negb refreshed); [apply effectsAll_ret|].
  apply effectsAll_bind; [quiet_auto|intros _].
  apply effectsAll_bind; [quiet_auto|intros _].
  apply ef_onTouchScreenChanged; intros; reflexivity.
Qed.

(** X21: when the driver of a single-touch screen reports a position (the
    two absolute axes, then SYN_REPORT) while the accumulators of the device
    were clean and the policy tells of a display of a width and a height
    above 0, the report is handled without a trap and the frame sync commits
    it field by field: the committed state of the screen holds the reported
    position, and what the report did not mention - whether the finger is
    down, the pressure and the size - is as it was.  Afterwards the
    accumulator is clean again. *)
Theorem single_touch_report_is_merged (deviceId when x y : Z) (s : State)
  (device : Device) (width height orientation : Z) :
  keyedLookup (InputReader.mDevices (fst s)) deviceId = Some device ->
  InputDevice.ignored device = false ->
  InputDevice.isSingleTouchScreen device = true ->
  SingleTouchScreenState.fields
    (SingleTouchScreenState.accumulator (InputDevice.singleTouchScreen device)) = 0 ->
  TrackballState.fields (TrackballState.accumulator (InputDevice.trackball device)) = 0 ->
  fst (getDisplayInfo 0 (snd s)) = Some (width, height, orientation) ->
  0 < width -> 0 < height ->
  let current := SingleTouchScreenState.current (InputDevice.singleTouchScreen device) in
  let r := processAll (singleTouchReport deviceId when x y) s in
  trapped (effectsOf r) = false /\
  exists device',
    keyedLookup (InputReader.mDevices (fst (stateOf r))) deviceId = Some device' /\
    SingleTouchScreenState.current (InputDevice.singleTouchScreen device')
    = {| SingleTouchScreenState.down := SingleTouchScreenState.down current;
         SingleTouchScreenState.x := x;
         SingleTouchScreenState.y := y;
         SingleTouchScreenState.pressure := SingleTouchScreenState.pressure current;
         SingleTouchScreenState.size := SingleTouchScreenState.size current |} /\
    SingleTouchScreenState.fields
      (SingleTouchScreenState.accumulator (InputDevice.singleTouchScreen device')) = 0.
Proof.
  intros Hd Hig Hst Hclean Hball Hinfo Hwidth Hheight current r.
  pose (ev := fun type scanCode value =>
          {| RawEvent.deviceId := deviceId; RawEvent.type := type;
             RawEvent.scanCode := scanCode; RawEvent.keyCode := 0;
             RawEvent.flags := 0; RawEvent.value := value; RawEvent.when := when |}).
  pose proof (@process_singleTouchAxis (ev EV_ABS ABS_X x) s device eq_refl Hd Hig Hst)
    as H1.
  cbn [RawEvent.deviceId RawEvent.value RawEvent.scanCode ev] in H1.
  match type of H1 with _ = (tt, ?S, []) => set (s1 := S) in * end.
  set (device1 := mapSingleTouchAccumulator (recordSingleTouchAxis ABS_X x) device).
  assert (keyedLookup (InputReader.mDevices (fst s1)) deviceId = Some device1) as Hd1.
  { subst s1. unfold updateDevice. cbn [fst InputReader.set_mDevices InputReader.mDevices].
    rewrite keyedLookup_update_same, Hd. reflexivity. }
  pose proof (@process_singleTouchAxis (ev EV_ABS ABS_Y y) s1 device1 eq_refl Hd1 Hig Hst)
    as H2.
  cbn [RawEvent.deviceId RawEvent.value RawEvent.scanCode ev] in H2.
  match type of H2 with _ = (tt, ?S, []) => set (s2 := S) in * end.
  set (device2 := mapSingleTouchAccumulator (recordSingleTouchAxis ABS_Y y) device1).
  assert (keyedLookup (InputReader.mDevices (fst s2)) deviceId = Some device2) as Hd2.
  { subst s2. unfold updateDevice. cbn [fst InputReader.set_mDevices InputReader.mDevices].
    rewrite keyedLookup_update_same, Hd1. reflexivity. }
  assert (snd s2 = snd s) as Hworld by reflexivity.
  assert (InputDevice.singleTouchScreen device2
          = {| SingleTouchScreenState.accumulator :=
                 {| SingleTouchScreenState.fields :=
                      Z.lor SingleTouchScreenState.FIELD_ABS_X
                            SingleTouchScreenState.FIELD_ABS_Y;
                    SingleTouchScreenState.btnTouch :=
                      SingleTouchScreenState.btnTouch
                        (SingleTouchScreenState.accumulator
                           (InputDevice.singleTouchScreen device));
                    SingleTouchScreenState.absX := x;
                    SingleTouchScreenState.absY := y;
                    SingleTouchScreenState.absPressure :=
                      SingleTouchScreenState.absPressure
                        (SingleTouchScreenState.accumulator
                           (InputDevice.singleTouchScreen device));
                    SingleTouchScreenState.absToolWidth :=
                      SingleTouchScreenState.absToolWidth
                        (SingleTouchScreenState.accumulator
                           (InputDevice.singleTouchScreen device)) |};
               SingleTouchScreenState.current := current |}) as Hsingle.
  { subst device2 device1 current.
    destruct device as [i c n ig kb tb ts [[f bt ax ay ap aw] cur] mt].
    cbn in Hclean. subst f. reflexivity. }
  subst r. unfold singleTouchReport. cbn [map fst snd].
  fold (ev EV_ABS ABS_X x). fold (ev EV_ABS ABS_Y y). fold (ev EV_SYN SYN_REPORT 0).
  rewrite processAll_cons with (s' := s1) by exact H1.
  rewrite processAll_cons with (s' := s2) by exact H2.
  clearbody s2. clear Hd1 H1 H2. clearbody s1.
  cbn [processAll]. rewrite stateOf_bind, effectsOf_bind.
  cbn [ret stateOf effectsOf fst snd]. rewrite app_nil_r.
  change (process (ev EV_SYN SYN_REPORT 0)) with (handleSync (ev EV_SYN SYN_REPORT 0)).
  rewrite handleSync_report_run with (d := device2); [|reflexivity|exact Hd2|exact Hig].
  cbn [RawEvent.deviceId RawEvent.when ev].
  unfold syncTouchScreen.
  change (InputDevice.isMultiTouchScreen device2) with (InputDevice.isMultiTouchScreen device).
  change (InputDevice.isSingleTouchScreen device2)
    with (InputDevice.isSingleTouchScreen device).
  rewrite (single_not_multi device Hst), Hst, Hsingle.
  change (SingleTouchScreenState.isDirty _) with true. cbv iota.
  rewrite stateOf_bind, effectsOf_bind.
  assert (fst (getDisplayInfo 0 (snd s2)) = Some (width, height, orientation)) as Hinfo2
    by (rewrite Hworld; exact Hinfo).
  destruct (onSingleTouchScreenStateChanged_merged when deviceId s2 Hd2 Hinfo2)
    as (d3 & Hd3 & Hid3 & Hball3 & Hsingle3).
  rewrite Hsingle in Hsingle3.
  match goal with
  | |- context [stateOf (bind (onSingleTouchScreenStateChanged when deviceId) ?k s2)] =>
      set (s4 := stateOf (bind (onSingleTouchScreenStateChanged when deviceId) k s2))
  end.
  set (d4 := mapSingleTouchAccumulator SingleTouchScreenState.clear d3).
  assert (keyedLookup (InputReader.mDevices (fst s4)) deviceId = Some d4) as Hd4.
  { subst s4. rewrite stateOf_bind, modifyDevice_run.
    cbn [stateOf fst snd InputReader.set_mDevices InputReader.mDevices].
    rewrite keyedLookup_update_same, Hd3. reflexivity. }
  clearbody s4.
  rewrite stateOf_bind, effectsOf_bind, (deref_run deviceId s4 Hd4).
  cbn [valueOf stateOf effectsOf fst snd app].
  unfold syncTrackball.
  change (InputDevice.trackball d4) with (InputDevice.trackball d3).
  rewrite Hball3.
  change (InputDevice.trackball device2) with (InputDevice.trackball device).
  unfold TrackballState.isDirty. rewrite Hball.
  cbn [Z.eqb negb ret stateOf effectsOf fst snd]. rewrite app_nil_r.
  split.
  { rewrite effectsOf_bind, (deref_run deviceId s4 Hd4).
    cbn [valueOf stateOf effectsOf fst snd app].
    change (InputDevice.trackball d4) with (InputDevice.trackball d3).
    rewrite Hball3.
    change (InputDevice.trackball device2) with (InputDevice.trackball device).
    rewrite Hball.
    cbn [Z.eqb negb ret stateOf effectsOf fst snd]. rewrite app_nil_r.
    apply onSingleTouchScreenStateChanged_untrapped.
    exact (refreshDisplayProperties_quiet s2 Hinfo2 Hwidth Hheight). }
  exists d4. split; [exact Hd4|].
  subst d4. unfold mapSingleTouchAccumulator.
  cbn [InputDevice.singleTouchScreen InputDevice.set_singleTouchScreen
       SingleTouchScreenState.set_accumulator SingleTouchScreenState.current
       SingleTouchScreenState.accumulator SingleTouchScreenState.clear
       SingleTouchScreenState.fields].
  split; [|reflexivity].
  rewrite Hsingle3. reflexivity.
Qed.

(** * The configuration of the virtual keys *)



End Reader.

(** * The theorems at the concrete reader *)

#[local] Existing Instance Example.policy.
#[local] Existing Instance Example.eventHub.
#[local] Existing Instance Example.clock.
#[local] Existing Instance Example.touchFilters.
#[local] Existing Instance Example.floatOrder.
#[local] Existing Instance Example.uninitialised.

(** C5 at the empty meta state, when ALT_LEFT goes down. *)
Lemma updateMetaState_preserves_invariant_witness :
  metaStateConsistent 0 /\
  metaStateConsistent (updateMetaState AKEYCODE_ALT_LEFT true 0).
Proof.
  assert (metaStateConsistent 0) as H by (split; reflexivity).
  split; [exact H|].
  exact (updateMetaState_preserves_invariant AKEYCODE_ALT_LEFT true H).
Defined.

(** C2 at the concrete reader: one finger lands after an empty frame. *)
Lemma dispatchTouches_events_witness :
  keyedLookup (InputReader.mDevices (fst Example.state)) 1 = Some Example.device /\
  isUint32 (TouchData.idBits Example.fingerOnKey) /\
  isUint32 (TouchData.idBits TouchData.zero) /\
  frameCountsIds Example.fingerOnKey /\
  frameCountsIds TouchData.zero /\
  map motionOf (effectsOf (dispatchTouches 10 1 0 Example.state))
  = map Some
      (expectedTouchMotions (displayCoordsOf (fst Example.state) Example.device)
         Example.fingerOnKey TouchData.zero).
Proof.
  assert (keyedLookup (InputReader.mDevices (fst Example.state)) 1 = Some Example.device)
    as Hdevice by reflexivity.
  assert (isUint32 (TouchData.idBits Example.fingerOnKey)) as Hcurrent
    by (unfold isUint32; simpl; lia).
  assert (isUint32 (TouchData.idBits TouchData.zero)) as Hlast
    by (unfold isUint32; simpl; lia).
  assert (frameCountsIds Example.fingerOnKey) as Hcount
    by (split; intros H; discriminate H).
  assert (frameCountsIds TouchData.zero) as Hcount0 by (split; reflexivity).
  repeat (split; [assumption|]).
  exact (dispatchTouches_events 10 1 0 Example.state Hdevice Hcurrent Hlast Hcount Hcount0).
Defined.

(** C8 at the concrete reader: the policy drops the frame stamped -1. *)
Lemma policy_drop_clears_lastTouch_witness :
  anySet (fst (interceptTouch (-1) (snd Example.state))) ACTION_DISPATCH = false /\
  forallb (fun e => negb (isMotionOrKey e))
    (effectsOf (onTouchScreenChanged (-1) 1 true Example.state)) = true /\
  keyedLookup
    (InputReader.mDevices (fst (stateOf (onTouchScreenChanged (-1) 1 true Example.state))))
    1
  = option_map
      (fun d =>
         InputDevice.set_touchScreen
           (TouchScreenState.set_lastTouch
              (TouchData.clear (TouchScreenState.lastTouch (InputDevice.touchScreen d)))
              (InputDevice.touchScreen d)) d)
      (keyedLookup (InputReader.mDevices (fst Example.state)) 1).
Proof.
  assert (anySet (fst (interceptTouch (-1) (snd Example.state))) ACTION_DISPATCH = false)
    as Hdrop by reflexivity.
  split; [exact Hdrop|].
  destruct (policy_drop_clears_lastTouch (-1) 1 true Example.state Hdrop)
    as (Hquiet & Hcleared & _).
  split; [exact Hquiet|exact Hcleared].
Defined.




(** C3 at the concrete reader: the event hub gives the key code of HOME,
    and eight iterations handle the session. *)
Lemma exported_virtual_key_tracks_down_status_witness :
  let reader : InputReader.t Example.FilterState :=
    fst (stateOf (loopTimes 8 (newInputReader Example.session))) in
  let exported := InputReader.mExportedVirtualKeyCode reader in
  hubKeyCodesValid /\
  exported = Example.homeKeyCode /\
  (exported <> -1 <->
   exists kv, In kv (InputReader.mDevices reader) /\
              virtualKeyStatus (snd kv) = CurrentVirtualKeyState.STATUS_DOWN) /\
  (exported <> -1 ->
   exists kv, In kv (InputReader.mDevices reader) /\
              virtualKeyStatus (snd kv) = CurrentVirtualKeyState.STATUS_DOWN /\
              CurrentVirtualKeyState.keyCode
                (TouchScreenState.currentVirtualKey (InputDevice.touchScreen (snd kv)))
              = exported).
Proof.
  intros reader exported.
  assert (hubKeyCodesValid) as Hhub.
  { intros deviceId scanCode w w' keyCode flags H.
    injection H as <- _ _. intros Habs. discriminate Habs. }
  split; [exact Hhub|]. split; [vm_compute; reflexivity|].
  exact (exported_virtual_key_tracks_down_status 8 Example.session Hhub).
Defined.

(** C3 as the claim has it fails where the event hub gives -1 as the key
    code of the scan code of a virtual key: after the same session the
    virtual key of the touch screen is in status DOWN, its key code is -1,
    and the exported virtual key code is -1. *)
Lemma down_virtual_key_exports_no_key :
  let reader : InputReader.t Example.FilterState :=
    fst (stateOf (loopTimes (eventHub := Example.hubWithoutKeyCodes) 8
                    (newInputReader Example.session))) in
  let exported := InputReader.mExportedVirtualKeyCode reader in
  exported = -1 /\
  (exists kv, In kv (InputReader.mDevices reader) /\
              virtualKeyStatus (snd kv) = CurrentVirtualKeyState.STATUS_DOWN) /\
  ~ (exported <> -1 <->
     exists kv, In kv (InputReader.mDevices reader) /\
                virtualKeyStatus (snd kv) = CurrentVirtualKeyState.STATUS_DOWN).
Proof.
  intros reader exported.
  assert (exported = -1) as Hexported by (vm_compute; reflexivity).
  assert (exists kv, In kv (InputReader.mDevices reader) /\
                     virtualKeyStatus (snd kv) = CurrentVirtualKeyState.STATUS_DOWN)
    as Hdown.
  { assert (option_map virtualKeyStatus (keyedLookup (InputReader.mDevices reader) 1)
            = Some CurrentVirtualKeyState.STATUS_DOWN) as Hstatus
      by (vm_compute; reflexivity).
    destruct (keyedLookup (InputReader.mDevices reader) 1) as [device|] eqn:Hlookup;
      [|discriminate Hstatus].
    injection Hstatus as Hstatus.
    exists (1, device). split; [|exact Hstatus].
    apply keyedLookup_In. exact Hlookup. }
  split; [exact Hexported|]. split; [exact Hdown|].
  intros [_ Hiff]. exact (Hiff Hdown Hexported).
Qed.

(** * The further theorems at the concrete reader *)

(** X2 at the concrete reader: a second touch screen is attached as
    device 2. *)
Lemma device_added_is_registered_witness :
  let rawEvent := Example.rawEvent 2 DEVICE_ADDED 0 0 in
  let r := process rawEvent Example.state in
  RawEvent.type rawEvent = DEVICE_ADDED /\
  keyedLookup (InputReader.mDevices (fst Example.state)) 2 = None /\
  displayUsable (fst Example.state) /\
  trapped (effectsOf r) = false /\
  (exists device,
     valueOf (getDevice 2 (stateOf r)) = Some device /\
     InputDevice.id device = 2 /\
     InputDevice.classes device = fst (getDeviceClasses 2 (snd Example.state)) /\
     InputDevice.ignored device = (fst (getDeviceClasses 2 (snd Example.state)) =? 0)) /\
  valueOf (getDevice 1 (stateOf r)) = Some Example.device /\
  filter isConfigurationChanged (effectsOf r) = [NotifyConfigurationChanged 20] /\
  process rawEvent (stateOf r) = (tt, stateOf r, [LogW (SpuriousDeviceAdded 2)]).
Proof.
  intros rawEvent r.
  assert (RawEvent.type rawEvent = DEVICE_ADDED) as Htype by reflexivity.
  assert (keyedLookup (InputReader.mDevices (fst Example.state)) 2 = None) as Habsent
    by reflexivity.
  assert (displayUsable (fst Example.state)) as Hdisplay
    by (right; split; reflexivity).
  destruct (device_added_is_registered rawEvent Example.state Htype Habsent Hdisplay)
    as (Htrap & Hdevice & Hothers & Hnotified & Hagain).
  split; [exact Htype|]. split; [exact Habsent|]. split; [exact Hdisplay|].
  split; [exact Htrap|]. split; [exact Hdevice|].
  split; [exact (Hothers 1 ltac:(intros H; discriminate H))|].
  split; [exact Hnotified|exact Hagain].
Defined.

(** X3 at the concrete reader: the touch screen is detached. *)
Lemma device_removed_is_gone_witness :
  let rawEvent := Example.rawEvent 1 DEVICE_REMOVED 0 0 in
  let r := process rawEvent Example.state in
  registryOk Example.state /\
  RawEvent.type rawEvent = DEVICE_REMOVED /\
  keyedLookup (InputReader.mDevices (fst Example.state)) 1 = Some Example.device /\
  valueOf (getDevice 1 (stateOf r)) = None /\
  effectsOf r = [ExportedVirtualKeyStored (-1) (-1); NotifyConfigurationChanged 20] /\
  process rawEvent (stateOf r) = (tt, stateOf r, [LogW (SpuriousDeviceRemoved 1)]).
Proof.
  intros rawEvent r.
  assert (registryOk Example.state) as Hok.
  { split; [split; [constructor|exact I]|constructor; [reflexivity|constructor]]. }
  assert (RawEvent.type rawEvent = DEVICE_REMOVED) as Htype by reflexivity.
  assert (keyedLookup (InputReader.mDevices (fst Example.state)) 1 = Some Example.device)
    as Hdevice by reflexivity.
  destruct (device_removed_is_gone rawEvent Hok Htype Hdevice)
    as (Hgone & _ & Heffects & Hagain).
  split; [exact Hok|]. split; [exact Htype|]. split; [exact Hdevice|].
  split; [exact Hgone|]. split; [exact Heffects|exact Hagain].
Defined.

(** X4 at the concrete reader: a key of device 7, which is not
    registered. *)
Lemma event_of_ignored_device_is_dropped_witness :
  let rawEvent := Example.rawEvent 7 EV_KEY 30 1 in
  RawEvent.type rawEvent <> DEVICE_ADDED /\
  RawEvent.type rawEvent <> DEVICE_REMOVED /\
  valueOf (getNonIgnoredDevice 7 Example.state) = None /\
  process rawEvent Example.state = (tt, Example.state, []).
Proof.
  intros rawEvent.
  assert (RawEvent.type rawEvent <> DEVICE_ADDED) as Hadd by (intros H; discriminate H).
  assert (RawEvent.type rawEvent <> DEVICE_REMOVED) as Hrem by (intros H; discriminate H).
  assert (valueOf (getNonIgnoredDevice 7 Example.state) = None) as Hnone by reflexivity.
  split; [exact Hadd|]. split; [exact Hrem|]. split; [exact Hnone|].
  exact (event_of_ignored_device_is_dropped rawEvent Example.state Hadd Hrem Hnone).
Defined.

(** X5 at the concrete reader with a policy that has no display: the
    session of the touch screen gives the dispatcher nothing. *)
Lemma without_display_nothing_is_dispatched_witness :
  displayUnavailable (policy := Example.headlessPolicy) /\
  forallb (fun e => negb (isMotionOrKey e))
    (effectsOf (processAll (policy := Example.headlessPolicy) Example.session
                  Example.state)) = true.
Proof.
  assert (displayUnavailable (policy := Example.headlessPolicy)) as Hdark
    by (intros w; reflexivity).
  split; [exact Hdark|].
  exact (without_display_nothing_is_dispatched (policy := Example.headlessPolicy)
           Example.session Example.state Hdark).
Defined.

(** X6 at an accumulator whose first and third slots are down. *)
Lemma assembleMultiTouch_copies_down_slots_witness :
  let frame := fst (assembleMultiTouch Example.trackedAccumulator TouchData.zero) in
  (length (downSlots Example.trackedAccumulator)
   <= length (TouchData.pointers TouchData.zero))%nat /\
  TouchData.pointerCount frame = 2 /\
  map geometryOf (firstn 2 (TouchData.pointers frame)) = [(100, 700, 5, 1); (300, 400, 7, 2)] /\
  snd (assembleMultiTouch Example.trackedAccumulator TouchData.zero) = true /\
  map PointerData.id (firstn 2 (TouchData.pointers frame)) = [4; 2].
Proof.
  intros frame.
  assert (length (downSlots Example.trackedAccumulator)
          <= length (TouchData.pointers TouchData.zero))%nat as Hlen
    by (vm_compute; lia).
  destruct (assembleMultiTouch_copies_down_slots Example.trackedAccumulator TouchData.zero
              Hlen) as (Hcount & Hgeometry & _ & Hhave & Hids).
  split; [exact Hlen|]. split; [exact Hcount|]. split; [exact Hgeometry|].
  split; [exact Hhave|].
  exact (proj1 (Hids eq_refl)).
Defined.

(** X7 at the same accumulator: the id set holds 2 and 4. *)
Lemma assembleMultiTouch_id_set_witness :
  let frame := fst (assembleMultiTouch Example.trackedAccumulator TouchData.zero) in
  (length (downSlots Example.trackedAccumulator)
   <= length (TouchData.pointers TouchData.zero))%nat /\
  snd (assembleMultiTouch Example.trackedAccumulator TouchData.zero) = true /\
  isUint32 (TouchData.idBits frame) /\
  hasBit (TouchData.idBits frame) 2 = true /\
  hasBit (TouchData.idBits frame) 3 = false /\
  frameCountsIds frame.
Proof.
  intros frame.
  assert (length (downSlots Example.trackedAccumulator)
          <= length (TouchData.pointers TouchData.zero))%nat as Hlen
    by (vm_compute; lia).
  assert (snd (assembleMultiTouch Example.trackedAccumulator TouchData.zero) = true)
    as Hhave by reflexivity.
  destruct (assembleMultiTouch_id_set Example.trackedAccumulator TouchData.zero Hlen Hhave)
    as (Huint & Hmember & Hcounts).
  split; [exact Hlen|]. split; [exact Hhave|]. split; [exact Huint|].
  split; [exact (Hmember 2 ltac:(lia))|].
  split; [exact (Hmember 3 ltac:(lia))|exact Hcounts].
Defined.

(** X9 at the concrete reader: the touch screen is attached to a new
    reader, which notifies the change. *)
Lemma exported_configuration_is_current_witness :
  let run := processAll [Example.rawEvent 1 DEVICE_ADDED 0 0] (newInputReader []) in
  existsb isConfigurationChanged (effectsOf run) = true /\
  valueOf (getCurrentInputConfiguration (stateOf run))
  = inputConfigurationOf (InputReader.mDevices (fst (stateOf run))).
Proof.
  intros run.
  assert (existsb isConfigurationChanged (effectsOf run) = true) as Hnotified
    by (vm_compute; reflexivity).
  split; [exact Hnotified|].
  exact (exported_configuration_is_current [Example.rawEvent 1 DEVICE_ADDED 0 0] []
           Hnotified).
Defined.

(** X10 at the concrete reader: a switch event. *)
Lemma other_events_keep_the_registry_witness :
  let rawEvent := Example.rawEvent 1 EV_SW 0 1 in
  let r := process rawEvent Example.state in
  RawEvent.type rawEvent <> DEVICE_ADDED /\
  RawEvent.type rawEvent <> DEVICE_REMOVED /\
  registeredIdentities (stateOf r) = registeredIdentities Example.state /\
  existsb isConfigurationChanged (effectsOf r) = false /\
  registeredKeyboards (stateOf r) = registeredKeyboards Example.state.
Proof.
  intros rawEvent r.
  assert (RawEvent.type rawEvent <> DEVICE_ADDED) as Hadd by (intros H; discriminate H).
  assert (RawEvent.type rawEvent <> DEVICE_REMOVED) as Hrem by (intros H; discriminate H).
  destruct (other_events_keep_the_registry rawEvent Example.state Hadd Hrem)
    as (Hids & Hquiet & Hkeyboards).
  split; [exact Hadd|]. split; [exact Hrem|]. split; [exact Hids|].
  split; [exact Hquiet|].
  exact (Hkeyboards ltac:(intros H; discriminate H)).
Defined.


(** X12 at the concrete reader: the policy tells of the display of 480 by
    800. *)
Lemma refreshDisplayProperties_follows_policy_witness :
  let r := refreshDisplayProperties Example.state in
  let reader := fst (stateOf r) in
  fst (getDisplayInfo 0 (snd Example.state)) = Some (480, 800, ROTATION_0) /\
  (0 < 480 /\ 0 < 800) /\
  trapped (effectsOf r) = false /\
  valueOf r = true /\
  InputReader.mDisplayWidth reader = 480 /\
  InputReader.mDisplayHeight reader = 800 /\
  InputReader.mDisplayOrientation reader = ROTATION_0.
Proof.
  intros r reader.
  assert (fst (getDisplayInfo 0 (snd Example.state)) = Some (480, 800, ROTATION_0))
    as Hdisplay by reflexivity.
  assert (0 < 480 /\ 0 < 800) as Hsize by (split; reflexivity).
  pose proof (refreshDisplayProperties_follows_policy Example.state) as H.
  cbv zeta in H. rewrite Hdisplay in H.
  destruct (H (or_introl Hsize)) as (Htrap & Hvalue & Hw & Hh & Ho & _).
  split; [exact Hdisplay|]. split; [exact Hsize|]. split; [exact Htrap|].
  split; [exact Hvalue|]. split; [exact Hw|]. split; [exact Hh|exact Ho].
Defined.

(** X14 at the concrete reader: the driver of the touch screen reports a
    second pointer. *)
Lemma pointer_report_is_counted_witness :
  let r := processAll (pointerReport 1 20 300 400 7 2 9) Example.state in
  keyedLookup (InputReader.mDevices (fst Example.state)) 1 = Some Example.device /\
  InputDevice.isMultiTouchScreen Example.device = true /\
  effectsOf r = [] /\
  exists (device' : InputDevice.t Example.FilterState)
         (slot : MultiTouchScreenState.Pointer),
    keyedLookup (InputReader.mDevices (fst (stateOf r))) 1 = Some device' /\
    MultiTouchScreenState.pointerCount
      (MultiTouchScreenState.accumulator (InputDevice.multiTouchScreen device')) = 2 /\
    countedSlots (MultiTouchScreenState.accumulator (InputDevice.multiTouchScreen device'))
    = countedSlots
        (MultiTouchScreenState.accumulator (InputDevice.multiTouchScreen Example.device))
      ++ [slot] /\
    slotGeometry slot = (300, 400, 7, 2) /\
    MultiTouchScreenState.absMTTrackingId slot = 9.
Proof.
  intros r.
  assert (keyedLookup (InputReader.mDevices (fst Example.state)) 1 = Some Example.device)
    as Hdevice by reflexivity.
  assert (InputDevice.isMultiTouchScreen Example.device = true) as Hmt by reflexivity.
  destruct (pointer_report_is_counted 1 20 300 400 7 2 9 Example.state
              Hdevice eq_refl Hmt ltac:(change (0 <= 1 < 10); lia)
              ltac:(change (1 < 11)%nat; lia))
    as (Hquiet & device' & slot & Hd' & Hcount & Hslots & Hgeometry & Hid & _).
  split; [exact Hdevice|]. split; [exact Hmt|]. split; [exact Hquiet|].
  exists device', slot.
  split; [exact Hd'|]. split; [exact Hcount|]. split; [exact Hslots|].
  split; [exact Hgeometry|exact Hid].
Defined.


(** X16 at the concrete reader: the frame with the finger on the virtual
    key is handled. *)
Lemma handled_frame_becomes_last_touch_witness :
  keyedLookup (InputReader.mDevices (fst Example.state)) 1 = Some Example.device /\
  anySet (fst (interceptTouch 10 (snd Example.state))) ACTION_DISPATCH = true /\
  exists device' : InputDevice.t Example.FilterState,
    keyedLookup
      (InputReader.mDevices (fst (stateOf (onTouchScreenChanged 10 1 true Example.state))))
      1 = Some device' /\
    TouchScreenState.lastTouch (InputDevice.touchScreen device')
    = TouchScreenState.currentTouch (InputDevice.touchScreen device').
Proof.
  assert (keyedLookup (InputReader.mDevices (fst Example.state)) 1 = Some Example.device)
    as Hdevice by reflexivity.
  assert (anySet (fst (interceptTouch 10 (snd Example.state))) ACTION_DISPATCH = true)
    as Hpolicy by reflexivity.
  split; [exact Hdevice|]. split; [exact Hpolicy|].
  exact (handled_frame_becomes_last_touch 10 1 true Example.state Hdevice Hpolicy eq_refl).
Defined.

(** X17 at the concrete reader: a frame arrives while the virtual key of
    device 1 is canceled. *)
Lemma held_virtual_key_takes_the_touches_witness :
  virtualKeyHeld 1 Example.canceledState /\
  forallb (fun e => negb (isMotion e))
    (effectsOf (onTouchScreenChanged 20 1 true Example.canceledState)) = true.
Proof.
  assert (virtualKeyHeld 1 Example.canceledState) as Hheld.
  { exists Example.canceledDevice. split; [reflexivity|right; reflexivity]. }
  split; [exact Hheld|].
  exact (held_virtual_key_takes_the_touches 20 true Hheld).
Defined.



(** X21 at the concrete reader: the finger that is down on the single-touch
    screen moves to another position. *)
Lemma single_touch_report_is_merged_witness :
  let r := processAll (singleTouchReport 1 20 120 690) Example.singleTouchState in
  (keyedLookup (InputReader.mDevices (fst Example.singleTouchState)) 1
   = Some Example.singleTouchDevice /\
   InputDevice.isSingleTouchScreen Example.singleTouchDevice = true /\
   fst (getDisplayInfo 0 (snd Example.singleTouchState)) = Some (480, 800, ROTATION_0)) /\
  trapped (effectsOf r) = false /\
  exists device' : InputDevice.t Example.FilterState,
    keyedLookup (InputReader.mDevices (fst (stateOf r))) 1 = Some device' /\
    SingleTouchScreenState.current (InputDevice.singleTouchScreen device')
    = {| SingleTouchScreenState.down := true;
         SingleTouchScreenState.x := 120; SingleTouchScreenState.y := 690;
         SingleTouchScreenState.pressure := 5; SingleTouchScreenState.size := 1 |} /\
    SingleTouchScreenState.fields
      (SingleTouchScreenState.accumulator (InputDevice.singleTouchScreen device')) = 0.
Proof.
  intros r.
  assert (keyedLookup (InputReader.mDevices (fst Example.singleTouchState)) 1
          = Some Example.singleTouchDevice) as Hdevice by reflexivity.
  assert (InputDevice.isSingleTouchScreen Example.singleTouchDevice = true) as Hst
    by reflexivity.
  assert (fst (getDisplayInfo 0 (snd Example.singleTouchState))
          = Some (480, 800, ROTATION_0)) as Hdisplay by reflexivity.
  destruct (single_touch_report_is_merged 1 20 120 690 Example.singleTouchState
              Hdevice eq_refl Hst eq_refl eq_refl Hdisplay eq_refl eq_refl)
    as (Htrap & device' & Hd' & Hcurrent & Hclean).
  split; [repeat split; assumption|]. split; [exact Htrap|].
  exists device'. split; [exact Hd'|]. split; [exact Hcurrent|exact Hclean].
Defined.

